(** * HeroCapture content script: the fingerprint extractor

    A shallow embedding of [extractFingerprint]
    (src/content/content-script.js) and the properties of it that the
    specification states.

    Numbers.  The JavaScript numbers the extractor handles (pixel
    geometry, viewport size, colour channels) are modelled as exact
    rationals of [Q]; comparisons, [Math.min], [Math.max] and
    [Math.abs] are exact on doubles, products and quotients of these
    are taken without rounding, and equality of numbers is [Qeq]
    ([==]).  The luminance of a colour, which is compared with
    thresholds it can meet exactly, is computed in binary64
    ([Double]).

    Text.  A string is a [string] of 8-bit code units read as the
    Latin-1 prefix of Unicode.

    Page.  The document is a tree of elements that carry what the
    extractor reads from them: attributes, bounding box, computed
    style, rendered text.  The one thing the extractor changes, the
    drawing context of a canvas, is a store beside the tree
    ([Canvas.Contexts]) that a run receives and returns.

    The extractor itself is [Extract.extractFingerprint]; it returns
    the record [Fingerprint.t]. *)

From Stdlib Require Import QArith Qminmax Qabs Qround ZArith List Bool Lia Lqa.
From Stdlib Require Import String Ascii Permutation Sorted SpecFloat.
Import ListNotations.

Set Implicit Arguments.

Open Scope Q_scope.

(** ** JavaScript number comparisons on [Q] *)

Definition Qlt_bool (x y : Q) : bool := negb (Qle_bool y x).
Definition Qgt_bool (x y : Q) : bool := Qlt_bool y x.
Definition Qge_bool (x y : Q) : bool := Qle_bool y x.

(** ** JavaScript strings *)

Module Js.

Local Open Scope string_scope.
Local Open Scope nat_scope.

Definition code (c : ascii) : nat := nat_of_ascii c.

Definition between (lo hi : nat) (c : ascii) : bool :=
  (lo <=? code c) && (code c <=? hi).

(** The characters [\s] matches, which are also the ones [trim] strips:
    TAB, LF, VT, FF, CR, SPACE and NBSP. *)
Definition isWhiteSpace (c : ascii) : bool :=
  between 9 13 c || (code c =? 32) || (code c =? 160).

Definition isDigit (c : ascii) : bool := between 48 57 c.

(** [\w] *)
Definition isWordChar (c : ascii) : bool :=
  between 48 57 c || between 65 90 c || between 97 122 c || (code c =? 95).

Definition isUpper (c : ascii) : bool :=
  between 65 90 c || (between 192 222 c && negb (code c =? 215)).

Definition isLower (c : ascii) : bool :=
  between 97 122 c || (between 224 254 c && negb (code c =? 247)).

Definition lowerChar (c : ascii) : ascii :=
  if isUpper c then ascii_of_nat (code c + 32) else c.

Definition upperChar (c : ascii) : ascii :=
  if isLower c then ascii_of_nat (code c - 32) else c.

Fixpoint toLowerCase (s : string) : string :=
  match s with
  | EmptyString => EmptyString
  | String c s' => String (lowerChar c) (toLowerCase s')
  end.

Definition isEmpty (s : string) : bool :=
  match s with EmptyString => true | _ => false end.

(** Truthiness of a string: [Boolean(s)]. *)
Definition truthy (s : string) : bool := negb (isEmpty s).

Fixpoint trimStart (s : string) : string :=
  match s with
  | EmptyString => EmptyString
  | String c s' => if isWhiteSpace c then trimStart s' else s
  end.

Fixpoint trimEnd (s : string) : string :=
  match s with
  | EmptyString => EmptyString
  | String c s' =>
      let t := trimEnd s' in
      if isEmpty t && isWhiteSpace c then EmptyString else String c t
  end.

Definition trim (s : string) : string := trimEnd (trimStart s).

Definition startsWithWs (s : string) : bool :=
  match s with
  | EmptyString => false
  | String c _ => isWhiteSpace c
  end.

(** Whether the last character is white space. *)
Fixpoint endsWithWs (s : string) : bool :=
  match s with
  | EmptyString => false
  | String c EmptyString => isWhiteSpace c
  | String _ s' => endsWithWs s'
  end.

(** [s.split(/\s+/)]: the pieces between the maximal runs of white
    space; a run at either end leaves an empty piece there, and the
    empty string splits into one empty piece. *)
Fixpoint splitWs (s : string) : list string :=
  match s with
  | EmptyString => [EmptyString]
  | String c s' =>
      let ts := splitWs s' in
      if isWhiteSpace c then
        if startsWithWs s' then ts else EmptyString :: ts
      else
        match ts with
        | t :: rest => String c t :: rest
        | [] => [String c EmptyString]
        end
  end.

(** [s.split(/\s+/).filter(Boolean)] *)
Definition words (s : string) : list string := filter truthy (splitWs s).

(** [s.split(" ")] *)
Fixpoint splitSpace (s : string) : list string :=
  match s with
  | EmptyString => [EmptyString]
  | String c s' =>
      let ts := splitSpace s' in
      if (code c =? 32) then EmptyString :: ts
      else
        match ts with
        | t :: rest => String c t :: rest
        | [] => [String c EmptyString]
        end
  end.

(** [parts.join(sep)] *)
Definition join (sep : string) (parts : list string) : string :=
  String.concat sep parts.

(** [s.replace(/C+/g, " ")] for a character class [C]: every maximal
    run of characters of the class becomes one space. *)
Fixpoint replaceRuns (cls : ascii -> bool) (s : string) : string :=
  match s with
  | EmptyString => EmptyString
  | String c s' =>
      if cls c then
        match s' with
        | String c' _ =>
            if cls c' then replaceRuns cls s'
            else String " " (replaceRuns cls s')
        | EmptyString => String " " EmptyString
        end
      else String c (replaceRuns cls s')
  end.

(** [s.includes(t)] *)
Fixpoint includes (t s : string) : bool :=
  String.prefix t s ||
  match s with
  | EmptyString => false
  | String _ s' => includes t s'
  end.

Definition startsWith (t s : string) : bool := String.prefix t s.

Fixpoint endsWith (t s : string) : bool :=
  String.eqb t s ||
  match s with
  | EmptyString => false
  | String _ s' => endsWith t s'
  end.

(** [s.slice(0, n)] on strings, [0 <= n]. *)
Fixpoint take (n : nat) (s : string) : string :=
  match n, s with
  | S n', String c s' => String c (take n' s')
  | _, _ => EmptyString
  end.

(** [s.slice(n)] on strings, [0 <= n]. *)
Fixpoint drop (n : nat) (s : string) : string :=
  match n, s with
  | S n', String _ s' => drop n' s'
  | _, _ => s
  end.

(** [s.slice(0, -1)] *)
Fixpoint dropLast (s : string) : string :=
  match s with
  | EmptyString => EmptyString
  | String _ EmptyString => EmptyString
  | String c s' => String c (dropLast s')
  end.

(** [xs.includes(x)] on arrays of strings. *)
Definition arrayIncludes (xs : list string) (x : string) : bool :=
  existsb (String.eqb x) xs.

End Js.
(** ** JavaScript numbers read from text

    A number is a rational or [NaN]; [None] stands for [NaN]. *)

Module Num.

Local Open Scope string_scope.

Definition Num : Type := option Q.

Definition NaN : Num := None.
Definition num (q : Q) : Num := Some q.

Definition lift2 (f : Q -> Q -> Q) (x y : Num) : Num :=
  match x, y with
  | Some a, Some b => Some (f a b)
  | _, _ => None
  end.

Definition add : Num -> Num -> Num := lift2 Qplus.
Definition sub : Num -> Num -> Num := lift2 Qminus.
Definition mul : Num -> Num -> Num := lift2 Qmult.

(** Division by a non-zero number (the divisors of the extractor are
    constants). *)
Definition divBy (x : Num) (d : Q) : Num :=
  match x with Some a => Some (a / d) | None => None end.

(** Comparisons: every comparison with [NaN] is false, [!==] is true. *)
Definition lt (x y : Num) : bool :=
  match x, y with Some a, Some b => Qlt_bool a b | _, _ => false end.
Definition le (x y : Num) : bool :=
  match x, y with Some a, Some b => Qle_bool a b | _, _ => false end.
Definition gt (x y : Num) : bool := lt y x.
Definition ge (x y : Num) : bool := le y x.
Definition eq (x y : Num) : bool :=
  match x, y with Some a, Some b => Qeq_bool a b | _, _ => false end.
Definition neq (x y : Num) : bool := negb (eq x y).

(** [Math.max] and [Math.min]: [NaN] if an argument is. *)
Definition max : Num -> Num -> Num := lift2 Qmax.
Definition min : Num -> Num -> Num := lift2 Qmin.

(** [Math.round]: the nearest integer, ties upward. *)
Definition round (x : Num) : Num :=
  match x with
  | Some a => Some (inject_Z (Qfloor (a + (1 # 2))))
  | None => None
  end.

(** [x % m] for a positive constant [m]: the remainder has the sign of
    the dividend. *)
Definition rem (x : Num) (m : Q) : Num :=
  match x with
  | Some a =>
      let q := a / m in
      let t := if Qlt_bool q 0 then (- Qfloor (- q))%Z else Qfloor q in
      Some (a - inject_Z t * m)
  | None => None
  end.

(** The digits at the head of [s], as a number and a count, and what
    follows them. *)
Fixpoint digits (s : string) (acc : Z) (n : nat) : Z * nat * string :=
  match s with
  | String c s' =>
      if Js.isDigit c
      then digits s' (10 * acc + Z.of_nat (Js.code c - 48))%Z (S n)
      else (acc, n, s)
  | EmptyString => (acc, n, s)
  end.

(** An unsigned decimal literal [digits], [digits.digits], [digits.]
    or [.digits] at the head of [s], and what follows it. *)
Definition decimal (s : string) : option (Q * string) :=
  let '(ip, ni, s1) := digits s 0%Z O in
  match s1 with
  | String "." s2 =>
      let '(fp, nf, s3) := digits s2 0%Z O in
      if ((ni =? 0) && (nf =? 0))%nat then None
      else Some (inject_Z ip + inject_Z fp / inject_Z (10 ^ Z.of_nat nf), s3)
  | _ => if (ni =? 0)%nat then None else Some (inject_Z ip, s1)
  end.

Definition exponent (s : string) : option (Z * string) :=
  match s with
  | String c s1 =>
      if (Js.code c =? 101)%nat || (Js.code c =? 69)%nat then
        let '(sign, s2) :=
          match s1 with
          | String "-" s' => ((-1)%Z, s')
          | String "+" s' => (1%Z, s')
          | _ => (1%Z, s1)
          end in
        let '(e, ne, s3) := digits s2 0%Z O in
        if (ne =? 0)%nat then None else Some ((sign * e)%Z, s3)
      else None
  | EmptyString => None
  end.

Definition scale (q : Q) (e : Z) : Q :=
  if (0 <=? e)%Z then q * inject_Z (10 ^ e)
  else q / inject_Z (10 ^ (- e)).

(** A signed decimal literal with an optional exponent at the head of
    [s], and what follows it. *)
Definition signedDecimal (s : string) : option (Q * string) :=
  let '(sign, s1) :=
    match s with
    | String "-" s' => ((-1)%Q, s')
    | String "+" s' => (1%Q, s')
    | _ => (1%Q, s)
    end in
  match decimal s1 with
  | Some (q, s2) =>
      match exponent s2 with
      | Some (e, s3) => Some (sign * scale q e, s3)
      | None => Some (sign * q, s2)
      end
  | None => None
  end.

(** [Number(s)] on decimal text: surrounding white space is dropped,
    the empty string is 0, anything but one decimal literal is [NaN].
    (Hexadecimal, binary and octal literals and [Infinity] are outside
    the model; the extractor passes digit strings and computed style
    values.) *)
Definition ofString (s : string) : Num :=
  let t := Js.trim s in
  if Js.isEmpty t then Some 0
  else
    match signedDecimal t with
    | Some (q, EmptyString) => Some q
    | _ => None
    end.

(** [parseFloat(s)]: the longest decimal literal after leading white
    space, [NaN] if there is none. *)
Definition parseFloat (s : string) : Num :=
  match signedDecimal (Js.trimStart s) with
  | Some (q, _) => Some q
  | None => None
  end.

(** [x / y]; the extractor divides by a number that is at least 20
    or [NaN]. *)
Definition div (x y : Num) : Num :=
  match x, y with
  | Some a, Some b => if Qeq_bool b 0 then None else Some (a / b)
  | _, _ => None
  end.

Definition hexValue (c : ascii) : option Z :=
  if Js.isDigit c then Some (Z.of_nat (Js.code c - 48))
  else if Js.between 97 102 c then Some (Z.of_nat (Js.code c - 87))
  else if Js.between 65 70 c then Some (Z.of_nat (Js.code c - 55))
  else None.

Fixpoint hexDigits (s : string) (acc : Z) (n : nat) : Z * nat :=
  match s with
  | String c s' =>
      match hexValue c with
      | Some v => hexDigits s' (16 * acc + v)%Z (S n)
      | None => (acc, n)
      end
  | EmptyString => (acc, n)
  end.

(** [parseInt(s, 16)]: after white space, a sign and an optional [0x],
    the longest run of hexadecimal digits; [NaN] if it is empty. *)
Definition parseInt16 (s : string) : Num :=
  let s0 := Js.trimStart s in
  let '(sign, s1) :=
    match s0 with
    | String "-" s' => ((-1)%Z, s')
    | String "+" s' => (1%Z, s')
    | _ => (1%Z, s0)
    end in
  let s2 :=
    match s1 with
    | String "0" (String c s') =>
        if (Js.code c =? 120)%nat || (Js.code c =? 88)%nat then s' else s1
    | _ => s1
    end in
  let '(v, n) := hexDigits s2 0%Z O in
  if (n =? 0)%nat then None else Some (inject_Z (sign * v)).

(** [Math.round] on a number that is not [NaN]. *)
Definition roundQ (x : Q) : Z := Qfloor (x + (1 # 2)).

(** [x || 0] on a number: [NaN] and 0 are falsy. *)
Definition orZero (x : Num) : Q :=
  match x with Some q => q | None => 0 end.

End Num.
(** ** Binary64 arithmetic

    The luminance of a colour is a sum of products with decimal
    constants, divided by 255 and compared with decimal thresholds
    that the exact value can meet: a grey of 51 has luminance 0.2 to
    the last digit.  It is computed as JavaScript computes it, in IEEE
    754 binary64 with every operation rounded to nearest, ties to
    even; the operations are those of the Standard Library's
    [SpecFloat]. *)

Module Double.

Definition prec : Z := 53.
Definition emax : Z := 1024.

Definition t : Type := spec_float.

Definition NaN : t := S754_nan.

(** The double nearest to a rational, as a decimal literal of the
    source and [Number(text)] are read: the quotient is taken with at
    least 56 bits and a sticky bit, then rounded once. *)
Definition ofQ (q : Q) : t :=
  let n := Qnum q in
  let d := Zpos (Qden q) in
  let k := Z.max 0 (56 + Z.log2 d - Z.log2 (Z.abs n)) in
  let m := (Z.abs n * 2 ^ k / d)%Z in
  let sticky := if ((Z.abs n * 2 ^ k) mod d =? 0)%Z then 0%Z else 1%Z in
  binary_normalize prec emax (Z.sgn n * (2 * m + sticky))%Z (- (k + 1)) false.

Definition ofNum (x : Num.Num) : t :=
  match x with
  | Some q => ofQ q
  | None => NaN
  end.

Definition add : t -> t -> t := SFadd prec emax.
Definition mul : t -> t -> t := SFmul prec emax.
Definition div : t -> t -> t := SFdiv prec emax.

(** [x < y] and [x > y]: false when either is [NaN]. *)
Definition lt (x y : t) : bool := SFltb x y.
Definition gt (x y : t) : bool := SFltb y x.

End Double.
(** ** JavaScript arrays *)

Module Arr.

(** [Array.prototype.sort(compare)].  The sort is stable; for a
    comparison function that is a consistent ordering every stable sort
    returns the list below, built by inserting the elements one by one,
    each before the first element it must precede.  (For an
    inconsistent comparison function the language leaves the order to
    the implementation.) *)
Section Sort.

Variable A : Type.
Variable compare : A -> A -> Q.

Fixpoint insert (x : A) (sorted : list A) : list A :=
  match sorted with
  | [] => [x]
  | y :: rest =>
      if Qlt_bool (compare x y) 0 then x :: y :: rest
      else y :: insert x rest
  end.

Definition sort (l : list A) : list A :=
  fold_left (fun acc x => insert x acc) l [].

End Sort.

(** Ordered by a rank, smaller first. *)
Definition byRank (A : Type) (rank : A -> nat) (a b : A) : Prop :=
  (rank a <= rank b)%nat.

(** [xs.slice(0, n)] *)
Definition take (A : Type) (n : nat) (xs : list A) : list A := firstn n xs.

End Arr.
(** ** Regular expressions

    The fragment of JavaScript regular expressions the extractor uses:
    alternation, groups, greedy quantifiers, character classes and
    escapes, [^], [$], [\b], and the flags [i] and [g].  Matching is the
    backtracking search of the language: alternatives left to right,
    quantifiers greedy, the leftmost start first. *)

Module Regex.

Local Open Scope string_scope.
Local Open Scope nat_scope.

Inductive citem :=
| CChar (c : ascii)
| CRange (lo hi : ascii)
| CDigit (neg : bool)
| CSpace (neg : bool)
| CWord (neg : bool).

Inductive regex :=
| REmpty
| RSet (neg : bool) (items : list citem)
| RAny
| RSeq (r1 r2 : regex)
| RAlt (r1 r2 : regex)
| RStar (r : regex)
| RGroup (n : nat) (r : regex)
| RBol
| REol
| RWordB (neg : bool).

Definition citem_mem (it : citem) (c : ascii) : bool :=
  match it with
  | CChar a => Ascii.eqb a c
  | CRange lo hi => Js.between (Js.code lo) (Js.code hi) c
  | CDigit neg => xorb neg (Js.isDigit c)
  | CSpace neg => xorb neg (Js.isWhiteSpace c)
  | CWord neg => xorb neg (Js.isWordChar c)
  end.

(** Under the [i] flag a literal or a range also takes the other case
    of the character; the class escapes do not change. *)
Definition citem_mem_i (icase : bool) (it : citem) (c : ascii) : bool :=
  citem_mem it c ||
  (icase &&
   match it with
   | CChar _ | CRange _ _ =>
       citem_mem it (Js.lowerChar c) || citem_mem it (Js.upperChar c)
   | _ => false
   end).

Definition set_mem (icase neg : bool) (items : list citem) (c : ascii)
  : bool :=
  xorb neg (existsb (fun it => citem_mem_i icase it c) items).

(** [.] takes everything but the line terminators. *)
Definition any_mem (c : ascii) : bool :=
  negb ((Js.code c =? 10) || (Js.code c =? 13)).

Record mstate := {
  m_prev : option ascii;
  m_rest : string;
  m_caps : list (nat * string)
}.

Definition isWordOpt (c : option ascii) : bool :=
  match c with Some a => Js.isWordChar a | None => false end.

Definition peek (s : string) : option ascii :=
  match s with String c _ => Some c | EmptyString => None end.

Definition advance (st : mstate) (c : ascii) (s' : string) : mstate :=
  {| m_prev := Some c; m_rest := s'; m_caps := m_caps st |}.

Definition consumed (from to : mstate) : string :=
  Js.take (String.length (m_rest from) - String.length (m_rest to))
    (m_rest from).

Definition set_cap (n : nat) (from to : mstate) : mstate :=
  {| m_prev := m_prev to; m_rest := m_rest to;
     m_caps := (n, consumed from to) :: m_caps to |}.

(** The iterations of a greedy star: [body] once more when it
    consumes something, then the continuation; [fuel] bounds the
    number of iterations by the length of the input. *)
Fixpoint star_loop
    (body : (mstate -> option mstate) -> mstate -> option mstate)
    (k : mstate -> option mstate) (fuel : nat) (st0 : mstate)
  : option mstate :=
  match fuel with
  | O => k st0
  | S fuel' =>
      match
        body
          (fun st1 =>
             if String.length (m_rest st1) <? String.length (m_rest st0)
             then star_loop body k fuel' st1 else None) st0
      with
      | Some st' => Some st'
      | None => k st0
      end
  end.

Fixpoint rmatch (icase : bool) (r : regex)
    (k : mstate -> option mstate) (st : mstate) {struct r}
  : option mstate :=
  match r with
  | REmpty => k st
  | RSet neg items =>
      match m_rest st with
      | String c s' =>
          if set_mem icase neg items c then k (advance st c s') else None
      | EmptyString => None
      end
  | RAny =>
      match m_rest st with
      | String c s' => if any_mem c then k (advance st c s') else None
      | EmptyString => None
      end
  | RSeq r1 r2 => rmatch icase r1 (rmatch icase r2 k) st
  | RAlt r1 r2 =>
      match rmatch icase r1 k st with
      | Some st' => Some st'
      | None => rmatch icase r2 k st
      end
  | RStar r1 =>
      star_loop (rmatch icase r1) k (S (String.length (m_rest st))) st
  | RGroup n r1 => rmatch icase r1 (fun st1 => k (set_cap n st st1)) st
  | RBol => match m_prev st with None => k st | Some _ => None end
  | REol => match m_rest st with EmptyString => k st | _ => None end
  | RWordB neg =>
      if xorb neg (xorb (isWordOpt (m_prev st))
                        (isWordOpt (peek (m_rest st))))
      then k st else None
  end.

(** One match: where it starts, the matched text, the captures. *)
Record rmatched := {
  m_index : nat;
  m_text : string;
  m_groups : list (nat * string);
  m_after : mstate
}.

Definition match_here (icase : bool) (r : regex) (prev : option ascii)
    (s : string) (idx : nat) : option rmatched :=
  let st := {| m_prev := prev; m_rest := s; m_caps := [] |} in
  match rmatch icase r Some st with
  | Some st' =>
      Some {| m_index := idx; m_text := consumed st st';
              m_groups := m_caps st'; m_after := st' |}
  | None => None
  end.

Fixpoint search_from (icase : bool) (r : regex) (prev : option ascii)
    (s : string) (idx : nat) {struct s} : option rmatched :=
  match match_here icase r prev s idx with
  | Some m => Some m
  | None =>
      match s with
      | String c s' => search_from icase r (Some c) s' (S idx)
      | EmptyString => None
      end
  end.

(** All the matches of a [g] regular expression, left to right; after
    an empty match the search resumes one character later. *)
Fixpoint search_all (fuel : nat) (icase : bool) (r : regex)
    (prev : option ascii) (s : string) (idx : nat) : list rmatched :=
  match fuel with
  | O => []
  | S fuel' =>
      match search_from icase r prev s idx with
      | None => []
      | Some m =>
          let st := m_after m in
          m ::
          match m_text m, m_rest st with
          | EmptyString, String c s' =>
              search_all fuel' icase r (Some c) s'
                (S (m_index m))
          | EmptyString, EmptyString => []
          | _, _ =>
              search_all fuel' icase r (m_prev st) (m_rest st)
                (m_index m + String.length (m_text m))
          end
      end
  end.

(** A regular expression literal: the pattern and its flags. *)
Record RegExp := {
  re_pattern : regex;
  re_icase : bool;
  re_global : bool
}.

Definition exec (re : RegExp) (s : string) : option rmatched :=
  search_from (re_icase re) (re_pattern re) None s 0.

(** [re.test(s)] *)
Definition test (re : RegExp) (s : string) : bool :=
  match exec re s with Some _ => true | None => false end.

(** [s.match(re)] for a [g] expression: the matched texts;
    [|| []] is built in. *)
Definition matchAll (re : RegExp) (s : string) : list string :=
  map m_text
    (search_all (S (String.length s)) (re_icase re) (re_pattern re) None s 0).

(** [s.replace(re, t)] for an expression without the [g] flag and a
    replacement text without patterns: the first match gives way to
    [t]. *)
Definition replaceFirst (re : RegExp) (s t : string) : string :=
  match exec re s with
  | Some m =>
      Js.take (m_index m) s ++ t
      ++ Js.drop (m_index m + String.length (m_text m)) s
  | None => s
  end.

(** Capture group [n] of a match ([undefined] is [None]). *)
Fixpoint group (n : nat) (caps : list (nat * string)) : option string :=
  match caps with
  | [] => None
  | (i, s) :: rest => if i =? n then Some s else group n rest
  end.

End Regex.
(** *** Reading a regular expression literal

    The patterns below are the literals of the source, character for
    character; [parse] reads them into [regex]. *)

Module RegexParse.

Import Regex.
Local Open Scope string_scope.
Local Open Scope nat_scope.
Local Open Scope char_scope.

Definition bslash : ascii := ascii_of_nat 92.

(** The class or character an escape [\c] stands for, as a class item. *)
Definition escape_item (c : ascii) : citem :=
  match c with
  | "d" => CDigit false
  | "D" => CDigit true
  | "s" => CSpace false
  | "S" => CSpace true
  | "w" => CWord false
  | "W" => CWord true
  | "n" => CChar (ascii_of_nat 10)
  | "r" => CChar (ascii_of_nat 13)
  | "t" => CChar (ascii_of_nat 9)
  | "f" => CChar (ascii_of_nat 12)
  | "v" => CChar (ascii_of_nat 11)
  | _ => CChar c
  end.

Definition is_single (it : citem) : option ascii :=
  match it with CChar c => Some c | _ => None end.

(** The items of a class, after the opening bracket and the optional
    caret, up to the closing bracket. *)
Fixpoint parse_items (fuel : nat) (s : string)
  : option (list citem * string) :=
  match fuel with
  | O => None
  | S fuel' =>
      match s with
      | EmptyString => None
      | String "]" s' => Some ([], s')
      | String c s' =>
          let first :=
            if Ascii.eqb c bslash then
              match s' with
              | String e s'' => Some (escape_item e, s'')
              | EmptyString => None
              end
            else Some (CChar c, s') in
          match first with
          | None => None
          | Some (it, s1) =>
              match is_single it, s1 with
              | Some lo, String "-" (String hi s2) =>
                  if Ascii.eqb hi "]" then
                    match parse_items fuel' s1 with
                    | Some (its, s3) => Some (it :: its, s3)
                    | None => None
                    end
                  else if Ascii.eqb hi bslash then None
                  else
                    match parse_items fuel' s2 with
                    | Some (its, s3) => Some (CRange lo hi :: its, s3)
                    | None => None
                    end
              | _, _ =>
                  match parse_items fuel' s1 with
                  | Some (its, s3) => Some (it :: its, s3)
                  | None => None
                  end
              end
          end
      end
  end.

Fixpoint parse_nat (s : string) (acc : option nat) : option nat * string :=
  match s with
  | String c s' =>
      if Js.isDigit c then
        parse_nat s'
          (Some (10 * match acc with Some n => n | None => 0 end
                 + (Js.code c - 48)))
      else (acc, s)
  | EmptyString => (acc, s)
  end.

Fixpoint repeat_seq (n : nat) (r : regex) : regex :=
  match n with
  | O => REmpty
  | S O => r
  | S n' => RSeq r (repeat_seq n' r)
  end.

(** [r{0,n}], greedy. *)
Fixpoint repeat_opt (n : nat) (r : regex) : regex :=
  match n with
  | O => REmpty
  | S n' => RAlt (RSeq r (repeat_opt n' r)) REmpty
  end.

(** The quantifier that may follow an atom. *)
Definition parse_quant (r : regex) (s : string) : option (regex * string) :=
  let lazy (res : regex) (s' : string) :=
    match s' with
    | String "?" _ => None
    | _ => Some (res, s')
    end in
  match s with
  | String "*" s' => lazy (RStar r) s'
  | String "+" s' => lazy (RSeq r (RStar r)) s'
  | String "?" s' => lazy (RAlt r REmpty) s'
  | String "{" s' =>
      match parse_nat s' None with
      | (Some n, String "}" s1) => lazy (repeat_seq n r) s1
      | (Some n, String "," s1) =>
          match parse_nat s1 None with
          | (None, String "}" s2) =>
              lazy (RSeq (repeat_seq n r) (RStar r)) s2
          | (Some m, String "}" s2) =>
              lazy (RSeq (repeat_seq n r) (repeat_opt (m - n) r)) s2
          | _ => None
          end
      | _ => None
      end
  | _ => Some (r, s)
  end.

(** Disjunction, alternative and term; [g] numbers the capturing
    groups from 1 in the order of their opening parentheses. *)
Fixpoint parse_disj (fuel : nat) (s : string) (g : nat)
  : option (regex * string * nat) :=
  match fuel with
  | O => None
  | S fuel' =>
      match parse_alt fuel' s g with
      | Some (r1, String "|" s', g') =>
          match parse_disj fuel' s' g' with
          | Some (r2, s'', g'') => Some (RAlt r1 r2, s'', g'')
          | None => None
          end
      | other => other
      end
  end

with parse_alt (fuel : nat) (s : string) (g : nat)
  : option (regex * string * nat) :=
  match fuel with
  | O => None
  | S fuel' =>
      match s with
      | EmptyString => Some (REmpty, s, g)
      | String "|" _ => Some (REmpty, s, g)
      | String ")" _ => Some (REmpty, s, g)
      | _ =>
          match parse_term fuel' s g with
          | Some (r1, s', g') =>
              match parse_alt fuel' s' g' with
              | Some (REmpty, s'', g'') => Some (r1, s'', g'')
              | Some (r2, s'', g'') => Some (RSeq r1 r2, s'', g'')
              | None => None
              end
          | None => None
          end
      end
  end

with parse_term (fuel : nat) (s : string) (g : nat)
  : option (regex * string * nat) :=
  match fuel with
  | O => None
  | S fuel' =>
      let quant (r : regex) (s' : string) (g' : nat) :=
        match parse_quant r s' with
        | Some (r', s'') => Some (r', s'', g')
        | None => None
        end in
      match s with
      | EmptyString => None
      | String "^" s' => Some (RBol, s', g)
      | String "$" s' => Some (REol, s', g)
      | String "." s' => quant RAny s' g
      | String "(" (String "?" (String ":" s')) =>
          match parse_disj fuel' s' g with
          | Some (r, String ")" s'', g') => quant r s'' g'
          | _ => None
          end
      | String "(" (String "?" _) => None
      | String "(" s' =>
          match parse_disj fuel' s' (S g) with
          | Some (r, String ")" s'', g') => quant (RGroup (S g) r) s'' g'
          | _ => None
          end
      | String "[" (String "^" s') =>
          match parse_items (S (String.length s')) s' with
          | Some (its, s'') => quant (RSet true its) s'' g
          | None => None
          end
      | String "[" s' =>
          match parse_items (S (String.length s')) s' with
          | Some (its, s'') => quant (RSet false its) s'' g
          | None => None
          end
      | String c s' =>
          if Ascii.eqb c bslash then
            match s' with
            | String "b" s'' => Some (RWordB false, s'', g)
            | String "B" s'' => Some (RWordB true, s'', g)
            | String e s'' => quant (RSet false [escape_item e]) s'' g
            | EmptyString => None
            end
          else if Ascii.eqb c "*" || Ascii.eqb c "+" || Ascii.eqb c "?"
                  || Ascii.eqb c "{" || Ascii.eqb c "}" || Ascii.eqb c "]"
          then None
          else quant (RSet false [CChar c]) s' g
      end
  end.

Definition parse (pattern : string) : option regex :=
  match parse_disj (3 * String.length pattern + 3) pattern 0 with
  | Some (r, EmptyString, _) => Some r
  | _ => None
  end.

Fixpoint has_flag (f : ascii) (flags : string) : bool :=
  match flags with
  | EmptyString => false
  | String c s' => Ascii.eqb c f || has_flag f s'
  end.

Definition literal (pattern flags : string) : option RegExp :=
  match parse pattern with
  | Some r =>
      Some {| re_pattern := r; re_icase := has_flag "i" flags;
              re_global := has_flag "g" flags |}
  | None => None
  end.

End RegexParse.

(** [regexp pattern flags] is the regular expression [/pattern/flags];
    a pattern outside the fragment is refused when the file is
    compiled. *)
Ltac regexp p f :=
  let r := eval vm_compute in (RegexParse.literal p f) in
  match r with Some ?x => exact x end.
(** ** Text helpers of the extractor (lines 147-199) *)

Module Text.

Local Open Scope string_scope.
Local Open Scope nat_scope.

(** [[^\S\r\n]]: white space other than CR and LF. *)
Definition isInlineSpace (c : ascii) : bool :=
  Js.isWhiteSpace c && negb ((Js.code c =? 13) || (Js.code c =? 10)).

(** [text.replace(/\s+/g, " ").replace(/[^\S\r\n]+/g, " ").trim()] *)
Definition cleanText (text : string) : string :=
  Js.trim (Js.replaceRuns isInlineSpace (Js.replaceRuns Js.isWhiteSpace text)).

(** [text.split(/\s+/).filter(Boolean).length] *)
Definition wordCount (text : string) : nat := List.length (Js.words text).

Definition MAX_HEADLINE_WORDS : nat := 30.

Definition isTerminator (c : ascii) : bool :=
  (Js.code c =? 46) || (Js.code c =? 33) || (Js.code c =? 63).

(** The run [[^.!?]*] at the head of [s] followed by one of [.!?]:
    the run with its terminator, when the terminator is there. *)
Fixpoint sentenceRun (s : string) : option string :=
  match s with
  | EmptyString => None
  | String c s' =>
      if isTerminator c then Some (String c EmptyString)
      else match sentenceRun s' with
           | Some r => Some (String c r)
           | None => None
           end
  end.

(** [text.match(/^[^.!?]+[.!?]/)]: the text up to and including its
    first terminator, which must not be the first character. *)
Definition sentenceMatch (text : string) : option string :=
  match text with
  | EmptyString => None
  | String c _ => if isTerminator c then None else sentenceRun text
  end.

Definition sentenceRegex : Regex.RegExp := ltac:(regexp "^[^.!?]+[.!?]" "").

(** [truncateHeadline] (lines 184-193) *)
Definition truncateHeadline (text : string) : string :=
  if Js.isEmpty text then text
  else
    let words := Js.words text in
    if List.length words <=? MAX_HEADLINE_WORDS then text
    else
      match sentenceMatch text with
      | Some sentence =>
          if List.length (Js.splitWs sentence) <=? MAX_HEADLINE_WORDS
          then Js.trim sentence
          else Js.join " " (firstn 15 words)
      | None => Js.join " " (firstn 15 words)
      end.

(** Lines 234-238, on the pair [(headline, headlineEl)]:
    [if (headline && words(headline) > MAX) { headline = null;
    headlineEl = null; }] *)
Definition discardWholePage (E : Type) (st : option string * option E)
  : option string * option E :=
  match fst st with
  | Some h =>
      if Js.truthy h && (MAX_HEADLINE_WORDS <? wordCount h)
      then (None, None) else st
  | None => st
  end.

End Text.
(** ** The rendered document

    What the browser hands to the extractor: the elements of an HTML
    document with their namespace and name, attributes, layout box,
    computed style and rendered text. *)

Module Dom.

Local Open Scope string_scope.

(** [el.getBoundingClientRect()] *)
Record DOMRect := {
  top : Q;
  left : Q;
  width : Q;
  height : Q
}.

Definition bottom (r : DOMRect) : Q := top r + height r.
Definition right (r : DOMRect) : Q := left r + width r.

(** The properties of [getComputedStyle(el)] the extractor reads, as
    the strings the browser returns. *)
Record Style := {
  display : string;
  visibility : string;
  opacity : string;
  position : string;
  fontSize : string;
  textAlign : string;
  flexDirection : string;
  listStyleType : string;
  color : string;
  backgroundColor : string;
  backgroundImage : string
}.

Inductive NodeOf (E : Type) :=
| TextNode (data : string)
| ElementNode (e : E).

Arguments TextNode {E} data.
Arguments ElementNode {E} e.

(** The namespace of an element: HTML, SVG, or another one (MathML,
    or one of the page's own in an element made by
    [createElementNS]). *)
Inductive Namespace := HtmlNs | SvgNs | OtherNs.

(** An element.  [localName] is the name the element was created
    with, which the HTML parser and [createElement] write in lower
    case; no element carries a namespace prefix, so the local name is
    the qualified name.  Attribute names are as the element holds
    them, in lower case on what the HTML parser builds.
    [innerText] is the rendered text, [value] the value of a form
    control and [mediaSource] is [el.src || el.currentSrc || ""].
    The drawing context of a canvas is not part of the tree: it is
    state that [getContext] changes, kept in [Canvas.Contexts]
    below. *)
#[warnings="-register-all"]
Inductive Element := mkElement {
  namespace : Namespace;
  localName : string;
  attributes : list (string * string);
  rect : DOMRect;
  style : Style;
  innerText : string;
  value : string;
  mediaSource : string;
  childNodes : list (NodeOf Element)
}.

Definition isHtml (e : Element) : bool :=
  match namespace e with HtmlNs => true | _ => false end.

(** An SVG element, whose [className] is an object and not a
    string. *)
Definition svgClass (e : Element) : bool :=
  match namespace e with SvgNs => true | _ => false end.

(** ASCII upper case, letter by letter. *)
Definition asciiUpperChar (c : ascii) : ascii :=
  if Js.between 97 122 c then ascii_of_nat (Js.code c - 32) else c.

Fixpoint asciiUpper (s : string) : string :=
  match s with
  | EmptyString => EmptyString
  | String c s' => String (asciiUpperChar c) (asciiUpper s')
  end.

(** [el.tagName]: the qualified name, in ASCII upper case for an
    element in the HTML namespace and as it is for any other. *)
Definition tagName (e : Element) : string :=
  if isHtml e then asciiUpper (localName e) else localName e.

(** The HTML element named [name]. *)
Definition isHtmlElement (name : string) (e : Element) : bool :=
  isHtml e && String.eqb (localName e) name.

Definition Node : Type := NodeOf Element.

(** [el.children] *)
Definition children (e : Element) : list Element :=
  flat_map (fun n => match n with
                     | ElementNode c => [c]
                     | TextNode _ => []
                     end) (childNodes e).

(** [el.getAttribute(name)] ([null] is [None]) *)
Fixpoint lookup (name : string) (attrs : list (string * string))
  : option string :=
  match attrs with
  | [] => None
  | (n, v) :: rest => if String.eqb n name then Some v else lookup name rest
  end.

Definition getAttribute (e : Element) (name : string) : option string :=
  lookup name (attributes e).

Definition hasAttribute (e : Element) (name : string) : bool :=
  match getAttribute e name with Some _ => true | None => false end.

(** [el.getAttribute(name) || ""] *)
Definition attr (e : Element) (name : string) : string :=
  match getAttribute e name with Some v => v | None => "" end.

(** [el.id] *)
Definition id (e : Element) : string := attr e "id".

(** [(el.className || "").toString()] *)
Definition className (e : Element) : string :=
  if svgClass e then "[object SVGAnimatedString]" else attr e "class".

(** [el.alt]: the attribute of an image, [undefined] elsewhere. *)
Definition alt (e : Element) : string :=
  if isHtmlElement "img" e then attr e "alt" else "".

(** [el.textContent]: the text nodes below the element, in order. *)
Fixpoint textContent (e : Element) : string :=
  (fix go (ns : list Node) : string :=
     match ns with
     | [] => ""
     | TextNode d :: rest => d ++ go rest
     | ElementNode c :: rest => textContent c ++ go rest
     end) (childNodes e).

(** The element without the descendants that satisfy [p] (the effect
    of [n.remove()] on each of them). *)
Fixpoint prune (p : Element -> bool) (e : Element) : Element :=
  {| namespace := namespace e; localName := localName e;
     attributes := attributes e; rect := rect e;
     style := style e; innerText := innerText e; value := value e;
     mediaSource := mediaSource e;
     childNodes :=
       (fix go (ns : list Node) : list Node :=
          match ns with
          | [] => []
          | TextNode d :: rest => TextNode d :: go rest
          | ElementNode c :: rest =>
              if p c then go rest else ElementNode (prune p c) :: go rest
          end) (childNodes e) |}.

(** *** Elements in their place

    An element together with its ancestors, nearest first, and its
    path: the child indices from the element up to the root.  Two
    places are the same element when their paths are equal. *)
Record Loc := {
  el : Element;
  up : list Element;
  path : list nat
}.

Definition sameNode (x y : Loc) : bool :=
  if list_eq_dec Nat.eq_dec (path x) (path y) then true else false.

(** The element and everything below it, in document order. *)
Fixpoint subtree (e : Element) (ancestors : list Element) (p : list nat)
    {struct e} : list Loc :=
  {| el := e; up := ancestors; path := p |} ::
  (fix kids (ns : list Node) (i : nat) {struct ns} : list Loc :=
     match ns with
     | [] => []
     | TextNode _ :: rest => kids rest i
     | ElementNode c :: rest =>
         (subtree c (e :: ancestors) (i :: p) ++ kids rest (S i))%list
     end) (childNodes e) O.

Definition descendants (x : Loc) : list Loc :=
  List.tl (subtree (el x) (up x) (path x)).

(** [el.children] as places. *)
Definition childLocs (x : Loc) : list Loc :=
  map (fun ic => {| el := snd ic; up := el x :: up x;
                    path := fst ic :: path x |})
      (combine (seq 0 (List.length (children (el x)))) (children (el x))).

(** [el.parentElement] *)
Definition parentElement (x : Loc) : option Loc :=
  match up x, path x with
  | p :: rest, _ :: ppath => Some {| el := p; up := rest; path := ppath |}
  | _, _ => None
  end.

(** The ancestors as places, nearest first. *)
Fixpoint ancestorLocs (ancestors : list Element) (p : list nat) : list Loc :=
  match ancestors, p with
  | a :: rest, _ :: ppath =>
      {| el := a; up := rest; path := ppath |} :: ancestorLocs rest ppath
  | _, _ => []
  end.

Definition selfAndAncestors (x : Loc) : list Loc :=
  x :: ancestorLocs (up x) (path x).

(** [el.nextElementSibling] *)
Definition nextElementSibling (x : Loc) : option Loc :=
  match up x, path x with
  | p :: _, i :: ppath =>
      match nth_error (children p) (S i) with
      | Some s => Some {| el := s; up := up x; path := S i :: ppath |}
      | None => None
      end
  | _, _ => None
  end.

(** The element siblings after the element, in order. *)
Definition nextSiblings (x : Loc) : list Loc :=
  match up x, path x with
  | p :: _, i :: ppath =>
      map (fun jc => {| el := snd jc; up := up x; path := fst jc :: ppath |})
          (skipn (S i)
             (combine (seq 0 (List.length (children p))) (children p)))
  | _, _ => []
  end.

(** [el.firstElementChild] *)
Definition firstElementChild (x : Loc) : option Loc := List.hd_error (childLocs x).

(** *** Selectors

    The fragment of CSS selectors the extractor uses: lists of
    descendant chains of compounds made of a type, [#id], [.class],
    attribute tests and [:not(type)]. *)
Inductive AttrOp := AExists | AEquals | AContains | APrefix.

Record AttrTest := {
  a_name : string;
  a_op : AttrOp;
  a_value : string;
  a_icase : bool
}.

Record Compound := {
  c_type : option string;
  c_id : option string;
  c_classes : list string;
  c_attrs : list AttrTest;
  c_not : list string
}.

Definition Complex : Type := list Compound.
Definition Selector : Type := list Complex.

(** The attributes whose values are compared without regard to case on
    an HTML element; of those, the extractor's selectors use [type]. *)
Definition legacyCaseInsensitive (name : string) : bool :=
  String.eqb name "type".

Definition attrTest (t : AttrTest) (e : Element) : bool :=
  match getAttribute e (a_name t) with
  | None => false
  | Some v =>
      let fold s :=
        if a_icase t || (legacyCaseInsensitive (a_name t) && isHtml e)
        then Js.toLowerCase s else s in
      match a_op t with
      | AExists => true
      | AEquals => String.eqb (fold (a_value t)) (fold v)
      | AContains =>
          Js.truthy (a_value t) && Js.includes (fold (a_value t)) (fold v)
      | APrefix =>
          Js.truthy (a_value t) && Js.startsWith (fold (a_value t)) (fold v)
      end
  end.

(** A type selector against an element: on an element in the HTML
    namespace the name of the selector is put in lower case and
    compared with the local name; on any other element the two are
    compared as they are written. *)
Definition typeIs (name : string) (e : Element) : bool :=
  if isHtml e then String.eqb (Js.toLowerCase name) (localName e)
  else String.eqb name (localName e).

(** The white space that separates the tokens of a [class] attribute:
    TAB, LF, FF, CR and SPACE. *)
Definition isAsciiSpace (c : ascii) : bool :=
  (Js.code c =? 9)%nat || (Js.code c =? 10)%nat || (Js.code c =? 12)%nat
  || (Js.code c =? 13)%nat || (Js.code c =? 32)%nat.

(** [el.classList]: the tokens of the [class] attribute. *)
Fixpoint classTokens (s : string) : list string :=
  match s with
  | EmptyString => []
  | String c s' =>
      let ts := classTokens s' in
      if isAsciiSpace c then ts
      else
        match s' with
        | String c' _ =>
            if isAsciiSpace c' then String c EmptyString :: ts
            else match ts with
                 | t :: rest => String c t :: rest
                 | [] => [String c EmptyString]
                 end
        | EmptyString => [String c EmptyString]
        end
  end.

Definition hasClass (c : string) (e : Element) : bool :=
  Js.arrayIncludes (classTokens (attr e "class")) c.

Definition matchCompound (c : Compound) (e : Element) : bool :=
  match c_type c with Some t => typeIs t e | None => true end
  && match c_id c with
     | Some i => match getAttribute e "id" with
                 | Some v => String.eqb i v
                 | None => false
                 end
     | None => true
     end
  && forallb (fun k => hasClass k e) (c_classes c)
  && forallb (fun t => attrTest t e) (c_attrs c)
  && forallb (fun t => negb (typeIs t e)) (c_not c).

(** The compounds before the last, nearest first, against the
    ancestors, nearest first. *)
Fixpoint matchAncestors (cs : list Compound) (ancestors : list Element)
    {struct cs} : bool :=
  match cs with
  | [] => true
  | c :: cs' =>
      (fix find (l : list Element) : bool :=
         match l with
         | [] => false
         | a :: l' =>
             if matchCompound c a then matchAncestors cs' l' else find l'
         end) ancestors
  end.

Definition matchComplex (cx : Complex) (x : Loc) : bool :=
  match rev cx with
  | [] => false
  | last :: before => matchCompound last (el x) && matchAncestors before (up x)
  end.

(** [el.matches(selector)] *)
Definition matches (s : Selector) (x : Loc) : bool :=
  existsb (fun cx => matchComplex cx x) s.

(** [el.closest(selector)] *)
Definition closest (s : Selector) (x : Loc) : option Loc :=
  find (matches s) (selfAndAncestors x).

(** [el.querySelectorAll(selector)], [el.querySelector(selector)] *)
Definition querySelectorAllIn (s : Selector) (x : Loc) : list Loc :=
  filter (matches s) (descendants x).

Definition querySelectorIn (s : Selector) (x : Loc) : option Loc :=
  List.hd_error (querySelectorAllIn s x).

(** *** The document and the window *)
Record Document := {
  title : string;
  documentElement : Element;
  (** [document.elementFromPoint(x, y)], as a path *)
  elementFromPoint : Q -> Q -> option (list nat)
}.

Definition root (d : Document) : Loc :=
  {| el := documentElement d; up := []; path := [] |}.

Definition allElements (d : Document) : list Loc :=
  subtree (documentElement d) [] [].

(** [document.querySelectorAll], [document.querySelector] *)
Definition querySelectorAll (d : Document) (s : Selector) : list Loc :=
  filter (matches s) (allElements d).

Definition querySelector (d : Document) (s : Selector) : option Loc :=
  List.hd_error (querySelectorAll d s).

(** [!!document.querySelector(s)] *)
Definition exists_ (d : Document) (s : Selector) : bool :=
  match querySelector d s with Some _ => true | None => false end.

(** [document.getElementById(id)] *)
Definition getElementById (d : Document) (i : string) : option Loc :=
  find (fun x => match getAttribute (el x) "id" with
                 | Some v => String.eqb v i
                 | None => false
                 end) (allElements d).

(** [document.body]: the first child of the root that is an HTML
    [body] or [frameset], when the root is an HTML [html]. *)
Definition body (d : Document) : option Loc :=
  if isHtmlElement "html" (documentElement d) then
    find (fun x => isHtmlElement "body" (el x)
                   || isHtmlElement "frameset" (el x))
         (childLocs (root d))
  else None.

(** The place a path leads to. *)
Definition locate (d : Document) (p : list nat) : option Loc :=
  find (fun x => if list_eq_dec Nat.eq_dec (path x) p then true else false)
       (allElements d).

End Dom.

(** What the extractor reads of [window] and of the browser: the
    viewport size, the truthiness of the framework globals, and
    whether a WebGL context can be created. *)
Record Window := {
  innerHeight : Z;
  innerWidth : Z;
  w_NEXT_DATA : bool;       (* window.__NEXT_DATA__ *)
  w_Webflow : bool;         (* window.Webflow *)
  w_gatsby : bool;          (* window.___gatsby *)
  w_NUXT : bool;            (* window.__NUXT__ *)
  w_remixContext : bool;    (* window.__remixContext *)
  w_Shopify : bool;         (* window.Shopify *)
  w_wixBiSession : bool;    (* window.wixBiSession *)
  w_Static : bool;          (* window.Static *)
  w_gsap : bool;            (* window.gsap *)
  (** whether the browser can create a WebGL 2, a WebGL 1 context *)
  webgl2Available : bool;
  webglAvailable : bool
}.

(** [window.innerHeight || 900]: zero is falsy. *)
Definition viewportHeight (w : Window) : Q :=
  if (innerHeight w =? 0)%Z then 900 else inject_Z (innerHeight w).

(** [window.innerWidth || 1440] *)
Definition viewportWidth (w : Window) : Q :=
  if (innerWidth w =? 0)%Z then 1440 else inject_Z (innerWidth w).

(** ** The drawing contexts of the canvases

    [canvas.getContext] is the one call of the extractor that changes
    the page: on a canvas without a context it creates one, and the
    canvas keeps it.  The contexts are a store beside the tree, keyed
    by the path of the canvas. *)

Module Canvas.

Import Dom.
Local Open Scope string_scope.

(** The context mode of a canvas.  [Placeholder] stands for a canvas
    whose [getContext] throws: one that has handed its bitmap to a
    worker, or an element named [canvas] that is not an HTML canvas. *)
Inductive ContextMode :=
| NoContext | Context2d | ContextBitmap | ContextWebgl | ContextWebgl2
| ContextWebgpu | Placeholder.

Definition sameMode (a b : ContextMode) : bool :=
  match a, b with
  | NoContext, NoContext | Context2d, Context2d
  | ContextBitmap, ContextBitmap | ContextWebgl, ContextWebgl
  | ContextWebgl2, ContextWebgl2 | ContextWebgpu, ContextWebgpu
  | Placeholder, Placeholder => true
  | _, _ => false
  end.

Definition Contexts : Type := list nat -> ContextMode.

Definition update (cx : Contexts) (p : list nat) (m : ContextMode) : Contexts :=
  fun q => if list_eq_dec Nat.eq_dec q p then m else cx q.

(** What a call yields: a context, [null], or an exception. *)
Inductive Outcome := Context | Null | Throws.

(** The mode a context identifier asks for, where the browser can
    create it. *)
Definition requested (w : Window) (contextId : string) : option ContextMode :=
  if String.eqb contextId "webgl2" then
    if webgl2Available w then Some ContextWebgl2 else None
  else if String.eqb contextId "webgl"
          || String.eqb contextId "experimental-webgl" then
    if webglAvailable w then Some ContextWebgl else None
  else if String.eqb contextId "2d" then Some Context2d
  else if String.eqb contextId "bitmaprenderer" then Some ContextBitmap
  else None.

(** [canvas.getContext(contextId)]: a canvas without a context gets the
    one asked for and keeps it; a canvas with a context gives it back
    when asked for the same kind and [null] otherwise. *)
Definition getContext (w : Window) (contextId : string) (x : Loc)
    (cx : Contexts) : Outcome * Contexts :=
  match cx (path x) with
  | Placeholder => (Throws, cx)
  | NoContext =>
      match requested w contextId with
      | Some m => (Context, update cx (path x) m)
      | None => (Null, cx)
      end
  | m =>
      match requested w contextId with
      | Some m' => if sameMode m m' then (Context, cx) else (Null, cx)
      | None => (Null, cx)
      end
  end.

(** [try { return !!(el.getContext("webgl2") || el.getContext("webgl")); }
    catch { return false; }] (line 978) *)
Definition hasWebGLContext (w : Window) (x : Loc) (cx : Contexts)
  : bool * Contexts :=
  match getContext w "webgl2" x cx with
  | (Context, cx1) => (true, cx1)
  | (Throws, cx1) => (false, cx1)
  | (Null, cx1) =>
      match getContext w "webgl" x cx1 with
      | (Context, cx2) => (true, cx2)
      | (Null, cx2) => (false, cx2)
      | (Throws, cx2) => (false, cx2)
      end
  end.

(** [xs.some(f)] for an [f] that changes the contexts: it stops at the
    first element [f] accepts. *)
Fixpoint some (A : Type) (f : A -> Contexts -> bool * Contexts)
    (xs : list A) (cx : Contexts) : bool * Contexts :=
  match xs with
  | [] => (false, cx)
  | x :: rest =>
      let '(found, cx1) := f x cx in
      if found then (true, cx1) else some f rest cx1
  end.

End Canvas.
(** *** Reading a selector

    The selectors below are those of the source, with the double
    quotes of attribute values written as single quotes. *)

Module CssParse.

Import Dom.
Local Open Scope string_scope.
Local Open Scope char_scope.

Definition isIdentChar (c : ascii) : bool :=
  Js.isWordChar c || Ascii.eqb c "-".

Fixpoint ident (s : string) : string * string :=
  match s with
  | String c s' =>
      if isIdentChar c then
        let '(i, rest) := ident s' in (String c i, rest)
      else (EmptyString, s)
  | EmptyString => (EmptyString, s)
  end.

(** The text up to the closing quote [q]. *)
Fixpoint quoted (q : ascii) (s : string) : option (string * string) :=
  match s with
  | String c s' =>
      if Ascii.eqb c q then Some (EmptyString, s')
      else match quoted q s' with
           | Some (v, rest) => Some (String c v, rest)
           | None => None
           end
  | EmptyString => None
  end.

Definition skipSpaces (s : string) : string := Js.trimStart s.

(** After the name of an attribute test: the operator, the value and
    the flag, up to the closing bracket. *)
Definition attrRest (name : string) (s : string)
  : option (AttrTest * string) :=
  let value (op : AttrOp) (s1 : string) :=
    let valueAndRest :=
      match s1 with
      | String "'" s2 => quoted "'" s2
      | _ => let '(v, rest) := ident s1 in
             if Js.isEmpty v then None else Some (v, rest)
      end in
    match valueAndRest with
    | Some (v, s3) =>
        match skipSpaces s3 with
        | String "]" s4 =>
            Some ({| a_name := name; a_op := op; a_value := v;
                     a_icase := false |}, s4)
        | String "i" (String "]" s4) =>
            Some ({| a_name := name; a_op := op; a_value := v;
                     a_icase := true |}, s4)
        | _ => None
        end
    | None => None
    end in
  match s with
  | String "]" s1 =>
      Some ({| a_name := name; a_op := AExists; a_value := EmptyString;
               a_icase := false |}, s1)
  | String "=" s1 => value AEquals s1
  | String "*" (String "=" s1) => value AContains s1
  | String "^" (String "=" s1) => value APrefix s1
  | _ => None
  end.

(** The parts of a compound after its type. *)
Fixpoint parts (fuel : nat) (c : Compound) (s : string)
  : option (Compound * string) :=
  match fuel with
  | O => None
  | S fuel' =>
      match s with
      | String "#" s1 =>
          let '(i, rest) := ident s1 in
          if Js.isEmpty i then None
          else parts fuel'
                 {| c_type := c_type c; c_id := Some i;
                    c_classes := c_classes c; c_attrs := c_attrs c;
                    c_not := c_not c |} rest
      | String "." s1 =>
          let '(k, rest) := ident s1 in
          if Js.isEmpty k then None
          else parts fuel'
                 {| c_type := c_type c; c_id := c_id c;
                    c_classes := (c_classes c ++ [k])%list;
                    c_attrs := c_attrs c; c_not := c_not c |} rest
      | String "[" s1 =>
          let '(name, s2) := ident s1 in
          if Js.isEmpty name then None
          else
            match attrRest (Js.toLowerCase name) s2 with
            | Some (t, rest) =>
                parts fuel'
                  {| c_type := c_type c; c_id := c_id c;
                     c_classes := c_classes c;
                     c_attrs := (c_attrs c ++ [t])%list;
                     c_not := c_not c |} rest
            | None => None
            end
      | String ":" (String "n" (String "o" (String "t" (String "(" s1)))) =>
          let '(t, s2) := ident s1 in
          match s2 with
          | String ")" rest =>
              if Js.isEmpty t then None
              else parts fuel'
                     {| c_type := c_type c; c_id := c_id c;
                        c_classes := c_classes c; c_attrs := c_attrs c;
                        c_not := (c_not c ++ [t])%list |} rest
          | _ => None
          end
      | _ => Some (c, s)
      end
  end.

Definition compound (s : string) : option (Compound * string) :=
  let '(t, s1) :=
    match s with
    | String "*" s' => (EmptyString, s')
    | _ => ident s
    end in
  let c0 := {| c_type := if Js.isEmpty t then None else Some t;
               c_id := None; c_classes := []; c_attrs := []; c_not := [] |} in
  match parts (S (String.length s1)) c0 s1 with
  | Some (c, rest) =>
      (* a compound is not empty *)
      if (String.length rest =? String.length s)%nat then None
      else Some (c, rest)
  | None => None
  end.

(** A descendant chain, then the list. *)
Fixpoint complex (fuel : nat) (s : string) : option (Complex * string) :=
  match fuel with
  | O => None
  | S fuel' =>
      match compound s with
      | Some (c, s1) =>
          match s1 with
          | EmptyString => Some ([c], s1)
          | String "," _ => Some ([c], s1)
          | String c1 _ =>
              if Js.isWhiteSpace c1 then
                match skipSpaces s1 with
                | EmptyString => Some ([c], EmptyString)
                | String "," s2 => Some ([c], String "," s2)
                | s2 =>
                    match complex fuel' s2 with
                    | Some (cx, rest) => Some (c :: cx, rest)
                    | None => None
                    end
                end
              else None
          end
      | None => None
      end
  end.

Fixpoint selectorList (fuel : nat) (s : string) : option Selector :=
  match fuel with
  | O => None
  | S fuel' =>
      match complex (S (String.length s)) (skipSpaces s) with
      | Some (cx, EmptyString) => Some [cx]
      | Some (cx, String "," rest) =>
          match selectorList fuel' rest with
          | Some l => Some (cx :: l)
          | None => None
          end
      | _ => None
      end
  end.

Definition parse (s : string) : option Selector :=
  selectorList (S (String.length s)) s.

End CssParse.

(** [css s] is the selector [s]; one outside the fragment is refused
    when the file is compiled. *)
Ltac css s :=
  let r := eval vm_compute in (CssParse.parse s) in
  match r with Some ?x => exact x end.
(** ** Hero boundary: the scan of the sections (lines 55-60) *)

Module Hero.

(** The record built by [heroSections.map] (lines 45-53); [el] is kept
    by the later stages only as a handle and does not enter the loop. *)
Record HeroSection := {
  top : Q;
  height : Q;
  bottom : Q
}.

(** [const heroMaxBottom = viewportHeight * 1.15] *)
Definition heroMaxBottom (vh : Q) : Q := vh * (115 # 100).

(** The [for (const s of sections)] loop of lines 56-60, with the
    running value [heroBottom] threaded through; [continue] goes on
    with the tail, [break] returns the running value. *)
Fixpoint heroBottomLoop (cap hb : Q) (ss : list HeroSection) : Q :=
  match ss with
  | [] => hb
  | s :: rest =>
      if Qle_bool (bottom s) 0 then heroBottomLoop cap hb rest
      else if Qge_bool (top s) cap then hb
      else heroBottomLoop cap (Qmin cap (Qmax hb (bottom s))) rest
  end.

(** [let heroBottom = viewportHeight; for ...] *)
Definition heroBottom (vh : Q) (ss : list HeroSection) : Q :=
  heroBottomLoop (heroMaxBottom vh) vh ss.

(** [Math.min(1, heroBottom / viewportHeight)] (line 864) *)
Definition heroHeightRatio (vh : Q) (ss : list HeroSection) : Q :=
  Qmin 1 (heroBottom vh ss / vh).

(** [Number(x.toFixed(2))]: the nearest multiple of 1/100, ties upward. *)
Definition toFixed2 (x : Q) : Q :=
  inject_Z (Qfloor (x * 100 + (1 # 2))) / 100.

(** The field [hero_height_ratio] of the returned object (line 1665). *)
Definition hero_height_ratio (vh : Q) (ss : list HeroSection) : Q :=
  toFixed2 (heroHeightRatio vh ss).

(** The sections the loop reaches: those before the first section that
    is on or below the screen top ([bottom > 0]) and starts at or past
    the cap. *)
Definition stops (cap : Q) (s : HeroSection) : bool :=
  Qlt_bool 0 (bottom s) && Qge_bool (top s) cap.

Fixpoint scanned (cap : Q) (ss : list HeroSection) : list HeroSection :=
  match ss with
  | [] => []
  | s :: rest => if stops cap s then [] else s :: scanned cap rest
  end.

(** A section qualifies when its top edge is strictly above the cap and
    its bottom edge is positive. *)
Definition qualifies (cap : Q) (s : HeroSection) : bool :=
  Qlt_bool (top s) cap && Qlt_bool 0 (bottom s).

Fixpoint maxBottom (b0 : Q) (ss : list HeroSection) : Q :=
  match ss with
  | [] => b0
  | s :: rest => maxBottom (Qmax b0 (bottom s)) rest
  end.

(** The boundary as the specification words it: the largest qualifying
    bottom edge, capped, and the viewport height when no section
    qualifies. *)
Definition spec_heroBottom (vh : Q) (ss : list HeroSection) : Q :=
  match filter (qualifies (heroMaxBottom vh)) ss with
  | [] => vh
  | s :: rest => Qmin (heroMaxBottom vh) (maxBottom (bottom s) rest)
  end.

End Hero.
(** ** Calls to action (lines 337-428) *)

Module Cta.

Local Open Scope string_scope.

(** The record built by [ctaCandidates.map] (lines 343-349). *)
Record Candidate := {
  text : string;
  top : Q;
  left : Q;
  area : Q;
  isButton : bool
}.

Definition legalLinkRegex : Regex.RegExp :=
  ltac:(regexp "(user agreement|privacy policy|cookie policy|terms|legal)" "i").

Definition footerNavRegex : Regex.RegExp :=
  ltac:(regexp "^(instagram|twitter|facebook|linkedin|youtube|tiktok|discord|reddit|github|medium|x|blog|about|careers|contact|support|help|terms|privacy|cookie|home|back to top|manifesto|research|the boring|the good|the cool|play by the rules|rules)$" "i").

Definition utilityLinkRegex : Regex.RegExp :=
  ltac:(regexp "^(forgot(ten)?\s*(your\s*)?(password|email|username)|reset\s*(your\s*)?(password|email)|can'?t\s*(log|sign)\s*in|need\s*help|trouble\s*(logging|signing)\s*in)" "i").

Definition ctaWordRegex : Regex.RegExp :=
  ltac:(regexp "^(start|try|buy|join|get|apply|subscribe|download|install|register|explore|discover|watch|book|schedule|request|submit|enter|launch|upgrade|claim|demo|contact)" "i").

(** The predicate of [filteredCtas] (lines 358-368). *)
Definition keepCta (c : Candidate) : bool :=
  if Regex.test legalLinkRegex (text c) then false
  else if Regex.test footerNavRegex (Js.trim (text c)) then false
  else if Regex.test utilityLinkRegex (Js.trim (text c)) then false
  else
    let words := Js.words (Js.trim (text c)) in
    if (List.length words =? 1)%nat
       && (String.length (Js.trim (text c)) <? 12)%nat
       && negb (Regex.test ctaWordRegex (Js.trim (text c)))
    then false
    else true.

Definition filteredCtas (ctaCandidates : list Candidate) : list Candidate :=
  filter keepCta ctaCandidates.

(** [x || 0] on numbers. *)
Definition orZero (x : Q) : Q := if Qeq_bool x 0 then 0 else x.

(** The predicate of [heroCtaCandidates] (lines 370-376). *)
Definition inHeroBand (viewportHeight : Q) (headlineRect : option Dom.DOMRect)
    (c : Candidate) : bool :=
  if Qlt_bool (top c) 120 then false
  else
    match headlineRect with
    | None => true
    | Some hr =>
        if Qgt_bool (top c) (viewportHeight * (8 # 10))
           && Qgt_bool (top c) (orZero (Dom.bottom hr) + 420)
        then false
        else Qge_bool (top c) (Dom.top hr - 40)
             && Qle_bool (top c) (Dom.bottom hr + 420)
    end.

Definition heroCtaCandidates (viewportHeight : Q)
    (headlineRect : option Dom.DOMRect) (filtered : list Candidate)
  : list Candidate :=
  filter (inHeroBand viewportHeight headlineRect) filtered.

Definition oauthCtaRegex : Regex.RegExp :=
  ltac:(regexp "(sign\s*(in|up)\s*with|continue\s*with|log\s*in\s*with)\s*(google|apple|github|microsoft)" "i").

Definition primaryCtaRegex : Regex.RegExp :=
  ltac:(regexp "^(log\s*in|sign\s*(in|up)|create|register|get\s*started|start|try|buy|join|subscribe|download|explore|book|launch|submit|talk\s*to|contact|request|schedule|demo|watch|deploy|install|begin)" "i").

Definition selfServeRegex : Regex.RegExp :=
  ltac:(regexp "^(deploy|start|try|get\s*started|sign\s*up|create|register|join|launch|download|install|begin|buy|subscribe)" "i").

Definition salesLedRegex : Regex.RegExp :=
  ltac:(regexp "^(book|schedule|request|contact|talk\s*to|demo|get\s*demo|book\s*demo|request\s*demo)" "i").

Definition informationalRegex : Regex.RegExp :=
  ltac:(regexp "^(learn\s*more|explore|watch|see\s*more|view\s*details)" "i").

(** [ctaPriority] (lines 382-398) *)
Definition ctaPriority (text : string) : Z :=
  let t := Js.toLowerCase (Js.trim text) in
  if Js.isEmpty t then 0%Z
  else if Regex.test selfServeRegex t then 3%Z
  else if Regex.test salesLedRegex t then 2%Z
  else if Regex.test informationalRegex t then 1%Z
  else if Regex.test primaryCtaRegex t then 1%Z else 0%Z.

Definition isOAuth (c : Candidate) : bool := Regex.test oauthCtaRegex (text c).

(** The comparison function of the sort (lines 399-420): negative when
    [a] goes first. *)
Definition compareCta (headlineRect : option Dom.DOMRect) (a b : Candidate)
  : Q :=
  let aIsOAuth := isOAuth a in
  let bIsOAuth := isOAuth b in
  if negb (Bool.eqb aIsOAuth bIsOAuth) then (if aIsOAuth then 1 else -1)
  else if negb (Bool.eqb (isButton a) (isButton b))
  then (if isButton a then -1 else 1)
  else
    let aPriority := ctaPriority (text a) in
    let bPriority := ctaPriority (text b) in
    if negb (aPriority =? bPriority)%Z then inject_Z (bPriority - aPriority)
    else
      let tieBreak :=
        if negb (Qeq_bool (area a) (area b)) then area b - area a
        else left a - left b in
      match headlineRect with
      | Some hr =>
          let idealTop := Dom.bottom hr + 20 in
          let aDist := Qabs (top a - idealTop) in
          let bDist := Qabs (top b - idealTop) in
          if Qgt_bool (Qabs (aDist - bDist)) 30 then aDist - bDist
          else tieBreak
      | None => tieBreak
      end.

(** The two-level view of the comparison function: the class of a
    candidate (OAuth or not, button or link, priority tier) as one
    number, smaller first. *)
Definition rank (c : Candidate) : nat :=
  (if isOAuth c then 8 else 0) + (if isButton c then 0 else 4)
  + Z.to_nat (3 - ctaPriority (text c)).

(** The candidates with their place in the list before the sort, so
    that a candidate can be followed through it. *)
Fixpoint indexedFrom (A : Type) (k : nat) (l : list A) : list (nat * A) :=
  match l with
  | [] => []
  | x :: rest => (k, x) :: indexedFrom (S k) rest
  end.

Definition indexed (A : Type) (l : list A) : list (nat * A) :=
  indexedFrom 0 l.

Definition ranked (headlineRect : option Dom.DOMRect) (l : list Candidate)
  : list (nat * Candidate) :=
  Arr.sort (fun a b => compareCta headlineRect (snd a) (snd b)) (indexed l).

(** [heroCtaCandidates.sort(...)] *)
Definition sortCtas (headlineRect : option Dom.DOMRect) (l : list Candidate)
  : list Candidate :=
  Arr.sort (compareCta headlineRect) l.

(** Where the candidate that stood at place [i] ends up. *)
Fixpoint positionOf (i : nat) (l : list (nat * Candidate)) : nat :=
  match l with
  | [] => O
  | (j, _) :: rest => if (j =? i)%nat then O else S (positionOf i rest)
  end.

Definition setText (t : string) (c : Candidate) : Candidate :=
  {| text := t; top := top c; left := left c; area := area c;
     isButton := isButton c |}.

(** The list with the text of the candidate at place [i] replaced. *)
Fixpoint retext (i : nat) (t : string) (l : list Candidate)
  : list Candidate :=
  match l, i with
  | [], _ => []
  | c :: rest, O => setText t c :: rest
  | c :: rest, S i' => c :: retext i' t rest
  end.

(** The candidates other than the one from place [i], of rank below
    [n], and of rank up to [n]. *)
Definition othersBelow (i n : nat) (p : nat * Candidate) : bool :=
  negb (fst p =? i)%nat && (rank (snd p) <? n)%nat.

Definition othersUpTo (i n : nat) (p : nat * Candidate) : bool :=
  negb (fst p =? i)%nat && (rank (snd p) <=? n)%nat.

(** [ctas], [primaryCta] (lines 422, 428) *)
Definition ctas (sorted : list Candidate) : list string := map text sorted.

Definition primaryCta (sorted : list Candidate) : option string :=
  match sorted with
  | c :: _ => if Js.truthy (text c) then Some (text c) else None
  | [] => None
  end.

End Cta.
(** ** Detected technology stack (lines 671-862) *)

Module Stack.

Local Open Scope string_scope.

(** The outcome of each probe of the page the detection reads, one per
    condition of the source; [window.X] is the truthiness of a global,
    the rest are [document.querySelector], [getElementById] and the
    tests over the first 500 elements carrying a class. *)
Record Probes := {
  hasNext : bool;            (* lines 674-679 *)
  webflow : bool;            (* window.Webflow *)
  framer : bool;             (* meta generator Framer *)
  gatsby : bool;             (* window.___gatsby || #___gatsby *)
  nuxt : bool;               (* window.__NUXT__ || #__nuxt *)
  remix : bool;              (* window.__remixContext *)
  astro : bool;              (* meta generator Astro *)
  hugo : bool;               (* meta generator Hugo *)
  sveltekit : bool;          (* lines 694-699 *)
  wordpress : bool;          (* lines 702-707 *)
  shopify : bool;            (* lines 710-715 *)
  wix : bool;                (* lines 718-723 *)
  squarespace : bool;        (* lines 726-732 *)
  vitepress : bool;          (* lines 735-739 *)
  vueMarker : bool;          (* lines 745-746 *)
  hasReact : bool;           (* lines 757-759 *)
  angular : bool;            (* lines 763-766 *)
  tailwindClasses : bool;    (* lines 774-776 *)
  bootstrapHits : nat;       (* lines 779-783 *)
  materialUi : bool;         (* line 786 *)
  chakraUi : bool;           (* line 789 *)
  radix : bool;              (* lines 792-796 *)
  antDesign : bool;          (* line 799 *)
  emotion : bool;            (* lines 802-805 *)
  styledComponents : bool;   (* lines 808-811 *)
  cssModules : bool;         (* lines 814-816 *)
  vercel : bool;             (* lines 820-824 *)
  netlify : bool;            (* lines 826-833 *)
  cloudflare : bool;         (* lines 835-839 *)
  awsAmplify : bool;         (* lines 841-845 *)
  gsap : bool;               (* window.gsap || script[src*=gsap] *)
  lottie : bool;             (* lines 851-853 *)
  framerMotionMarker : bool  (* lines 858-860 *)
}.

(** One statement [if (guard) detectedStack.push(tag)]; the guard may
    read the array as filled so far. *)
Record Rule := {
  guard : list string -> bool;
  tag : string
}.

Definition always (b : bool) : list string -> bool := fun _ => b.

(** The statements of lines 680-862, in order. *)
Definition rules (p : Probes) : list Rule := [
  {| guard := fun st => hasNext p && negb (Js.arrayIncludes st "nextjs");
     tag := "nextjs" |};
  {| guard := always (webflow p); tag := "webflow" |};
  {| guard := always (framer p); tag := "framer" |};
  {| guard := always (gatsby p); tag := "gatsby" |};
  {| guard := always (nuxt p); tag := "nuxt" |};
  {| guard := always (remix p); tag := "remix" |};
  {| guard := always (astro p); tag := "astro" |};
  {| guard := always (hugo p); tag := "hugo" |};
  {| guard := always (sveltekit p); tag := "sveltekit" |};
  {| guard := always (wordpress p); tag := "wordpress" |};
  {| guard := always (shopify p); tag := "shopify" |};
  {| guard := always (wix p); tag := "wix" |};
  {| guard := always (squarespace p); tag := "squarespace" |};
  {| guard := always (vitepress p); tag := "vitepress" |};
  {| guard := fun st =>
       negb (Js.arrayIncludes st "nuxt")
       && negb (Js.arrayIncludes st "vitepress")
       && vueMarker p;
     tag := "vue" |};
  {| guard := fun st =>
       negb (Js.arrayIncludes st "nextjs")
       && negb (Js.arrayIncludes st "gatsby")
       && negb (Js.arrayIncludes st "remix")
       && hasReact p;
     tag := "react" |};
  {| guard := always (angular p); tag := "angular" |};
  {| guard := always (tailwindClasses p); tag := "tailwind" |};
  {| guard := always (3 <=? bootstrapHits p)%nat; tag := "bootstrap" |};
  {| guard := always (materialUi p); tag := "material-ui" |};
  {| guard := always (chakraUi p); tag := "chakra-ui" |};
  {| guard := always (radix p); tag := "radix" |};
  {| guard := always (antDesign p); tag := "ant-design" |};
  {| guard := always (emotion p); tag := "emotion" |};
  {| guard := always (styledComponents p); tag := "styled-components" |};
  {| guard := always (cssModules p); tag := "css-modules" |};
  {| guard := always (vercel p); tag := "vercel" |};
  {| guard := always (netlify p); tag := "netlify" |};
  {| guard := always (cloudflare p); tag := "cloudflare" |};
  {| guard := always (awsAmplify p); tag := "aws-amplify" |};
  {| guard := always (gsap p); tag := "gsap" |};
  {| guard := always (lottie p); tag := "lottie" |};
  {| guard := fun st =>
       negb (Js.arrayIncludes st "framer") && framerMotionMarker p;
     tag := "framer-motion" |}
].

(** [if (guard) detectedStack.push(tag)] *)
Definition step (st : list string) (r : Rule) : list string :=
  if guard r st then st ++ [tag r] else st.

Definition run (rs : list Rule) (st : list string) : list string :=
  fold_left step rs st.

(** [const detectedStack = []; ...] *)
Definition detectedStack (p : Probes) : list string := run (rules p) [].

(** [animationStacks], [hasAnimationStack] (lines 1082-1083) *)
Definition animationStacks : list string :=
  ["gsap"; "lottie"; "framer-motion"; "three"].

Definition hasAnimationStack (detected : list string) : bool :=
  existsb (fun s => Js.arrayIncludes animationStacks s) detected.

End Stack.
(** ** Colours and the dark theme (lines 1427-1648) *)

Module Theme.

Local Open Scope string_scope.

Record ColorSample := {
  r : Num.Num;
  g : Num.Num;
  b : Num.Num;
  a : Num.Num
}.

Definition rgbaRegex : Regex.RegExp :=
  ltac:(regexp "rgba?\((\d+),\s*(\d+),\s*(\d+)(?:,\s*([\d.]+))?\s*\)" "i").

(** [Number(m[n])] *)
Definition groupNumber (n : nat) (m : Regex.rmatched) : Num.Num :=
  match Regex.group n (Regex.m_groups m) with
  | Some s => Num.ofString s
  | None => Num.NaN
  end.

(** [parseRgba] (lines 1428-1432) *)
Definition parseRgba (str : string) : option ColorSample :=
  match Regex.exec rgbaRegex str with
  | None => None
  | Some m =>
      Some {| r := groupNumber 1 m; g := groupNumber 2 m;
              b := groupNumber 3 m;
              a := match Regex.group 4 (Regex.m_groups m) with
                   | Some s => Num.ofString s
                   | None => Num.num 1
                   end |}
  end.

Definition hslaRegex : Regex.RegExp :=
  ltac:(regexp "hsla?\(([\d.]+)(?:deg)?\s*[\s,]\s*([\d.]+)%\s*[\s,]\s*([\d.]+)%(?:\s*[\s,/]\s*([\d.]+%?))?\s*\)" "i").

Definition n (q : Q) : Num.Num := Num.num q.

(** [hue2rgb] (lines 1442-1449) *)
Definition hue2rgb (p q t0 : Num.Num) : Num.Num :=
  let t1 := if Num.lt t0 (n 0) then Num.add t0 (n 1) else t0 in
  let t := if Num.gt t1 (n 1) then Num.sub t1 (n 1) else t1 in
  if Num.lt t (n (1 / 6)) then
    Num.add p (Num.mul (Num.mul (Num.sub q p) (n 6)) t)
  else if Num.lt t (n (1 / 2)) then q
  else if Num.lt t (n (2 / 3)) then
    Num.add p (Num.mul (Num.mul (Num.sub q p) (Num.sub (n (2 / 3)) t)) (n 6))
  else p.

(** [parseHsla] (lines 1435-1461) *)
Definition parseHsla (str : string) : option ColorSample :=
  match Regex.exec hslaRegex str with
  | None => None
  | Some m =>
      let h := Num.divBy (groupNumber 1 m) 360 in
      let s := Num.divBy (groupNumber 2 m) 100 in
      let l := Num.divBy (groupNumber 3 m) 100 in
      let alpha :=
        match Regex.group 4 (Regex.m_groups m) with
        | Some m4 =>
            if Js.endsWith "%" m4
            then Num.divBy (Num.ofString (Js.dropLast m4)) 100
            else Num.ofString m4
        | None => n 1
        end in
      let '(rr, gg, bb) :=
        if Num.eq s (n 0) then (l, l, l)
        else
          let q := if Num.lt l (n (1 / 2))
                   then Num.mul l (Num.add (n 1) s)
                   else Num.sub (Num.add l s) (Num.mul l s) in
          let p := Num.sub (Num.mul (n 2) l) q in
          (hue2rgb p q (Num.add h (n (1 / 3))),
           hue2rgb p q h,
           hue2rgb p q (Num.sub h (n (1 / 3)))) in
      Some {| r := Num.round (Num.mul rr (n 255));
              g := Num.round (Num.mul gg (n 255));
              b := Num.round (Num.mul bb (n 255));
              a := alpha |}
  end.

(** [parseColor] (line 1464) *)
Definition parseColor (str : string) : option ColorSample :=
  match parseRgba str with
  | Some c => Some c
  | None => parseHsla str
  end.

Definition charAt (i : nat) (s : string) : string := Js.take 1 (Js.drop i s).

(** [parseAnyColor] (lines 1467-1487) *)
Definition parseAnyColor (str : string) : option ColorSample :=
  match parseColor str with
  | Some c => Some c
  | None =>
      if Js.truthy str && Js.startsWith "#" str then
        let hex := Js.drop 1 str in
        if (String.length hex =? 3)%nat then
          Some {| r := Num.parseInt16 (charAt 0 hex ++ charAt 0 hex);
                  g := Num.parseInt16 (charAt 1 hex ++ charAt 1 hex);
                  b := Num.parseInt16 (charAt 2 hex ++ charAt 2 hex);
                  a := n 1 |}
        else if (6 <=? String.length hex)%nat then
          Some {| r := Num.parseInt16 (Js.take 2 hex);
                  g := Num.parseInt16 (Js.take 2 (Js.drop 2 hex));
                  b := Num.parseInt16 (Js.take 2 (Js.drop 4 hex));
                  a := n 1 |}
        else None
      else None
  end.

Definition colorPattern : Regex.RegExp :=
  ltac:(regexp "(rgba?\([^)]+\)|hsla?\([^)]+\)|#[0-9a-fA-F]{3,8})" "g").

(** [gradientColors] (lines 1490-1500) *)
Definition gradientColors (gradientStr : string) : list ColorSample :=
  flat_map (fun c => match parseAnyColor c with
                     | Some parsed => [parsed]
                     | None => []
                     end)
           (Regex.matchAll colorPattern gradientStr).

(** [firstGradientColor] (lines 1503-1506) *)
Definition firstGradientColor (gradientStr : string) : option ColorSample :=
  List.hd_error (gradientColors gradientStr).

(** [(0.2126 * r + 0.7152 * g + 0.0722 * b) / 255], in binary64 and
    from left to right (lines 1532, 1636 and 1642). *)
Definition luminance (red green blue : Num.Num) : Double.t :=
  Double.div
    (Double.add
       (Double.add (Double.mul (Double.ofQ (2126 # 10000)) (Double.ofNum red))
                   (Double.mul (Double.ofQ (7152 # 10000)) (Double.ofNum green)))
       (Double.mul (Double.ofQ (722 # 10000)) (Double.ofNum blue)))
    (Double.ofQ 255).

(** [classifyColor] (lines 1527-1570) *)
Definition classifyColor (c : option ColorSample) : option string :=
  match c with
  | None => None
  | Some c =>
      let maxC := Num.max (Num.max (r c) (g c)) (b c) in
      let minC := Num.min (Num.min (r c) (g c)) (b c) in
      let lum := luminance (r c) (g c) (b c) in
      if Num.le maxC (n 35) && Num.le (Num.sub maxC minC) (n 10)
      then Some "black"
      else
        let darkDelta := Num.sub maxC minC in
        if Double.lt lum (Double.ofQ (15 # 100)) && Num.lt darkDelta (n 40)
        then Some "dark"
        else if Num.ge minC (n 240) then Some "white"
        else if Double.gt lum (Double.ofQ (9 # 10)) then Some "off_white"
        else
          let delta := Num.sub maxC minC in
          if Num.lt delta (n 20) then
            (if Double.gt lum (Double.ofQ (5 # 10)) then Some "light_grey"
             else Some "dark_grey")
          else
            let h0 :=
              if Num.eq maxC (r c)
              then Num.rem (Num.div (Num.sub (g c) (b c)) delta) 6
              else if Num.eq maxC (g c)
              then Num.add (Num.div (Num.sub (b c) (r c)) delta) (n 2)
              else Num.add (Num.div (Num.sub (r c) (g c)) delta) (n 4) in
            let h1 := Num.round (Num.mul h0 (n 60)) in
            let h := if Num.lt h1 (n 0) then Num.add h1 (n 360) else h1 in
            let light := Double.gt lum (Double.ofQ (6 # 10)) in
            if Num.lt h (n 15) || Num.ge h (n 345)
            then Some (if light then "light_red" else "red")
            else if Num.lt h (n 35)
            then Some (if light then "peach" else "orange")
            else if Num.lt h (n 65)
            then Some (if light then "light_yellow" else "yellow")
            else if Num.lt h (n 160)
            then Some (if light then "light_green" else "green")
            else if Num.lt h (n 200)
            then Some (if light then "light_cyan" else "cyan")
            else if Num.lt h (n 260)
            then Some (if light then "light_blue" else "blue")
            else if Num.lt h (n 290)
            then Some (if light then "light_purple" else "purple")
            else if Num.lt h (n 345)
            then Some (if light then "pink" else "magenta")
            else None
  end.

(** The loop of lines 1514-1519: the names of the stops, a name equal
    to the one before it left out. *)
Fixpoint distinctNames (colors : list ColorSample) (names : list string)
  : list string :=
  match colors with
  | [] => names
  | c :: rest =>
      match classifyColor (Some c) with
      | Some name =>
          if Js.truthy name
             && (match rev names with
                 | [] => true
                 | lastName :: _ => negb (String.eqb lastName name)
                 end)
          then distinctNames rest (names ++ [name])%list
          else distinctNames rest names
      | None => distinctNames rest names
      end
  end.

(** [buildGradientTag] (lines 1509-1524) *)
Definition buildGradientTag (gradientStr : string) : option string :=
  let colors := gradientColors gradientStr in
  match colors with
  | [] => None
  | _ =>
      match distinctNames colors [] with
      | [] => None
      | names => Some (Js.join "-" (firstn 3 names) ++ "-gradient")
      end
  end.

(** The result object of [darkThemeResult] (lines 1573-1581). *)
Record DarkTheme := {
  is_dark : bool;
  hero_bg : option string;
  hero_bg_gradient : option string;
  hero_bg_color_name : option string;
  hero_bg_gradient_tag : option string;
  hero_text_color : option string;
  sampled_element : option string
}.

Definition noTheme : DarkTheme :=
  {| is_dark := false; hero_bg := None; hero_bg_gradient := None;
     hero_bg_color_name := None; hero_bg_gradient_tag := None;
     hero_text_color := None; sampled_element := None |}.

Definition transparent : string := "rgba(0, 0, 0, 0)".

Definition paints (bg bgImage : string) : bool :=
  (Js.truthy bg && negb (String.eqb bg transparent))
  || (Js.truthy bgImage && negb (String.eqb bgImage "none")).

(** The loop of lines 1593-1601 over the element at the sample point
    and its ancestors: where it stops ([None] past the root), and the
    last background colour and image read. *)
Fixpoint walk (guard : nat) (chain : list Dom.Loc) (bg bgImage : string)
  : option Dom.Loc * string * string :=
  match chain with
  | [] => (None, bg, bgImage)
  | e :: rest =>
      match guard with
      | O => (Some e, bg, bgImage)
      | S guard' =>
          let bg' := Dom.backgroundColor (Dom.style (Dom.el e)) in
          let bgImage' := Dom.backgroundImage (Dom.style (Dom.el e)) in
          if paints bg' bgImage' then (Some e, bg', bgImage')
          else walk guard' rest bg' bgImage'
      end
  end.

Definition gradientRegex : Regex.RegExp := ltac:(regexp "gradient" "i").

Definition textChannelRegex : Regex.RegExp :=
  ltac:(regexp "rgba?\((\d+),\s*(\d+),\s*(\d+)" "i").

(** Lines 1638-1642: the luminance of the text colour; a colour that
    is not written [rgb(...)] counts as black. *)
Definition textLuminance (textColor : string) : Double.t :=
  let tMatch := Regex.exec textChannelRegex textColor in
  let channel (i : nat) :=
    match tMatch with
    | Some m => groupNumber i m
    | None => n 0
    end in
  luminance (channel 1%nat) (channel 2%nat) (channel 3%nat).

(** Lines 1620-1627: the colour the classification works on. *)
Definition effectiveBackground (bg bgImage : string) (hasGradient : bool)
  : option ColorSample :=
  match parseRgba bg with
  | Some parsedBg =>
      if Num.gt (a parsedBg) (n 0) then Some parsedBg
      else if hasGradient then firstGradientColor bgImage else None
  | None => if hasGradient then firstGradientColor bgImage else None
  end.

(** Lines 1635-1645 *)
Definition isDark (bgColor : option ColorSample) (textColor : string) : bool :=
  match bgColor with
  | Some c =>
      if Num.neq (a c) (n 0) then
        let bgLum := luminance (r c) (g c) (b c) in
        if Double.lt bgLum (Double.ofQ (2 # 10))
        then Double.gt (textLuminance textColor) (Double.ofQ (7 # 10))
        else false
      else false
  | None => false
  end.

(** [el.tagName?.toLowerCase() + (el.className ? "." + first class : "")] *)
Definition describe (e : Dom.Element) : string :=
  Js.toLowerCase (Dom.tagName e)
  ++ (if Js.truthy (Dom.className e)
      then "." ++ List.hd "" (Js.splitSpace (Dom.className e))
      else "").

(** [bgImage && bgImage !== "none" && /gradient/i.test(bgImage)]
    (line 1608) *)
Definition isGradient (bgImage : string) : bool :=
  Js.truthy bgImage && negb (String.eqb bgImage "none")
  && Regex.test gradientRegex bgImage.

(** The background colour the walk up from [start] resolves to:
    [bgColor] of line 1620. *)
Definition background (start : Dom.Loc) : option ColorSample :=
  let '(_, bg, bgImage) :=
    walk 10 (Dom.selfAndAncestors start) transparent "none" in
  effectiveBackground bg bgImage (isGradient bgImage).

(** Lines 1587-1647, from the element found at the sample point. *)
Definition sample (start : Dom.Loc) (textColor : string) : DarkTheme :=
  let '(stop, bg, bgImage) :=
    walk 10 (Dom.selfAndAncestors start) transparent "none" in
  let hasGradient := isGradient bgImage in
  let bgColor := effectiveBackground bg bgImage hasGradient in
  {| is_dark := isDark bgColor textColor;
     hero_bg := Some bg;
     hero_bg_gradient := if hasGradient then Some bgImage else None;
     hero_bg_color_name :=
       match bgColor with
       | Some _ => classifyColor bgColor
       | None => None
       end;
     hero_bg_gradient_tag :=
       if hasGradient then buildGradientTag bgImage else None;
     hero_text_color := Some textColor;
     sampled_element :=
       match stop with
       | Some e => Some (describe (Dom.el e))
       | None => None
       end |}.

End Theme.

(** ** The fingerprint record (lines 1662-1741) *)

Module Fingerprint.

(** An entry of [cta_details] (lines 423-428) *)
Record CtaDetail := {
  cd_text : string;
  cd_type : string;
  cd_top : Z;
  cd_left : Z
}.

(** [interactive_debug] (lines 1163-1180) *)
Record InteractiveDebug := {
  has_text_input : bool;
  text_input_count : nat;
  has_audio_element : bool;
  audio_count : nat;
  has_play_button : bool;
  has_play_control : bool;
  play_control_candidates : nat;
  selectable_option_count : nat;
  has_selectable_list : bool;
  row_container_count : nat;
  has_selectable_list_from_rows : bool;
  has_selectable_list_from_items : bool;
  has_voice_language : bool;
  has_interactive_demo_base : bool;
  looks_like_audio_demo : bool;
  debug_has_interactive_demo : bool
}.

(** An entry of [hero_images] (lines 1257-1269) *)
Record HeroImage := {
  hi_tag : string;
  hi_alt : option string;
  hi_width : Z;
  hi_height : Z;
  hi_top : Z;
  hi_left : Z
}.

(** An entry of [list_items_raw] (line 1739) *)
Record RawItem := {
  raw_text : string;
  raw_wordCount : nat
}.

(** The object [extractFingerprint] returns; [null] is [None]. *)
Record t := {
  layout : string;
  alignment : option string;
  hero_height_ratio : Q;
  headline : option string;
  subheadline : option string;
  headline_word_count : nat;
  cta_count : nat;
  primary_cta_text : option string;
  ctas : list string;
  cta_details : list CtaDetail;
  has_form : bool;
  form_fields_count : nat;
  has_email_only : bool;
  has_password_field : bool;
  has_oauth : bool;
  grid_cards_in_fold : nat;
  has_filters : bool;
  detected_stack : list string;
  page_text : string;
  has_pricing_tokens : bool;
  has_promotion_signals : bool;
  has_promo_language : bool;
  has_transactional_cta : bool;
  has_price_display : bool;
  price_count : nat;
  has_countdown : bool;
  add_to_cart_count : nat;
  product_card_count : nat;
  has_category_nav : bool;
  has_discovery_language : bool;
  has_brand_campaign_language : bool;
  has_trust_signals : bool;
  trust_badge_count : nat;
  is_commerce_hero : bool;
  has_canvas : bool;
  has_webgl : bool;
  large_svg_count : nat;
  has_interactive_demo : bool;
  has_animation_stack : bool;
  has_showcase_language : bool;
  is_showcase_hero : bool;
  is_error_page : bool;
  error_page_reason : option string;
  bullet_count : nat;
  feature_bullet_count : nat;
  has_feature_bullets : bool;
  total_lists_in_hero : nat;
  has_dashboard_preview : bool;
  has_dashboard_keywords : bool;
  has_social_proof : bool;
  logo_count : nat;
  left_copy_right_media : bool;
  dark_theme_hero : bool;
  hero_bg : option string;
  hero_bg_gradient : option string;
  hero_bg_color_name : option string;
  hero_bg_gradient_tag : option string;
  hero_text_color : option string;
  hero_bg_sampled_from : option string;
  hero_media_type : option string;
  hero_images : list HeroImage;
  hero_image_count : nat;
  metrics_visible : bool;
  is_copy_only : bool;
  interactive_debug : InteractiveDebug;
  list_items_raw : list RawItem
}.

End Fingerprint.
(** ** The extractor: viewport, visibility and regions (lines 7-145) *)

Module Extract.

Import Dom.
Local Open Scope string_scope.

(** [isVisible] (lines 11-17) *)
Definition isVisible (x : Loc) : bool :=
  let st := style (el x) in
  if String.eqb (display st) "none" || String.eqb (visibility st) "hidden"
  then false
  else if Num.eq (if Js.truthy (opacity st)
                  then Num.ofString (opacity st) else Num.num 1)
                 (Num.num 0)
  then false
  else Qgt_bool (width (rect (el x))) 0 && Qgt_bool (height (rect (el x))) 0.

(** [isFixedOrSticky] (lines 19-22) *)
Definition isFixedOrSticky (x : Loc) : bool :=
  let st := style (el x) in
  String.eqb (position st) "fixed" || String.eqb (position st) "sticky".

Section Run.

Variable d : Document.
Variable w : Window.
(** The contexts the canvases of the page hold when the extractor
    starts. *)
Variable contexts : Canvas.Contexts.

(** [Array.from(document.body?.children || [])] *)
Definition bodyChildren : list Loc :=
  match body d with
  | Some b => childLocs b
  | None => []
  end.

(** Lines 29-43: with at most three children, a wrapper taller than 1.5
    viewports with more than one child is replaced by its children,
    provided that gives more sections. *)
Definition heroSections : list Loc :=
  let first := bodyChildren in
  if (List.length first <=? 3)%nat then
    let deeper :=
      flat_map (fun wrapper =>
                  if Qgt_bool (height (rect (el wrapper)))
                              (viewportHeight w * (15 # 10))
                     && (1 <? List.length (children (el wrapper)))%nat
                  then childLocs wrapper
                  else [wrapper]) first in
    if (List.length first <? List.length deeper)%nat then deeper else first
  else first.

(** Lines 45-53 *)
Definition sections : list Hero.HeroSection :=
  map (fun x => {| Hero.top := top (rect (el x));
                   Hero.height := height (rect (el x));
                   Hero.bottom := bottom (rect (el x)) |}) heroSections.

(** Lines 55-60 *)
Definition heroBottom : Q := Hero.heroBottom (viewportHeight w) sections.

(** [inHero] (lines 62-65) *)
Definition inHero (x : Loc) : bool :=
  Qgt_bool (bottom (rect (el x))) 0 && Qlt_bool (top (rect (el x))) heroBottom.

(** [inFold] (lines 969-972) *)
Definition inFold (x : Loc) : bool :=
  Qgt_bool (bottom (rect (el x))) 0
  && Qlt_bool (top (rect (el x))) (viewportHeight w).

Definition navSelector : Selector :=
  ltac:(css "nav, footer, [role='navigation'], [role='menubar'], [role='menu'], [role='toolbar'], [aria-label*='nav' i], [aria-label*='menu' i], [data-testid*='nav' i], [data-testid*='header' i]").

Definition headerSelector : Selector := ltac:(css "header").
Definition asideSelector : Selector := ltac:(css "aside").

Definition navClassRegex : Regex.RegExp :=
  ltac:(regexp "\b(nav|navbar|navigation|menu|topbar|top-bar|site-header|masthead|toolbar)\b" "i").

(** The nodes a [while (node && node !== document.body)] walk visits,
    going up from [x]. *)
Fixpoint untilBody (l : list Loc) : list Loc :=
  match l with
  | [] => []
  | n :: rest =>
      match body d with
      | Some b => if sameNode n b then [] else n :: untilBody rest
      | None => n :: untilBody rest
      end
  end.

Definition walkUp (x : Loc) : list Loc := untilBody (selfAndAncestors x).

(** [inNavOrHeader] (lines 67-103) *)
Definition inNavOrHeader (x : Loc) : bool :=
  match closest navSelector x with
  | Some _ => true
  | None =>
      if match closest headerSelector x with
         | Some header => Qlt_bool (height (rect (el header))) 150
         | None => false
         end
      then true
      else if match closest asideSelector x with
              | Some aside =>
                  Qlt_bool (width (rect (el aside)))
                           (viewportWidth w * (5 # 10))
                  || Qlt_bool (height (rect (el aside))) 150
              | None => false
              end
      then true
      else
        existsb (fun node =>
                   (Regex.test navClassRegex (className (el node))
                    || Regex.test navClassRegex (id (el node)))
                   && Qlt_bool (top (rect (el node))) 120
                   && Qlt_bool (height (rect (el node))) 150)
                (walkUp x)
  end.

Definition framerNameRegex : Regex.RegExp :=
  ltac:(regexp "\b(footer|nav|navbar|navigation|menu|header)\b" "").

Definition framerHeaderRegex : Regex.RegExp :=
  ltac:(regexp "\bheader\b" "").

(** [inFramerNavOrFooter] (lines 107-122) *)
Definition inFramerNavOrFooter (x : Loc) : bool :=
  existsb (fun node =>
             let framerName :=
               Js.toLowerCase (attr (el node) "data-framer-name") in
             Regex.test framerNameRegex framerName
             && negb (Regex.test framerHeaderRegex framerName
                      && Qge_bool (height (rect (el node))) 150))
          (walkUp x).

Definition copyrightRegex : Regex.RegExp :=
  ltac:(regexp (String (ascii_of_nat 169)
                  "|\bcopyright\b|\ball rights reserved\b") "i").

(** [looksLikeFooterContent] (lines 128-134) *)
Definition looksLikeFooterContent (x : Loc) : bool :=
  let text := Js.trim (innerText (el x)) in
  if Js.isEmpty text then false else Regex.test copyrightRegex text.

Definition textSelector : Selector := ltac:(css "h1, h2, h3, p, span, div").

(** [heroTextNodes] (lines 136-145) *)
Definition heroTextNodes : list Loc :=
  filter (fun x =>
            inHero x
            && negb (inNavOrHeader x)
            && negb (inFramerNavOrFooter x)
            && negb (looksLikeFooterContent x)
            && isVisible x
            && negb (isFixedOrSticky x))
         (querySelectorAll d textSelector).

(** The stages below read the values of the stages above through
    variables, named after them with a prime; [extractFingerprint]
    computes each of them once, as the source does with its
    constants. *)
Section TextNodes.

Variable heroTextNodes' : list Loc.

(** *** Headline (lines 147-335) *)

Definition NAV_WORDS : Regex.RegExp :=
  ltac:(regexp "\b(log\s?in|sign\s?in|sign\s?up|pricing|blog|resources|community|support|contact|about|products?|solutions?|enterprise|platform|documentation|docs|careers|partners?)\b" "gi").

(** [looksLikeNavText] (lines 152-158): at least three navigation words
    that make up at least a quarter of the words. *)
Definition looksLikeNavText (text : string) : bool :=
  if Js.isEmpty text then false
  else
    let matches := List.length (Regex.matchAll NAV_WORDS text) in
    let words := List.length (Js.words text) in
    (3 <=? matches)%nat && (words <=? 4 * matches)%nat.

(** A selector list of single compounds, on an element out of place. *)
Definition matchesElement (s : Selector) (e : Element) : bool :=
  existsb (fun cx => match cx with
                     | [c] => matchCompound c e
                     | _ => false
                     end) s.

Definition elementsBelow (e : Element) : list Element :=
  map el (descendants {| el := e; up := []; path := [] |}).

Definition skipLinkSelector : Selector := ltac:(css "a[href^='#']").

Definition skipLinkRegex : Regex.RegExp :=
  ltac:(regexp "skip\s*(to)?\s*(main|content|navigation)" "i").

Definition nestedLinkSelector : Selector :=
  ltac:(css "a, button, [role='button'], nav, header").

(** [getDirectHeadlineText] (lines 161-180).  The clone is detached, so
    its [innerText] is its [textContent]. *)
Definition getDirectHeadlineText (e : Element) : string :=
  let clone1 :=
    prune (fun a => matchesElement skipLinkSelector a
                    && Regex.test skipLinkRegex
                         (Js.toLowerCase (textContent a))) e in
  let links := filter (matchesElement nestedLinkSelector) (elementsBelow clone1) in
  let clone2 :=
    if (3 <=? List.length links)%nat
    then prune (matchesElement nestedLinkSelector) clone1
    else clone1 in
  let text := Text.cleanText (textContent clone2) in
  if Js.truthy text && (2 <=? Text.wordCount text)%nat then text
  else Text.cleanText (innerText e).

(** Lines 195-197 *)
Definition h1 : option Loc :=
  find (fun x => String.eqb (tagName (el x)) "H1") heroTextNodes'.

Definition rtcSelector : Selector :=
  ltac:(css "[data-framer-component-type='RichTextContainer']").

(** Lines 207-213 *)
Definition widenToContainer (h : Loc) (headline : string) : string :=
  match closest rtcSelector h with
  | Some rtc =>
      let full := Text.cleanText (innerText (el rtc)) in
      if (String.length headline <? String.length full)%nat
         && (Text.wordCount full <=? Text.MAX_HEADLINE_WORDS)%nat
      then full else headline
  | None => headline
  end.

Definition isSectionTag (tag : string) : bool :=
  String.eqb tag "SECTION" || String.eqb tag "HEADER"
  || String.eqb tag "MAIN" || String.eqb tag "ARTICLE".

(** The loop of lines 217-230 over the wrappers of the heading. *)
Fixpoint widenToWrapper (wrappers : list Loc) (headline : string) : string :=
  match wrappers with
  | [] => headline
  | wrapper :: rest =>
      let wText := Text.cleanText (innerText (el wrapper)) in
      let wWords := Text.wordCount wText in
      if looksLikeNavText wText || (Text.MAX_HEADLINE_WORDS <? wWords)%nat
      then headline
      else
        let widened :=
          if (Text.wordCount headline <? wWords)%nat
             && (wWords <=? Text.MAX_HEADLINE_WORDS)%nat
          then wText else headline in
        if isSectionTag (tagName (el wrapper)) then widened
        else widenToWrapper rest widened
  end.

Definition isTruthy (s : option string) : bool :=
  match s with Some t => Js.truthy t | None => false end.

(** Lines 196-232: the text of the heading, widened when it has at
    most two words. *)
Definition headlineOfH1 : option string :=
  match h1 with
  | Some h =>
      let headline := getDirectHeadlineText (el h) in
      if Js.truthy headline && (Text.wordCount headline <=? 2)%nat then
        let headline1 := widenToContainer h headline in
        if (Text.wordCount headline1 <=? 2)%nat
        then Some (widenToWrapper
                     (untilBody (ancestorLocs (up h) (path h))) headline1)
        else Some headline1
      else Some headline
  | None => None
  end.

(** Lines 239-243 *)
Definition discardNavText (st : option string * option Loc)
  : option string * option Loc :=
  match fst st with
  | Some h => if Js.truthy h && looksLikeNavText h then (None, None) else st
  | None => st
  end.

(** [headline], [headlineEl] after line 243 *)
Definition headlineAfterDiscards : option string * option Loc :=
  discardNavText (Text.discardWholePage (headlineOfH1, h1)).

(** The record built at lines 246-252. *)
Record TextCandidate := {
  tc_el : Loc;
  tc_text : string;
  tc_directText : string;
  tc_size : Q;
  tc_top : Q
}.

(** [parseFloat(getComputedStyle(el).fontSize || "0") || 0] *)
Definition fontSizeOf (x : Loc) : Q :=
  let fs := fontSize (style (el x)) in
  Num.orZero (Num.parseFloat (if Js.truthy fs then fs else "0")).

Definition twoLettersRegex : Regex.RegExp := ltac:(regexp "[a-zA-Z]{2,}" "").

(** [candidates] (lines 245-259) *)
Definition candidates : list TextCandidate :=
  Arr.sort (fun a b => tc_size b - tc_size a)
    (filter (fun c => (Text.wordCount (tc_text c)
                       <=? Text.MAX_HEADLINE_WORDS)%nat)
       (filter (fun c => negb (looksLikeNavText (tc_text c)))
          (filter (fun c => (3 <? String.length (tc_text c))%nat
                            && Regex.test twoLettersRegex (tc_text c))
             (map (fun x =>
                     {| tc_el := x;
                        tc_text := Text.cleanText (innerText (el x));
                        tc_directText := getDirectHeadlineText (el x);
                        tc_size := fontSizeOf x;
                        tc_top := top (rect (el x)) |})
                  heroTextNodes')))).

Section Candidates.

Variable candidates' : list TextCandidate.

Definition best : option TextCandidate := List.hd_error candidates'.

(** [largestText] (lines 261-268) *)
Definition largestText : option string :=
  match best with
  | Some c =>
      let direct := tc_directText c in
      let chosen :=
        if Js.truthy direct && negb (looksLikeNavText direct)
           && (2 <=? List.length (Js.splitWs direct))%nat
        then direct else tc_text c in
      Some (if Js.truthy chosen then Text.truncateHeadline chosen else chosen)
  | None => None
  end.

(** Lines 270-273.  An [h1] found by the query is not the root of the
    document, so it has a parent. *)
Definition h1Rect : option DOMRect := option_map (fun h => rect (el h)) h1.

Definition h1FontSize : Q :=
  match h1 with Some h => fontSizeOf h | None => 0 end.

Definition anchorSelector : Selector := ltac:(css "a").

Definition h1IsLink : bool :=
  match h1 with
  | Some h =>
      match closest anchorSelector h with
      | Some _ => true
      | None => match querySelectorIn anchorSelector h with
                | Some _ => true
                | None => false
                end
      end
  | None => false
  end.

Definition h1LooksSticky : bool :=
  match h1 with
  | Some h =>
      isFixedOrSticky h
      || match parentElement h with
         | Some p => isFixedOrSticky p
         | None => false
         end
  | None => false
  end.

(** Lines 274-279 *)
Definition h1LikelyNav : bool :=
  match h1 with
  | Some h =>
      inNavOrHeader h || inFramerNavOrFooter h || h1LooksSticky
      || (Qlt_bool (top (rect (el h))) 90
          && Qlt_bool (height (rect (el h))) 90
          && Qlt_bool (width (rect (el h))) (viewportWidth w * (5 # 10)))
  | None => false
  end.

(** Lines 280-289 *)
Definition headlineLooksLikeLogo : bool :=
  match h1 with
  | Some h =>
      isTruthy (fst headlineAfterDiscards)
      && (Text.wordCount
            (match fst headlineAfterDiscards with Some t => t | None => "" end)
          <=? 3)%nat
      && Qlt_bool (top (rect (el h))) 120
      && Qlt_bool (height (rect (el h))) 90
      && Qle_bool h1FontSize 28
      && (h1IsLink
          || Qlt_bool (width (rect (el h))) (viewportWidth w * (35 # 100)))
  | None => false
  end.

(** Lines 290-295 *)
Definition candidateBeatsH1 : bool :=
  match best with
  | Some c =>
      isTruthy largestText
      && match h1Rect with
         | Some hr => Qge_bool (tc_top c) (bottom hr + 20)
         | None => true
         end
      && (Qeq_bool h1FontSize 0 || Qge_bool (tc_size c) (h1FontSize + 4))
  | None => false
  end.

(** Lines 296-302 *)
Definition candidateClearlyBetter : bool :=
  match best, h1Rect with
  | Some c, Some hr =>
      isTruthy largestText
      && Qge_bool (tc_top c) (bottom hr + 24)
      && Qge_bool (tc_size c) (h1FontSize + 8)
  | _, _ => false
  end.

(** Lines 304-307 *)
Definition headlineAfterOverride : option string * option Loc :=
  if (headlineLooksLikeLogo && candidateBeatsH1)
     || (h1LikelyNav && candidateBeatsH1)
     || candidateClearlyBetter
  then (largestText, option_map tc_el best)
  else headlineAfterDiscards.

(** Lines 309-312: [headline] and [headlineEl] as the rest of the
    extractor sees them. *)
Definition headlineState : option string * option Loc :=
  if negb (isTruthy (fst headlineAfterOverride)) && isTruthy largestText
  then (largestText, option_map tc_el best)
  else headlineAfterOverride.

Definition headline : option string := fst headlineState.
Definition headlineEl : option Loc := snd headlineState.

Section Headline.

Variable headline' : option string.
Variable headlineEl' : option Loc.

(** Lines 314-315 *)
Definition headlineRect : option DOMRect :=
  option_map (fun x => rect (el x)) headlineEl'.

Definition contentTop : Q :=
  match headlineRect with Some hr => top hr - 20 | None => 0 end.

Definition headingSelector : Selector := ltac:(css "h1, h2, h3, p").

(** [heroTextLeaves] (lines 320-328) *)
Definition heroTextLeaves : list Loc :=
  filter (fun x =>
            if Qlt_bool (top (rect (el x))) contentTop then false
            else if (String.eqb (tagName (el x)) "DIV"
                     || String.eqb (tagName (el x)) "SPAN")
                    && match querySelectorIn headingSelector x with
                       | Some _ => true
                       | None => false
                       end
            then false
            else true)
         heroTextNodes'.

Definition leadingSkipRegex : Regex.RegExp :=
  ltac:(regexp "^skip\s*(to)?\s*(main\s*)?(content|navigation)\s*" "i").

(** [heroText] (lines 329-335) *)
Definition heroText : string :=
  Regex.replaceFirst leadingSkipRegex
    (Text.cleanText
       (Js.join " " (map (fun x => innerText (el x)) heroTextLeaves)))
    "".

Section HeroText.

Variable heroText' : string.

(** *** Calls to action (lines 337-445) *)

Definition ctaSelector : Selector :=
  ltac:(css "button, a, [role='button'], input[type='submit']").

(** [a || b] on strings *)
Definition orElse (a b : string) : string := if Js.truthy a then a else b.

(** [ctaCandidates] (lines 337-351), with the element kept alongside. *)
Definition ctaCandidates : list Cta.Candidate :=
  filter (fun c => Js.truthy (Cta.text c))
    (map (fun x =>
            {| Cta.text :=
                 Text.cleanText (orElse (innerText (el x)) (value (el x)));
               Cta.top := top (rect (el x));
               Cta.left := left (rect (el x));
               Cta.area := width (rect (el x)) * height (rect (el x));
               Cta.isButton :=
                 String.eqb (tagName (el x)) "BUTTON"
                 || String.eqb (tagName (el x)) "INPUT"
                 || match getAttribute (el x) "role" with
                    | Some v => String.eqb v "button"
                    | None => false
                    end |})
         (filter (fun x => inHero x && negb (inNavOrHeader x)
                           && negb (inFramerNavOrFooter x) && isVisible x)
                 (querySelectorAll d ctaSelector))).

(** Lines 358-420 *)
Definition heroCtaCandidates : list Cta.Candidate :=
  Cta.sortCtas headlineRect
    (Cta.heroCtaCandidates (viewportHeight w) headlineRect
       (Cta.filteredCtas ctaCandidates)).

Section Ctas.

Variable heroCtaCandidates' : list Cta.Candidate.

(** Lines 422-428 *)
Definition ctas : list string := Cta.ctas heroCtaCandidates'.

(** [ctaDetails] (lines 423-428) *)
Definition ctaDetails : list Fingerprint.CtaDetail :=
  map (fun c =>
         {| Fingerprint.cd_text := Cta.text c;
            Fingerprint.cd_type := if Cta.isButton c then "button" else "link";
            Fingerprint.cd_top := Num.roundQ (Cta.top c);
            Fingerprint.cd_left := Num.roundQ (Cta.left c) |})
      heroCtaCandidates'.

Definition primaryCta : option string := Cta.primaryCta heroCtaCandidates'.

(** [normalizeText] (line 430) *)
Definition normalizeText (text : string) : string :=
  Js.toLowerCase (Text.cleanText text).

(** [ctaTextSet] (line 431); membership is all that is asked of it. *)
Definition ctaTextSet : list string := map normalizeText ctas.

Definition ctaPhraseRegex : Regex.RegExp :=
  ltac:(regexp "^(sign\s*up|sign\s*in|log\s*in|contact\s*sales|talk\s*to\s*sales|get\s*started|start|try|request|book|schedule|join|buy|explore|learn\s*more)$" "i").

(** [isLikelyCtaText] (lines 432-445) *)
Definition isLikelyCtaText (text : string) : bool :=
  let norm := normalizeText text in
  if Js.isEmpty norm then false
  else if Js.arrayIncludes ctaTextSet norm then true
  else if existsb (fun cta => Js.truthy cta && Js.includes cta norm) ctaTextSet
  then true
  else (List.length (Js.words norm) <=? 4)%nat
       && Regex.test ctaPhraseRegex norm.

(** *** Subheadline (lines 447-593) *)

Definition buttonSelector : Selector := ltac:(css "button, a, [role='button']").
Definition subTextSelector : Selector := ltac:(css "p, h2, h3").
Definition paragraphSelector : Selector := ltac:(css "p").

Definition isSome (A : Type) (o : option A) : bool :=
  match o with Some _ => true | None => false end.

(** [isSubCandidate] (lines 451-459) *)
Definition isSubCandidate (x : Loc) : bool :=
  if negb (inHero x) || inNavOrHeader x || inFramerNavOrFooter x then false
  else
    let text := Text.cleanText (innerText (el x)) in
    if Js.isEmpty text || (String.length text <? 10)%nat then false
    else if (Text.wordCount text <? 3)%nat then false
    else if isSome (closest buttonSelector x) then false
    else if isLikelyCtaText text then false
    else true.

Definition noButtonInside (x : Loc) : bool :=
  negb (isSome (querySelectorIn buttonSelector x)).

(** The [while] loops of lines 463 and 482: the first sibling after
    [x] that is in the hero and outside navigation. *)
Definition nextInHero (x : Loc) : option Loc :=
  find (fun s => inHero s && negb (inNavOrHeader s)
                 && negb (inFramerNavOrFooter s))
       (nextSiblings x).

(** Lines 466-476 and 485-495: the sibling itself, or the first
    paragraph or sub-heading inside it. *)
Definition subFromSibling (next : option Loc) : option (Loc * string) :=
  match next with
  | Some s =>
      if isSubCandidate s && noButtonInside s
      then Some (s, Text.cleanText (innerText (el s)))
      else
        match querySelectorIn subTextSelector s with
        | Some nested =>
            if isSubCandidate nested && noButtonInside nested
            then Some (nested, Text.cleanText (innerText (el nested)))
            else None
        | None => None
        end
  | None => None
  end.

Record SubCandidate := {
  sc_el : Loc;
  sc_text : string;
  sc_size : Q;
  sc_top : Q
}.

Definition toSubCandidate (x : Loc) : SubCandidate :=
  {| sc_el := x; sc_text := Text.cleanText (innerText (el x));
     sc_size := fontSizeOf x; sc_top := top (rect (el x)) |}.

Definition isNotNode (o : option Loc) (x : Loc) : bool :=
  match o with Some y => negb (sameNode x y) | None => true end.

(** Lines 507-530: the paragraphs of an ancestor near the headline,
    closest first. *)
Definition paragraphsNear (hEl : Loc) (ancestor : Loc) : list SubCandidate :=
  Arr.sort
    (fun a b =>
       let hTop := match headlineRect with Some hr => top hr | None => 0 end in
       Qabs (sc_top a - hTop) - Qabs (sc_top b - hTop))
    (filter (fun c => (20 <=? String.length (sc_text c))%nat
                      && (5 <=? Text.wordCount (sc_text c))%nat)
       (map toSubCandidate
          (filter (fun p =>
                     if inNavOrHeader p || inFramerNavOrFooter p then false
                     else
                       match headlineRect with
                       | None => true
                       | Some hr =>
                           Qle_bool (top (rect (el p))) (bottom hr + 200)
                           && Qge_bool (bottom (rect (el p))) (top hr - 50)
                       end)
             (filter (fun p => negb (sameNode p hEl) && isSubCandidate p
                               && noButtonInside p)
                     (querySelectorAllIn paragraphSelector ancestor))))).

(** [siblingSubheadline] (lines 447-537) *)
Definition siblingSubheadline : option (Loc * string) :=
  match headlineEl' with
  | None => None
  | Some hEl =>
      match subFromSibling (nextInHero hEl) with
      | Some found => Some found
      | None =>
          match
            match untilBody (ancestorLocs (up hEl) (path hEl)) with
            | parent :: _ => subFromSibling (nextInHero parent)
            | [] => None
            end
          with
          | Some found => Some found
          | None =>
              let ancestors :=
                firstn 3 (untilBody (ancestorLocs (up hEl) (path hEl))) in
              List.hd_error
                (flat_map (fun ancestor =>
                             match paragraphsNear hEl ancestor with
                             | c :: _ => [(sc_el c, sc_text c)]
                             | [] => []
                             end) ancestors)
          end
      end
  end.

(** Lines 543-593: the fallback over the hero text nodes. *)
Definition subheadlineFallback : option string :=
  let headlineSize :=
    match headlineEl' with Some hEl => fontSizeOf hEl | None => 0 end in
  let headlineTop := match headlineRect with Some hr => top hr | None => 0 end in
  let headlineBottom :=
    match headlineRect with Some hr => bottom hr | None => 0 end in
  let pool :=
    filter (fun c =>
              match headlineRect with
              | None => true
              | Some _ =>
                  let verticallyNear :=
                    Qge_bool (sc_top c) (headlineTop - 50)
                    && Qle_bool (sc_top c) (headlineBottom + 320) in
                  let sizeOk :=
                    if Qeq_bool headlineSize 0 then true
                    else Qle_bool (sc_size c) (headlineSize - 4) in
                  let notTooSmall :=
                    Qge_bool (sc_size c)
                             (Qmax 12 (headlineSize * (32 # 100))) in
                  verticallyNear && sizeOk && notTooSmall
              end)
      (filter (fun c => negb (isLikelyCtaText (sc_text c)))
         (filter (fun c => negb (looksLikeNavText (sc_text c)))
            (filter (fun c => Js.truthy (sc_text c)
                              && (12 <=? String.length (sc_text c))%nat
                              && (4 <=? Text.wordCount (sc_text c))%nat)
               (map toSubCandidate
                  (filter noButtonInside
                     (filter (fun x => negb (isSome (closest buttonSelector x)))
                        (filter (fun x =>
                                   inHero x && isVisible x
                                   && negb (inNavOrHeader x)
                                   && negb (inFramerNavOrFooter x)
                                   && negb (looksLikeFooterContent x)
                                   && negb (isFixedOrSticky x))
                           (filter (isNotNode headlineEl') heroTextNodes')))))))) in
  let ordered :=
    Arr.sort
      (fun a b =>
         let byDistance :=
           match headlineRect with
           | Some _ =>
               let headlineCenter := (headlineTop + headlineBottom) / 2 in
               let aDist := Qabs (sc_top a - headlineCenter) in
               let bDist := Qabs (sc_top b - headlineCenter) in
               if Qgt_bool (Qabs (aDist - bDist)) 20
               then Some (aDist - bDist) else None
           | None => None
           end in
         match byDistance with
         | Some v => v
         | None =>
             if negb (Qeq_bool (sc_size a) (sc_size b))
             then sc_size b - sc_size a
             else inject_Z (Z.of_nat (String.length (sc_text a)))
                  - inject_Z (Z.of_nat (String.length (sc_text b)))
         end)
      pool in
  match ordered with
  | c :: _ => Some (sc_text c)
  | [] => None
  end.

(** [subheadline] (lines 317, 539-593) *)
Definition subheadline : option string :=
  match siblingSubheadline with
  | Some (_, text) =>
      if Js.truthy text then Some text
      else match subheadlineFallback with
           | Some t => Some t
           | None => Some text
           end
  | None => subheadlineFallback
  end.

Section Subheadline.

Variable subheadline' : option string.

(** *** Forms, sign-in, grids, layout (lines 595-669) *)

Definition formSelector : Selector := ltac:(css "form").
Definition inputSelector : Selector := ltac:(css "input").
Definition emailSelector : Selector := ltac:(css "input[type='email']").
Definition passwordSelector : Selector := ltac:(css "input[type='password']").

Definition forms : list Loc :=
  filter (fun f => inHero f && negb (inNavOrHeader f)
                   && negb (inFramerNavOrFooter f))
         (querySelectorAll d formSelector).

Definition formFields : nat :=
  fold_left (fun sum f =>
               (sum + List.length (querySelectorAllIn inputSelector f))%nat)
            forms O.

Definition hasEmailOnly : bool :=
  existsb (fun f =>
             (List.length (querySelectorAllIn inputSelector f) =? 1)%nat
             && isSome (querySelectorIn emailSelector f))
          forms.

Definition hasPasswordField : bool :=
  existsb (fun f => isSome (querySelectorIn passwordSelector f)) forms
  || isSome (find (fun x => inHero x && isVisible x)
                  (querySelectorAll d passwordSelector)).

Definition oauthProviders : Regex.RegExp :=
  ltac:(regexp "\b(google|apple|github|microsoft)\b" "i").

Definition oauthSelectors : Selector :=
  ltac:(css "button img[src*='google' i], button img[src*='apple' i], button svg[aria-label*='google' i], button svg[aria-label*='apple' i], a img[src*='google' i], a img[src*='apple' i], [data-provider*='google' i], [data-provider*='apple' i], [aria-label*='Continue with Google' i], [aria-label*='Sign in with Google' i], [aria-label*='Continue with Apple' i], [aria-label*='Sign in with Apple' i]").

Definition hasOAuthElement : bool := exists_ d oauthSelectors.

(** [heroCtas], [heroButtons] (lines 632-633, 914-915) *)
Definition heroButtons : list Loc :=
  filter (fun x => inHero x && isVisible x)
         (querySelectorAll d buttonSelector).

Definition authVerbRegex : Regex.RegExp :=
  ltac:(regexp "(sign|log|continue|connect)\s*(in|up|with)" "i").

Definition hasOAuthText : bool :=
  existsb (fun x =>
             let text := Js.trim (innerText (el x)) in
             Regex.test oauthProviders text && Regex.test authVerbRegex text)
          heroButtons.

Definition hasOAuth : bool := hasOAuthElement || hasOAuthText.

Definition anySelector : Selector := ltac:(css "*").

(** The elements in the hero that are visible (lines 641-642, 884-885). *)
Definition visibleInHero : list Loc :=
  filter (fun x => inHero x && isVisible x) (querySelectorAll d anySelector).

Definition grids : list Loc :=
  filter (fun x => String.eqb (display (style (el x))) "grid") visibleInHero.

Definition maxChildren : nat :=
  fold_left (fun m g => Nat.max m (List.length (children (el g)))) grids O.

Definition filterSelector : Selector :=
  ltac:(css "input[type='search'], select, [role='listbox'], [role='combobox'], input[type='checkbox']").

Definition hasFilters : bool := exists_ d filterSelector.

(** [layout] (lines 653-663) *)
Definition layout : string :=
  match match body d with
        | Some b => firstElementChild b
        | None => None
        end with
  | None => "single-column"
  | Some hero =>
      let rects :=
        map (fun x => rect (el x))
            (filter (fun x => inHero x && isVisible x) (childLocs hero)) in
      let onLeft :=
        filter (fun r => Qlt_bool (left r) (viewportWidth w * (4 # 10))) rects in
      let onRight :=
        filter (fun r => Qgt_bool (left r) (viewportWidth w * (6 # 10))) rects in
      match onLeft, onRight with
      | _ :: _, _ :: _ => "split"
      | _, _ => "single-column"
      end
  end.

(** [alignment] (lines 665-669) *)
Definition alignment : option string :=
  match h1 with
  | Some h =>
      let ta := textAlign (style (el h)) in
      if Js.truthy ta then Some ta else None
  | None => None
  end.

(** *** The probes of the stack detection (lines 671-862) *)

Definition sel_nextScript : Selector := ltac:(css "script#__NEXT_DATA__").
Definition sel_nextAssets : Selector :=
  ltac:(css "script[src*='/_next/'], link[href*='/_next/']").
Definition sel_nextHead : Selector := ltac:(css "meta[name='next-head-count']").
Definition sel_framer : Selector :=
  ltac:(css "meta[name='generator'][content*='Framer']").
Definition sel_astro : Selector :=
  ltac:(css "meta[name='generator'][content*='Astro']").
Definition sel_hugo : Selector :=
  ltac:(css "meta[name='generator'][content*='Hugo']").
Definition sel_sveltekit : Selector := ltac:(css "[id*='__sveltekit']").
Definition sel_script : Selector := ltac:(css "script").
Definition sel_wordpressMeta : Selector :=
  ltac:(css "meta[name='generator'][content*='WordPress']").
Definition sel_wordpressAssets : Selector :=
  ltac:(css "link[href*='wp-content'], script[src*='wp-content'], link[href*='wp-includes'], script[src*='wp-includes']").
Definition sel_shopify : Selector :=
  ltac:(css "script[src*='cdn.shopify.com'], link[href*='cdn.shopify.com']").
Definition sel_wix : Selector :=
  ltac:(css "link[href*='static.wixstatic.com'], script[src*='static.wixstatic.com']").
Definition sel_squarespaceScript : Selector :=
  ltac:(css "script[src*='squarespace']").
Definition sel_squarespace : Selector :=
  ltac:(css "link[href*='squarespace.com'], script[src*='squarespace.com']").
Definition sel_vitepressDoc : Selector := ltac:(css ".vp-doc, .VPDoc, .VPHome").
Definition sel_vitepressScript : Selector := ltac:(css "script[src*='vitepress']").
Definition sel_vue : Selector := ltac:(css "[data-v-]").
Definition sel_react : Selector := ltac:(css "[data-reactroot], [data-reactid]").
Definition sel_angular : Selector :=
  ltac:(css "[ng-version], [_nghost], [_ngcontent]").
Definition sel_angularScript : Selector := ltac:(css "script[src*='angular']").
Definition sel_class : Selector := ltac:(css "[class]").
Definition sel_radix : Selector :=
  ltac:(css "[data-radix-popper-content-wrapper], [data-radix-collection-item], [data-state]").
Definition sel_emotion : Selector := ltac:(css "style[data-emotion]").
Definition sel_styled : Selector :=
  ltac:(css "style[data-styled], style[data-styled-components]").
Definition sel_vercel : Selector :=
  ltac:(css "meta[name*='vercel' i], script[src*='vercel-insights'], script[src*='vercel-analytics']").
Definition sel_netlify : Selector :=
  ltac:(css "script[src*='.netlify'], link[href*='.netlify']").
Definition sel_netlifyMeta : Selector :=
  ltac:(css "meta[name='generator'][content*='Netlify']").
Definition sel_cloudflare : Selector :=
  ltac:(css "script[src*='cloudflareinsights.com'], script[data-cf-beacon]").
Definition sel_amplify : Selector :=
  ltac:(css "script[src*='aws-amplify'], meta[name*='amplify' i]").
Definition sel_gsap : Selector := ltac:(css "script[src*='gsap']").
Definition sel_lottie : Selector := ltac:(css "lottie-player, script[src*='lottie']").
Definition sel_framerMotion : Selector :=
  ltac:(css "[data-framer-appear-id], [data-framer-component-type]").

Definition re_tailwind : Regex.RegExp :=
  ltac:(regexp "(^|\s)(bg-|text-|px-|py-|rounded-)" "").
Definition re_bootstrap : Regex.RegExp :=
  ltac:(regexp "(^|\s)(btn btn-|container-fluid|col-(xs|sm|md|lg|xl)-|navbar-|form-control|card-body)" "").
Definition re_mui : Regex.RegExp := ltac:(regexp "(^|\s)Mui[A-Z]" "").
Definition re_chakra : Regex.RegExp := ltac:(regexp "(^|\s)chakra-" "").
Definition re_ant : Regex.RegExp := ltac:(regexp "(^|\s)ant-" "").
Definition re_emotion : Regex.RegExp := ltac:(regexp "\bcss-[a-z0-9]{4,}\b" "").
Definition re_styled : Regex.RegExp := ltac:(regexp "\bsc-[a-zA-Z0-9]{6,}\b" "").
Definition re_cssModules : Regex.RegExp :=
  ltac:(regexp "\b\w+_\w+__[a-zA-Z0-9]{4,}\b" "").

(** [classEls], [getClass] (lines 772-773) *)
Definition classEls : list Loc := firstn 500 (querySelectorAll d sel_class).
Definition getClass (x : Loc) : string := attr (el x) "class".

Definition classHits (re : Regex.RegExp) : nat :=
  List.length (filter (fun x => Regex.test re (getClass x)) classEls).

Definition someClass (re : Regex.RegExp) : bool :=
  existsb (fun x => Regex.test re (getClass x)) classEls.

Definition byId (i : string) : bool := isSome (getElementById d i).

Definition probes : Stack.Probes :=
  {| Stack.hasNext :=
       w_NEXT_DATA w || byId "__next" || exists_ d sel_nextScript
       || exists_ d sel_nextAssets || exists_ d sel_nextHead;
     Stack.webflow := w_Webflow w;
     Stack.framer := exists_ d sel_framer;
     Stack.gatsby := w_gatsby w || byId "___gatsby";
     Stack.nuxt := w_NUXT w || byId "__nuxt";
     Stack.remix := w_remixContext w;
     Stack.astro := exists_ d sel_astro;
     Stack.hugo := exists_ d sel_hugo;
     Stack.sveltekit :=
       exists_ d sel_sveltekit
       || existsb (fun s => Js.includes "__sveltekit" (textContent (el s)))
                  (firstn 30 (querySelectorAll d sel_script));
     Stack.wordpress := exists_ d sel_wordpressMeta || exists_ d sel_wordpressAssets;
     Stack.shopify := w_Shopify w || exists_ d sel_shopify;
     Stack.wix := w_wixBiSession w || exists_ d sel_wix;
     Stack.squarespace :=
       (w_Static w && exists_ d sel_squarespaceScript)
       || exists_ d sel_squarespace;
     Stack.vitepress :=
       byId "VPContent" || exists_ d sel_vitepressDoc
       || exists_ d sel_vitepressScript;
     Stack.vueMarker :=
       exists_ d sel_vue
       || match getElementById d "app" with
          | Some app => hasAttribute (el app) "data-server-rendered"
          | None => false
          end;
     Stack.hasReact := exists_ d sel_react || byId "react-root";
     Stack.angular := exists_ d sel_angular || exists_ d sel_angularScript;
     Stack.tailwindClasses := someClass re_tailwind;
     Stack.bootstrapHits := classHits re_bootstrap;
     Stack.materialUi := someClass re_mui;
     Stack.chakraUi := someClass re_chakra;
     Stack.radix := exists_ d sel_radix;
     Stack.antDesign := someClass re_ant;
     Stack.emotion := exists_ d sel_emotion || (3 <=? classHits re_emotion)%nat;
     Stack.styledComponents :=
       exists_ d sel_styled || (3 <=? classHits re_styled)%nat;
     Stack.cssModules := (3 <=? classHits re_cssModules)%nat;
     Stack.vercel := exists_ d sel_vercel;
     Stack.netlify := exists_ d sel_netlify || exists_ d sel_netlifyMeta;
     Stack.cloudflare := exists_ d sel_cloudflare;
     Stack.awsAmplify := exists_ d sel_amplify;
     Stack.gsap := w_gsap w || exists_ d sel_gsap;
     Stack.lottie := exists_ d sel_lottie;
     Stack.framerMotionMarker := exists_ d sel_framerMotion |}.

Definition detectedStack : list string := Stack.detectedStack probes.

(** *** Pricing, promotion and commerce (lines 864-966) *)

(** Line 864 and the field of line 1665 *)
Definition heroHeightRatio : Q := Hero.heroHeightRatio (viewportHeight w) sections.
Definition hero_height_ratio : Q := Hero.hero_height_ratio (viewportHeight w) sections.

(** [xs.filter(Boolean)] on optional strings *)
Definition truthyOnes (xs : list (option string)) : list string :=
  flat_map (fun x => match x with
                     | Some s => if Js.truthy s then [s] else []
                     | None => []
                     end) xs.

Definition pricingText : string :=
  Js.join " " (truthyOnes ([headline'; subheadline'] ++ map Some ctas)%list).

Definition pricingRegex : Regex.RegExp :=
  ltac:(regexp "(pricing|plans|per month|per year|billing|free trial)" "i").

Definition hasPricingTokens : bool := Regex.test pricingRegex pricingText.

Definition promoRegex : Regex.RegExp :=
  ltac:(regexp "(\d+%\s*off|\bsale\b|\bflash sale\b|\bclearance\b|\bdiscount\b|\bsave\s+\d|\bdeal(s)?\b|\blimited.?time\b|\bends?\s+(today|tonight|soon|in)\b|\blast\s+(day|chance|hours?)\b|\bhurry\b|\bwhile\s+stocks?\s+last\b|\bdouble\b.*\b(sale|offer|deal)\b)" "i").

Definition transactionalCtaRegex : Regex.RegExp :=
  ltac:(regexp "^(shop\s*now|buy\s*now|add\s*to\s*cart|order\s*now|get\s*the\s*deal|grab\s*(it|yours)|shop\s*(all|the\s*sale)|view\s*deal)" "i").

Definition priceRegex : Regex.RegExp :=
  ltac:(regexp "\$\d+|\d+[.,]\d{2}\s*(USD|EUR|GBP|SGD|AUD|MYR|THB|PHP|IDR|VND|HKD|KRW|JPY|INR|BRL|CAD)?|\d+%\s*off" "i").

(** [heroText || ""] *)
Definition allHeroText : string := heroText'.

Definition hasPromoLanguage : bool :=
  Regex.test promoRegex allHeroText
  || Regex.test promoRegex (Js.join " " (truthyOnes [headline'; subheadline'])).

Definition hasTransactionalCta : bool :=
  existsb (fun cta => Regex.test transactionalCtaRegex cta) ctas.

Definition hasPriceDisplay : bool := Regex.test priceRegex allHeroText.

(** [priceElements], [priceCount] (lines 884-890) *)
Definition priceElements : list Loc :=
  filter (fun x =>
            let t := Js.trim (innerText (el x)) in
            (String.length t <? 30)%nat && Regex.test priceRegex t
            && (List.length (children (el x)) =? 0)%nat)
         visibleInHero.

Definition priceCount : nat := List.length priceElements.

Definition timerSelectors : list Selector := [
  ltac:(css "[class*='countdown' i]"); ltac:(css "[id*='countdown' i]");
  ltac:(css "[class*='timer' i]"); ltac:(css "[id*='timer' i]");
  ltac:(css "[class*='clock' i]"); ltac:(css "[data-countdown]")
].

Definition smallTextSelector : Selector := ltac:(css "span, div, p").

Definition clockRegex : Regex.RegExp :=
  ltac:(regexp "\d{1,2}\s*:\s*\d{2}\s*:\s*\d{2}" "").

(** [hasCountdown] (lines 893-907) *)
Definition hasCountdown : bool :=
  existsb (fun sel =>
             match querySelector d sel with
             | Some x => inHero x && isVisible x
             | None => false
             end) timerSelectors
  || existsb (fun x => Regex.test clockRegex (innerText (el x)))
       (filter (fun x => inHero x && isVisible x
                         && (String.length (innerText (el x)) <? 20)%nat)
               (querySelectorAll d smallTextSelector)).

Definition hasPromotionSignals : bool :=
  hasPromoLanguage || (hasTransactionalCta && hasPriceDisplay).

Definition addToCartRegex : Regex.RegExp :=
  ltac:(regexp "^(add\s*to\s*cart|add\s*to\s*bag|add\s*to\s*basket|buy\s*now|shop\s*now|quick\s*add|quick\s*shop)\s*$" "i").

Definition addToCartCount : nat :=
  List.length
    (filter (fun x => Regex.test addToCartRegex (Js.trim (innerText (el x))))
            heroButtons).

Definition productCardSelectors : Selector :=
  ltac:(css "[class*='product' i], [class*='item-card' i], [class*='sku' i], [data-product], [data-sku], [data-item], [class*='card' i]").

Definition imgSelector : Selector := ltac:(css "img").

(** [candidateCards] (lines 924-925) *)
Definition candidateCards : list Loc :=
  filter (fun x => inHero x && isVisible x)
         (querySelectorAll d productCardSelectors).

(** The predicate of [productCardCount] (lines 926-931) *)
Definition isProductCard (card : Loc) : bool :=
  let hasImg := isSome (querySelectorIn imgSelector card) in
  let cardText := Js.trim (innerText (el card)) in
  let hasPrice := Regex.test priceRegex cardText in
  hasImg && hasPrice && (String.length cardText <? 300)%nat.

Definition productCardCount : nat :=
  List.length (filter isProductCard candidateCards).

Definition categoryNavSelectors : Selector :=
  ltac:(css "[class*='category' i], [class*='categories' i], [class*='department' i], [class*='sidebar' i] nav, [class*='sidebar' i] ul, [data-category], nav[class*='shop' i], [class*='browse' i]").

Definition categoryNavElements : list Loc :=
  filter (fun x => inHero x
                   || Qlt_bool (top (rect (el x))) (viewportHeight w))
         (querySelectorAll d categoryNavSelectors).

Definition hasCategoryNav : bool :=
  existsb (fun x => (3 <=? List.length (querySelectorAllIn anchorSelector x))%nat)
          categoryNavElements.

Definition discoveryRegex : Regex.RegExp :=
  ltac:(regexp "\b(new\s*arrivals?|just\s*dropped|trending|best\s*sellers?|most\s*popular|curated|picks?\s*for\s*you|recommended|explore|discover|what'?s\s*new|fresh\s*finds?|editor'?s?\s*choice|top\s*rated)\b" "i").

Definition hasDiscoveryLanguage : bool := Regex.test discoveryRegex allHeroText.

Definition brandCampaignRegex : Regex.RegExp :=
  ltac:(regexp "\b(collection|campaign|introducing|new\s*season|spring|summer|autumn|fall|winter|holiday|launch|collab(oration)?|limited\s*edition|exclusive)\b" "i").

Definition hasBrandCampaignLanguage : bool :=
  Regex.test brandCampaignRegex allHeroText.

Definition trustRegex : Regex.RegExp :=
  ltac:(regexp "\b(free\s*(shipping|delivery|returns?)|money.?back\s*guarantee|satisfaction\s*guaranteed|secure\s*(checkout|payment)|trusted\s*by|verified|authentic|100%\s*(genuine|original)|no\s*risk|easy\s*returns?|customer\s*reviews?|rated\s*\d|stars?\s*rating|\d+[,.]?\d*\+?\s*reviews?)\b" "i").

Definition hasTrustSignals : bool := Regex.test trustRegex allHeroText.

Definition trustBadgeSelectors : Selector :=
  ltac:(css "[class*='trust' i], [class*='badge' i], [class*='guarantee' i], [class*='secure' i], [class*='verified' i], [class*='certification' i]").

Definition trustBadgeCount : nat :=
  List.length (filter (fun x => inHero x && isVisible x)
                      (querySelectorAll d trustBadgeSelectors)).

(** Line 966 *)
Definition isCommerceHero : bool :=
  (2 <=? productCardCount)%nat
  || ((2 <=? addToCartCount)%nat && hasPriceDisplay).

(** *** Showcase and interactive demo (lines 968-1091) *)

Definition canvasSelector : Selector := ltac:(css "canvas").
Definition svgSelector : Selector := ltac:(css "svg").

Definition heroCanvasElements : list Loc :=
  filter (fun x => inHero x && isVisible x) (querySelectorAll d canvasSelector).

Definition hasCanvas : bool := (0 <? List.length heroCanvasElements)%nat.

(** Lines 977-979: the canvases are asked for a WebGL context, one
    after the other, until one has it; [contextsAfter] is what the
    canvases hold afterwards. *)
Definition webglProbe : bool * Canvas.Contexts :=
  Canvas.some (Canvas.hasWebGLContext w) heroCanvasElements contexts.

Definition hasWebGL : bool := fst webglProbe.
Definition contextsAfter : Canvas.Contexts := snd webglProbe.

Definition heroSvgs : list Loc :=
  filter (fun x => inHero x && isVisible x) (querySelectorAll d svgSelector).

Definition largeSvgCount : nat :=
  List.length (filter (fun x => Qgt_bool (width (rect (el x))) 80
                                && Qgt_bool (height (rect (el x))) 80) heroSvgs).

Definition interactiveSelectors : Selector :=
  ltac:(css "[class*='playground' i], [class*='editor' i], [class*='sandbox' i], [class*='codepen' i], [class*='repl' i], [class*='interactive' i], [class*='demo' i]:not(button):not(a), iframe[src*='codepen'], iframe[src*='codesandbox'], iframe[src*='stackblitz'], [contenteditable='true']").

Definition hasInteractiveDemoBase : bool := exists_ d interactiveSelectors.

Definition textInputSelector : Selector :=
  ltac:(css "textarea, input[type='text'], input[type='search'], [contenteditable='true'], [role='textbox']").

Definition heroTextInputs : list Loc :=
  filter (fun x => inFold x && isVisible x) (querySelectorAll d textInputSelector).

Definition hasTextInput : bool := (0 <? List.length heroTextInputs)%nat.

Definition audioSelector : Selector := ltac:(css "audio").

Definition heroAudioElements : list Loc :=
  filter (fun x => inFold x && isVisible x) (querySelectorAll d audioSelector).

Definition hasAudioElement : bool := (0 <? List.length heroAudioElements)%nat.

Definition playButtonRegex : Regex.RegExp :=
  ltac:(regexp "\b(play|listen|preview|sample)\b" "i").
Definition voiceRegex : Regex.RegExp :=
  ltac:(regexp "\b(voice|voices|text to speech|tts)\b" "i").
Definition playWordRegex : Regex.RegExp := ltac:(regexp "\bplay\b" "i").

Definition controlSelector : Selector :=
  ltac:(css "button, a, [role='button'], [tabindex]").

Definition interactiveButtons : list Loc :=
  filter (fun x => inFold x && isVisible x) (querySelectorAll d controlSelector).

Definition hasPlayButton : bool :=
  existsb (fun x =>
             Regex.test playButtonRegex (Js.trim (innerText (el x)))
             || Regex.test playButtonRegex (Js.trim (attr (el x) "aria-label"))
             || Regex.test playButtonRegex (Js.trim (attr (el x) "title")))
          interactiveButtons.

Definition playControlCandidates : list Loc :=
  filter (fun x =>
            Regex.test playWordRegex (className (el x))
            || Regex.test playWordRegex (id (el x))
            || Regex.test playWordRegex (attr (el x) "aria-label")
            || Regex.test playWordRegex (attr (el x) "data-testid")
            || Regex.test playWordRegex (attr (el x) "data-action"))
         interactiveButtons.

Definition hasPlayControl : bool :=
  hasPlayButton || (0 <? List.length playControlCandidates)%nat.

Definition optionSelector : Selector :=
  ltac:(css "[role='listbox'], [role='option'], [role='tablist'], [role='tab'], [data-voice], [class*='voice' i]").

Definition heroOptions : list Loc :=
  filter (fun x => inFold x && isVisible x) (querySelectorAll d optionSelector).

Definition rowSelector : Selector := ltac:(css "div, section, ul, ol").

Definition isFlexRow (x : Loc) : bool :=
  String.eqb (display (style (el x))) "flex"
  && negb (String.eqb (flexDirection (style (el x))) "column").

Definition isGrid (x : Loc) : bool := String.eqb (display (style (el x))) "grid".

Definition rowContainers : list Loc :=
  filter (fun x => (isFlexRow x || isGrid x)
                   && (4 <=? List.length (children (el x)))%nat)
    (filter (fun x => inFold x && isVisible x && negb (inNavOrHeader x)
                      && negb (inFramerNavOrFooter x))
            (querySelectorAll d rowSelector)).

Definition avatarSelector : Selector := ltac:(css "img, svg").
Definition avatarRegex : Regex.RegExp := ltac:(regexp "avatar|voice|speaker" "i").

Definition hasSelectableListFromRows : bool :=
  existsb (fun container =>
             let kids := filter isVisible (childLocs container) in
             if (List.length kids <? 4)%nat then false
             else
               let qualifying :=
                 filter (fun child =>
                           let text := Text.cleanText (innerText (el child)) in
                           let wordCount := Text.wordCount text in
                           let hasAvatar :=
                             isSome (querySelectorIn avatarSelector child)
                             || Regex.test avatarRegex (className (el child)) in
                           hasAvatar && (0 <? wordCount)%nat
                           && (wordCount <=? 4)%nat) kids in
               (4 <=? List.length qualifying)%nat)
          rowContainers.

(** [hasSelectableList] as it stands at line 1074. *)
Definition hasSelectableListAtDemo : bool :=
  (3 <=? List.length heroOptions)%nat || hasSelectableListFromRows.

Definition hasVoiceLanguage : bool := Regex.test voiceRegex allHeroText.

Definition looksLikeAudioDemo : bool :=
  (hasTextInput && (hasSelectableListAtDemo || hasVoiceLanguage
                    || hasPlayControl || hasAudioElement))
  || (hasSelectableListAtDemo && (hasPlayControl || hasAudioElement
                                  || hasVoiceLanguage))
  || (hasPlayControl && hasVoiceLanguage).

(** [hasInteractiveDemo] as it stands at line 1079, which is the value
    [isShowcaseHero] reads. *)
Definition hasInteractiveDemoAtShowcase : bool :=
  hasInteractiveDemoBase || looksLikeAudioDemo.

Definition hasAnimationStack : bool := Stack.hasAnimationStack detectedStack.

Definition showcaseRegex : Regex.RegExp :=
  ltac:(regexp "\b(animate|animation|interactive|playground|demo|experiment|creative|motion|3d|webgl|three\.?js|canvas|generative|immersive|experience)\b" "i").

Definition hasShowcaseLanguage : bool := Regex.test showcaseRegex allHeroText.

(** Lines 1090-1091 *)
Definition isShowcaseHero : bool :=
  (hasAnimationStack || hasCanvas || hasWebGL || hasInteractiveDemoAtShowcase)
  && ((List.length ctas <=? 1)%nat || hasShowcaseLanguage
      || hasInteractiveDemoAtShowcase).

(** *** Error page (lines 1093-1103) *)

Definition errorPageRegex : Regex.RegExp :=
  ltac:(regexp "\b(something went wrong|access denied|blocked|forbidden|error occurred|page not found|404|403|500|502|503|504|service unavailable|temporarily unavailable|try again later|request blocked|security check|verify you are human|captcha|challenge|bot detected|automated access|unusual traffic|reference\s*(error\s*)?(code|id)|cloudflare|akamai|incapsula|distil|datadome|perimeterx)\b" "i").

Definition pageTitle : string := title d.

(** [(document.body?.innerText || "").slice(0, 500)] *)
Definition bodyText : string :=
  Js.take 500 (match body d with Some b => innerText (el b) | None => "" end).

Definition isErrorPage : bool :=
  Regex.test errorPageRegex pageTitle || Regex.test errorPageRegex bodyText
  || Regex.test errorPageRegex allHeroText.

Definition botBlockRegex : Regex.RegExp :=
  ltac:(regexp "access denied|blocked|forbidden|bot detected|automated|unusual traffic|security check|verify you are human|captcha|challenge" "i").
Definition notFoundRegex : Regex.RegExp := ltac:(regexp "404|page not found" "i").
Definition serverErrorRegex : Regex.RegExp :=
  ltac:(regexp "500|502|503|504|service unavailable|temporarily unavailable" "i").

Definition errorPageReason : option string :=
  if isErrorPage then
    Some (if Regex.test botBlockRegex (bodyText ++ pageTitle) then "bot_blocked"
          else if Regex.test notFoundRegex (bodyText ++ pageTitle)
          then "not_found"
          else if Regex.test serverErrorRegex (bodyText ++ pageTitle)
          then "server_error"
          else "unknown_error")
  else None.

(** *** Lists and bullets (lines 1105-1236) *)

Definition legalTextRegex : Regex.RegExp :=
  ltac:(regexp "(user agreement|privacy policy|cookie policy|terms|legal)" "i").
Definition navLinkRegex : Regex.RegExp :=
  ltac:(regexp "(^(top content|people|learning|jobs|games|career|productivity|finance|about|blog|pricing|contact|support|help|resources|docs|changelog|status)$)" "i").

Definition listSelector : Selector := ltac:(css "ul, ol").
Definition liSelector : Selector := ltac:(css "li").
Definition iconSelector : Selector := ltac:(css "svg, img, i, [class*='icon' i]").
Definition dataIconSelector : Selector := ltac:(css "[data-icon]").
Definition blockSelector : Selector := ltac:(css "p, span, div").

Definition listContainers : list Loc :=
  filter (fun l => if negb (inHero l) || negb (isVisible l) then false
                   else if inNavOrHeader l then false else true)
         (querySelectorAll d listSelector).

(** The record built at lines 1135-1147. *)
Record ListItem := {
  li_text : string;
  li_top : Q;
  li_listStyle : string;
  li_hasIcon : bool;
  li_wordCount : nat;
  li_looksLikeLogo : bool;
  li_isLegal : bool;
  li_isNavLink : bool;
  li_inForm : bool;
  li_isJustLink : bool
}.

Definition toListItem (x : Loc) : ListItem :=
  let text := Text.cleanText (innerText (el x)) in
  let wordCount := List.length (filter Js.truthy (Js.splitSpace text)) in
  {| li_text := text;
     li_top := top (rect (el x));
     li_listStyle := listStyleType (style (el x));
     li_hasIcon := isSome (querySelectorIn iconSelector x)
                   || isSome (querySelectorIn dataIconSelector x);
     li_wordCount := wordCount;
     li_looksLikeLogo :=
       (wordCount <=? 2)%nat && isSome (querySelectorIn avatarSelector x)
       && negb (isSome (querySelectorIn blockSelector x));
     li_isLegal := Regex.test legalTextRegex text;
     li_isNavLink := Regex.test navLinkRegex text;
     li_inForm := isSome (closest formSelector x);
     li_isJustLink :=
       (List.length (children (el x)) <=? 1)%nat
       && isSome (querySelectorIn anchorSelector x) && (wordCount <=? 3)%nat |}.

(** [listItems] (lines 1116-1149); each item with its place in the
    array, which tells apart two items with the same content. *)
Definition listItems : list (nat * ListItem) :=
  Cta.indexed
    (flat_map (fun l => map toListItem (querySelectorAllIn liSelector l))
              listContainers).

Definition plainItem (it : ListItem) : bool :=
  negb (li_isLegal it) && negb (li_isNavLink it) && negb (li_inForm it)
  && negb (li_isJustLink it).

Definition interactiveListItems : list (nat * ListItem) :=
  filter (fun p => (2 <=? String.length (li_text (snd p)))%nat)
    (filter (fun p => (0 <? li_wordCount (snd p))%nat
                      && (li_wordCount (snd p) <=? 4)%nat)
       (filter (fun p => plainItem (snd p))
          (filter (fun p => negb (li_looksLikeLogo (snd p)))
             (filter (fun p => li_hasIcon (snd p)) listItems)))).

Definition hasSelectableListFromItems : bool :=
  (4 <=? List.length interactiveListItems)%nat.

(** The final values of [hasSelectableList] and [hasInteractiveDemo]
    (lines 1158-1161) *)
Definition hasSelectableList : bool :=
  hasSelectableListAtDemo || hasSelectableListFromItems.

Definition hasInteractiveDemo : bool :=
  hasInteractiveDemoAtShowcase
  || (hasTextInput && (hasSelectableListFromItems || hasVoiceLanguage)).

(** [interactiveDebug] (lines 1163-1180) *)

Definition interactiveDebug : Fingerprint.InteractiveDebug :=
  {| Fingerprint.has_text_input := hasTextInput;
     Fingerprint.text_input_count := List.length heroTextInputs;
     Fingerprint.has_audio_element := hasAudioElement;
     Fingerprint.audio_count := List.length heroAudioElements;
     Fingerprint.has_play_button := hasPlayButton;
     Fingerprint.has_play_control := hasPlayControl;
     Fingerprint.play_control_candidates := List.length playControlCandidates;
     Fingerprint.selectable_option_count := List.length heroOptions;
     Fingerprint.has_selectable_list := hasSelectableList;
     Fingerprint.row_container_count := List.length rowContainers;
     Fingerprint.has_selectable_list_from_rows := hasSelectableListFromRows;
     Fingerprint.has_selectable_list_from_items := hasSelectableListFromItems;
     Fingerprint.has_voice_language := hasVoiceLanguage;
     Fingerprint.has_interactive_demo_base := hasInteractiveDemoBase;
     Fingerprint.looks_like_audio_demo := looksLikeAudioDemo;
     Fingerprint.debug_has_interactive_demo := hasInteractiveDemo |}.

Definition actionHintRegex : Regex.RegExp :=
  ltac:(regexp "^(no credit|no card|free |cancel anytime|money.back)" "i").
Definition shortActionRegex : Regex.RegExp :=
  ltac:(regexp "^(add|import|see|view|get|try|start|create|set up|install|connect)\b" "i").
Definition letterRegex : Regex.RegExp := ltac:(regexp "[a-zA-Z]" "").

(** [featureListItems] (lines 1187-1200) *)
Definition featureListItems : list (nat * ListItem) :=
  filter (fun p =>
            let item := snd p in
            if Js.truthy (li_listStyle item)
               && negb (String.eqb (li_listStyle item) "none")
            then (4 <=? li_wordCount item)%nat
            else if negb (li_hasIcon item) then false
            else (5 <=? li_wordCount item)%nat)
    (filter (fun p => negb ((li_wordCount (snd p) <? 5)%nat
                            && Regex.test shortActionRegex (li_text (snd p))))
       (filter (fun p => negb (Regex.test actionHintRegex (li_text (snd p))))
          (filter (fun p => plainItem (snd p))
             (filter (fun p => negb (li_looksLikeLogo (snd p)))
                (filter (fun p => Qge_bool (li_top (snd p)) contentTop)
                   (filter (fun p => (20 <=? String.length (li_text (snd p)))%nat
                                     && Regex.test letterRegex (li_text (snd p)))
                           listItems)))))).

Definition bulletCount : nat := List.length featureListItems.

Definition bulletContainerSelector : Selector := ltac:(css "div, section").
Definition bulletIconSelector : Selector :=
  ltac:(css "svg, img, i, [class*='icon' i], [data-icon]").

Definition bulletContainers : list Loc :=
  filter (fun x =>
            if negb (inHero x) || negb (isVisible x) || inNavOrHeader x
            then false
            else (String.eqb (display (style (el x))) "flex" || isGrid x)
                 && (3 <=? List.length (children (el x)))%nat)
         (querySelectorAll d bulletContainerSelector).

(** [virtualBulletCount] (lines 1206-1233) *)
Definition virtualBulletCount : nat :=
  if (bulletCount <? 2)%nat then
    fold_left
      (fun count container =>
         let kids := filter isVisible (childLocs container) in
         if (List.length kids <? 3)%nat then count
         else
           let featureChildren :=
             filter (fun child =>
                       isSome (querySelectorIn bulletIconSelector child)
                       && (4 <=? Text.wordCount
                                   (Text.cleanText (innerText (el child))))%nat)
                    kids in
           if (3 <=? List.length featureChildren)%nat
           then Nat.max count (List.length featureChildren)
           else count)
      bulletContainers O
  else O.

Definition totalBulletCount : nat := (bulletCount + virtualBulletCount)%nat.
Definition totalListsInHero : nat := List.length listContainers.

(** *** Media (lines 1238-1295) *)

Record Media := {
  m_el : Loc;
  m_rect : DOMRect;
  m_area : Q
}.

Definition mediaSelector : Selector := ltac:(css "img, video, svg, canvas, figure").

(** [mediaElements] once [mediaElements.sort(...)] of line 1251 has
    reordered it in place, which is how lines 1254-1256 read it. *)
Definition mediaElements : list Media :=
  Arr.sort (fun a b => m_area b - m_area a)
    (map (fun x => {| m_el := x; m_rect := rect (el x);
                      m_area := width (rect (el x)) * height (rect (el x)) |})
         (filter (fun x => inHero x && isVisible x)
                 (querySelectorAll d mediaSelector))).

Definition largestMedia : option Media := List.hd_error mediaElements.


(** [heroImages] (lines 1254-1270) *)
Definition heroImages : list Fingerprint.HeroImage :=
  map (fun m =>
         let e := el (m_el m) in
         {| Fingerprint.hi_tag := Js.toLowerCase (tagName e);
            Fingerprint.hi_alt :=
              if Js.truthy (alt e) then Some (alt e)
              else if Js.truthy (attr e "aria-label")
              then Some (attr e "aria-label") else None;
            Fingerprint.hi_width := Num.roundQ (width (m_rect m));
            Fingerprint.hi_height := Num.roundQ (height (m_rect m));
            Fingerprint.hi_top := Num.roundQ (top (m_rect m));
            Fingerprint.hi_left := Num.roundQ (left (m_rect m)) |})
      (firstn 10 (filter (fun m => Qgt_bool (m_area m) 400) mediaElements)).

Definition keywordText : string :=
  Js.join " " (truthyOnes [headline'; subheadline']).

Definition dashboardRegex : Regex.RegExp :=
  ltac:(regexp "(dashboard|analytics|reporting|metrics|kpi|overview|insights)" "i").

Definition hasDashboardKeywords : bool := Regex.test dashboardRegex keywordText.

Definition productUiRegex : Regex.RegExp :=
  ltac:(regexp "(dashboard|analytics|report|insight|ui|product|screenshot)" "i").

(** [heroMediaType] (lines 1276-1292) *)
Definition heroMediaType : option string :=
  match largestMedia with
  | Some m =>
      let e := el (m_el m) in
      let heroMediaTag := Js.toLowerCase (tagName e) in
      let mediaLooksLikeProductUi :=
        Regex.test productUiRegex (mediaSource e ++ " " ++ alt e) in
      if Qgt_bool (m_area m)
                  (viewportWidth w * (22 # 100) * viewportHeight w * (22 # 100))
         && (String.eqb heroMediaTag "img" || String.eqb heroMediaTag "video")
         && (mediaLooksLikeProductUi || hasDashboardKeywords)
      then Some "product-ui" else None
  | None => None
  end.

Definition hasDashboardPreview : bool :=
  match heroMediaType with
  | Some t => String.eqb t "product-ui" && hasDashboardKeywords
  | None => false
  end.

(** *** Logos and social proof (lines 1297-1425) *)

Record Logo := {
  lg_width : Q;
  lg_height : Q;
  lg_top : Q;
  lg_left : Q;
  lg_centerY : Q;
  lg_alt : string
}.

Definition toLogo (altText : string) (x : Loc) : Logo :=
  let r := rect (el x) in
  {| lg_width := width r; lg_height := height r; lg_top := top r;
     lg_left := left r; lg_centerY := top r + height r / 2;
     lg_alt := Js.toLowerCase altText |}.

Definition tableSelector : Selector :=
  ltac:(css "table, [role='grid'], [role='row'], [role='cell'], tr, td, th").
Definition iconAltRegex : Regex.RegExp := ltac:(regexp "(icon|favicon)" "i").

Definition logoCandidate : list Logo :=
  filter (fun img => Qgt_bool (lg_width img) 24 && Qlt_bool (lg_width img) 180
                     && Qlt_bool (lg_height img) 80
                     && negb (Regex.test iconAltRegex (lg_alt img)))
    (map (fun x => toLogo (alt (el x)) x)
       (filter (fun x => if negb (inHero x) || negb (isVisible x) then false
                         else negb (isSome (closest tableSelector x)))
               (querySelectorAll d imgSelector))).

Definition controlAncestorSelector : Selector :=
  ltac:(css "button, a[href], [role='button']").
Definition gridAncestorSelector : Selector :=
  ltac:(css "table, [role='grid'], [role='row']").
Definition uiIconRegex : Regex.RegExp :=
  ltac:(regexp "(icon|favicon|arrow|chevron|check|close|menu|hamburger)" "i").

Definition svgLogoCandidates : list Logo :=
  filter (fun svg => Qgt_bool (lg_width svg) 24 && Qlt_bool (lg_width svg) 180
                     && Qgt_bool (lg_height svg) 10
                     && Qlt_bool (lg_height svg) 80
                     && negb (Regex.test uiIconRegex (lg_alt svg)))
    (map (fun x => toLogo (attr (el x) "aria-label") x)
       (filter (fun x =>
                  if negb (inHero x) || negb (isVisible x) then false
                  else if inNavOrHeader x then false
                  else if isSome (closest controlAncestorSelector x) then false
                  else negb (isSome (closest gridAncestorSelector x)))
               (querySelectorAll d svgSelector))).

Definition allLogoCandidates : list Logo :=
  (logoCandidate ++ svgLogoCandidates)%list.

(** The inner loop of lines 1368-1371: the items from the start of
    [l] whose centre is within 25px of [rowY], and the rest. *)
Fixpoint takeRow (rowY : Q) (l : list Logo) : list Logo * list Logo :=
  match l with
  | [] => ([], [])
  | x :: rest =>
      if Qlt_bool (Qabs (lg_centerY x - rowY)) 25 then
        let '(row, others) := takeRow rowY rest in (x :: row, others)
      else ([], l)
  end.

Definition minLeft (row : list Logo) : Q :=
  match row with
  | [] => 0
  | x :: rest => fold_left (fun m y => Qmin m (lg_left y)) rest (lg_left x)
  end.

Definition maxLeft (row : list Logo) : Q :=
  match row with
  | [] => 0
  | x :: rest => fold_left (fun m y => Qmax m (lg_left y)) rest (lg_left x)
  end.

(** The outer loop of lines 1364-1381; every turn takes at least the
    first item, so the length of the list bounds the turns. *)
Fixpoint logoRows (fuel : nat) (sorted : list Logo) (logoRowCount : nat) : nat :=
  match fuel, sorted with
  | S fuel', first :: _ =>
      let '(rowItems, others) := takeRow (lg_centerY first) sorted in
      let count :=
        if (3 <=? List.length rowItems)%nat
           && Qgt_bool (maxLeft rowItems - minLeft rowItems) 200
        then Nat.max logoRowCount (List.length rowItems)
        else logoRowCount in
      logoRows fuel' others count
  | _, _ => logoRowCount
  end.

Definition logoRowsByPosition : nat :=
  if (3 <=? List.length allLogoCandidates)%nat then
    let sorted :=
      Arr.sort (fun a b => lg_centerY a - lg_centerY b) allLogoCandidates in
    logoRows (List.length sorted) sorted O
  else O.

Definition logoContainerSelector : Selector := ltac:(css "div, section, ul").

Definition logoContainers : list Loc :=
  filter (fun x =>
            if negb (inHero x) || negb (isVisible x) || inNavOrHeader x
            then false
            else isFlexRow x || isGrid x)
         (querySelectorAll d logoContainerSelector).

(** [logoRowCount] after lines 1386-1407 *)
Definition logoRowCount : nat :=
  if (logoRowsByPosition <? 3)%nat then
    fold_left
      (fun count container =>
         let mediaChildren :=
           filter (fun child =>
                     if negb (isVisible child) then false
                     else
                       let hasMedia :=
                         isSome (querySelectorIn avatarSelector child)
                         || String.eqb (tagName (el child)) "IMG"
                         || String.eqb (tagName (el child)) "svg" in
                       hasMedia
                       && Qlt_bool (width (rect (el child))) 200
                       && Qlt_bool (height (rect (el child))) 100)
                  (childLocs container) in
         if (3 <=? List.length mediaChildren)%nat
         then Nat.max count (List.length mediaChildren) else count)
      logoContainers logoRowsByPosition
  else logoRowsByPosition.

Definition logoCount : nat :=
  if (0 <? logoRowCount)%nat then logoRowCount
  else List.length allLogoCandidates.

Definition socialProofRegex : Regex.RegExp :=
  ltac:(regexp "(trusted by|loved by|used by|chosen by|powering|backed by|as seen in|as seen on|featured in|featured on|customers include|partners include|join\s+\d|rated\s+\d|\d[\d,.\s]*\+?\s*(users|teams|companies|businesses|organizations|brands|developers|customers)|(over|more than)\s+\d[\d,.\s]*\s*(users|teams|companies|businesses|organizations|brands|developers|customers)|\d+\s*\+?\s*(customers|teams|companies)\s*(trust|use|love|rely))" "i").

Definition hasSocialProofText : bool := Regex.test socialProofRegex heroText'.
Definition hasLogoRow : bool := (3 <=? logoRowCount)%nat.
Definition hasSocialProof : bool := hasSocialProofText || hasLogoRow.

Definition metricsRegex : Regex.RegExp :=
  ltac:(regexp "(\$\s?\d|\b\d{1,3}(?:[.,]\d{3})*(?:k|m|b)?\b|%)" "i").

Definition metricsVisible : bool := Regex.test metricsRegex heroText'.

Definition leftCopyRightMedia : bool :=
  String.eqb layout "split"
  && match largestMedia with
     | Some m => Qgt_bool (left (m_rect m)) (viewportWidth w * (5 # 10))
     | None => false
     end.

(** *** Theme of the hero (lines 1572-1648) *)

(** Lines 1583-1589: the element under a point left of the middle of
    the headline, where there is most likely background and no text. *)
Definition sampledElement : option Loc :=
  match headlineEl', headlineRect with
  | Some _, Some hRect =>
      let sampleX := Qmax 10 (left hRect - 30) in
      let sampleY := Qmax 10 (top hRect + height hRect / 2) in
      match elementFromPoint d sampleX sampleY with
      | Some p => locate d p
      | None => None
      end
  | _, _ => None
  end.

(** [darkThemeResult]: the walk up from the sampled element. *)
Definition darkThemeResult : Theme.DarkTheme :=
  match headlineEl', sampledElement with
  | Some hEl, Some start => Theme.sample start (color (style (el hEl)))
  | _, _ => Theme.noTheme
  end.

Definition darkThemeHero : bool := Theme.is_dark darkThemeResult.

(** *** The result (lines 1650-1741) *)

(** [headline || largestText] *)
Definition resolvedHeadline : option string :=
  if isTruthy headline' then headline' else largestText.

Definition headlineWordCount : nat :=
  match resolvedHeadline with
  | Some s => if Js.truthy s then List.length (Js.words s) else O
  | None => O
  end.

Definition isCopyOnly : bool :=
  isTruthy resolvedHeadline && (3 <=? headlineWordCount)%nat
  && (List.length ctas =? 0)%nat && negb (isTruthy heroMediaType).

(** [featureListItems.includes(item)]: the same object, that is the
    same place in [listItems]. *)
Definition isFeatureItem (p : nat * ListItem) : bool :=
  existsb (fun q => (fst q =? fst p)%nat) featureListItems.

Definition listItemsRaw : list Fingerprint.RawItem :=
  map (fun p => {| Fingerprint.raw_text := li_text (snd p);
                   Fingerprint.raw_wordCount := li_wordCount (snd p) |})
      (firstn 20
         (featureListItems
          ++ filter (fun p => negb (isFeatureItem p)
                              && negb (li_looksLikeLogo (snd p))
                              && negb (li_isLegal (snd p))
                              && negb (li_isNavLink (snd p))
                              && negb (li_isJustLink (snd p)))
                    listItems)%list).

(** The object built at lines 1662-1741. *)
Definition fingerprint : Fingerprint.t :=
  {| Fingerprint.layout := layout;
     Fingerprint.alignment := alignment;
     Fingerprint.hero_height_ratio := hero_height_ratio;
     Fingerprint.headline := resolvedHeadline;
     Fingerprint.subheadline := subheadline';
     Fingerprint.headline_word_count := headlineWordCount;
     Fingerprint.cta_count := List.length ctas;
     Fingerprint.primary_cta_text := primaryCta;
     Fingerprint.ctas := ctas;
     Fingerprint.cta_details := ctaDetails;
     Fingerprint.has_form := (0 <? List.length forms)%nat;
     Fingerprint.form_fields_count := formFields;
     Fingerprint.has_email_only := hasEmailOnly;
     Fingerprint.has_password_field := hasPasswordField;
     Fingerprint.has_oauth := hasOAuth;
     Fingerprint.grid_cards_in_fold := maxChildren;
     Fingerprint.has_filters := hasFilters;
     Fingerprint.detected_stack := detectedStack;
     Fingerprint.page_text := heroText';
     Fingerprint.has_pricing_tokens := hasPricingTokens;
     Fingerprint.has_promotion_signals := hasPromotionSignals;
     Fingerprint.has_promo_language := hasPromoLanguage;
     Fingerprint.has_transactional_cta := hasTransactionalCta;
     Fingerprint.has_price_display := hasPriceDisplay;
     Fingerprint.price_count := priceCount;
     Fingerprint.has_countdown := hasCountdown;
     Fingerprint.add_to_cart_count := addToCartCount;
     Fingerprint.product_card_count := productCardCount;
     Fingerprint.has_category_nav := hasCategoryNav;
     Fingerprint.has_discovery_language := hasDiscoveryLanguage;
     Fingerprint.has_brand_campaign_language := hasBrandCampaignLanguage;
     Fingerprint.has_trust_signals := hasTrustSignals;
     Fingerprint.trust_badge_count := trustBadgeCount;
     Fingerprint.is_commerce_hero := isCommerceHero;
     Fingerprint.has_canvas := hasCanvas;
     Fingerprint.has_webgl := hasWebGL;
     Fingerprint.large_svg_count := largeSvgCount;
     Fingerprint.has_interactive_demo := hasInteractiveDemo;
     Fingerprint.has_animation_stack := hasAnimationStack;
     Fingerprint.has_showcase_language := hasShowcaseLanguage;
     Fingerprint.is_showcase_hero := isShowcaseHero;
     Fingerprint.is_error_page := isErrorPage;
     Fingerprint.error_page_reason := errorPageReason;
     Fingerprint.bullet_count := totalBulletCount;
     Fingerprint.feature_bullet_count := totalBulletCount;
     Fingerprint.has_feature_bullets := (2 <=? totalBulletCount)%nat;
     Fingerprint.total_lists_in_hero := totalListsInHero;
     Fingerprint.has_dashboard_preview := hasDashboardPreview;
     Fingerprint.has_dashboard_keywords := hasDashboardKeywords;
     Fingerprint.has_social_proof := hasSocialProof;
     Fingerprint.logo_count := logoCount;
     Fingerprint.left_copy_right_media := leftCopyRightMedia;
     Fingerprint.dark_theme_hero := darkThemeHero;
     Fingerprint.hero_bg := Theme.hero_bg darkThemeResult;
     Fingerprint.hero_bg_gradient := Theme.hero_bg_gradient darkThemeResult;
     Fingerprint.hero_bg_color_name := Theme.hero_bg_color_name darkThemeResult;
     Fingerprint.hero_bg_gradient_tag := Theme.hero_bg_gradient_tag darkThemeResult;
     Fingerprint.hero_text_color := Theme.hero_text_color darkThemeResult;
     Fingerprint.hero_bg_sampled_from := Theme.sampled_element darkThemeResult;
     Fingerprint.hero_media_type := heroMediaType;
     Fingerprint.hero_images := heroImages;
     Fingerprint.hero_image_count := List.length heroImages;
     Fingerprint.metrics_visible := metricsVisible;
     Fingerprint.is_copy_only := isCopyOnly;
     Fingerprint.interactive_debug := interactiveDebug;
     Fingerprint.list_items_raw := listItemsRaw |}.

End Subheadline.
End Ctas.
End HeroText.
End Headline.
End Candidates.
End TextNodes.

(** *** The extractor

    The values of lines 136-593 that the later stages read, computed
    in the order of the source, each once. *)
Record Stages := {
  s_heroTextNodes : list Loc;
  s_candidates : list TextCandidate;
  s_headline : option string;
  s_headlineEl : option Loc;
  s_heroText : string;
  s_heroCtaCandidates : list Cta.Candidate;
  s_subheadline : option string
}.

Definition stages : Stages :=
  let heroTextNodes' := heroTextNodes in
  let candidates' := candidates heroTextNodes' in
  let state := headlineState heroTextNodes' candidates' in
  let headlineEl' := snd state in
  let heroCtaCandidates' := heroCtaCandidates headlineEl' in
  {| s_heroTextNodes := heroTextNodes';
     s_candidates := candidates';
     s_headline := fst state;
     s_headlineEl := headlineEl';
     s_heroText := heroText heroTextNodes' headlineEl';
     s_heroCtaCandidates := heroCtaCandidates';
     s_subheadline :=
       subheadline heroTextNodes' headlineEl' heroCtaCandidates' |}.

(** [extractFingerprint] *)
Definition extractFingerprint : Fingerprint.t :=
  let s := stages in
  fingerprint (s_heroTextNodes s) (s_candidates s) (s_headline s)
    (s_headlineEl s) (s_heroText s) (s_heroCtaCandidates s)
    (s_subheadline s).

(** A run of the extractor: the result, and the contexts the canvases
    hold after it. *)
Definition run : Fingerprint.t * Canvas.Contexts :=
  (extractFingerprint, contextsAfter).

End Run.

End Extract.
(** * The statements of the specification, in its own words *)

#[local] Open Scope string_scope.

(** The positional filter as the specification words it: with a
    headline box, the top edge within [headlineTop - 40,
    headlineBottom + 420], less the candidates in the bottom 20% of the
    viewport that are far from the headline; without one, everything. *)
Definition spec_inHeroBand (viewportHeight : Q)
    (headlineRect : option Dom.DOMRect) (c : Cta.Candidate) : Prop :=
  match headlineRect with
  | None => True
  | Some hr =>
      (Dom.top hr - 40 <= Cta.top c /\ Cta.top c <= Dom.bottom hr + 420)
      /\ ~ (viewportHeight * (8 # 10) < Cta.top c
            /\ Dom.bottom hr + 420 < Cta.top c)
  end.


(** The markup that makes an element a product-card candidate: a class
    that contains, in any case, "product", "item-card", "sku" or
    "card", or one of the attributes [data-product], [data-sku] and
    [data-item]. *)
Definition spec_cardMarkup (e : Dom.Element) : bool :=
  let cls := Js.toLowerCase (Dom.attr e "class") in
  Js.includes "product" cls || Js.includes "item-card" cls
  || Js.includes "sku" cls || Js.includes "card" cls
  || Dom.hasAttribute e "data-product" || Dom.hasAttribute e "data-sku"
  || Dom.hasAttribute e "data-item".

(** An element that contains an image and a price string and whose
    text is under 300 characters. *)
Definition spec_cardLike (x : Dom.Loc) : bool :=
  existsb (fun y => String.eqb "img" (Dom.localName (Dom.el y)))
          (Dom.descendants x)
  && Regex.test Extract.priceRegex (Js.trim (Dom.innerText (Dom.el x)))
  && (String.length (Js.trim (Dom.innerText (Dom.el x))) <? 300)%nat.

(** A product card: a card-like element with the markup of a card,
    visible and in the hero. *)
Definition spec_productCard (d : Dom.Document) (w : Window) (x : Dom.Loc)
  : bool :=
  Extract.inHero d w x && Extract.isVisible x
  && spec_cardMarkup (Dom.el x) && spec_cardLike x.

(** *** The dark theme

    The luminance of the specification,
    [(0.2126 r + 0.7152 g + 0.0722 b) / 255], as JavaScript evaluates
    it: on doubles, from left to right. *)
Definition spec_luminance (r g b : Num.Num) : Double.t :=
  Double.div
    (Double.add
       (Double.add (Double.mul (Double.ofQ (2126 # 10000)) (Double.ofNum r))
                   (Double.mul (Double.ofQ (7152 # 10000)) (Double.ofNum g)))
       (Double.mul (Double.ofQ (722 # 10000)) (Double.ofNum b)))
    (Double.ofQ 255).

(** The channels of the text colour of the headline: the three numbers
    of the first [rgb(r, g, b] or [rgba(r, g, b] written in it, and
    those of black when none is written. *)
Definition spec_textChannels (textColor : string)
  : Num.Num * Num.Num * Num.Num :=
  match Regex.exec Theme.textChannelRegex textColor with
  | Some m =>
      (Theme.groupNumber 1 m, Theme.groupNumber 2 m, Theme.groupNumber 3 m)
  | None => (Some 0, Some 0, Some 0)
  end.

Definition spec_textLuminance (textColor : string) : Double.t :=
  let '(tr, tg, tb) := spec_textChannels textColor in
  spec_luminance tr tg tb.

(** *** The empty page

    A page whose content container has no children: [html] holds
    [head] and [body], none of the three carries an attribute, [body]
    has no child element, and the elements of [head] have no child
    elements and no box in the viewport (they are not rendered, so
    their box is all zero). *)
Definition noAttributes (e : Dom.Element) : bool :=
  match Dom.attributes e with [] => true | _ => false end.

Definition noChildren (e : Dom.Element) : bool :=
  match Dom.children e with [] => true | _ => false end.

(** The bottom edge of the box is not below the top of the viewport. *)
Definition offScreen (e : Dom.Element) : bool :=
  Qle_bool (Dom.bottom (Dom.rect e)) 0.

Definition isEmptyPage (d : Dom.Document) : bool :=
  let html := Dom.documentElement d in
  String.eqb (Dom.tagName html) "HTML" && noAttributes html
  && match Dom.children html with
     | [head; body] =>
         String.eqb (Dom.tagName head) "HEAD" && noAttributes head
         && forallb (fun c => noChildren c && offScreen c) (Dom.children head)
         && String.eqb (Dom.tagName body) "BODY" && noAttributes body
         && noChildren body
     | _ => false
     end.

(** [html], [head] or [body], without attributes. *)
Definition bare (e : Dom.Element) : bool :=
  Js.arrayIncludes ["html"; "head"; "body"] (Js.toLowerCase (Dom.tagName e))
  && noAttributes e.

(** A compound that [html], [head] and [body] without attributes do
    not match: it names another type, or asks for an id, a class or an
    attribute. *)
Definition needsMarkup (c : Dom.Compound) : bool :=
  match Dom.c_type c with
  | Some t =>
      negb (Js.arrayIncludes ["html"; "head"; "body"] (Js.toLowerCase t))
  | None => false
  end
  || match Dom.c_id c with Some _ => true | None => false end
  || match Dom.c_classes c with [] => false | _ => true end
  || match Dom.c_attrs c with [] => false | _ => true end.

Definition selectorNeedsMarkup (s : Dom.Selector) : bool :=
  forallb (fun cx => match rev cx with
                     | last :: _ => needsMarkup last
                     | [] => true
                     end) s.

(** The flags of the result that are read from the elements of the
    hero and from its text. *)
Definition heroFlags (fp : Fingerprint.t) : list bool :=
  [Fingerprint.has_form fp; Fingerprint.has_email_only fp;
   Fingerprint.has_password_field fp; Fingerprint.has_pricing_tokens fp;
   Fingerprint.has_promotion_signals fp; Fingerprint.has_promo_language fp;
   Fingerprint.has_transactional_cta fp; Fingerprint.has_price_display fp;
   Fingerprint.has_countdown fp; Fingerprint.has_category_nav fp;
   Fingerprint.has_discovery_language fp;
   Fingerprint.has_brand_campaign_language fp;
   Fingerprint.has_trust_signals fp; Fingerprint.is_commerce_hero fp;
   Fingerprint.has_canvas fp; Fingerprint.has_webgl fp;
   Fingerprint.has_showcase_language fp; Fingerprint.has_feature_bullets fp;
   Fingerprint.has_dashboard_preview fp; Fingerprint.has_dashboard_keywords fp;
   Fingerprint.has_social_proof fp; Fingerprint.left_copy_right_media fp;
   Fingerprint.dark_theme_hero fp; Fingerprint.metrics_visible fp;
   Fingerprint.is_copy_only fp].

(** The flags that are read from the whole page, its title and the
    globals of the window. *)
Definition pageFlags (fp : Fingerprint.t) : list bool :=
  [Fingerprint.has_oauth fp; Fingerprint.has_filters fp;
   Fingerprint.has_interactive_demo fp; Fingerprint.has_animation_stack fp;
   Fingerprint.is_showcase_hero fp; Fingerprint.is_error_page fp].

#[local] Close Scope string_scope.
(** * Concrete inputs used by the examples below *)

Definition far : Hero.HeroSection :=
  {| Hero.top := 2000; Hero.height := 100; Hero.bottom := 2100 |}.
Definition hero : Hero.HeroSection :=
  {| Hero.top := 0; Hero.height := 950; Hero.bottom := 950 |}.
Definition short : Hero.HeroSection :=
  {| Hero.top := 0; Hero.height := 500; Hero.bottom := 500 |}.


Definition link (t : string) (y x : Q) : Cta.Candidate :=
  {| Cta.text := t; Cta.top := y; Cta.left := x; Cta.area := 4000;
     Cta.isButton := false |}.

Definition learnMore : Cta.Candidate := link "Learn more" 400 100.
Definition viewPricing : Cta.Candidate := link "View pricing" 400 300.
Definition contactSales : Cta.Candidate := link "Contact sales" 400 300.
Definition signUpGoogle : Cta.Candidate := link "Sign up with Google" 400 300.

(** A candidate 100px from the top of the page, and a headline box
    spanning 100px to 150px. *)
Definition earlyCta : Cta.Candidate := link "Get started" 110 100.
Definition topHeadline : Dom.DOMRect :=
  {| Dom.top := 100; Dom.left := 100; Dom.width := 600; Dom.height := 50 |}.

(** A block-level element with default styles. *)
Definition plainStyle : Dom.Style :=
  {| Dom.display := "block"; Dom.visibility := "visible"; Dom.opacity := "1";
     Dom.position := "static"; Dom.fontSize := "16px";
     Dom.textAlign := "start"; Dom.flexDirection := "row";
     Dom.listStyleType := "disc"; Dom.color := "rgb(0, 0, 0)";
     Dom.backgroundColor := "rgba(0, 0, 0, 0)";
     Dom.backgroundImage := "none" |}.

(** The style of an element that is not rendered. *)
Definition hidden : Dom.Style :=
  {| Dom.display := "none"; Dom.visibility := "visible"; Dom.opacity := "1";
     Dom.position := "static"; Dom.fontSize := "16px";
     Dom.textAlign := "start"; Dom.flexDirection := "row";
     Dom.listStyleType := "disc"; Dom.color := "rgb(0, 0, 0)";
     Dom.backgroundColor := "rgba(0, 0, 0, 0)";
     Dom.backgroundImage := "none" |}.

Definition box (y x wd ht : Q) : Dom.DOMRect :=
  {| Dom.top := y; Dom.left := x; Dom.width := wd; Dom.height := ht |}.

(** The HTML element whose [tagName] is [tag]. *)
Definition elem (tag : string) (attrs : list (string * string))
    (r : Dom.DOMRect) (st : Dom.Style) (text : string)
    (kids : list Dom.Node) : Dom.Element :=
  {| Dom.namespace := Dom.HtmlNs; Dom.localName := Js.toLowerCase tag;
     Dom.attributes := attrs; Dom.rect := r;
     Dom.style := st; Dom.innerText := text; Dom.value := "";
     Dom.mediaSource := ""; Dom.childNodes := kids |}.

Definition painted (bg fg : string) : Dom.Style :=
  {| Dom.display := "block"; Dom.visibility := "visible"; Dom.opacity := "1";
     Dom.position := "static"; Dom.fontSize := "48px";
     Dom.textAlign := "start"; Dom.flexDirection := "row";
     Dom.listStyleType := "disc"; Dom.color := fg;
     Dom.backgroundColor := bg; Dom.backgroundImage := "none" |}.

(** A hero section painted [bg], found at the sample point. *)
Definition heroOn (bg fg : string) : Dom.Loc :=
  {| Dom.el := elem "SECTION" [] (box 0 0 1440 800) (painted bg fg) "" [];
     Dom.up := []; Dom.path := [] |}.


(** ** Pages *)

#[local] Open Scope string_scope.

(** A desktop window without framework globals, in a browser with
    WebGL. *)
Definition desktop : Window :=
  {| innerHeight := 800; innerWidth := 1280;
     w_NEXT_DATA := false; w_Webflow := false; w_gatsby := false;
     w_NUXT := false; w_remixContext := false; w_Shopify := false;
     w_wixBiSession := false; w_Static := false; w_gsap := false;
     webgl2Available := true; webglAvailable := true |}.

(** No canvas has a context yet. *)
Definition fresh : Canvas.Contexts := fun _ => Canvas.NoContext.

Definition textOf (tag : string) (r : Dom.DOMRect) (t : string) : Dom.Node :=
  Dom.ElementNode (elem tag [] r plainStyle t [Dom.TextNode t]).

(** A page whose [head] holds [headKids] and whose [body] holds [kids]
    and reads [text]. *)
Definition page (t : string) (headKids : list Dom.Node) (text : string)
    (kids : list Dom.Node) : Dom.Document :=
  {| Dom.title := t;
     Dom.documentElement :=
       elem "HTML" [] (box 0 0 1280 800) plainStyle text
         [Dom.ElementNode
            (elem "HEAD" [] (box 0 0 0 0) hidden "" headKids);
          Dom.ElementNode
            (elem "BODY" [] (box 0 0 1280 800) plainStyle text kids)];
     Dom.elementFromPoint := fun _ _ => None |}.

Definition blurb : string :=
  Js.join " " (repeat "Hand-thrown stoneware, fired in small batches." 8).

(** A tile of a shop front: a picture, a name and a price. *)
Definition tile (attrs : list (string * string)) (x : Q) (name price : string)
  : Dom.Node :=
  Dom.ElementNode
    (elem "DIV" attrs (box 360 x 240 300) plainStyle (name ++ " " ++ price)
       [Dom.ElementNode
          (elem "IMG" [("src", "/img/item.jpg"); ("alt", name)]
                (box 360 x 240 240) plainStyle "" []);
        textOf "SPAN" (box 610 x 120 20) name;
        Dom.TextNode " ";
        textOf "SPAN" (box 610 (x + 180) 60 20) price]).

Definition shopText : string :=
  "Tableware for everyday " ++ blurb ++ " Mug $12 Bowl $18 Plate $24".

(** A shop front with three tiles that carry the attributes [attrs]. *)
Definition shop (attrs : list (string * string)) : Dom.Document :=
  page "Kiln & Co" [] shopText
    [Dom.ElementNode
       (elem "SECTION" [] (box 0 0 1280 700) plainStyle shopText
          [textOf "H1" (box 80 80 800 60) "Tableware for everyday";
           textOf "P" (box 160 80 800 120) blurb;
           tile attrs 80 "Mug" "$12";
           tile attrs 400 "Bowl" "$18";
           tile attrs 720 "Plate" "$24"])].

(** An element of [head]: not rendered. *)
Definition meta (tag : string) (attrs : list (string * string)) : Dom.Node :=
  Dom.ElementNode (elem tag attrs (box 0 0 0 0) hidden "" []).

(** A page with nothing in [body]: the answer of a server that
    refuses the request. *)
Definition refused : Dom.Document :=
  page "403 Forbidden" [meta "TITLE" []] "" [].

(** A page with nothing in [body] yet, whose [head] loads an animation
    library. *)
Definition splash : Dom.Document :=
  page "Acme"
    [meta "TITLE" []; meta "META" [("charset", "utf-8")];
     meta "SCRIPT" [("src", "https://cdn.example.com/gsap.min.js")]]
    "" [].

(** A landing page: a section painted [bg] that holds a heading in
    [fg]; the point left of the heading is on the section. *)
Definition landingHeading (fg : string) : Dom.Element :=
  elem "H1" [] (box 200 120 720 60) (painted "rgba(0, 0, 0, 0)" fg)
       "Ship your next release without the late nights"
       [Dom.TextNode "Ship your next release without the late nights"].

Definition landingSection (bg fg : string) : Dom.Element :=
  elem "SECTION" [] (box 0 0 1280 700) (painted bg fg)
       "Ship your next release without the late nights"
       [Dom.ElementNode (landingHeading fg)].

Definition landing (bg fg : string) : Dom.Document :=
  let text := "Ship your next release without the late nights" in
  {| Dom.title := "Acme";
     Dom.documentElement :=
       elem "HTML" [] (box 0 0 1280 800) plainStyle text
         [Dom.ElementNode (elem "HEAD" [] (box 0 0 0 0) hidden "" []);
          Dom.ElementNode
            (elem "BODY" [] (box 0 0 1280 800) plainStyle text
               [Dom.ElementNode (landingSection bg fg)])];
     Dom.elementFromPoint := fun _ _ => Some [0; 1]%nat |}.

(** A page whose heading shows three words and holds forty more in a
    child that is not rendered, as headings do that carry text for
    screen readers or a collapsed disclaimer. *)
Definition smallPrint : string := Js.join " " (repeat "terms" 40).

Definition overlongHeading : Dom.Element :=
  elem "H1" [] (box 200 120 720 60)
       (painted "rgba(0, 0, 0, 0)" "rgb(0, 0, 0)")
       "Build and ship."
       [Dom.TextNode "Build and ship. ";
        Dom.ElementNode
          (elem "SPAN" [] (box 0 0 0 0) hidden smallPrint
                [Dom.TextNode smallPrint])].

Definition overlong : Dom.Document :=
  page "Acme" [] "Build and ship."
       [Dom.ElementNode
          (elem "SECTION" [] (box 0 0 1280 700) plainStyle "Build and ship."
                [Dom.ElementNode overlongHeading])].

#[local] Close Scope string_scope.

(** * Predicates the further properties are stated with *)

#[local] Open Scope string_scope.

(** White space occurs in the text only as a single space that has a
    character other than white space after it. *)
Fixpoint singleSpaced (s : string) : bool :=
  match s with
  | EmptyString => true
  | String c s' =>
      (if Js.isWhiteSpace c
       then (Js.code c =? 32)%nat && negb (Js.isEmpty s')
            && negb (Js.startsWithWs s')
       else true)
      && singleSpaced s'
  end.

(** White space occurs only as a space with no white space after it;
    the text may still start or end with such a space. *)
Fixpoint spaced (s : string) : bool :=
  match s with
  | EmptyString => true
  | String c s' =>
      (if Js.isWhiteSpace c
       then (Js.code c =? 32)%nat && negb (Js.startsWithWs s')
       else true)
      && spaced s'
  end.

(** A text in normal form: no white space at either end, and single
    spaces between its words. *)
Definition normalised (s : string) : bool :=
  negb (Js.startsWithWs s) && singleSpaced s.

(** No white space in the text. *)
Fixpoint noWs (s : string) : bool :=
  match s with
  | EmptyString => true
  | String c s' => negb (Js.isWhiteSpace c) && noWs s'
  end.

(** A word: not empty, no white space in it. *)
Definition solid (s : string) : bool := Js.truthy s && noWs s.

(** A text a headline may be: in normal form, and of at most 30
    words. *)
Definition headlineLike (t : string) : Prop :=
  normalised t = true /\ (Text.wordCount t <= 30)%nat.

(** What holds of [headline] and [headlineEl] at every point after
    line 243: the text is headline-like, a text that is not empty has
    its element, and the element is one of the hero text nodes. *)
Definition headlineInvariant (heroTextNodes : list Dom.Loc)
    (st : option string * option Dom.Loc) : Prop :=
  match fst st with
  | Some t => headlineLike t /\ (Js.truthy t = true -> snd st <> None)
  | None => True
  end
  /\ match snd st with
     | Some h => In h heroTextNodes
     | None => True
     end.

(** The order the comparison function of lines 399-409 sets between
    two candidates before it looks at distances, areas and offsets:
    an OAuth shortcut after the others, then a button before a link,
    then the higher priority tier first. *)
Definition mayPrecede (a b : Cta.Candidate) : bool :=
  if negb (Bool.eqb (Cta.isOAuth a) (Cta.isOAuth b)) then Cta.isOAuth b
  else if negb (Bool.eqb (Cta.isButton a) (Cta.isButton b))
  then Cta.isButton a
  else (Cta.ctaPriority (Cta.text b) <=? Cta.ctaPriority (Cta.text a))%Z.

(** The tags of the stack detection in the order of their statements,
    each with the condition on the probes under which the statement
    pushes it: for the three statements that read the array, the tags
    they look for are replaced by the probes that push those tags. *)
Definition stackTable (p : Stack.Probes) : list (bool * string) := [
  (Stack.hasNext p, "nextjs");
  (Stack.webflow p, "webflow");
  (Stack.framer p, "framer");
  (Stack.gatsby p, "gatsby");
  (Stack.nuxt p, "nuxt");
  (Stack.remix p, "remix");
  (Stack.astro p, "astro");
  (Stack.hugo p, "hugo");
  (Stack.sveltekit p, "sveltekit");
  (Stack.wordpress p, "wordpress");
  (Stack.shopify p, "shopify");
  (Stack.wix p, "wix");
  (Stack.squarespace p, "squarespace");
  (Stack.vitepress p, "vitepress");
  (negb (Stack.nuxt p) && negb (Stack.vitepress p) && Stack.vueMarker p,
   "vue");
  (negb (Stack.hasNext p) && negb (Stack.gatsby p) && negb (Stack.remix p)
   && Stack.hasReact p, "react");
  (Stack.angular p, "angular");
  (Stack.tailwindClasses p, "tailwind");
  ((3 <=? Stack.bootstrapHits p)%nat, "bootstrap");
  (Stack.materialUi p, "material-ui");
  (Stack.chakraUi p, "chakra-ui");
  (Stack.radix p, "radix");
  (Stack.antDesign p, "ant-design");
  (Stack.emotion p, "emotion");
  (Stack.styledComponents p, "styled-components");
  (Stack.cssModules p, "css-modules");
  (Stack.vercel p, "vercel");
  (Stack.netlify p, "netlify");
  (Stack.cloudflare p, "cloudflare");
  (Stack.awsAmplify p, "aws-amplify");
  (Stack.gsap p, "gsap");
  (Stack.lottie p, "lottie");
  (negb (Stack.framer p) && Stack.framerMotionMarker p, "framer-motion")
].

(** The tags of the entries whose condition holds, in order. *)
Definition emit (table : list (bool * string)) : list string :=
  flat_map (fun e : bool * string => if fst e then [snd e] else []) table.

(** A rule list and a table agree from the array [st] on: every rule
    has the tag of its entry, and its guard, on the array as the rules
    before it leave it, is the condition of the entry. *)
Fixpoint agrees (st : list string) (rs : list Stack.Rule)
    (table : list (bool * string)) : Prop :=
  match rs, table with
  | [], [] => True
  | r :: rs', e :: table' =>
      Stack.tag r = snd e /\ Stack.guard r st = fst e
      /\ agrees (st ++ emit [e]) rs' table'
  | _, _ => False
  end.

(** The names [classifyColor] gives. *)
Definition colorNames : list string := [
  "black"; "dark"; "white"; "off_white"; "light_grey"; "dark_grey";
  "light_red"; "red"; "peach"; "orange"; "light_yellow"; "yellow";
  "light_green"; "green"; "light_cyan"; "cyan"; "light_blue"; "blue";
  "light_purple"; "purple"; "pink"; "magenta"
].

(** No name is followed by the same name. *)
Fixpoint adjacentDistinct (names : list string) : bool :=
  match names with
  | a :: (b :: _) as rest => negb (String.eqb a b) && adjacentDistinct rest
  | _ => true
  end.

(** A text a subheadline may be, beside the ranked calls to action
    [ctas]: in normal form, of at least 10 characters and 3 words, and
    not taken for the text of a call to action. *)
Definition subheadlineLike (ctas : list Cta.Candidate) (t : string) : Prop :=
  normalised t = true
  /\ (10 <= String.length t)%nat
  /\ (3 <= Text.wordCount t)%nat
  /\ Extract.isLikelyCtaText ctas t = false.

(** Every character of the text is of the class [p]. *)
Fixpoint allChars (p : ascii -> bool) (s : string) : bool :=
  match s with
  | EmptyString => true
  | String c s' => p c && allChars p s'
  end.

(** A run of decimal digits, and the number it writes. *)
Definition allDigits (s : string) : bool := allChars Js.isDigit s.

Definition digitString (s : string) : bool := Js.truthy s && allDigits s.

Fixpoint valueFrom (acc : Z) (s : string) : Z :=
  match s with
  | EmptyString => acc
  | String c s' => valueFrom (10 * acc + Z.of_nat (Js.code c - 48)) s'
  end.

Definition decimalValue (s : string) : Z := valueFrom 0 s.

(** A run of digits and dots, as an alpha value is written. *)
Definition alphaString (s : string) : bool :=
  Js.truthy s && allChars (fun c => Js.isDigit c || Ascii.eqb c ".") s.

(** The luminance of the colour whose channels three runs of digits
    write. *)
Definition luminanceOf (red green blue : string) : Double.t :=
  spec_luminance (Some (inject_Z (decimalValue red)))
                 (Some (inject_Z (decimalValue green)))
                 (Some (inject_Z (decimalValue blue))).

(** The first sentence terminator of a text and what follows it. *)
Fixpoint afterTerminator (s : string) : option (ascii * string) :=
  match s with
  | EmptyString => None
  | String c s' =>
      if Text.isTerminator c then Some (c, s') else afterTerminator s'
  end.

(** The character a regular expression sees behind it after reading
    [s]. *)
Fixpoint lastOf (prev : option ascii) (s : string) : option ascii :=
  match s with
  | EmptyString => prev
  | String c s' => lastOf (Some c) s'
  end.

(** [rgb(r, g, b)], as the browser writes a computed colour. *)
Definition rgbText (red green blue : string) : string :=
  "rgb(" ++ red ++ ", " ++ green ++ ", " ++ blue ++ ")".

(** [rgba(r, g, b, a)] *)
Definition rgbaText (red green blue alpha : string) : string :=
  "rgba(" ++ red ++ ", " ++ green ++ ", " ++ blue ++ ", " ++ alpha ++ ")".

#[local] Close Scope string_scope.
(** * Properties *)

(** ** Comparison helpers *)

Lemma Qlt_bool_iff (x y : Q) : Qlt_bool x y = true <-> x < y.
Proof.
  unfold Qlt_bool. rewrite negb_true_iff.
  split; intro H.
  - apply Qnot_le_lt. intro L. apply Qle_bool_iff in L. congruence.
  - destruct (Qle_bool y x) eqn:E; [|reflexivity].
    apply Qle_bool_iff in E. exfalso. exact (Qlt_not_le _ _ H E).
Qed.

Lemma Qlt_bool_false_iff (x y : Q) : Qlt_bool x y = false <-> y <= x.
Proof.
  unfold Qlt_bool. rewrite negb_false_iff. apply Qle_bool_iff.
Qed.

Lemma Qge_bool_iff (x y : Q) : Qge_bool x y = true <-> y <= x.
Proof. unfold Qge_bool. apply Qle_bool_iff. Qed.

Lemma Qge_bool_false_iff (x y : Q) : Qge_bool x y = false <-> x < y.
Proof.
  unfold Qge_bool. split; intro H.
  - apply Qnot_le_lt. intro L. apply Qle_bool_iff in L. congruence.
  - destruct (Qle_bool y x) eqn:E; [|reflexivity].
    apply Qle_bool_iff in E. exfalso. exact (Qlt_not_le _ _ H E).
Qed.

Lemma Qle_bool_false_iff (x y : Q) : Qle_bool x y = false <-> y < x.
Proof. exact (Qge_bool_false_iff y x). Qed.

(** Case analysis on every [Qmin]/[Qmax] of the goal, then linear
    arithmetic. *)
Ltac qminmax_abs :=
  repeat match goal with
  | |- context [Qmax ?a ?b] =>
      let m := fresh "m" in let E := fresh "E" in
      pose proof (Q.max_spec a b); remember (Qmax a b) as m eqn:E; clear E
  | |- context [Qmin ?a ?b] =>
      let m := fresh "m" in let E := fresh "E" in
      pose proof (Q.min_spec a b); remember (Qmin a b) as m eqn:E; clear E
  | H : context [Qmax ?a ?b] |- _ =>
      let m := fresh "m" in let E := fresh "E" in
      pose proof (Q.max_spec a b); remember (Qmax a b) as m eqn:E; clear E
  | H : context [Qmin ?a ?b] |- _ =>
      let m := fresh "m" in let E := fresh "E" in
      pose proof (Q.min_spec a b); remember (Qmin a b) as m eqn:E; clear E
  end.

Ltac qminmax :=
  qminmax_abs;
  repeat match goal with
  | H : (_ /\ _) \/ (_ /\ _) |- _ => destruct H as [[? ?]|[? ?]]
  end; try lra.

(** ** The hero boundary *)

Section HeroBoundary.

Import Hero.

Variable cap : Q.

Lemma maxBottom_le (l : list HeroSection) (x : Q) : x <= maxBottom x l.
Proof.
  revert x. induction l as [|s l IH]; intro x; simpl.
  - lra.
  - specialize (IH (Qmax x (bottom s))).
    pose proof (Q.le_max_l x (bottom s)). lra.
Qed.

Lemma maxBottom_capped (l : list HeroSection) (x y : Q) :
  Qmin cap x == Qmin cap y ->
  Qmin cap (maxBottom x l) == Qmin cap (maxBottom y l).
Proof.
  revert x y. induction l as [|s l IH]; intros x y E; simpl.
  - exact E.
  - apply IH. qminmax.
Qed.

Lemma maxBottom_compat (l : list HeroSection) (x y : Q) :
  x == y -> maxBottom x l == maxBottom y l.
Proof.
  revert x y. induction l as [|s l IH]; intros x y E; simpl.
  - exact E.
  - apply IH. rewrite E. reflexivity.
Qed.

Lemma maxBottom_perm (l l' : list HeroSection) :
  Permutation l l' -> forall x, maxBottom x l == maxBottom x l'.
Proof.
  induction 1 as [|s l l' _ IH|s t l|l l' l'' _ IH1 _ IH2]; intro x; simpl.
  - reflexivity.
  - apply IH.
  - apply maxBottom_compat. qminmax.
  - rewrite IH1. apply IH2.
Qed.

Lemma heroBottomLoop_scan (ss : list HeroSection) (hb : Q) :
  hb <= cap ->
  heroBottomLoop cap hb ss
  == Qmin cap (maxBottom hb (filter (qualifies cap) (scanned cap ss))).
Proof.
  revert hb. induction ss as [|s ss IH]; intros hb Hle; simpl.
  - qminmax.
  - unfold stops, qualifies.
    destruct (Qle_bool (bottom s) 0) eqn:Eb.
    + apply Qle_bool_iff in Eb.
      assert (E0 : Qlt_bool 0 (bottom s) = false)
        by (apply Qlt_bool_false_iff; exact Eb).
      rewrite E0. simpl. unfold qualifies. rewrite E0, andb_false_r.
      apply IH. exact Hle.
    + apply Qle_bool_false_iff in Eb.
      assert (E0 : Qlt_bool 0 (bottom s) = true)
        by (apply Qlt_bool_iff; exact Eb).
      rewrite E0. simpl.
      destruct (Qge_bool (top s) cap) eqn:Et; simpl.
      * qminmax.
      * unfold qualifies. rewrite E0, andb_true_r.
        apply Qge_bool_false_iff in Et.
        assert (E1 : Qlt_bool (top s) cap = true)
          by (apply Qlt_bool_iff; exact Et).
        rewrite E1. simpl.
        rewrite IH by apply Q.le_min_l.
        apply maxBottom_capped. qminmax.
Qed.

Lemma scanned_all (ss : list HeroSection) :
  forallb (fun s => negb (stops cap s)) ss = true -> scanned cap ss = ss.
Proof.
  induction ss as [|s ss IH]; simpl; [reflexivity|].
  rewrite andb_true_iff, negb_true_iff. intros [E H].
  rewrite E, IH by exact H. reflexivity.
Qed.

Lemma forallb_perm (A : Type) (p : A -> bool) (l l' : list A) :
  Permutation l l' -> forallb p l = forallb p l'.
Proof.
  induction 1; simpl.
  - reflexivity.
  - congruence.
  - rewrite !andb_assoc, (andb_comm (p y)). reflexivity.
  - congruence.
Qed.

Lemma filter_perm (A : Type) (p : A -> bool) (l l' : list A) :
  Permutation l l' -> Permutation (filter p l) (filter p l').
Proof.
  induction 1; simpl.
  - constructor.
  - destruct (p x); [constructor|]; assumption.
  - destruct (p x), (p y); try constructor; try apply Permutation_refl.
  - eapply Permutation_trans; eassumption.
Qed.

Lemma heroBottomLoop_skip (pre post : list HeroSection) (s : HeroSection) (hb : Q) :
  top s == cap ->
  heroBottomLoop cap hb (pre ++ s :: post)
  = heroBottomLoop cap hb
      (pre ++ (if Qlt_bool 0 (bottom s) then [] else post)).
Proof.
  intro Et. revert hb.
  induction pre as [|p pre IH]; intro hb; simpl.
  - assert (Eg : Qge_bool (top s) cap = true)
      by (apply Qge_bool_iff; rewrite Et; apply Qle_refl).
    rewrite Eg. unfold Qlt_bool.
    destruct (Qle_bool (bottom s) 0); reflexivity.
  - destruct (Qle_bool (bottom p) 0); [apply IH|].
    destruct (Qge_bool (top p) cap); [reflexivity|apply IH].
Qed.

Lemma heroBottom_scanned (vh : Q) (ss : list HeroSection) :
  vh <= cap -> 
  heroBottomLoop cap vh ss
  == Qmin cap (maxBottom vh (filter (qualifies cap) (scanned cap ss))).
Proof. apply heroBottomLoop_scan. Qed.

Lemma heroBottomLoop_bounds (vh : Q) (ss : list HeroSection) :
  vh <= cap ->
  vh <= heroBottomLoop cap vh ss /\ heroBottomLoop cap vh ss <= cap.
Proof.
  intro Hcap. rewrite heroBottom_scanned by exact Hcap.
  pose proof (maxBottom_le (filter (qualifies cap) (scanned cap ss)) vh).
  split; qminmax.
Qed.

End HeroBoundary.

(** C1, as stated, fails.  With a 900px viewport: a section lying wholly
    past the cap and placed first in the order ends the scan, so the
    qualifying 950px section after it is never read (the boundary is 900,
    the stated maximum is 950) and moving the non-qualifying section
    last changes the result; and a lone qualifying section ending at
    500 leaves the boundary at 900, not 500. *)
Lemma C1_heroBottom_counterexample :
  ~ Hero.heroBottom 900 [far; hero] == Hero.spec_heroBottom 900 [far; hero]
  /\ ~ Hero.heroBottom 900 [far; hero] == Hero.heroBottom 900 [hero; far]
  /\ ~ Hero.heroBottom 900 [short] == Hero.spec_heroBottom 900 [short].
Proof.
  repeat split; vm_compute; discriminate.
Qed.

(** C1 (amended).  For a positive viewport height the boundary is the
    largest of the viewport height and the bottom edges of the
    qualifying sections (top strictly above the cap, bottom positive)
    that come before the first on-screen section starting at or past
    the cap, capped at 1.15 x viewportHeight; it lies between the
    viewport height and the cap; a section whose top edge equals the cap
    is never counted; and when no section ends the scan, the boundary is
    taken over all qualifying sections and is the same for every order
    of the sections. *)
Theorem C1_heroBottom_scan (vh : Q) (ss : list Hero.HeroSection) :
  0 < vh ->
  let cap := Hero.heroMaxBottom vh in
  Hero.heroBottom vh ss
  == Qmin cap (Hero.maxBottom vh
                 (filter (Hero.qualifies cap) (Hero.scanned cap ss)))
  /\ (vh <= Hero.heroBottom vh ss /\ Hero.heroBottom vh ss <= cap)
  /\ (forall pre s post, ss = pre ++ s :: post -> Hero.top s == cap ->
        Hero.qualifies cap s = false
        /\ Hero.heroBottom vh ss
           = Hero.heroBottom vh
               (pre ++ (if Qlt_bool 0 (Hero.bottom s) then [] else post)))
  /\ (forallb (fun s => negb (Hero.stops cap s)) ss = true ->
        Hero.heroBottom vh ss
        == Qmin cap (Hero.maxBottom vh (filter (Hero.qualifies cap) ss))
        /\ forall ss', Permutation ss ss' ->
             Hero.heroBottom vh ss' == Hero.heroBottom vh ss).
Proof.
  intros Hvh cap.
  assert (Hcap : vh <= cap) by (unfold cap, Hero.heroMaxBottom; lra).
  assert (Hscan : forall l, Hero.heroBottom vh l
            == Qmin cap (Hero.maxBottom vh
                 (filter (Hero.qualifies cap) (Hero.scanned cap l)))).
  { intro l. unfold Hero.heroBottom. fold cap.
    apply heroBottomLoop_scan. exact Hcap. }
  split; [apply Hscan|]. split; [|split].
  - unfold Hero.heroBottom. fold cap.
    apply heroBottomLoop_bounds. exact Hcap.
  - intros pre s post -> Et. split.
    + unfold Hero.qualifies.
      assert (E : Qlt_bool (Hero.top s) cap = false)
        by (apply Qlt_bool_false_iff; rewrite Et; apply Qle_refl).
      rewrite E. reflexivity.
    + unfold Hero.heroBottom. fold cap.
      apply heroBottomLoop_skip. exact Et.
  - intro Hall. split.
    + rewrite Hscan, scanned_all by exact Hall. reflexivity.
    + intros ss' P.
      rewrite !Hscan, !scanned_all;
        [|exact Hall|rewrite <- (forallb_perm _ P); exact Hall].
      rewrite (maxBottom_perm (filter_perm (Hero.qualifies cap) P)).
      reflexivity.
Qed.

Lemma C1_heroBottom_scan_witness :
  0 < 900 /\ Hero.heroBottom 900 [hero; far] == Qmin 1035 950.
Proof.
  split; [reflexivity|].
  destruct (@C1_heroBottom_scan 900 [hero; far]) as [H _];
    [reflexivity|].
  rewrite H. vm_compute. reflexivity.
Defined.

(** The ratio of line 864, rounded as at line 1665, is 1. *)
Lemma hero_height_ratio_one (vh : Q) (ss : list Hero.HeroSection) :
  0 < vh -> Hero.hero_height_ratio vh ss == 1.
Proof.
  intro Hvh.
  assert (Hcap : vh <= Hero.heroMaxBottom vh)
    by (unfold Hero.heroMaxBottom; lra).
  destruct (@heroBottomLoop_bounds _ vh ss Hcap) as [Hlo _].
  fold (Hero.heroBottom vh ss) in Hlo.
  unfold Hero.hero_height_ratio, Hero.heroHeightRatio.
  assert (H1 : 1 <= Hero.heroBottom vh ss / vh).
  { apply Qle_shift_div_l; lra. }
  assert (E : Qmin 1 (Hero.heroBottom vh ss / vh) == 1)
    by (apply Q.min_l; exact H1).
  unfold Hero.toFixed2. rewrite E. vm_compute. reflexivity.
Qed.

(** C10.  For every page and every window of positive height, the
    field [hero_height_ratio] of the result is exactly 1: the boundary
    starts at the viewport height and never drops below it, so
    [min(1, heroBottom / viewportHeight)] is constant. *)
Theorem C10_hero_height_ratio_constant (d : Dom.Document) (w : Window)
    (cx : Canvas.Contexts) :
  0 < viewportHeight w ->
  Fingerprint.hero_height_ratio (Extract.extractFingerprint d w cx) == 1.
Proof.
  intro Hvh.
  exact (hero_height_ratio_one (Extract.sections d w) Hvh).
Qed.

Lemma C10_hero_height_ratio_constant_witness :
  0 < viewportHeight desktop
  /\ Fingerprint.hero_height_ratio
       (Extract.extractFingerprint (shop []) desktop fresh) == 1.
Proof.
  assert (H : 0 < viewportHeight desktop) by reflexivity.
  split; [exact H|].
  exact (C10_hero_height_ratio_constant (shop []) desktop fresh H).
Defined.
(** ** Words, sentences and the headline word budget *)

Section TextProps.

Local Open Scope string_scope.
Local Open Scope nat_scope.

#[local] Abbreviation endsWithWs := Js.endsWithWs.

Lemma splitWs_cons (c : ascii) (s' : string) :
  Js.splitWs (String c s') =
  if Js.isWhiteSpace c then
    if Js.startsWithWs s' then Js.splitWs s' else "" :: Js.splitWs s'
  else
    match Js.splitWs s' with
    | t :: rest => String c t :: rest
    | [] => [String c ""]
    end.
Proof. reflexivity. Qed.

(** The first piece of a split is empty exactly when the string is
    empty or starts with white space; the later pieces are never empty,
    save the last one after trailing white space. *)
Lemma splitWs_shape (s : string) :
  exists h tl,
    Js.splitWs s = h :: tl
    /\ Js.isEmpty h = Js.isEmpty s || Js.startsWithWs s
    /\ (Js.isEmpty s = false -> endsWithWs s = false ->
        forallb Js.truthy tl = true).
Proof.
  induction s as [|c s' IH].
  - exists "", []. repeat split; reflexivity.
  - destruct IH as (h & tl & E & Hh & Ht). rewrite splitWs_cons, E.
    destruct (Js.isWhiteSpace c) eqn:Ec.
    + destruct (Js.startsWithWs s') eqn:Es.
      * exists h, tl. split; [reflexivity|]. split.
        -- rewrite Hh, ?Es, orb_true_r. simpl. rewrite Ec. reflexivity.
        -- intros _ He. apply Ht.
           ++ destruct s'; [discriminate Es|reflexivity].
           ++ destruct s'; [discriminate Es|exact He].
      * exists "", (h :: tl). split; [reflexivity|]. split.
        -- simpl. rewrite Ec. reflexivity.
        -- intros _ He. destruct s' as [|c' s''].
           ++ simpl in He. congruence.
           ++ simpl. unfold Js.truthy at 1. rewrite Hh, ?Es. simpl.
              apply Ht; [reflexivity|exact He].
    + exists (String c h), tl. split; [reflexivity|]. split.
      * simpl. rewrite Ec. reflexivity.
      * intros _ He. destruct s' as [|c' s''].
        -- simpl in E. injection E as _ <-. reflexivity.
        -- apply Ht; [reflexivity|exact He].
Qed.

(** On a string that neither starts nor ends with white space, the
    split has no empty piece: its length is the word count. *)
Lemma splitWs_words (s : string) :
  Js.isEmpty s = false -> Js.startsWithWs s = false ->
  endsWithWs s = false ->
  List.length (Js.splitWs s) = List.length (Js.words s).
Proof.
  intros Hn Hs He. unfold Js.words.
  destruct (splitWs_shape s) as (h & tl & E & Hh & Ht).
  rewrite E. simpl. unfold Js.truthy at 1.
  rewrite Hh, Hn, Hs. simpl. f_equal.
  specialize (Ht Hn He). clear - Ht.
  induction tl as [|t tl IH]; simpl in *; [reflexivity|].
  apply andb_true_iff in Ht. destruct Ht as [Ht1 Ht2].
  rewrite Ht1. simpl. f_equal. apply IH. exact Ht2.
Qed.

Lemma terminator_not_ws (c : ascii) :
  Text.isTerminator c = true -> Js.isWhiteSpace c = false.
Proof.
  unfold Text.isTerminator, Js.isWhiteSpace, Js.between.
  rewrite !orb_true_iff, !Nat.eqb_eq.
  intros [[H|H]|H]; rewrite H; reflexivity.
Qed.

Lemma sentenceRun_shape (s r : string) :
  Text.sentenceRun s = Some r ->
  Js.isEmpty r = false /\ endsWithWs r = false
  /\ Js.startsWithWs r = Js.startsWithWs s.
Proof.
  revert r. induction s as [|c s' IH]; intros r; simpl; [discriminate|].
  destruct (Text.isTerminator c) eqn:Ec.
  - intros [= <-]. simpl. rewrite (terminator_not_ws _ Ec). auto.
  - destruct (Text.sentenceRun s') as [r'|] eqn:Er; [|discriminate].
    intros [= <-]. destruct (IH r' eq_refl) as (Hn & He & _).
    simpl. repeat split; try reflexivity.
    destruct r'; [discriminate Hn|exact He].
Qed.

Lemma sentenceMatch_shape (s r : string) :
  Text.sentenceMatch s = Some r ->
  Js.isEmpty r = false /\ endsWithWs r = false
  /\ Js.startsWithWs r = Js.startsWithWs s.
Proof.
  unfold Text.sentenceMatch. destruct s as [|c s']; [discriminate|].
  destruct (Text.isTerminator c); [discriminate|].
  apply sentenceRun_shape.
Qed.

Lemma trimStart_no_leading_ws (s : string) :
  Js.startsWithWs (Js.trimStart s) = false.
Proof.
  induction s as [|c s' IH]; simpl; [reflexivity|].
  destruct (Js.isWhiteSpace c) eqn:Ec; [exact IH|].
  simpl. exact Ec.
Qed.

Lemma trimEnd_keeps_head (s : string) :
  Js.startsWithWs s = false -> Js.startsWithWs (Js.trimEnd s) = false.
Proof.
  destruct s as [|c s']; simpl; [reflexivity|].
  intro Ec. rewrite Ec, andb_false_r. simpl. exact Ec.
Qed.

Lemma cleanText_no_leading_ws (raw : string) :
  Js.startsWithWs (Text.cleanText raw) = false.
Proof.
  unfold Text.cleanText, Js.trim.
  apply trimEnd_keeps_head, trimStart_no_leading_ws.
Qed.

Lemma wordCount_empty (s : string) :
  0 < Text.wordCount s -> Js.truthy s = true.
Proof.
  destruct s; [intro H; vm_compute in H; lia|reflexivity].
Qed.

(** [truncateHeadline] on a text without leading white space. *)
Lemma truncateHeadline_clean (text : string) :
  Js.startsWithWs text = false ->
  Text.truncateHeadline text =
  if Text.wordCount text <=? 30 then text
  else
    match Text.sentenceMatch text with
    | Some s =>
        if Text.wordCount s <=? 30 then Js.trim s
        else Js.join " " (firstn 15 (Js.words text))
    | None => Js.join " " (firstn 15 (Js.words text))
    end.
Proof.
  intro Hs. unfold Text.truncateHeadline, Text.MAX_HEADLINE_WORDS.
  destruct (Js.isEmpty text) eqn:En.
  - destruct text; [reflexivity|discriminate].
  - fold (Text.wordCount text).
    destruct (Text.wordCount text <=? 30); [reflexivity|].
    destruct (Text.sentenceMatch text) as [s|] eqn:Em; [|reflexivity].
    destruct (sentenceMatch_shape _ Em) as (Hn & He & Hw).
    rewrite splitWs_words; [reflexivity|exact Hn|congruence|exact He].
Qed.

End TextProps.
(** ** The call-to-action band *)

(** C2, as stated, fails: a candidate that passed the noise filters and
    whose top edge is above 120px is dropped, without a headline box
    and also when it lies inside the headline window. *)
Lemma C2_inHeroBand_counterexample :
  Cta.keepCta earlyCta = true
  /\ (spec_inHeroBand 900 None earlyCta
      /\ Cta.inHeroBand 900 None earlyCta = false)
  /\ (spec_inHeroBand 900 (Some topHeadline) earlyCta
      /\ Cta.inHeroBand 900 (Some topHeadline) earlyCta = false).
Proof.
  split; [vm_compute; reflexivity|].
  split; (split; [|vm_compute; reflexivity]).
  - exact I.
  - unfold spec_inHeroBand, topHeadline, earlyCta, link, Dom.bottom; simpl.
    split; [split; lra|]. intros [H _]. lra.
Qed.

Lemma orZero_eq (x : Q) : Cta.orZero x == x.
Proof.
  unfold Cta.orZero. destruct (Qeq_bool x 0) eqn:E; [|reflexivity].
  apply Qeq_bool_iff in E. symmetry. exact E.
Qed.

(** The positional test of lines 370-376 as a window: at 120px or
    lower on the page and, if there is a headline box, within
    [headlineTop - 40, headlineBottom + 420]; the test on the bottom
    20% of the viewport removes nothing the window keeps. *)
Lemma inHeroBand_window (viewportHeight : Q)
    (headlineRect : option Dom.DOMRect) (c : Cta.Candidate) :
  Cta.inHeroBand viewportHeight headlineRect c = true
  <-> 120 <= Cta.top c
      /\ match headlineRect with
         | None => True
         | Some hr =>
             Dom.top hr - 40 <= Cta.top c
             /\ Cta.top c <= Dom.bottom hr + 420
         end.
Proof.
  unfold Cta.inHeroBand.
  destruct (Qlt_bool (Cta.top c) 120) eqn:E120.
  - apply Qlt_bool_iff in E120. split; [discriminate|].
    intros [H _]. lra.
  - apply Qlt_bool_false_iff in E120.
    destruct headlineRect as [hr|]; [|tauto].
    pose proof (orZero_eq (Dom.bottom hr)) as Ez.
    destruct (Qgt_bool (Cta.top c) (viewportHeight * (8 # 10))
              && Qgt_bool (Cta.top c) (Cta.orZero (Dom.bottom hr) + 420))
      eqn:Efar.
    + apply andb_true_iff in Efar. destruct Efar as [_ Efar].
      apply Qlt_bool_iff in Efar. split; [discriminate|].
      intros [_ [_ H]]. lra.
    + rewrite andb_true_iff, Qge_bool_iff, Qle_bool_iff. tauto.
Qed.

(** ** The ranking of the calls to action *)

Section InsertionSort.

Variable A : Type.
Variable compare : A -> A -> Q.
Variable rank : A -> nat.

(** The comparison function decides by [rank] first. *)
Hypothesis compare_lt : forall a b, (rank a < rank b)%nat -> compare a b < 0.
Hypothesis compare_gt : forall a b, (rank b < rank a)%nat -> 0 < compare a b.

#[local] Abbreviation byRank := (Arr.byRank rank).

Lemma insert_perm (x : A) (l : list A) :
  Permutation (x :: l) (Arr.insert compare x l).
Proof.
  induction l as [|y l IH]; simpl; [reflexivity|].
  destruct (Qlt_bool (compare x y) 0); [reflexivity|].
  rewrite perm_swap. constructor. exact IH.
Qed.

Lemma insert_sorted (x : A) (l : list A) :
  StronglySorted byRank l -> StronglySorted byRank (Arr.insert compare x l).
Proof.
  induction 1 as [|y l Hs IH Hy]; simpl.
  - repeat constructor.
  - destruct (Qlt_bool (compare x y) 0) eqn:E.
    + apply Qlt_bool_iff in E.
      assert (Hxy : byRank x y).
      { unfold Arr.byRank. destruct (le_lt_dec (rank x) (rank y)) as [L|L];
          [exact L|]. pose proof (compare_gt L). lra. }
      constructor; [constructor; assumption|].
      constructor; [exact Hxy|].
      rewrite Forall_forall in *. intros z Hz.
      unfold Arr.byRank in *. specialize (Hy z Hz). lia.
    + apply Qlt_bool_false_iff in E.
      assert (Hyx : byRank y x).
      { unfold Arr.byRank. destruct (le_lt_dec (rank y) (rank x)) as [L|L];
          [exact L|]. pose proof (compare_lt L). lra. }
      constructor; [exact IH|].
      rewrite Forall_forall in *. intros z Hz.
      apply (Permutation_in _ (Permutation_sym (insert_perm x l))) in Hz.
      destruct Hz as [<-|Hz]; [exact Hyx|apply Hy; exact Hz].
Qed.

Lemma sort_acc (l acc : list A) :
  StronglySorted byRank acc ->
  let out := fold_left (fun a x => Arr.insert compare x a) l acc in
  StronglySorted byRank out /\ Permutation (acc ++ l) out.
Proof.
  revert acc. induction l as [|x l IH]; intros acc Hs; simpl.
  - split; [exact Hs|]. rewrite app_nil_r. reflexivity.
  - destruct (IH (Arr.insert compare x acc) (insert_sorted x Hs)) as [S P].
    split; [exact S|].
    etransitivity; [|exact P].
    rewrite <- (insert_perm x acc).
    rewrite <- Permutation_middle. reflexivity.
Qed.

Lemma sort_sorted (l : list A) : StronglySorted byRank (Arr.sort compare l).
Proof. apply (sort_acc l (acc := [])). constructor. Qed.

Lemma sort_perm (l : list A) : Permutation l (Arr.sort compare l).
Proof. apply (sort_acc l (acc := [])). constructor. Qed.

End InsertionSort.

Lemma ctaPriority_range (t : string) :
  (0 <= Cta.ctaPriority t <= 3)%Z.
Proof.
  unfold Cta.ctaPriority.
  repeat match goal with
  | |- context [if ?b then _ else _] => destruct b
  end; lia.
Qed.

(** The comparison function orders two candidates of different rank by
    their rank, whatever the headline box, areas and offsets. *)
Ltac rank_cases :=
  unfold Cta.rank, Cta.compareCta;
  match goal with
  | |- context [Z.eqb (Cta.ctaPriority (Cta.text ?a)) (Cta.ctaPriority (Cta.text ?b))] =>
      pose proof (ctaPriority_range (Cta.text a));
      pose proof (ctaPriority_range (Cta.text b));
      destruct (Cta.isOAuth a), (Cta.isOAuth b);
      destruct (Cta.isButton a), (Cta.isButton b);
      cbv [Bool.eqb negb];
      try (intro; lia); try (intros _; reflexivity);
      destruct (Z.eqb_spec (Cta.ctaPriority (Cta.text a))
                           (Cta.ctaPriority (Cta.text b)));
      try (intro; lia);
      intro; change 0 with (inject_Z 0); rewrite <- Zlt_Qlt; lia
  end.

(** The comparison function orders two candidates of different rank by
    their rank, whatever the headline box, areas and offsets. *)
Lemma compareCta_rank_lt (hr : option Dom.DOMRect) (a b : Cta.Candidate) :
  (Cta.rank a < Cta.rank b)%nat -> Cta.compareCta hr a b < 0.
Proof. rank_cases. Qed.

Lemma compareCta_rank_gt (hr : option Dom.DOMRect) (a b : Cta.Candidate) :
  (Cta.rank b < Cta.rank a)%nat -> 0 < Cta.compareCta hr a b.
Proof. rank_cases. Qed.

(** The sort keeps the candidates it is given. *)
Lemma sortCtas_perm (hr : option Dom.DOMRect) (l : list Cta.Candidate) :
  Permutation l (Cta.sortCtas hr l).
Proof.
  apply (@sort_perm _ _ Cta.rank).
  - apply compareCta_rank_lt.
  - apply compareCta_rank_gt.
Qed.

(** C2 (amended).  A candidate that passed the noise filters is kept
    for ranking exactly when its top edge is at 120px or lower on the
    page and, if there is a headline box, lies within
    [headlineTop - 40, headlineBottom + 420]: so for the positional
    test on any viewport height and headline box, and so for the list
    the extractor ranks, on every page and window.  The test on the
    bottom 20% of the viewport removes nothing the window keeps. *)
Theorem C2_inHeroBand_window :
  (forall (viewportHeight : Q) (headlineRect : option Dom.DOMRect)
          (c : Cta.Candidate),
      Cta.inHeroBand viewportHeight headlineRect c = true
      <-> 120 <= Cta.top c
          /\ match headlineRect with
             | None => True
             | Some hr =>
                 Dom.top hr - 40 <= Cta.top c
                 /\ Cta.top c <= Dom.bottom hr + 420
             end)
  /\ (forall (d : Dom.Document) (w : Window) (c : Cta.Candidate),
        let s := Extract.stages d w in
        In c (Extract.s_heroCtaCandidates s)
        <-> In c (Cta.filteredCtas (Extract.ctaCandidates d w))
            /\ 120 <= Cta.top c
            /\ match Extract.headlineRect (Extract.s_headlineEl s) with
               | None => True
               | Some hr =>
                   Dom.top hr - 40 <= Cta.top c
                   /\ Cta.top c <= Dom.bottom hr + 420
               end).
Proof.
  split; [exact inHeroBand_window|].
  intros d w c s. subst s. cbn [Extract.stages Extract.s_heroCtaCandidates
                                Extract.s_headlineEl].
  unfold Extract.heroCtaCandidates.
  rewrite <- (inHeroBand_window (viewportHeight w)).
  rewrite <- filter_In. unfold Cta.heroCtaCandidates.
  split; intro H.
  - apply (Permutation_in _ (Permutation_sym (sortCtas_perm _ _))) in H.
    exact H.
  - apply (Permutation_in _ (sortCtas_perm _ _)). exact H.
Qed.

Section Positions.

Variable i : nat.

#[local] Abbreviation rankOf := (fun p : nat * Cta.Candidate => Cta.rank (snd p)).

Lemma filter_none (A : Type) (p : A -> bool) (l : list A) :
  (forall x, In x l -> p x = false) -> filter p l = [].
Proof.
  induction l as [|y l IH]; intro H; simpl; [reflexivity|].
  rewrite (H y (or_introl eq_refl)). apply IH.
  intros x Hx. apply H. right. exact Hx.
Qed.

(** In a list ordered by rank, a candidate stands after the others of
    lower rank and before those of higher rank. *)
Lemma position_bounds (out : list (nat * Cta.Candidate)) (e : Cta.Candidate) :
  StronglySorted (Arr.byRank rankOf) out ->
  NoDup (map fst out) -> In (i, e) out ->
  (List.length (filter (Cta.othersBelow i (Cta.rank e)) out)
   <= Cta.positionOf i out
   <= List.length (filter (Cta.othersUpTo i (Cta.rank e)) out))%nat.
Proof.
  induction 1 as [|[j c] out Hs IH Hj]; intros Hnd Hin; [destruct Hin|].
  simpl in Hnd. inversion Hnd as [|? ? Hnotin Hnd']; subst.
  rewrite Forall_forall in Hj.
  simpl. unfold Cta.othersBelow at 1, Cta.othersUpTo at 1. simpl.
  destruct (Nat.eqb_spec j i) as [->|Hji]; simpl.
  - assert (c = e) as ->.
    { destruct Hin as [[= ->]|Hin]; [reflexivity|].
      exfalso. apply Hnotin. apply (in_map fst) in Hin. exact Hin. }
    rewrite filter_none; [simpl; lia|].
    intros [k d] Hk. unfold Cta.othersBelow. simpl.
    specialize (Hj _ Hk). unfold Arr.byRank in Hj. simpl in Hj.
    apply andb_false_iff. right. apply Nat.ltb_ge. exact Hj.
  - destruct Hin as [[= E _]|Hin]; [congruence|].
    specialize (IH Hnd' Hin).
    pose proof (Hj _ Hin) as Hce. unfold Arr.byRank in Hce. simpl in Hce.
    apply Nat.leb_le in Hce. rewrite Hce. simpl.
    destruct (Cta.rank c <? Cta.rank e)%nat; simpl; lia.
Qed.

Lemma indexedFrom_fst (A : Type) (l : list A) (k : nat) :
  map fst (Cta.indexedFrom k l) = seq k (List.length l).
Proof.
  revert k. induction l as [|x l IH]; intro k; simpl; [reflexivity|].
  rewrite IH. reflexivity.
Qed.

Lemma indexedFrom_In (A : Type) (l : list A) (k j : nat) (x : A) :
  nth_error l j = Some x -> In ((k + j)%nat, x) (Cta.indexedFrom k l).
Proof.
  revert k j. induction l as [|y l IH]; intros k j; [destruct j; discriminate|].
  destruct j as [|j]; simpl.
  - intros [= ->]. left. f_equal. lia.
  - intro H. right. replace (k + S j)%nat with (S k + j)%nat by lia.
    apply IH. exact H.
Qed.

Lemma filter_length_le (A : Type) (p p' : A -> bool) (l l' : list A) :
  Forall2 (fun x x' => p' x' = true -> p x = true) l l' ->
  (List.length (filter p' l') <= List.length (filter p l))%nat.
Proof.
  induction 1 as [|x x' l l' H _ IH]; simpl; [lia|].
  destruct (p' x') eqn:E'.
  - rewrite (H eq_refl). simpl. lia.
  - destruct (p x); simpl; lia.
Qed.

Lemma ranked_sorted (hr : option Dom.DOMRect) (l : list Cta.Candidate) :
  StronglySorted (Arr.byRank rankOf) (Cta.ranked hr l).
Proof.
  apply (@sort_sorted _ _ (fun p : nat * Cta.Candidate => Cta.rank (snd p))).
  - intros a b. apply compareCta_rank_lt.
  - intros a b. apply compareCta_rank_gt.
Qed.

Lemma ranked_perm (hr : option Dom.DOMRect) (l : list Cta.Candidate) :
  Permutation (Cta.indexed l) (Cta.ranked hr l).
Proof.
  apply (@sort_perm _ _ (fun p : nat * Cta.Candidate => Cta.rank (snd p))).
  - intros a b. apply compareCta_rank_lt.
  - intros a b. apply compareCta_rank_gt.
Qed.

(** The general step: if every other candidate that is of rank up to
    the new rank of the candidate from place [i] was of lower rank than
    its old rank, the candidate does not move back. *)
Lemma position_monotone (hr : option Dom.DOMRect)
    (l l' : list Cta.Candidate) (x x' : Cta.Candidate) :
  nth_error l i = Some x -> nth_error l' i = Some x' ->
  Forall2 (fun p p' =>
             Cta.othersUpTo i (Cta.rank x') p' = true ->
             Cta.othersBelow i (Cta.rank x) p = true)
          (Cta.indexed l) (Cta.indexed l') ->
  (Cta.positionOf i (Cta.ranked hr l') <= Cta.positionOf i (Cta.ranked hr l))%nat.
Proof.
  intros Hx Hx' HF.
  assert (Hnd : forall m, NoDup (map fst (Cta.ranked hr m))).
  { intro m. eapply Permutation_NoDup.
    - apply Permutation_map. apply ranked_perm.
    - unfold Cta.indexed. rewrite indexedFrom_fst. apply seq_NoDup. }
  assert (Hin : forall m y, nth_error m i = Some y -> In (i, y) (Cta.ranked hr m)).
  { intros m y Hy. eapply Permutation_in; [apply ranked_perm|].
    apply (indexedFrom_In m 0 i Hy). }
  destruct (@position_bounds _ _ (ranked_sorted hr l) (Hnd l) (Hin _ _ Hx))
    as [Lo _].
  destruct (@position_bounds _ _ (ranked_sorted hr l') (Hnd l') (Hin _ _ Hx'))
    as [_ Up].
  rewrite <- (Permutation_length (filter_perm _ (ranked_perm hr l))) in Lo.
  rewrite <- (Permutation_length (filter_perm _ (ranked_perm hr l'))) in Up.
  pose proof (filter_length_le _ _ HF). lia.
Qed.

End Positions.

Lemma indexedFrom_Forall2 (R : nat * Cta.Candidate -> nat * Cta.Candidate -> Prop)
    (l l' : list Cta.Candidate) (k : nat) :
  List.length l = List.length l' ->
  (forall j c c', nth_error l j = Some c -> nth_error l' j = Some c' ->
                  R ((k + j)%nat, c) ((k + j)%nat, c')) ->
  Forall2 R (Cta.indexedFrom k l) (Cta.indexedFrom k l').
Proof.
  revert l' k. induction l as [|c l IH]; intros [|c' l'] k Hlen H;
    try discriminate; simpl; constructor.
  - pose proof (H 0%nat c c' eq_refl eq_refl) as H0.
    rewrite Nat.add_0_r in H0. exact H0.
  - apply IH; [simpl in Hlen; lia|].
    intros j d d' Hd Hd'. replace (S k + j)%nat with (k + S j)%nat by lia.
    apply H; assumption.
Qed.

Lemma retext_length (i : nat) (t : string) (l : list Cta.Candidate) :
  List.length (Cta.retext i t l) = List.length l.
Proof.
  revert i. induction l as [|c l IH]; intros [|i]; simpl; auto.
Qed.

Lemma retext_nth (i j : nat) (t : string) (l : list Cta.Candidate) :
  nth_error (Cta.retext i t l) j
  = if (j =? i)%nat then option_map (Cta.setText t) (nth_error l j)
    else nth_error l j.
Proof.
  revert i j. induction l as [|c l IH]; intros [|i] [|j]; simpl;
    try reflexivity.
  - destruct (j =? i)%nat; reflexivity.
  - apply IH.
Qed.

Lemma rank_setText (t : string) (c : Cta.Candidate) :
  Cta.rank (Cta.setText t c)
  = ((if Regex.test Cta.oauthCtaRegex t then 8 else 0)
     + (if Cta.isButton c then 0 else 4)
     + Z.to_nat (3 - Cta.ctaPriority t))%nat.
Proof. reflexivity. Qed.

Lemma rank_unfold (c : Cta.Candidate) :
  Cta.rank c
  = ((if Regex.test Cta.oauthCtaRegex (Cta.text c) then 8 else 0)
     + (if Cta.isButton c then 0 else 4)
     + Z.to_nat (3 - Cta.ctaPriority (Cta.text c)))%nat.
Proof. reflexivity. Qed.

Lemma isOAuth_setText (t : string) (c : Cta.Candidate) :
  Cta.isOAuth (Cta.setText t c) = Regex.test Cta.oauthCtaRegex t.
Proof. reflexivity. Qed.

(** The sort of the candidates is the sort of the numbered candidates
    with the numbers dropped. *)
Lemma ranked_sortCtas (hr : option Dom.DOMRect) (l : list Cta.Candidate) :
  map snd (Cta.ranked hr l) = Cta.sortCtas hr l.
Proof.
  unfold Cta.ranked, Cta.sortCtas, Arr.sort, Cta.indexed.
  set (cmp' := fun a b : nat * Cta.Candidate => Cta.compareCta hr (snd a) (snd b)).
  assert (Hins : forall p acc,
            map snd (Arr.insert cmp' p acc)
            = Arr.insert (Cta.compareCta hr) (snd p) (map snd acc)).
  { intros p acc. induction acc as [|q acc IH]; simpl; [reflexivity|].
    unfold cmp' at 1. destruct (Qlt_bool _ 0); simpl; [reflexivity|].
    rewrite IH. reflexivity. }
  assert (Hfold : forall k acc,
            map snd (fold_left (fun a x => Arr.insert cmp' x a)
                       (Cta.indexedFrom k l) acc)
            = fold_left (fun a x => Arr.insert (Cta.compareCta hr) x a) l
                (map snd acc)).
  { induction l as [|c l IH]; intros k acc; simpl; [reflexivity|].
    rewrite IH, Hins. reflexivity. }
  apply (Hfold 0%nat []).
Qed.

(** C5, as stated, fails: giving a candidate a verb of a higher tier
    can move it later, because the OAuth test reads the same text and
    is applied before the tier.  "Learn more" (tier 1) stands first
    before "View pricing" (tier 0); as "Sign up with Google" (tier 3)
    it stands second.  The same happens when "Learn more" and "Sign up
    with Google" exchange their texts: the candidate that now holds
    tier 3 goes from first to second. *)
Lemma C5_cta_rank_counterexample :
  forallb Cta.keepCta [learnMore; viewPricing; signUpGoogle] = true
  /\ (Cta.ctaPriority "Learn more" < Cta.ctaPriority "Sign up with Google")%Z
  /\ Cta.positionOf 0 (Cta.ranked None [learnMore; viewPricing]) = 0%nat
  /\ Cta.positionOf 0
       (Cta.ranked None
          (Cta.retext 0 "Sign up with Google" [learnMore; viewPricing]))
     = 1%nat
  /\ Cta.positionOf 0 (Cta.ranked None [learnMore; signUpGoogle]) = 0%nat
  /\ Cta.positionOf 0
       (Cta.ranked None
          (Cta.retext 1 "Learn more"
             (Cta.retext 0 "Sign up with Google" [learnMore; signUpGoogle])))
     = 1%nat.
Proof. repeat split; vm_compute; reflexivity. Qed.

(** C5 (amended).  The ranking is monotone in the priority tier as long
    as the new text does not turn the candidate into an OAuth-provider
    button: if the candidate at place [i] is given a text of a strictly
    higher tier -- a new text, or the text of another candidate [j] in
    exchange for its own -- and that text is not an OAuth text unless
    its old one was, then it ends at an earlier or the same position in
    the sorted list, never a later one. *)
Theorem C5_cta_rank_monotone (hr : option Dom.DOMRect)
    (l : list Cta.Candidate) (i : nat) (x : Cta.Candidate) :
  nth_error l i = Some x ->
  (forall t' : string,
      (Cta.isOAuth (Cta.setText t' x) = true -> Cta.isOAuth x = true) ->
      (Cta.ctaPriority (Cta.text x) < Cta.ctaPriority t')%Z ->
      (Cta.positionOf i (Cta.ranked hr (Cta.retext i t' l))
       <= Cta.positionOf i (Cta.ranked hr l))%nat)
  /\ (forall (j : nat) (y : Cta.Candidate),
        nth_error l j = Some y -> j <> i ->
        (Cta.isOAuth y = true -> Cta.isOAuth x = true) ->
        (Cta.ctaPriority (Cta.text x) < Cta.ctaPriority (Cta.text y))%Z ->
        (Cta.positionOf i
           (Cta.ranked hr
              (Cta.retext j (Cta.text x) (Cta.retext i (Cta.text y) l)))
         <= Cta.positionOf i (Cta.ranked hr l))%nat).
Proof.
  intro Hx. split.
  - intros t' Ho Hp.
    apply (@position_monotone i hr l _ x (Cta.setText t' x) Hx).
    + rewrite retext_nth, Nat.eqb_refl, Hx. reflexivity.
    + apply indexedFrom_Forall2; [symmetry; apply retext_length|].
      intros k c c' Hc Hc'. simpl in *.
      unfold Cta.othersUpTo, Cta.othersBelow. simpl.
      rewrite retext_nth in Hc'.
      destruct (Nat.eqb_spec k i) as [->|Hk]; simpl; [discriminate|].
      rewrite Hc in Hc'. injection Hc' as <-.
      rewrite Nat.leb_le, Nat.ltb_lt.
      rewrite rank_setText, (rank_unfold x).
      rewrite isOAuth_setText in Ho. unfold Cta.isOAuth in Ho.
      pose proof (ctaPriority_range t').
      pose proof (ctaPriority_range (Cta.text x)).
      destruct (Regex.test Cta.oauthCtaRegex t');
        destruct (Regex.test Cta.oauthCtaRegex (Cta.text x));
        try (specialize (Ho eq_refl); discriminate);
        destruct (Cta.isButton x); lia.
  - intros j y Hy Hji Ho Hp.
    apply (@position_monotone i hr l _ x (Cta.setText (Cta.text y) x) Hx).
    + rewrite !retext_nth, Nat.eqb_refl, Hx.
      destruct (Nat.eqb_spec i j); [congruence|reflexivity].
    + apply indexedFrom_Forall2;
        [symmetry; rewrite !retext_length; reflexivity|].
      intros k c c' Hc Hc'. simpl in *.
      unfold Cta.othersUpTo, Cta.othersBelow. simpl.
      rewrite !retext_nth in Hc'.
      destruct (Nat.eqb_spec k i) as [->|Hk]; simpl; [discriminate|].
      rewrite Nat.leb_le, Nat.ltb_lt.
      rewrite rank_setText, (rank_unfold x).
      unfold Cta.isOAuth in Ho.
      pose proof (ctaPriority_range (Cta.text y)).
      pose proof (ctaPriority_range (Cta.text x)).
      destruct (Nat.eqb_spec k j) as [->|Hkj].
      * rewrite Hy in Hc. injection Hc as <-.
        rewrite Hy in Hc'. simpl in Hc'. injection Hc' as <-.
        rewrite rank_setText, (rank_unfold y).
        destruct (Regex.test Cta.oauthCtaRegex (Cta.text y));
          destruct (Regex.test Cta.oauthCtaRegex (Cta.text x));
          try (specialize (Ho eq_refl); discriminate);
          destruct (Cta.isButton x), (Cta.isButton y); lia.
      * rewrite Hc in Hc'. injection Hc' as <-.
        destruct (Regex.test Cta.oauthCtaRegex (Cta.text y));
          destruct (Regex.test Cta.oauthCtaRegex (Cta.text x));
          try (specialize (Ho eq_refl); discriminate);
          destruct (Cta.isButton x); lia.
Qed.

Lemma C5_cta_rank_monotone_witness :
  (Cta.positionOf 0
     (Cta.ranked None (Cta.retext 0 "Start free" [learnMore; contactSales]))
   <= Cta.positionOf 0 (Cta.ranked None [learnMore; contactSales]))%nat.
Proof.
  apply (proj1 (@C5_cta_rank_monotone None [learnMore; contactSales]
                  0%nat learnMore eq_refl)).
  - vm_compute. discriminate.
  - vm_compute. reflexivity.
Defined.
(** ** The detected stack *)

Section StackRules.

Import Stack.

Lemma arrayIncludes_In (l : list string) (x : string) :
  Js.arrayIncludes l x = true <-> In x l.
Proof.
  unfold Js.arrayIncludes. rewrite existsb_exists. split.
  - intros (y & Hy & E). apply String.eqb_eq in E. subst. exact Hy.
  - intro H. exists x. split; [exact H|apply String.eqb_refl].
Qed.

Lemma run_app (pre post : list Rule) (st : list string) :
  run (pre ++ post) st = run post (run pre st).
Proof. apply fold_left_app. Qed.

Lemma step_In (r : Rule) (st : list string) (t : string) :
  In t (step st r) -> In t st \/ t = tag r.
Proof.
  unfold step. destruct (guard r st); [|auto].
  rewrite in_app_iff. simpl. intuition.
Qed.

(** A tag of the result was there at the start or is the tag of one of
    the rules. *)
Lemma run_In (rs : list Rule) (st : list string) (t : string) :
  In t (run rs st) -> In t st \/ In t (map tag rs).
Proof.
  revert st. induction rs as [|r rs IH]; intros st H; simpl in *; [auto|].
  destruct (IH _ H) as [H1|H1]; [|auto].
  destruct (step_In _ _ _ H1); auto.
Qed.

Lemma run_keeps (rs : list Rule) (st : list string) (t : string) :
  In t st -> In t (run rs st).
Proof.
  revert st. induction rs as [|r rs IH]; intros st H; simpl; [exact H|].
  apply IH. unfold step. destruct (guard r st); [|exact H].
  apply in_or_app. auto.
Qed.

Lemma run_NoDup (rs : list Rule) (st : list string) :
  NoDup st -> NoDup (map tag rs) ->
  (forall t, In t st -> ~ In t (map tag rs)) ->
  NoDup (run rs st).
Proof.
  revert st. induction rs as [|r rs IH]; intros st Hst Hrs Hdis; simpl;
    [exact Hst|].
  simpl in Hrs. inversion Hrs as [|? ? Hr Hrs']; subst.
  apply IH; [|exact Hrs'|].
  - unfold step. destruct (guard r st); [|exact Hst].
    apply NoDup_app; [exact Hst|repeat constructor; auto|].
    intros t Ht [<- | []]. apply (Hdis _ Ht). left. reflexivity.
  - intros t Ht Hin. destruct (step_In _ _ _ Ht) as [H | ->].
    + apply (Hdis _ H). right. exact Hin.
    + exact (Hr Hin).
Qed.

(** With distinct tags, the tag of a rule is in the result only if the
    guard of the rule held on the array as the rules before it left
    it, and a tag of an earlier rule in the result was already there
    at that point. *)
Lemma run_guard (pre post : list Rule) (r : Rule) :
  ~ In (tag r) (map tag pre) -> ~ In (tag r) (map tag post) ->
  In (tag r) (run (pre ++ r :: post) []) ->
  guard r (run pre []) = true.
Proof.
  intros Hpre Hpost H. rewrite run_app in H. simpl in H.
  destruct (run_In _ _ _ H) as [H1|H1]; [|contradiction].
  unfold step in H1. destruct (guard r (run pre [])); [reflexivity|].
  destruct (run_In _ _ _ H1) as [[]|H2]. contradiction.
Qed.

Lemma run_earlier (pre post : list Rule) (t : string) :
  ~ In t (map tag post) ->
  In t (run (pre ++ post) []) -> In t (run pre []).
Proof.
  intros Hpost H. rewrite run_app in H.
  destruct (run_In _ _ _ H); [assumption|contradiction].
Qed.

End StackRules.

Lemma tags_of_rules (p : Stack.Probes) :
  map Stack.tag (Stack.rules p) =
  ["nextjs"; "webflow"; "framer"; "gatsby"; "nuxt"; "remix"; "astro"; "hugo";
   "sveltekit"; "wordpress"; "shopify"; "wix"; "squarespace"; "vitepress";
   "vue"; "react"; "angular"; "tailwind"; "bootstrap"; "material-ui";
   "chakra-ui"; "radix"; "ant-design"; "emotion"; "styled-components";
   "css-modules"; "vercel"; "netlify"; "cloudflare"; "aws-amplify"; "gsap";
   "lottie"; "framer-motion"]%string.
Proof. reflexivity. Qed.

Ltac not_in_tags :=
  let H := fresh in
  intro H; apply arrayIncludes_In in H; vm_compute in H; discriminate.

Ltac nodup_tags :=
  repeat (constructor; [not_in_tags|]); constructor.

(** Whatever the probes answer, the list holds no tag twice, never
    "react" together with "nextjs", "gatsby" or "remix", and never
    "vue" together with "nuxt" or "vitepress". *)
Lemma detectedStack_suppression (p : Stack.Probes) :
  NoDup (Stack.detectedStack p)
  /\ (In "react"%string (Stack.detectedStack p) ->
      ~ In "nextjs"%string (Stack.detectedStack p)
      /\ ~ In "gatsby"%string (Stack.detectedStack p)
      /\ ~ In "remix"%string (Stack.detectedStack p))
  /\ (In "vue"%string (Stack.detectedStack p) ->
      ~ In "nuxt"%string (Stack.detectedStack p)
      /\ ~ In "vitepress"%string (Stack.detectedStack p)).
Proof.
  unfold Stack.detectedStack. split; [|split].
  - apply run_NoDup; [constructor| |intros t []].
    rewrite tags_of_rules. nodup_tags.
  - intro Hreact.
    change (Stack.rules p)
      with (firstn 15 (Stack.rules p)
            ++ nth 15 (Stack.rules p) (Stack.Build_Rule
                                         (Stack.always false) "")
            :: skipn 16 (Stack.rules p)) in *.
    set (pre := firstn 15 (Stack.rules p)) in *.
    set (post := skipn 16 (Stack.rules p)) in *.
    set (r := nth 15 (Stack.rules p) _) in *.
    assert (Hpre : ~ In (Stack.tag r) (map Stack.tag pre)) by not_in_tags.
    assert (Hpost : ~ In (Stack.tag r) (map Stack.tag post)) by not_in_tags.
    pose proof (run_guard pre post r Hpre Hpost Hreact) as Hg.
    clear Hreact. rename Hg into Hreact.
    cbn [r nth Stack.rules Stack.guard] in Hreact.
    rewrite !andb_true_iff, !negb_true_iff in Hreact.
    destruct Hreact as [[[Hn Hg] Hr] _].
    repeat split; intro H;
      apply (run_earlier pre (_ :: post)) in H; try not_in_tags;
      apply arrayIncludes_In in H; congruence.
  - intro Hvue.
    change (Stack.rules p)
      with (firstn 14 (Stack.rules p)
            ++ nth 14 (Stack.rules p) (Stack.Build_Rule
                                         (Stack.always false) "")
            :: skipn 15 (Stack.rules p)) in *.
    set (pre := firstn 14 (Stack.rules p)) in *.
    set (post := skipn 15 (Stack.rules p)) in *.
    set (r := nth 14 (Stack.rules p) _) in *.
    assert (Hpre : ~ In (Stack.tag r) (map Stack.tag pre)) by not_in_tags.
    assert (Hpost : ~ In (Stack.tag r) (map Stack.tag post)) by not_in_tags.
    pose proof (run_guard pre post r Hpre Hpost Hvue) as Hg.
    clear Hvue. rename Hg into Hvue.
    cbn [r nth Stack.rules Stack.guard] in Hvue.
    rewrite !andb_true_iff, !negb_true_iff in Hvue.
    destruct Hvue as [[Hn Hv] _].
    repeat split; intro H;
      apply (run_earlier pre (_ :: post)) in H; try not_in_tags;
      apply arrayIncludes_In in H; congruence.
Qed.

(** C7.  For every page, [detected_stack] holds no tag twice, never
    "react" together with "nextjs", "gatsby" or "remix", and never
    "vue" together with "nuxt" or "vitepress". *)
Theorem C7_stack_suppression (d : Dom.Document) (w : Window)
    (cx : Canvas.Contexts) :
  let stack := Fingerprint.detected_stack (Extract.extractFingerprint d w cx) in
  NoDup stack
  /\ (In "react"%string stack ->
      ~ In "nextjs"%string stack /\ ~ In "gatsby"%string stack
      /\ ~ In "remix"%string stack)
  /\ (In "vue"%string stack ->
      ~ In "nuxt"%string stack /\ ~ In "vitepress"%string stack).
Proof.
  exact (detectedStack_suppression (Extract.probes d w)).
Qed.
(** ** The dark theme *)

Lemma luminance_spec (red green blue : Num.Num) :
  Theme.luminance red green blue = spec_luminance red green blue.
Proof. reflexivity. Qed.

(** The constants of lines 1532-1567 and 1636-1643 as doubles. *)
Lemma double_literals :
  Double.ofQ (2126 # 10000) = S754_finite false 7659722246231740 (-55)
  /\ Double.ofQ (7152 # 10000) = S754_finite false 6441948906990757 (-53)
  /\ Double.ofQ (722 # 10000) = S754_finite false 5202558289538397 (-56)
  /\ Double.ofQ 255 = S754_finite false 8972014882652160 (-45)
  /\ Double.ofQ (15 # 100) = S754_finite false 5404319552844595 (-55)
  /\ Double.ofQ (2 # 10) = S754_finite false 7205759403792794 (-55)
  /\ Double.ofQ (5 # 10) = S754_finite false 4503599627370496 (-53)
  /\ Double.ofQ (6 # 10) = S754_finite false 5404319552844595 (-53)
  /\ Double.ofQ (7 # 10) = S754_finite false 6305039478318694 (-53)
  /\ Double.ofQ (9 # 10) = S754_finite false 8106479329266893 (-53).
Proof. repeat split; vm_compute; reflexivity. Qed.

(** [NaN] goes through every operation, and no comparison with it
    holds. *)
Lemma mul_NaN_r (x : Double.t) : Double.mul x Double.NaN = Double.NaN.
Proof. destruct x; reflexivity. Qed.

Lemma add_NaN_l (y : Double.t) : Double.add Double.NaN y = Double.NaN.
Proof. reflexivity. Qed.

Lemma add_NaN_r (x : Double.t) : Double.add x Double.NaN = Double.NaN.
Proof. destruct x; reflexivity. Qed.

Lemma div_NaN_l (y : Double.t) : Double.div Double.NaN y = Double.NaN.
Proof. reflexivity. Qed.

Lemma lt_NaN_l (y : Double.t) : Double.lt Double.NaN y = false.
Proof. reflexivity. Qed.

Lemma gt_NaN_l (y : Double.t) : Double.gt Double.NaN y = false.
Proof. destruct y; reflexivity. Qed.

Lemma luminance_NaN (red green blue : Num.Num) :
  red = None \/ green = None \/ blue = None ->
  Theme.luminance red green blue = Double.NaN.
Proof.
  unfold Theme.luminance.
  intros [-> | [-> | ->]]; cbn [Double.ofNum];
    rewrite ?mul_NaN_r, ?add_NaN_l, ?add_NaN_r, ?add_NaN_l, ?div_NaN_l;
    reflexivity.
Qed.

Lemma textLuminance_spec (textColor : string) :
  Theme.textLuminance textColor = spec_textLuminance textColor.
Proof.
  unfold Theme.textLuminance, spec_textLuminance, spec_textChannels.
  cbv zeta. destruct (Regex.exec Theme.textChannelRegex textColor);
    reflexivity.
Qed.


(** The flag of the result is the test on the background the walk
    resolves to. *)
Lemma sample_is_dark (start : Dom.Loc) (textColor : string) :
  Theme.is_dark (Theme.sample start textColor)
  = Theme.isDark (Theme.background start) textColor.
Proof.
  unfold Theme.sample, Theme.background.
  destruct (Theme.walk 10 (Dom.selfAndAncestors start) Theme.transparent
              "none") as [[stop bg] bgImage].
  reflexivity.
Qed.

Lemma dark_theme_hero_sampled (d : Dom.Document) (w : Window)
    (cx : Canvas.Contexts) (hEl start : Dom.Loc) :
  Extract.s_headlineEl (Extract.stages d w) = Some hEl ->
  Extract.sampledElement d (Some hEl) = Some start ->
  Fingerprint.dark_theme_hero (Extract.extractFingerprint d w cx)
  = Theme.isDark (Theme.background start)
      (Dom.color (Dom.style (Dom.el hEl))).
Proof.
  intros Hh Hs.
  unfold Extract.extractFingerprint, Extract.fingerprint. cbv zeta.
  cbn [Fingerprint.dark_theme_hero].
  unfold Extract.darkThemeHero, Extract.darkThemeResult.
  rewrite Hh, Hs. apply sample_is_dark.
Qed.

(** ** Product cards and the commerce flag *)

Lemma isSome_hd_filter (A : Type) (f : A -> bool) (l : list A) :
  Extract.isSome (List.hd_error (filter f l)) = existsb f l.
Proof.
  induction l as [|a l IH]; simpl; [reflexivity|].
  destruct (f a); simpl; [reflexivity | exact IH].
Qed.

Lemma filter_filter (A : Type) (f g : A -> bool) (l : list A) :
  filter f (filter g l) = filter (fun x => g x && f x) l.
Proof.
  induction l as [|a l IH]; simpl; [reflexivity|].
  destruct (g a); simpl; [destruct (f a)|]; now rewrite IH.
Qed.

(** The selector list of line 919 asks for the markup of a card. *)
Lemma productCardSelectors_markup (x : Dom.Loc) :
  Dom.matches Extract.productCardSelectors x = spec_cardMarkup (Dom.el x).
Proof.
  unfold spec_cardMarkup, Dom.hasAttribute, Dom.attr.
  cbv [Dom.matches Extract.productCardSelectors existsb Dom.matchComplex
       rev app Dom.matchCompound Dom.matchAncestors forallb
       Dom.c_type Dom.c_id Dom.c_classes Dom.c_attrs Dom.c_not
       Dom.attrTest Dom.a_name Dom.a_op Dom.a_value Dom.a_icase
       Dom.legacyCaseInsensitive Js.truthy Js.isEmpty negb orb andb].
  destruct (Dom.getAttribute (Dom.el x) "class") as [cls|];
    destruct (Dom.getAttribute (Dom.el x) "data-product");
    destruct (Dom.getAttribute (Dom.el x) "data-sku");
    destruct (Dom.getAttribute (Dom.el x) "data-item");
    cbn [Js.toLowerCase];
    repeat match goal with
           | |- context [Js.lowerChar ?c] =>
               let v := eval vm_compute in (Js.lowerChar c) in
               change (Js.lowerChar c) with v
           end;
    first [ vm_compute; reflexivity
          | repeat match goal with
                   | |- context [Js.includes ?a ?b] =>
                       destruct (Js.includes a b)
                   end; reflexivity ].
Qed.

Lemma imgSelector_tag (y : Dom.Loc) :
  Dom.matches Extract.imgSelector y
  = String.eqb "img" (Dom.localName (Dom.el y)).
Proof.
  cbv [Dom.matches Extract.imgSelector existsb Dom.matchComplex
       rev app Dom.matchCompound Dom.matchAncestors forallb
       Dom.c_type Dom.c_id Dom.c_classes Dom.c_attrs Dom.c_not
       Dom.typeIs orb andb].
  change (Js.toLowerCase "img") with "img"%string.
  destruct (Dom.isHtml (Dom.el y));
    now destruct (String.eqb "img" (Dom.localName (Dom.el y))).
Qed.

Lemma existsb_ext_eq (A : Type) (f g : A -> bool) (l : list A) :
  (forall x, f x = g x) -> existsb f l = existsb g l.
Proof.
  intros H; induction l as [|a l IH]; simpl; [reflexivity|].
  now rewrite H, IH.
Qed.

Lemma filter_ext_eq (A : Type) (f g : A -> bool) (l : list A) :
  (forall x, f x = g x) -> filter f l = filter g l.
Proof.
  intros H; induction l as [|a l IH]; simpl; [reflexivity|].
  now rewrite H, IH.
Qed.

(** The predicate of lines 926-931 asks for a card-like element. *)
Lemma isProductCard_cardLike (x : Dom.Loc) :
  Extract.isProductCard x = spec_cardLike x.
Proof.
  unfold Extract.isProductCard, spec_cardLike, Dom.querySelectorIn,
    Dom.querySelectorAllIn.
  rewrite isSome_hd_filter.
  now rewrite (existsb_ext_eq _ _ _ imgSelector_tag).
Qed.

Lemma productCardCount_spec (d : Dom.Document) (w : Window) :
  Extract.productCardCount d w
  = List.length (filter (spec_productCard d w) (Dom.allElements d)).
Proof.
  unfold Extract.productCardCount, Extract.candidateCards,
    Dom.querySelectorAll.
  rewrite !filter_filter.
  f_equal. apply filter_ext_eq. intro x.
  unfold spec_productCard.
  rewrite productCardSelectors_markup, isProductCard_cardLike.
  destruct (spec_cardMarkup (Dom.el x)), (Extract.inHero d w x),
    (Extract.isVisible x), (spec_cardLike x); reflexivity.
Qed.

(** The fields of the result that the commerce flag is made of
    (lines 916, 926-931, 966). *)
Lemma commerce_fields (d : Dom.Document) (w : Window)
    (cx : Canvas.Contexts) :
  let fp := Extract.extractFingerprint d w cx in
  Fingerprint.product_card_count fp = Extract.productCardCount d w
  /\ Fingerprint.add_to_cart_count fp = Extract.addToCartCount d w
  /\ Fingerprint.is_commerce_hero fp
     = (2 <=? Fingerprint.product_card_count fp)%nat
       || ((2 <=? Fingerprint.add_to_cart_count fp)%nat
           && Fingerprint.has_price_display fp).
Proof. repeat split. Qed.

(** C3, as worded, fails: the shop front whose three tiles each hold a
    picture and a price, with a short text, and nothing else does;
    the tiles carry no class or data attribute, no card is counted and
    the page is not a commerce hero. *)
Lemma C3_product_cards_counterexample :
  let d := shop [] in
  let fp := Extract.extractFingerprint d desktop fresh in
  List.length
    (filter (fun x => Extract.inHero d desktop x && Extract.isVisible x
                      && spec_cardLike x) (Dom.allElements d)) = 3%nat
  /\ Fingerprint.product_card_count fp = 0%nat
  /\ Fingerprint.is_commerce_hero fp = false.
Proof.
  cbv zeta.
  destruct (commerce_fields (shop []) desktop fresh) as (Hc & Ha & Hh).
  assert (Hc0 : Extract.productCardCount (shop []) desktop = 0%nat)
    by (vm_compute; reflexivity).
  assert (Ha0 : Extract.addToCartCount (shop []) desktop = 0%nat)
    by (vm_compute; reflexivity).
  split; [vm_compute; reflexivity|].
  split; [now rewrite Hc|].
  now rewrite Hh, Hc, Ha, Hc0, Ha0.
Qed.

(** C3, amended: the product cards counted are the visible elements of
    the hero with the markup of a card (a class containing "product",
    "item-card", "sku" or "card", or a [data-product], [data-sku] or
    [data-item] attribute) that contain an image, show a price and
    have a text under 300 characters.  When there are [n] of them,
    [product_card_count] is [n]; [is_commerce_hero] is true exactly
    when [n >= 2] or ([add_to_cart_count >= 2] and a price shows in
    the hero text); so three cards make a commerce hero whatever the
    number of add-to-cart buttons. *)
Theorem C3_product_cards (d : Dom.Document) (w : Window)
    (cx : Canvas.Contexts) (n : nat) :
  List.length (filter (spec_productCard d w) (Dom.allElements d)) = n ->
  let fp := Extract.extractFingerprint d w cx in
  Fingerprint.product_card_count fp = n
  /\ (Fingerprint.is_commerce_hero fp = true
      <-> (2 <= n)%nat
          \/ ((2 <= Fingerprint.add_to_cart_count fp)%nat
              /\ Fingerprint.has_price_display fp = true))
  /\ (n = 3%nat -> Fingerprint.is_commerce_hero fp = true).
Proof.
  intros Hn fp.
  destruct (commerce_fields d w cx) as (Hc & Ha & Hh).
  fold fp in Hc, Ha, Hh.
  assert (Hcount : Fingerprint.product_card_count fp = n)
    by (rewrite Hc, productCardCount_spec; exact Hn).
  assert (Hiff : Fingerprint.is_commerce_hero fp = true
                 <-> (2 <= n)%nat
                     \/ ((2 <= Fingerprint.add_to_cart_count fp)%nat
                         /\ Fingerprint.has_price_display fp = true)).
  { rewrite Hh, Hcount, orb_true_iff, andb_true_iff, !Nat.leb_le. tauto. }
  split; [exact Hcount|]. split; [exact Hiff|].
  intros ->. apply Hiff. left. lia.
Qed.

(** The shop front with three tiles of class "product-card" and no
    add-to-cart button. *)
Lemma C3_product_cards_witness :
  let d := shop [("class", "product-card")%string] in
  let fp := Extract.extractFingerprint d desktop fresh in
  List.length (filter (spec_productCard d desktop) (Dom.allElements d)) = 3%nat
  /\ Fingerprint.add_to_cart_count fp = 0%nat
  /\ Fingerprint.product_card_count fp = 3%nat
  /\ Fingerprint.is_commerce_hero fp = true.
Proof.
  cbv zeta.
  assert (H3 : List.length
                 (filter (spec_productCard
                            (shop [("class", "product-card")%string]) desktop)
                    (Dom.allElements (shop [("class", "product-card")%string])))
               = 3%nat) by (vm_compute; reflexivity).
  split; [exact H3|].
  split.
  - destruct (commerce_fields (shop [("class", "product-card")%string]) desktop
                fresh)
      as (_ & -> & _). vm_compute; reflexivity.
  - destruct (C3_product_cards
                (shop [("class", "product-card")%string]) desktop fresh H3)
      as (Hc & _ & Hh).
    split; [exact Hc | exact (Hh eq_refl)].
Defined.

(** ** The empty page *)

Lemma filter_nil_all (A : Type) (f : A -> bool) (l : list A) :
  (forall x, In x l -> f x = false) -> filter f l = [].
Proof.
  induction l as [|a l IH]; intros H; simpl; [reflexivity|].
  rewrite (H a (or_introl eq_refl)). apply IH. intros x Hx. apply H. now right.
Qed.

(** The places below an element, through its child elements. *)
Lemma subtree_children (e : Dom.Element) (anc : list Dom.Element)
    (p : list nat) :
  Dom.subtree e anc p
  = {| Dom.el := e; Dom.up := anc; Dom.path := p |}
    :: flat_map (fun ic => Dom.subtree (snd ic) (e :: anc) (fst ic :: p))
         (combine (seq 0 (List.length (Dom.children e))) (Dom.children e)).
Proof.
  destruct e as [ns name attrs r st it v ms kids].
  cbn [Dom.subtree]. f_equal.
  unfold Dom.children. cbn [Dom.childNodes].
  set (e := Dom.mkElement _ _ _ _ _ _ _ _ _). clearbody e.
  generalize 0%nat as i.
  induction kids as [|k kids IH]; intro i; [reflexivity|].
  destruct k as [t|c]; cbn [flat_map app List.length seq combine].
  - apply IH.
  - cbn [fst snd]. now rewrite IH.
Qed.

(** Lower case undoes the upper case of [tagName]. *)
Lemma lowerChar_asciiUpperChar (c : ascii) :
  Js.lowerChar (Dom.asciiUpperChar c) = Js.lowerChar c.
Proof. destruct c as [[] [] [] [] [] [] [] []]; reflexivity. Qed.

Lemma toLowerCase_asciiUpper (s : string) :
  Js.toLowerCase (Dom.asciiUpper s) = Js.toLowerCase s.
Proof.
  induction s as [|c s IH]; [reflexivity|].
  cbn [Dom.asciiUpper Js.toLowerCase].
  now rewrite lowerChar_asciiUpperChar, IH.
Qed.

Lemma lowerChar_idem (c : ascii) :
  Js.lowerChar (Js.lowerChar c) = Js.lowerChar c.
Proof. destruct c as [[] [] [] [] [] [] [] []]; reflexivity. Qed.

Lemma toLowerCase_idem (s : string) :
  Js.toLowerCase (Js.toLowerCase s) = Js.toLowerCase s.
Proof.
  induction s as [|c s IH]; [reflexivity|].
  cbn [Js.toLowerCase]. now rewrite lowerChar_idem, IH.
Qed.

(** An element that a type selector matches has the name of the
    selector for its [tagName], case apart. *)
Lemma typeIs_lower (t : string) (e : Dom.Element) :
  Dom.typeIs t e = true ->
  Js.toLowerCase t = Js.toLowerCase (Dom.tagName e).
Proof.
  unfold Dom.typeIs, Dom.tagName. destruct (Dom.isHtml e); intro H;
    apply String.eqb_eq in H.
  - now rewrite <- H, toLowerCase_asciiUpper, toLowerCase_idem.
  - now rewrite H.
Qed.

(** The HTML element named [name] has its upper case for
    [tagName]. *)
Lemma isHtmlElement_tagName (name : string) (e : Dom.Element) :
  Dom.isHtmlElement name e = true ->
  Dom.tagName e = Dom.asciiUpper name.
Proof.
  unfold Dom.isHtmlElement, Dom.tagName. intro H.
  apply andb_true_iff in H as [-> H]. apply String.eqb_eq in H.
  now rewrite H.
Qed.

Lemma bare_no_match (c : Dom.Compound) (e : Dom.Element) :
  bare e = true -> needsMarkup c = true -> Dom.matchCompound c e = false.
Proof.
  unfold bare, needsMarkup, noAttributes, Dom.matchCompound.
  intros Hb Hn. apply andb_true_iff in Hb as [Htag Hattrs].
  assert (Hget : forall n, Dom.getAttribute e n = None).
  { intro n. unfold Dom.getAttribute.
    destruct (Dom.attributes e); [reflexivity | discriminate]. }
  assert (Htype : match Dom.c_type c with
                  | Some t => Dom.typeIs t e
                  | None => true
                  end = true ->
                  match Dom.c_type c with
                  | Some t =>
                      negb (Js.arrayIncludes ["html"; "head"; "body"]%string
                              (Js.toLowerCase t))
                  | None => false
                  end = false).
  { destruct (Dom.c_type c) as [t|]; [|reflexivity].
    intros Ety. apply typeIs_lower in Ety.
    now rewrite Ety, Htag. }
  destruct (match Dom.c_type c with
            | Some t => Dom.typeIs t e
            | None => true
            end); [|reflexivity].
  rewrite (Htype eq_refl) in Hn. cbn [orb andb] in Hn |- *.
  destruct (Dom.c_id c).
  - now rewrite (Hget "id"%string).
  - destruct (Dom.c_classes c) as [|k ks].
    + destruct (Dom.c_attrs c) as [|a attrs]; [discriminate|].
      cbn [forallb andb]. unfold Dom.attrTest at 1. now rewrite Hget.
    + cbn [forallb]. unfold Dom.hasClass at 1, Dom.attr.
      now rewrite Hget.
Qed.

Lemma bare_no_matches (s : Dom.Selector) (x : Dom.Loc) :
  bare (Dom.el x) = true -> selectorNeedsMarkup s = true ->
  Dom.matches s x = false.
Proof.
  intros Hb. unfold selectorNeedsMarkup, Dom.matches.
  induction s as [|cx s IH]; [reflexivity|].
  cbn [forallb existsb]. intros H. apply andb_true_iff in H as [Hcx Hs].
  rewrite (IH Hs), orb_false_r.
  unfold Dom.matchComplex. destruct (rev cx) as [|last before]; [reflexivity|].
  now rewrite (bare_no_match _ _ Hb Hcx).
Qed.

Section EmptyPage.

Variable d : Dom.Document.
Variable w : Window.
Variable cx : Canvas.Contexts.
Hypothesis Hempty : isEmptyPage d = true.

Lemma emptyPage_shape :
  exists head body,
    Dom.children (Dom.documentElement d) = [head; body]
    /\ bare (Dom.documentElement d) = true
    /\ bare head = true
    /\ Forall (fun c => Dom.children c = [] /\ offScreen c = true)
              (Dom.children head)
    /\ Dom.tagName head = "HEAD"%string
    /\ Dom.tagName body = "BODY"%string
    /\ bare body = true
    /\ Dom.children body = [].
Proof.
  pose proof Hempty as H. unfold isEmptyPage in H.
  destruct (Dom.children (Dom.documentElement d)) as [|head [|body [|? ?]]];
    try (rewrite andb_false_r in H; discriminate).
  rewrite !andb_true_iff in H.
  destruct H as ((Htag & Hattrs)
                 & (((((Hhead & Hhattrs) & Hleaf) & Hbody) & Hbattrs) & Hnone)).
  apply String.eqb_eq in Htag, Hhead, Hbody.
  exists head, body. unfold bare.
  rewrite Htag, Hhead, Hbody, Hattrs, Hhattrs, Hbattrs.
  repeat split.
  - apply Forall_forall. intros c Hc.
    rewrite forallb_forall in Hleaf. specialize (Hleaf c Hc).
    apply andb_true_iff in Hleaf as [Hn Ho].
    split; [|exact Ho].
    unfold noChildren in Hn. now destruct (Dom.children c).
  - unfold noChildren in Hnone. now destruct (Dom.children body).
Qed.

(** Every element of the page is [html], [head] or [body], or a child
    of [head]. *)
Lemma elements_cases (x : Dom.Loc) :
  In x (Dom.allElements d) ->
  bare (Dom.el x) = true
  \/ (Dom.children (Dom.el x) = [] /\ offScreen (Dom.el x) = true).
Proof.
  destruct emptyPage_shape as (head & body & Hkids & Hhtml & Hhead & Hleaf
                               & _ & _ & Hbody & Hnone).
  unfold Dom.allElements.
  rewrite subtree_children, Hkids.
  cbn [List.length seq combine flat_map fst snd app].
  rewrite (subtree_children head), (subtree_children body), Hnone.
  cbn [List.length seq combine flat_map app].
  intros [<- | [<- | Hx]]; [now left | now left |].
  apply in_app_or in Hx as [Hx | Hx].
  - right. apply in_flat_map in Hx as ((i & c) & Hic & Hx).
    apply in_combine_r in Hic. cbn [fst snd] in Hx.
    rewrite Forall_forall in Hleaf. destruct (Hleaf c Hic) as [Hc Ho].
    rewrite subtree_children, Hc in Hx. cbn in Hx.
    destruct Hx as [<- | []]. now split.
  - destruct Hx as [<- | []]. now left.
Qed.

(** What a selector that needs markup finds is a child of [head]. *)
Lemma query_cases (s : Dom.Selector) (x : Dom.Loc) :
  selectorNeedsMarkup s = true -> In x (Dom.querySelectorAll d s) ->
  Dom.children (Dom.el x) = [] /\ offScreen (Dom.el x) = true.
Proof.
  intros Hs Hx. unfold Dom.querySelectorAll in Hx.
  apply filter_In in Hx as [Hin Hm].
  destruct (elements_cases x Hin) as [Hb | H]; [|exact H].
  rewrite (bare_no_matches _ _ Hb Hs) in Hm. discriminate.
Qed.

Lemma offScreen_inHero (x : Dom.Loc) :
  offScreen (Dom.el x) = true -> Extract.inHero d w x = false.
Proof.
  unfold offScreen, Extract.inHero, Qgt_bool, Qlt_bool. now intros ->.
Qed.

Lemma offScreen_inFold (x : Dom.Loc) :
  offScreen (Dom.el x) = true -> Extract.inFold w x = false.
Proof.
  unfold offScreen, Extract.inFold, Qgt_bool, Qlt_bool. now intros ->.
Qed.


Ltac query_nil :=
  apply filter_nil_all;
  let x := fresh "x" in
  let Hx := fresh "Hx" in
  let Hc := fresh "Hc" in
  let Ho := fresh "Ho" in
  intros x Hx;
  apply query_cases in Hx; [|vm_compute; reflexivity];
  destruct Hx as [Hc Ho];
  rewrite ?(offScreen_inHero _ Ho), ?(offScreen_inFold _ Ho);
  cbn [andb orb negb]; rewrite ?andb_false_r; reflexivity.

(** *** The hero boundary *)

Lemma body_empty :
  match Dom.body d with
  | Some b => Dom.childLocs b = []
  | None => True
  end.
Proof.
  destruct emptyPage_shape as (head & body & Hkids & _ & _ & _ & Hhead
                               & Hbody & _ & Hnone).
  unfold Dom.body.
  destruct (Dom.isHtmlElement "html" (Dom.documentElement d)); [|exact I].
  unfold Dom.childLocs at 1, Dom.root. cbn [Dom.el Dom.up Dom.path].
  rewrite Hkids. cbn [List.length seq combine map find Dom.el fst snd].
  assert (Hh : Dom.isHtmlElement "body" head
               || Dom.isHtmlElement "frameset" head = false).
  { apply orb_false_iff. split;
      match goal with
      | |- ?b = false =>
          destruct b eqn:E; [|reflexivity];
          apply isHtmlElement_tagName in E; rewrite Hhead in E;
          discriminate E
      end. }
  rewrite Hh.
  destruct (Dom.isHtmlElement "body" body || Dom.isHtmlElement "frameset" body);
    [|exact I].
  unfold Dom.childLocs. cbn [Dom.el]. now rewrite Hnone.
Qed.

Lemma bodyChildren_empty : Extract.bodyChildren d = [].
Proof.
  unfold Extract.bodyChildren. pose proof body_empty as H.
  destruct (Dom.body d); [exact H|reflexivity].
Qed.

Lemma sections_empty : Extract.sections d w = [].
Proof.
  unfold Extract.sections, Extract.heroSections.
  now rewrite bodyChildren_empty.
Qed.

Lemma heroBottom_empty : Extract.heroBottom d w = viewportHeight w.
Proof. unfold Extract.heroBottom. now rewrite sections_empty. Qed.

(** *** Headline, calls to action, subheadline *)

Lemma heroTextNodes_empty : Extract.heroTextNodes d w = [].
Proof. unfold Extract.heroTextNodes. query_nil. Qed.

Lemma heroCtaCandidates_empty (headlineEl : option Dom.Loc) :
  Extract.heroCtaCandidates d w headlineEl = [].
Proof.
  unfold Extract.heroCtaCandidates, Extract.ctaCandidates.
  replace (filter _ (Dom.querySelectorAll d Extract.ctaSelector))
    with (@nil Dom.Loc) by (symmetry; query_nil).
  reflexivity.
Qed.

(** The values of the first stages on an empty page. *)
Lemma stages_empty :
  Extract.stages d w
  = {| Extract.s_heroTextNodes := []; Extract.s_candidates := [];
       Extract.s_headline := None; Extract.s_headlineEl := None;
       Extract.s_heroText := ""; Extract.s_heroCtaCandidates := [];
       Extract.s_subheadline := None |}.
Proof.
  unfold Extract.stages. cbv zeta.
  rewrite heroTextNodes_empty.
  change (Extract.candidates []) with (@nil Extract.TextCandidate).
  change (Extract.headlineState d w [] [])
    with (@None string, @None Dom.Loc).
  cbn [fst snd].
  replace (Extract.heroText [] None) with ""%string
    by (vm_compute; reflexivity).
  rewrite heroCtaCandidates_empty.
  reflexivity.
Qed.

Lemma extractFingerprint_empty :
  Extract.extractFingerprint d w cx
  = Extract.fingerprint d w cx [] [] None None "" [] None.
Proof.
  unfold Extract.extractFingerprint. cbv zeta. now rewrite stages_empty.
Qed.

(** *** Forms and sign-in *)

Lemma find_none_all (A : Type) (f : A -> bool) (l : list A) :
  (forall x, In x l -> f x = false) -> find f l = None.
Proof.
  induction l as [|a l IH]; intros H; simpl; [reflexivity|].
  rewrite (H a (or_introl eq_refl)). apply IH. intros x Hx. apply H. now right.
Qed.

Lemma existsb_false_all (A : Type) (f : A -> bool) (l : list A) :
  (forall x, In x l -> f x = false) -> existsb f l = false.
Proof.
  induction l as [|a l IH]; intros H; simpl; [reflexivity|].
  rewrite (H a (or_introl eq_refl)). apply IH. intros x Hx. apply H. now right.
Qed.

Lemma forms_empty : Extract.forms d w = [].
Proof. unfold Extract.forms. query_nil. Qed.

Lemma hasEmailOnly_empty : Extract.hasEmailOnly d w = false.
Proof. unfold Extract.hasEmailOnly. now rewrite forms_empty. Qed.

Lemma hasPasswordField_empty : Extract.hasPasswordField d w = false.
Proof.
  unfold Extract.hasPasswordField. rewrite forms_empty.
  rewrite find_none_all; [reflexivity|].
  intros x Hx. apply query_cases in Hx; [|vm_compute; reflexivity].
  destruct Hx as [_ Ho]. now rewrite (offScreen_inHero _ Ho).
Qed.

Lemma heroButtons_empty : Extract.heroButtons d w = [].
Proof. unfold Extract.heroButtons. query_nil. Qed.

Lemma hasOAuth_empty :
  Extract.hasOAuth d w = Dom.exists_ d Extract.oauthSelectors.
Proof.
  unfold Extract.hasOAuth, Extract.hasOAuthText, Extract.hasOAuthElement.
  rewrite heroButtons_empty. apply orb_false_r.
Qed.

(** *** Promotion and commerce *)

(** The first match of a selector that needs markup is not in the
    hero. *)
Lemma first_match_offscreen (s : Dom.Selector) :
  selectorNeedsMarkup s = true ->
  match Dom.querySelector d s with
  | Some x => Extract.inHero d w x && Extract.isVisible x
  | None => false
  end = false.
Proof.
  intros Hs. unfold Dom.querySelector.
  destruct (Dom.querySelectorAll d s) as [|x l] eqn:E; [reflexivity|].
  cbn [List.hd_error].
  assert (Hx : In x (Dom.querySelectorAll d s)) by (rewrite E; now left).
  apply (query_cases _ _ Hs) in Hx as [_ Ho].
  now rewrite (offScreen_inHero _ Ho).
Qed.

Lemma hasCountdown_empty : Extract.hasCountdown d w = false.
Proof.
  unfold Extract.hasCountdown.
  rewrite existsb_false_all.
  - cbn [orb].
    replace (filter _ (Dom.querySelectorAll d Extract.smallTextSelector))
      with (@nil Dom.Loc) by (symmetry; query_nil).
    reflexivity.
  - intros s Hs. apply first_match_offscreen.
    unfold Extract.timerSelectors in Hs. cbn [In] in Hs.
    repeat (destruct Hs as [<- | Hs]; [vm_compute; reflexivity|]).
    destruct Hs.
Qed.

Lemma addToCartCount_empty : Extract.addToCartCount d w = 0%nat.
Proof. unfold Extract.addToCartCount. now rewrite heroButtons_empty. Qed.

Lemma productCardCount_empty : Extract.productCardCount d w = 0%nat.
Proof.
  unfold Extract.productCardCount, Extract.candidateCards.
  replace (filter _ (Dom.querySelectorAll d Extract.productCardSelectors))
    with (@nil Dom.Loc) by (symmetry; query_nil).
  reflexivity.
Qed.

Lemma isCommerceHero_empty (heroText : string) :
  Extract.isCommerceHero d w heroText = false.
Proof.
  unfold Extract.isCommerceHero.
  now rewrite productCardCount_empty, addToCartCount_empty.
Qed.

Lemma descendants_leaf (x : Dom.Loc) :
  Dom.children (Dom.el x) = [] -> Dom.descendants x = [].
Proof.
  intros Hc. unfold Dom.descendants. now rewrite subtree_children, Hc.
Qed.

Lemma hasCategoryNav_empty : Extract.hasCategoryNav d w = false.
Proof.
  unfold Extract.hasCategoryNav, Extract.categoryNavElements.
  apply existsb_false_all. intros x Hx.
  apply filter_In in Hx as [Hx _].
  apply query_cases in Hx; [|vm_compute; reflexivity].
  destruct Hx as [Hc _].
  unfold Dom.querySelectorAllIn. now rewrite (descendants_leaf _ Hc).
Qed.

(** *** Showcase and demo *)

Lemma heroCanvasElements_empty : Extract.heroCanvasElements d w = [].
Proof. unfold Extract.heroCanvasElements. query_nil. Qed.

Lemma hasCanvas_empty : Extract.hasCanvas d w = false.
Proof. unfold Extract.hasCanvas. now rewrite heroCanvasElements_empty. Qed.

Lemma hasWebGL_empty : Extract.hasWebGL d w cx = false.
Proof.
  unfold Extract.hasWebGL, Extract.webglProbe.
  now rewrite heroCanvasElements_empty.
Qed.

Lemma hasTextInput_empty : Extract.hasTextInput d w = false.
Proof.
  unfold Extract.hasTextInput, Extract.heroTextInputs.
  replace (filter _ (Dom.querySelectorAll d Extract.textInputSelector))
    with (@nil Dom.Loc) by (symmetry; query_nil).
  reflexivity.
Qed.

Lemma hasPlayControl_empty : Extract.hasPlayControl d w = false.
Proof.
  unfold Extract.hasPlayControl, Extract.hasPlayButton,
    Extract.playControlCandidates, Extract.interactiveButtons.
  replace (filter _ (Dom.querySelectorAll d Extract.controlSelector))
    with (@nil Dom.Loc) by (symmetry; query_nil).
  reflexivity.
Qed.

Lemma hasSelectableListAtDemo_empty :
  Extract.hasSelectableListAtDemo d w = false.
Proof.
  unfold Extract.hasSelectableListAtDemo, Extract.hasSelectableListFromRows,
    Extract.rowContainers, Extract.heroOptions.
  replace (filter _ (Dom.querySelectorAll d Extract.optionSelector))
    with (@nil Dom.Loc) by (symmetry; query_nil).
  replace (filter _ (Dom.querySelectorAll d Extract.rowSelector))
    with (@nil Dom.Loc) by (symmetry; query_nil).
  reflexivity.
Qed.

Lemma looksLikeAudioDemo_empty (heroText : string) :
  Extract.looksLikeAudioDemo d w heroText = false.
Proof.
  unfold Extract.looksLikeAudioDemo.
  now rewrite hasTextInput_empty, hasSelectableListAtDemo_empty,
    hasPlayControl_empty.
Qed.

Lemma hasInteractiveDemo_empty (heroText : string) :
  Extract.hasInteractiveDemo d w heroText
  = Dom.exists_ d Extract.interactiveSelectors.
Proof.
  unfold Extract.hasInteractiveDemo, Extract.hasInteractiveDemoAtShowcase,
    Extract.hasInteractiveDemoBase.
  rewrite looksLikeAudioDemo_empty, hasTextInput_empty.
  now rewrite !orb_false_r.
Qed.

Lemma isShowcaseHero_empty (heroText : string) :
  Extract.isShowcaseHero d w cx heroText []
  = Extract.hasAnimationStack d w
    || Dom.exists_ d Extract.interactiveSelectors.
Proof.
  unfold Extract.isShowcaseHero, Extract.hasInteractiveDemoAtShowcase,
    Extract.hasInteractiveDemoBase.
  rewrite looksLikeAudioDemo_empty, hasCanvas_empty, hasWebGL_empty.
  cbn [Extract.ctas Cta.ctas map List.length Nat.leb orb].
  now rewrite !orb_false_r, andb_true_r.
Qed.

Lemma isErrorPage_empty :
  Extract.isErrorPage d ""
  = Regex.test Extract.errorPageRegex (Dom.title d)
    || Regex.test Extract.errorPageRegex (Extract.bodyText d).
Proof.
  unfold Extract.isErrorPage, Extract.allHeroText, Extract.pageTitle.
  replace (Regex.test Extract.errorPageRegex "") with false
    by (vm_compute; reflexivity).
  apply orb_false_r.
Qed.

(** *** Lists, media, logos *)

Lemma listItems_empty : Extract.listItems d w = [].
Proof.
  unfold Extract.listItems, Extract.listContainers.
  replace (filter _ (Dom.querySelectorAll d Extract.listSelector))
    with (@nil Dom.Loc) by (symmetry; query_nil).
  reflexivity.
Qed.

Lemma totalBulletCount_empty (headlineEl : option Dom.Loc) :
  Extract.totalBulletCount d w headlineEl = 0%nat.
Proof.
  unfold Extract.totalBulletCount, Extract.virtualBulletCount,
    Extract.bulletCount, Extract.featureListItems, Extract.bulletContainers.
  rewrite listItems_empty.
  replace (filter _ (Dom.querySelectorAll d Extract.bulletContainerSelector))
    with (@nil Dom.Loc) by (symmetry; query_nil).
  reflexivity.
Qed.

Lemma mediaElements_empty : Extract.mediaElements d w = [].
Proof.
  unfold Extract.mediaElements.
  replace (filter _ (Dom.querySelectorAll d Extract.mediaSelector))
    with (@nil Dom.Loc) by (symmetry; query_nil).
  reflexivity.
Qed.

Lemma largestMedia_empty : Extract.largestMedia d w = None.
Proof. unfold Extract.largestMedia. now rewrite mediaElements_empty. Qed.

Lemma heroMediaType_empty (headline subheadline : option string) :
  Extract.heroMediaType d w headline subheadline = None.
Proof. unfold Extract.heroMediaType. now rewrite largestMedia_empty. Qed.

Lemma hasDashboardPreview_empty (headline subheadline : option string) :
  Extract.hasDashboardPreview d w headline subheadline = false.
Proof. unfold Extract.hasDashboardPreview. now rewrite heroMediaType_empty. Qed.

Lemma logoRowCount_empty : Extract.logoRowCount d w = 0%nat.
Proof.
  unfold Extract.logoRowCount, Extract.logoRowsByPosition,
    Extract.allLogoCandidates, Extract.logoCandidate,
    Extract.svgLogoCandidates, Extract.logoContainers.
  replace (filter _ (Dom.querySelectorAll d Extract.imgSelector))
    with (@nil Dom.Loc) by (symmetry; query_nil).
  replace (filter _ (Dom.querySelectorAll d Extract.svgSelector))
    with (@nil Dom.Loc) by (symmetry; query_nil).
  replace (filter _ (Dom.querySelectorAll d Extract.logoContainerSelector))
    with (@nil Dom.Loc) by (symmetry; query_nil).
  reflexivity.
Qed.

Lemma hasSocialProof_empty : Extract.hasSocialProof d w "" = false.
Proof.
  unfold Extract.hasSocialProof, Extract.hasLogoRow.
  rewrite logoRowCount_empty.
  replace (Extract.hasSocialProofText "") with false
    by (vm_compute; reflexivity).
  reflexivity.
Qed.

Lemma leftCopyRightMedia_empty : Extract.leftCopyRightMedia d w = false.
Proof.
  unfold Extract.leftCopyRightMedia.
  rewrite largestMedia_empty. apply andb_false_r.
Qed.

Lemma isCopyOnly_empty :
  Extract.isCopyOnly d w [] None [] None = false.
Proof. reflexivity. Qed.

(** The flags read from the hero are false. *)
Lemma heroFlags_empty :
  Forall (fun flag => flag = false)
         (heroFlags (Extract.extractFingerprint d w cx)).
Proof.
  rewrite extractFingerprint_empty.
  unfold heroFlags, Extract.fingerprint.
  cbn [Fingerprint.has_form Fingerprint.has_email_only
       Fingerprint.has_password_field Fingerprint.has_pricing_tokens
       Fingerprint.has_promotion_signals Fingerprint.has_promo_language
       Fingerprint.has_transactional_cta Fingerprint.has_price_display
       Fingerprint.has_countdown Fingerprint.has_category_nav
       Fingerprint.has_discovery_language
       Fingerprint.has_brand_campaign_language
       Fingerprint.has_trust_signals Fingerprint.is_commerce_hero
       Fingerprint.has_canvas Fingerprint.has_webgl
       Fingerprint.has_showcase_language Fingerprint.has_feature_bullets
       Fingerprint.has_dashboard_preview Fingerprint.has_dashboard_keywords
       Fingerprint.has_social_proof Fingerprint.left_copy_right_media
       Fingerprint.dark_theme_hero Fingerprint.metrics_visible
       Fingerprint.is_copy_only].
  repeat apply Forall_cons; try apply Forall_nil.
  - now rewrite forms_empty.
  - exact hasEmailOnly_empty.
  - exact hasPasswordField_empty.
  - vm_compute. reflexivity.
  - vm_compute. reflexivity.
  - vm_compute. reflexivity.
  - reflexivity.
  - vm_compute. reflexivity.
  - exact hasCountdown_empty.
  - exact hasCategoryNav_empty.
  - vm_compute. reflexivity.
  - vm_compute. reflexivity.
  - vm_compute. reflexivity.
  - apply isCommerceHero_empty.
  - exact hasCanvas_empty.
  - exact hasWebGL_empty.
  - vm_compute. reflexivity.
  - now rewrite totalBulletCount_empty.
  - apply hasDashboardPreview_empty.
  - vm_compute. reflexivity.
  - exact hasSocialProof_empty.
  - exact leftCopyRightMedia_empty.
  - reflexivity.
  - vm_compute. reflexivity.
  - exact isCopyOnly_empty.
Qed.

(** The flags read from the whole page. *)
Lemma pageFlags_empty :
  let fp := Extract.extractFingerprint d w cx in
  Fingerprint.has_oauth fp = Dom.exists_ d Extract.oauthSelectors
  /\ Fingerprint.has_filters fp = Dom.exists_ d Extract.filterSelector
  /\ Fingerprint.has_interactive_demo fp
     = Dom.exists_ d Extract.interactiveSelectors
  /\ Fingerprint.is_showcase_hero fp
     = Fingerprint.has_animation_stack fp
       || Fingerprint.has_interactive_demo fp
  /\ Fingerprint.is_error_page fp
     = Regex.test Extract.errorPageRegex (Dom.title d)
       || Regex.test Extract.errorPageRegex (Extract.bodyText d).
Proof.
  cbv zeta. rewrite extractFingerprint_empty.
  unfold Extract.fingerprint.
  cbn [Fingerprint.has_oauth Fingerprint.has_filters
       Fingerprint.has_interactive_demo Fingerprint.is_showcase_hero
       Fingerprint.has_animation_stack Fingerprint.is_error_page].
  rewrite hasOAuth_empty, hasInteractiveDemo_empty, isShowcaseHero_empty,
    isErrorPage_empty.
  repeat split.
Qed.

End EmptyPage.

(** C8, as worded, fails: the page a server answers a refused request
    with has nothing in [body], and its title makes [is_error_page]
    true. *)
Lemma C8_empty_page_counterexample :
  let fp := Extract.extractFingerprint refused desktop fresh in
  Extract.bodyChildren refused = []
  /\ Fingerprint.is_error_page fp = true.
Proof. split; vm_compute; reflexivity. Qed.

(** An empty page that loads an animation library is a showcase
    hero. *)
Lemma empty_page_showcase :
  let fp := Extract.extractFingerprint splash desktop fresh in
  Extract.bodyChildren splash = []
  /\ Fingerprint.has_animation_stack fp = true
  /\ Fingerprint.is_showcase_hero fp = true.
Proof. repeat split; vm_compute; reflexivity. Qed.

(** C8, amended: on an empty page ([html] holding [head] and [body],
    the three without attributes, nothing in [body], the elements of
    [head] not rendered) the hero ends at the viewport height, the
    headline, the subheadline and the primary call to action are null,
    there is no call to action, and every flag read from the hero is
    false.  The flags read from the whole page are not forced:
    [has_oauth], [has_filters] and [has_interactive_demo] are what
    their selectors find in [head], [is_showcase_hero] is true as soon
    as an animation library or such a demo marker is found, and
    [is_error_page] is what the title and the text of [body] say.
    The extractor is a total function, so it returns a result. *)
Theorem C8_empty_page (d : Dom.Document) (w : Window)
    (cx : Canvas.Contexts) :
  isEmptyPage d = true ->
  let fp := Extract.extractFingerprint d w cx in
  Extract.heroBottom d w = viewportHeight w
  /\ Fingerprint.headline fp = None
  /\ Fingerprint.subheadline fp = None
  /\ Fingerprint.ctas fp = []
  /\ Fingerprint.cta_count fp = 0%nat
  /\ Fingerprint.primary_cta_text fp = None
  /\ Forall (fun flag => flag = false) (heroFlags fp)
  /\ Fingerprint.has_oauth fp = Dom.exists_ d Extract.oauthSelectors
  /\ Fingerprint.has_filters fp = Dom.exists_ d Extract.filterSelector
  /\ Fingerprint.has_interactive_demo fp
     = Dom.exists_ d Extract.interactiveSelectors
  /\ Fingerprint.is_showcase_hero fp
     = Fingerprint.has_animation_stack fp
       || Fingerprint.has_interactive_demo fp
  /\ Fingerprint.is_error_page fp
     = Regex.test Extract.errorPageRegex (Dom.title d)
       || Regex.test Extract.errorPageRegex (Extract.bodyText d).
Proof.
  intros H fp.
  split; [exact (heroBottom_empty d w H)|].
  assert (Hfp : fp = Extract.fingerprint d w cx [] [] None None "" [] None)
    by exact (extractFingerprint_empty d w cx H).
  repeat (split; [now rewrite Hfp|]).
  split; [exact (heroFlags_empty d w cx H)|].
  exact (pageFlags_empty d w cx H).
Qed.

(** A page with a title, a character set and a script in [head] and
    nothing in [body]. *)
Lemma C8_empty_page_witness :
  isEmptyPage splash = true
  /\ Extract.heroBottom splash desktop = 800
  /\ Fingerprint.ctas (Extract.extractFingerprint splash desktop fresh) = [].
Proof.
  assert (H : isEmptyPage splash = true) by (vm_compute; reflexivity).
  destruct (C8_empty_page splash desktop fresh H) as (Hb & _ & _ & Hc & _).
  split; [exact H|]. split; [exact Hb | exact Hc].
Defined.

(** ** Two runs of the extractor *)

Lemma update_same (cx : Canvas.Contexts) (p : list nat) (m : Canvas.ContextMode) :
  Canvas.update cx p m p = m.
Proof.
  unfold Canvas.update. destruct (list_eq_dec Nat.eq_dec p p); congruence.
Qed.

Lemma update_other (cx : Canvas.Contexts) (p q : list nat)
    (m : Canvas.ContextMode) :
  q <> p -> Canvas.update cx p m q = cx q.
Proof.
  intros H. unfold Canvas.update.
  destruct (list_eq_dec Nat.eq_dec q p); congruence.
Qed.

Section Probe.

Variable w : Window.

(** The answer of a canvas in each mode, in each browser. *)
Ltac probe_cases x cx Em :=
  unfold Canvas.hasWebGLContext, Canvas.getContext, Canvas.requested;
  cbn [String.eqb Ascii.eqb Bool.eqb orb];
  destruct (cx (Dom.path x)) eqn:Em;
  destruct (webgl2Available w);
  destruct (webglAvailable w);
  repeat (progress (rewrite ?Em, ?update_same;
                    cbv beta iota zeta; cbn [Canvas.sameMode fst snd])).

(** Asking again, after a canvas has said yes, changes nothing. *)
Lemma probe_after_true (x : Dom.Loc) (cx cx1 : Canvas.Contexts) :
  Canvas.hasWebGLContext w x cx = (true, cx1) ->
  Canvas.hasWebGLContext w x cx1 = (true, cx1).
Proof.
  intros H.
  assert (Hs : cx1 = snd (Canvas.hasWebGLContext w x cx)) by now rewrite H.
  assert (Hf : fst (Canvas.hasWebGLContext w x cx) = true) by now rewrite H.
  clear H. subst cx1. revert Hf.
  probe_cases x cx Em; intros Hf; try discriminate; reflexivity.
Qed.

(** A canvas that says no keeps its mode. *)
Lemma probe_false_unchanged (x : Dom.Loc) (cx cx1 : Canvas.Contexts) :
  Canvas.hasWebGLContext w x cx = (false, cx1) -> cx1 = cx.
Proof.
  intros H.
  assert (Hs : cx1 = snd (Canvas.hasWebGLContext w x cx)) by now rewrite H.
  assert (Hf : fst (Canvas.hasWebGLContext w x cx) = false) by now rewrite H.
  clear H. subst cx1. revert Hf.
  probe_cases x cx Em; intros Hf; try discriminate; reflexivity.
Qed.

(** The answer of a canvas depends on its own mode only. *)
Lemma probe_mode (x : Dom.Loc) (cx cx' : Canvas.Contexts) :
  cx' (Dom.path x) = cx (Dom.path x) ->
  fst (Canvas.hasWebGLContext w x cx') = fst (Canvas.hasWebGLContext w x cx).
Proof.
  intros H.
  unfold Canvas.hasWebGLContext, Canvas.getContext, Canvas.requested.
  cbn [String.eqb Ascii.eqb Bool.eqb orb].
  rewrite H.
  destruct (cx (Dom.path x)) eqn:Em;
    destruct (webgl2Available w);
    destruct (webglAvailable w);
    repeat (progress (rewrite ?Em, ?H, ?update_same;
                      cbv beta iota zeta; cbn [Canvas.sameMode fst snd]));
    reflexivity.
Qed.

(** Where the mode of a canvas changes, it had no context, and the
    browser gives a context to every canvas without one. *)
Lemma probe_changes (x : Dom.Loc) (cx : Canvas.Contexts) (q : list nat) :
  snd (Canvas.hasWebGLContext w x cx) q = cx q
  \/ (cx q = Canvas.NoContext
      /\ forall y cx0, cx0 (Dom.path y) = Canvas.NoContext ->
                       fst (Canvas.hasWebGLContext w y cx0) = true).
Proof.
  assert (Hfresh : webgl2Available w = true \/ webglAvailable w = true ->
                   forall y cx0, cx0 (Dom.path y) = Canvas.NoContext ->
                     fst (Canvas.hasWebGLContext w y cx0) = true).
  { intros Hw y cx0 H0.
    unfold Canvas.hasWebGLContext, Canvas.getContext, Canvas.requested.
    cbn [String.eqb Ascii.eqb Bool.eqb orb]. rewrite H0.
    destruct (webgl2Available w), (webglAvailable w);
      cbv beta iota zeta; rewrite ?H0; try reflexivity.
    destruct Hw; discriminate. }
  revert Hfresh.
  probe_cases x cx Em; intros Hfresh; try (left; reflexivity).
  all: destruct (list_eq_dec Nat.eq_dec q (Dom.path x)) as [-> | Hq];
    [right; split; [exact Em | apply Hfresh; auto]
    | left; now apply update_other].
Qed.

Lemma some_changes (l : list Dom.Loc) (cx : Canvas.Contexts) (q : list nat) :
  snd (Canvas.some (Canvas.hasWebGLContext w) l cx) q = cx q
  \/ (cx q = Canvas.NoContext
      /\ forall y cx0, cx0 (Dom.path y) = Canvas.NoContext ->
                       fst (Canvas.hasWebGLContext w y cx0) = true).
Proof.
  revert cx. induction l as [|x l IH]; intros cx; [now left|].
  cbn [Canvas.some].
  pose proof (probe_changes x cx q) as Hx.
  destruct (Canvas.hasWebGLContext w x cx) as [found cx1] eqn:E.
  destruct found; [exact Hx|].
  apply probe_false_unchanged in E. subst cx1. apply IH.
Qed.

(** A second pass over the canvases gives the answer of the first and
    leaves the contexts as the first left them. *)
Lemma some_idempotent (l : list Dom.Loc) (cx : Canvas.Contexts) :
  Canvas.some (Canvas.hasWebGLContext w) l
    (snd (Canvas.some (Canvas.hasWebGLContext w) l cx))
  = Canvas.some (Canvas.hasWebGLContext w) l cx.
Proof.
  revert cx. induction l as [|x l IH]; intros cx; [reflexivity|].
  cbn [Canvas.some].
  destruct (Canvas.hasWebGLContext w x cx) as [found cx1] eqn:E.
  destruct found.
  - cbn [snd Canvas.some]. now rewrite (probe_after_true _ _ E).
  - pose proof (probe_false_unchanged _ _ E) as ->.
    set (after := snd (Canvas.some (Canvas.hasWebGLContext w) l cx)).
    assert (Hm : after (Dom.path x) = cx (Dom.path x)).
    { destruct (some_changes l cx (Dom.path x)) as [H | [H0 Hall]];
        [exact H|].
      specialize (Hall x cx H0). rewrite E in Hall. discriminate. }
    pose proof (probe_mode x cx after Hm) as Hf. rewrite E in Hf.
    destruct (Canvas.hasWebGLContext w x after) as [found' after'] eqn:E'.
    cbn [fst] in Hf. subst found'.
    apply probe_false_unchanged in E'. subst after'.
    apply IH.
Qed.

End Probe.

(** The result reads the contexts through [hasWebGL] only. *)
Lemma extractFingerprint_contexts (d : Dom.Document) (w : Window)
    (cx cx' : Canvas.Contexts) :
  Extract.hasWebGL d w cx' = Extract.hasWebGL d w cx ->
  Extract.extractFingerprint d w cx' = Extract.extractFingerprint d w cx.
Proof.
  intros H.
  unfold Extract.extractFingerprint, Extract.fingerprint,
    Extract.isShowcaseHero.
  cbv zeta. now rewrite H.
Qed.

(** C9: a second run of the extractor, on the page as the first run
    left it (the first run may have given a canvas a WebGL context),
    returns the same result in every field and leaves the page as it
    was.  The extractor reads the tree, the window and the contexts of
    the canvases and nothing else: it is a function of them. *)
Theorem C9_deterministic (d : Dom.Document) (w : Window)
    (cx : Canvas.Contexts) :
  let first := Extract.run d w cx in
  let second := Extract.run d w (snd first) in
  fst second = fst first /\ snd second = snd first.
Proof.
  cbv zeta. unfold Extract.run. cbn [fst snd].
  assert (H : Extract.webglProbe d w (Extract.contextsAfter d w cx)
              = Extract.webglProbe d w cx).
  { unfold Extract.contextsAfter, Extract.webglProbe.
    apply some_idempotent. }
  split.
  - apply extractFingerprint_contexts. unfold Extract.hasWebGL. now rewrite H.
  - unfold Extract.contextsAfter at 1 3. now rewrite H.
Qed.

(** * Further properties of the extractor *)

(** ** Normalised text *)

Section CleanText.

Local Open Scope string_scope.
Local Open Scope nat_scope.

Lemma code_space (c : ascii) : Js.code c = 32 -> c = " "%char.
Proof.
  unfold Js.code. intro H.
  rewrite <- (ascii_nat_embedding c), H. reflexivity.
Qed.

Lemma replaceRuns_head (cls : ascii -> bool) (c : ascii) (s : string) :
  cls c = false ->
  Js.replaceRuns cls (String c s) = String c (Js.replaceRuns cls s).
Proof. intro H. simpl. rewrite H. reflexivity. Qed.

Lemma replaceRuns_spaced (s : string) :
  spaced (Js.replaceRuns Js.isWhiteSpace s) = true.
Proof.
  induction s as [|c s' IH]; [reflexivity|].
  cbn [Js.replaceRuns]. destruct (Js.isWhiteSpace c) eqn:Ec.
  - destruct s' as [|c' s'']; [reflexivity|].
    destruct (Js.isWhiteSpace c') eqn:Ec'; [exact IH|].
    cbn [spaced]. rewrite IH, andb_true_r.
    change (Js.isWhiteSpace " "%char) with true. cbv iota.
    rewrite replaceRuns_head by exact Ec'. simpl. rewrite Ec'. reflexivity.
  - cbn [spaced]. rewrite Ec, IH. reflexivity.
Qed.

(** A replacement of runs of white space of any kind leaves a spaced
    text as it is. *)
Lemma replaceRuns_id (cls : ascii -> bool) (s : string) :
  (forall c, cls c = true -> Js.isWhiteSpace c = true) ->
  spaced s = true -> Js.replaceRuns cls s = s.
Proof.
  intro Hcls. induction s as [|c s' IH]; [reflexivity|].
  cbn [spaced]. intro H. apply andb_true_iff in H. destruct H as [Hc Hs].
  cbn [Js.replaceRuns]. destruct (cls c) eqn:Ec.
  - rewrite (Hcls _ Ec) in Hc. apply andb_true_iff in Hc.
    destruct Hc as [H32 Hn]. apply Nat.eqb_eq, code_space in H32. subst c.
    destruct s' as [|c' s'']; [reflexivity|].
    simpl in Hn. destruct (cls c') eqn:Ec'.
    + rewrite (Hcls _ Ec') in Hn. discriminate.
    + f_equal. apply IH. exact Hs.
  - f_equal. apply IH. exact Hs.
Qed.

Lemma inline_is_ws (c : ascii) :
  Text.isInlineSpace c = true -> Js.isWhiteSpace c = true.
Proof. unfold Text.isInlineSpace. intro H. apply andb_true_iff in H. tauto. Qed.

Lemma spaced_trimStart (s : string) :
  spaced s = true -> spaced (Js.trimStart s) = true.
Proof.
  induction s as [|c s' IH]; [reflexivity|].
  intro H. cbn [Js.trimStart]. destruct (Js.isWhiteSpace c); [|exact H].
  apply IH. cbn [spaced] in H. apply andb_true_iff in H. tauto.
Qed.

Lemma trimEnd_head (s : string) :
  Js.startsWithWs s = false -> Js.isEmpty s = false ->
  Js.startsWithWs (Js.trimEnd s) = false /\ Js.isEmpty (Js.trimEnd s) = false.
Proof.
  destruct s as [|c s']; [discriminate 2|].
  simpl. intros Ec _. rewrite Ec, andb_false_r. simpl. auto.
Qed.

Lemma trimEnd_singleSpaced (s : string) :
  spaced s = true -> singleSpaced (Js.trimEnd s) = true.
Proof.
  induction s as [|c s' IH]; [reflexivity|].
  cbn [spaced]. intro H. apply andb_true_iff in H. destruct H as [Hc Hs].
  specialize (IH Hs). cbn [Js.trimEnd].
  destruct (Js.isWhiteSpace c) eqn:Ec.
  - apply andb_true_iff in Hc. destruct Hc as [H32 Hn].
    apply negb_true_iff in Hn.
    destruct (Js.isEmpty (Js.trimEnd s')) eqn:Ee; [reflexivity|].
    cbn [andb singleSpaced]. rewrite Ec, H32, Ee, IH.
    destruct s' as [|c' s'']; [discriminate Ee|].
    destruct (trimEnd_head (String c' s'') Hn eq_refl) as [Hw _].
    rewrite Hw. reflexivity.
  - rewrite andb_false_r. cbn [singleSpaced]. rewrite Ec, IH. reflexivity.
Qed.

Lemma singleSpaced_spaced (s : string) :
  singleSpaced s = true -> spaced s = true.
Proof.
  induction s as [|c s' IH]; [reflexivity|].
  cbn [singleSpaced spaced]. intro H. apply andb_true_iff in H.
  destruct H as [Hc Hs]. rewrite (IH Hs), andb_true_r.
  destruct (Js.isWhiteSpace c); [|reflexivity].
  apply andb_true_iff in Hc. destruct Hc as [Hc Hn].
  apply andb_true_iff in Hc. destruct Hc as [H32 _].
  rewrite H32, Hn. reflexivity.
Qed.

Lemma trimEnd_id (s : string) : singleSpaced s = true -> Js.trimEnd s = s.
Proof.
  induction s as [|c s' IH]; [reflexivity|].
  cbn [singleSpaced]. intro H. apply andb_true_iff in H.
  destruct H as [Hc Hs]. cbn [Js.trimEnd]. rewrite (IH Hs).
  destruct (Js.isWhiteSpace c); [|rewrite andb_false_r; reflexivity].
  apply andb_true_iff in Hc. destruct Hc as [Hc _].
  apply andb_true_iff in Hc. destruct Hc as [_ Hn].
  apply negb_true_iff in Hn. rewrite Hn. reflexivity.
Qed.

Lemma trimStart_id (s : string) :
  Js.startsWithWs s = false -> Js.trimStart s = s.
Proof. destruct s as [|c s']; [reflexivity|]. simpl. intros ->. reflexivity. Qed.

Lemma cleanText_normalised (s : string) : normalised (Text.cleanText s) = true.
Proof.
  unfold normalised. rewrite cleanText_no_leading_ws. simpl.
  unfold Text.cleanText, Js.trim. apply trimEnd_singleSpaced, spaced_trimStart.
  rewrite (replaceRuns_id _ _ inline_is_ws) by apply replaceRuns_spaced.
  apply replaceRuns_spaced.
Qed.

Lemma cleanText_fixed (t : string) :
  normalised t = true -> Text.cleanText t = t.
Proof.
  unfold normalised. intro H. apply andb_true_iff in H. destruct H as [Hw Hs].
  apply negb_true_iff in Hw. pose proof (singleSpaced_spaced _ Hs) as Hp.
  unfold Text.cleanText, Js.trim.
  rewrite (replaceRuns_id Js.isWhiteSpace t (fun c H => H) Hp).
  rewrite (replaceRuns_id _ t inline_is_ws Hp).
  rewrite (trimStart_id _ Hw). apply trimEnd_id. exact Hs.
Qed.

(** The second replacement of [cleanText] finds nothing to replace. *)
Lemma cleanText_one_pass (s : string) :
  Text.cleanText s = Js.trim (Js.replaceRuns Js.isWhiteSpace s).
Proof.
  unfold Text.cleanText.
  rewrite (replaceRuns_id _ _ inline_is_ws) by apply replaceRuns_spaced.
  reflexivity.
Qed.

(** *** Words of a normalised text *)

Lemma splitSpace_splitWs (s : string) :
  spaced s = true -> Js.splitSpace s = Js.splitWs s.
Proof.
  induction s as [|c s' IH]; [reflexivity|].
  cbn [spaced]. intro H. apply andb_true_iff in H. destruct H as [Hc Hs].
  cbn [Js.splitSpace Js.splitWs]. rewrite (IH Hs).
  destruct (Js.isWhiteSpace c) eqn:Ec.
  - apply andb_true_iff in Hc. destruct Hc as [H32 Hn].
    apply negb_true_iff in Hn. rewrite H32, Hn. reflexivity.
  - destruct (Js.code c =? 32) eqn:E32; [|reflexivity].
    apply Nat.eqb_eq, code_space in E32. subst c. discriminate Ec.
Qed.

(** [text.split(" ")] and [text.split(/\s+/)] count the same words in
    a normalised text. *)
Lemma wordCount_by_space (s : string) :
  List.length (filter Js.truthy (Js.splitSpace (Text.cleanText s)))
  = Text.wordCount (Text.cleanText s).
Proof.
  rewrite splitSpace_splitWs; [reflexivity|].
  apply singleSpaced_spaced.
  pose proof (cleanText_normalised s) as H. unfold normalised in H.
  apply andb_true_iff in H. tauto.
Qed.

End CleanText.

(** ** The word budget of the headline *)

Section WordBudget.

Local Open Scope string_scope.
Local Open Scope nat_scope.

Lemma trimEnd_no_trailing (s : string) :
  Js.endsWithWs s = false -> Js.trimEnd s = s.
Proof.
  induction s as [|c s' IH]; [reflexivity|].
  intro H. cbn [Js.trimEnd]. destruct s' as [|c' s''].
  - simpl in *. rewrite H. reflexivity.
  - rewrite IH by exact H.
    change (Js.isEmpty (String c' s'')) with false. reflexivity.
Qed.

Lemma trim_id (s : string) :
  Js.startsWithWs s = false -> Js.endsWithWs s = false -> Js.trim s = s.
Proof.
  intros Hs He. unfold Js.trim. rewrite (trimStart_id _ Hs).
  apply trimEnd_no_trailing. exact He.
Qed.

(** The pieces of a split hold no white space. *)
Lemma splitWs_noWs (s : string) : forallb noWs (Js.splitWs s) = true.
Proof.
  induction s as [|c s' IH]; [reflexivity|].
  rewrite splitWs_cons. destruct (Js.isWhiteSpace c) eqn:Ec.
  - destruct (Js.startsWithWs s'); [exact IH|]. simpl. exact IH.
  - destruct (Js.splitWs s') as [|t rest]; simpl in *.
    + rewrite Ec. reflexivity.
    + rewrite Ec. exact IH.
Qed.

Lemma words_solid (s : string) : forallb solid (Js.words s) = true.
Proof.
  unfold Js.words. pose proof (splitWs_noWs s) as H.
  induction (Js.splitWs s) as [|t l IH]; [reflexivity|].
  simpl in *. apply andb_true_iff in H. destruct H as [Ht Hl].
  destruct (Js.truthy t) eqn:E; [|exact (IH Hl)].
  simpl. unfold solid at 1. rewrite E, Ht. exact (IH Hl).
Qed.

Lemma forallb_firstn (A : Type) (p : A -> bool) (n : nat) (l : list A) :
  forallb p l = true -> forallb p (firstn n l) = true.
Proof.
  revert n. induction l as [|x l IH]; intros [|n]; simpl; auto.
  intro H. apply andb_true_iff in H. destruct H as [-> Hl]. exact (IH n Hl).
Qed.

Lemma splitWs_word_space (v rest : string) :
  noWs v = true -> Js.startsWithWs rest = false ->
  Js.splitWs (v ++ String " " rest) = v :: Js.splitWs rest.
Proof.
  intros Hv Hr. induction v as [|c v' IH].
  - simpl. rewrite Hr. reflexivity.
  - simpl in Hv. apply andb_true_iff in Hv. destruct Hv as [Hc Hv].
    apply negb_true_iff in Hc.
    change (String c v' ++ String " " rest)
      with (String c (v' ++ String " " rest)).
    rewrite splitWs_cons, Hc, (IH Hv). reflexivity.
Qed.

Lemma splitWs_word (v : string) : noWs v = true -> Js.splitWs v = [v].
Proof.
  induction v as [|c v' IH]; [reflexivity|].
  simpl. intro H. apply andb_true_iff in H. destruct H as [Hc Hv].
  apply negb_true_iff in Hc. rewrite Hc, (IH Hv). reflexivity.
Qed.

Lemma solid_head (v rest : string) :
  solid v = true -> Js.startsWithWs (v ++ rest) = false.
Proof.
  unfold solid. destruct v as [|c v']; [discriminate|].
  simpl. intro H. apply andb_true_iff in H. destruct H as [H _].
  apply negb_true_iff in H. exact H.
Qed.

(** Words joined by single spaces split into the same words. *)
Lemma words_join (l : list string) :
  forallb solid l = true -> Js.words (Js.join " " l) = l.
Proof.
  unfold Js.join, Js.words. induction l as [|v l IH]; [reflexivity|].
  simpl. intro H. apply andb_true_iff in H. destruct H as [Hv Hl].
  pose proof Hv as Hv'. unfold solid in Hv'.
  apply andb_true_iff in Hv'. destruct Hv' as [Ht Hn].
  destruct l as [|v2 l'].
  - rewrite (splitWs_word _ Hn). simpl. rewrite Ht. reflexivity.
  - rewrite splitWs_word_space.
    + simpl filter. rewrite Ht. f_equal. exact (IH Hl).
    + exact Hn.
    + simpl in Hl. apply andb_true_iff in Hl. destruct Hl as [Hv2 _].
      destruct l'; [|apply solid_head; exact Hv2].
      unfold solid in Hv2. destruct v2; [discriminate Hv2|].
      simpl in *. apply andb_true_iff in Hv2. destruct Hv2 as [Hv2 _].
      apply negb_true_iff in Hv2. exact Hv2.
Qed.

Lemma truncateHeadline_budget (raw : string) :
  Text.wordCount (Text.truncateHeadline (Text.cleanText raw)) <= 30.
Proof.
  rewrite truncateHeadline_clean by apply cleanText_no_leading_ws.
  set (text := Text.cleanText raw).
  destruct (Text.wordCount text <=? 30) eqn:E; [apply Nat.leb_le; exact E|].
  assert (H15 : Text.wordCount (Js.join " " (firstn 15 (Js.words text))) <= 30).
  { unfold Text.wordCount. rewrite words_join.
    - rewrite length_firstn. lia.
    - apply forallb_firstn, words_solid. }
  destruct (Text.sentenceMatch text) as [s|] eqn:Em; [|exact H15].
  destruct (Text.wordCount s <=? 30) eqn:Es; [|exact H15].
  destruct (sentenceMatch_shape _ Em) as (_ & He & Hw).
  rewrite trim_id.
  - apply Nat.leb_le. exact Es.
  - rewrite Hw. apply cleanText_no_leading_ws.
  - exact He.
Qed.

End WordBudget.

(** X1.  [cleanText] returns a text in normal form: no white space at
    either end, and white space inside only as single spaces between
    other characters.  The texts in normal form are exactly the ones
    it leaves as they are, so cleaning twice is cleaning once. *)
Theorem X1_cleanText_normal_form :
  (forall s : string, normalised (Text.cleanText s) = true)
  /\ (forall t : string, Text.cleanText t = t <-> normalised t = true)
  /\ (forall s : string,
        Text.cleanText (Text.cleanText s) = Text.cleanText s).
Proof.
  split; [exact cleanText_normalised|]. split.
  - intro t. split; [|apply cleanText_fixed].
    intro H. rewrite <- H. apply cleanText_normalised.
  - intro s. apply cleanText_fixed, cleanText_normalised.
Qed.

(** X2.  The second replacement of [cleanText], of the runs of white
    space other than line breaks, never changes the text: after the
    first replacement every run of white space is one space. *)
Theorem X2_cleanText_second_replace (s : string) :
  let once := Js.replaceRuns Js.isWhiteSpace s in
  Js.replaceRuns Text.isInlineSpace once = once
  /\ Text.cleanText s = Js.trim once.
Proof.
  cbv zeta. split; [|apply cleanText_one_pass].
  apply (replaceRuns_id _ _ inline_is_ws), replaceRuns_spaced.
Qed.

(** ** The headline *)

Section HeadlineProps.

Local Open Scope string_scope.
Local Open Scope nat_scope.

(** [Array.prototype.sort] keeps the elements, whatever the comparison
    function. *)
Lemma sort_perm_any (A : Type) (compare : A -> A -> Q) (l : list A) :
  Permutation l (Arr.sort compare l).
Proof.
  apply (@sort_perm A compare (fun _ => 0)); intros a b H; lia.
Qed.

Lemma sort_In (A : Type) (compare : A -> A -> Q) (l : list A) (x : A) :
  In x (Arr.sort compare l) <-> In x l.
Proof.
  split; apply Permutation_in;
    [apply Permutation_sym|]; apply sort_perm_any.
Qed.

Lemma hd_error_In (A : Type) (l : list A) (x : A) :
  List.hd_error l = Some x -> In x l.
Proof. destruct l; [discriminate|]. intros [= <-]. left. reflexivity. Qed.

Lemma normalised_empty : normalised "" = true.
Proof. reflexivity. Qed.

Lemma normalised_parts (t : string) :
  normalised t = true <->
  Js.startsWithWs t = false /\ singleSpaced t = true.
Proof.
  unfold normalised. rewrite andb_true_iff, negb_true_iff. reflexivity.
Qed.

Lemma sentenceRun_singleSpaced (t r : string) :
  singleSpaced t = true -> Text.sentenceRun t = Some r ->
  singleSpaced r = true.
Proof.
  revert r. induction t as [|c t' IH]; intros r Ht; [discriminate|].
  cbn [singleSpaced] in Ht. apply andb_true_iff in Ht.
  destruct Ht as [Hc Ht]. cbn [Text.sentenceRun].
  destruct (Text.isTerminator c) eqn:Ec.
  - intros [= <-]. cbn [singleSpaced].
    rewrite (terminator_not_ws _ Ec). reflexivity.
  - destruct (Text.sentenceRun t') as [r'|] eqn:Er; [|discriminate].
    intros [= <-]. destruct (sentenceRun_shape _ Er) as (Hn & _ & Hw).
    cbn [singleSpaced]. rewrite (IH r' Ht eq_refl), andb_true_r.
    destruct (Js.isWhiteSpace c); [|reflexivity].
    apply andb_true_iff in Hc. destruct Hc as [Hc Hs].
    apply andb_true_iff in Hc. destruct Hc as [H32 _].
    rewrite H32, Hn, Hw, Hs. reflexivity.
Qed.

Lemma noWs_singleSpaced (v : string) : noWs v = true -> singleSpaced v = true.
Proof.
  induction v as [|c v' IH]; [reflexivity|].
  simpl. intro H. apply andb_true_iff in H. destruct H as [Hc Hv].
  apply negb_true_iff in Hc. rewrite Hc, (IH Hv). reflexivity.
Qed.

Lemma word_space_singleSpaced (v rest : string) :
  noWs v = true -> normalised rest = true -> Js.isEmpty rest = false ->
  singleSpaced (v ++ String " " rest) = true.
Proof.
  intros Hv Hr Hn. apply normalised_parts in Hr. destruct Hr as [Hw Hs].
  induction v as [|c v' IH].
  - cbn [append singleSpaced]. rewrite Hn, Hw, Hs. reflexivity.
  - simpl in Hv. apply andb_true_iff in Hv. destruct Hv as [Hc Hv].
    apply negb_true_iff in Hc.
    change (String c v' ++ String " " rest)
      with (String c (v' ++ String " " rest)).
    cbn [singleSpaced]. rewrite Hc, (IH Hv). reflexivity.
Qed.

Lemma join_normalised (l : list string) :
  forallb solid l = true -> normalised (Js.join " " l) = true.
Proof.
  unfold Js.join. induction l as [|v l IH]; [reflexivity|].
  simpl. intro H. apply andb_true_iff in H. destruct H as [Hv Hl].
  pose proof Hv as Hv'. unfold solid in Hv'.
  apply andb_true_iff in Hv'. destruct Hv' as [Ht Hn].
  destruct l as [|v2 l'].
  - apply normalised_parts. split; [|apply noWs_singleSpaced; exact Hn].
    rewrite <- (solid_head v "" Hv). f_equal.
    clear. induction v; simpl; congruence.
  - apply normalised_parts. split; [apply solid_head; exact Hv|].
    apply word_space_singleSpaced; [exact Hn|exact (IH Hl)|].
    simpl in Hl. apply andb_true_iff in Hl. destruct Hl as [Hv2 _].
    unfold solid in Hv2. destruct v2; [discriminate Hv2|].
    destruct l'; reflexivity.
Qed.

Lemma truncateHeadline_normalised (t : string) :
  normalised t = true -> normalised (Text.truncateHeadline t) = true.
Proof.
  intro Ht. pose proof Ht as Hp. apply normalised_parts in Hp.
  destruct Hp as [Hw Hs]. rewrite truncateHeadline_clean by exact Hw.
  destruct (Text.wordCount t <=? 30); [exact Ht|].
  assert (H15 : normalised (Js.join " " (firstn 15 (Js.words t))) = true)
    by (apply join_normalised, forallb_firstn, words_solid).
  destruct (Text.sentenceMatch t) as [s|] eqn:Em; [|exact H15].
  destruct (Text.wordCount s <=? 30); [|exact H15].
  destruct (sentenceMatch_shape _ Em) as (_ & He & Hws).
  rewrite trim_id; [|congruence|exact He].
  apply normalised_parts. split; [congruence|].
  unfold Text.sentenceMatch in Em. destruct t as [|c t']; [discriminate|].
  destruct (Text.isTerminator c); [discriminate|].
  exact (sentenceRun_singleSpaced _ Hs Em).
Qed.

Lemma getDirectHeadlineText_normalised (e : Dom.Element) :
  normalised (Extract.getDirectHeadlineText e) = true.
Proof.
  unfold Extract.getDirectHeadlineText. cbv zeta.
  match goal with |- context [if ?b then _ else _] => destruct b end;
    apply cleanText_normalised.
Qed.

Lemma widenToContainer_normalised (h : Dom.Loc) (t : string) :
  normalised t = true -> normalised (Extract.widenToContainer h t) = true.
Proof.
  intro Ht. unfold Extract.widenToContainer.
  destruct (Dom.closest Extract.rtcSelector h); [|exact Ht]. cbv zeta.
  match goal with |- context [if ?b then _ else _] => destruct b end;
    [apply cleanText_normalised|exact Ht].
Qed.

Lemma widenToWrapper_normalised (l : list Dom.Loc) (t : string) :
  normalised t = true -> normalised (Extract.widenToWrapper l t) = true.
Proof.
  revert t. induction l as [|x l IH]; intros t Ht; [exact Ht|].
  cbn [Extract.widenToWrapper]. cbv zeta.
  match goal with |- context [if ?b then t else _] => destruct b end;
    [exact Ht|].
  assert (Hw : normalised
                 (if (Text.wordCount t
                      <? Text.wordCount (Text.cleanText (Dom.innerText (Dom.el x))))
                     && (Text.wordCount (Text.cleanText (Dom.innerText (Dom.el x)))
                         <=? Text.MAX_HEADLINE_WORDS)
                  then Text.cleanText (Dom.innerText (Dom.el x)) else t) = true).
  { match goal with |- context [if ?b then _ else _] => destruct b end;
      [apply cleanText_normalised|exact Ht]. }
  destruct (Extract.isSectionTag (Dom.tagName (Dom.el x)));
    [exact Hw|exact (IH _ Hw)].
Qed.

Variable d : Dom.Document.
Variable w : Window.

#[local] Abbreviation hts := (Extract.heroTextNodes d w).
#[local] Abbreviation cs := (Extract.candidates (Extract.heroTextNodes d w)).

Lemma h1_In (h : Dom.Loc) : Extract.h1 hts = Some h -> In h hts.
Proof. unfold Extract.h1. intro H. apply find_some in H. tauto. Qed.

Lemma headlineOfH1_normalised (t : string) :
  Extract.headlineOfH1 d hts = Some t ->
  normalised t = true /\ exists h, Extract.h1 hts = Some h.
Proof.
  unfold Extract.headlineOfH1. destruct (Extract.h1 hts) as [h|]; [|discriminate].
  cbv zeta. intro H. split; [|exists h; reflexivity].
  pose proof (getDirectHeadlineText_normalised (Dom.el h)) as H0.
  pose proof (widenToContainer_normalised h _ H0) as H1.
  repeat match type of H with
         | (if ?b then _ else _) = _ => destruct b
         end; injection H as <-;
    [apply widenToWrapper_normalised| |]; assumption.
Qed.

Lemma wordCount_of_empty (t : string) :
  Js.truthy t = false -> Text.wordCount t = 0.
Proof. destruct t; [reflexivity|discriminate]. Qed.

#[local] Abbreviation headlineInv := (headlineInvariant (Extract.heroTextNodes d w)).

Lemma headlineAfterDiscards_inv :
  headlineInv (Extract.headlineAfterDiscards d hts).
Proof.
  unfold Extract.headlineAfterDiscards, Extract.discardNavText,
    Text.discardWholePage. cbn [fst snd].
  destruct (Extract.headlineOfH1 d hts) as [t|] eqn:Et.
  - destruct (headlineOfH1_normalised Et) as [Hn [h Hh]].
    destruct (Js.truthy t && (Text.MAX_HEADLINE_WORDS <? Text.wordCount t))
      eqn:E1; cbn [fst]; [split; exact I|].
    destruct (Js.truthy t && Extract.looksLikeNavText t);
      [split; exact I|].
    unfold headlineInvariant. cbn [fst snd]. rewrite Hh. split.
    + split; [|discriminate]. split; [exact Hn|].
      destruct (Js.truthy t) eqn:Ett.
      * simpl in E1. apply Nat.ltb_ge in E1. exact E1.
      * rewrite (wordCount_of_empty _ Ett). lia.
    + apply h1_In. exact Hh.
  - cbn [fst]. unfold headlineInvariant. cbn [fst snd]. split; [exact I|].
    destruct (Extract.h1 hts) as [h|] eqn:Hh; [apply h1_In; exact Hh|exact I].
Qed.

Lemma candidates_In (c : Extract.TextCandidate) :
  In c cs ->
  In (Extract.tc_el c) hts
  /\ normalised (Extract.tc_text c) = true
  /\ normalised (Extract.tc_directText c) = true.
Proof.
  unfold Extract.candidates. rewrite sort_In, !filter_In, in_map_iff.
  intros [[[[x [<- Hx]] _] _] _]. cbn.
  split; [exact Hx|]. split;
    [apply cleanText_normalised|apply getDirectHeadlineText_normalised].
Qed.

Lemma normalised_wordCount_truncate (t : string) :
  normalised t = true -> Text.wordCount (Text.truncateHeadline t) <= 30.
Proof.
  intro H. rewrite <- (cleanText_fixed _ H). apply truncateHeadline_budget.
Qed.

Lemma largestText_inv :
  headlineInv (Extract.largestText cs, option_map Extract.tc_el (Extract.best cs)).
Proof.
  unfold Extract.largestText. destruct (Extract.best cs) as [c|] eqn:Eb;
    [|split; exact I].
  unfold Extract.best in Eb. apply hd_error_In, candidates_In in Eb.
  destruct Eb as (Hel & Ht & Hd). cbv zeta.
  unfold headlineInvariant. cbn [fst snd option_map]. split; [|exact Hel].
  split; [|discriminate].
  match goal with
  | |- headlineLike (if Js.truthy ?chosen then _ else _) =>
      assert (Hc : normalised chosen = true)
        by (match goal with |- context [if ?b then _ else _] => destruct b end;
            assumption);
      destruct (Js.truthy chosen) eqn:E
  end.
  - split; [apply truncateHeadline_normalised; exact Hc
           |apply normalised_wordCount_truncate; exact Hc].
  - split; [exact Hc|]. rewrite (wordCount_of_empty _ E). lia.
Qed.

Lemma headlineState_inv : headlineInv (Extract.headlineState d w hts cs).
Proof.
  unfold Extract.headlineState, Extract.headlineAfterOverride.
  repeat match goal with
         | |- headlineInv (if ?b then _ else _) => destruct b
         end;
    first [exact largestText_inv | exact headlineAfterDiscards_inv].
Qed.

Lemma resolvedHeadline_like (t : string) :
  Extract.resolvedHeadline cs (fst (Extract.headlineState d w hts cs)) = Some t ->
  headlineLike t.
Proof.
  unfold Extract.resolvedHeadline.
  destruct (Extract.isTruthy (fst (Extract.headlineState d w hts cs))).
  - intro H. pose proof headlineState_inv as [Hi _]. rewrite H in Hi. tauto.
  - intro H. pose proof largestText_inv as [Hi _]. cbn [fst] in Hi.
    rewrite H in Hi. tauto.
Qed.

End HeadlineProps.

(** The values the stages hand on. *)
Lemma stages_fields (d : Dom.Document) (w : Window) :
  let s := Extract.stages d w in
  let hts := Extract.heroTextNodes d w in
  let cs := Extract.candidates hts in
  Extract.s_heroTextNodes s = hts
  /\ Extract.s_candidates s = cs
  /\ Extract.s_headline s = fst (Extract.headlineState d w hts cs)
  /\ Extract.s_headlineEl s = snd (Extract.headlineState d w hts cs)
  /\ Extract.s_heroCtaCandidates s
     = Extract.heroCtaCandidates d w (Extract.s_headlineEl s).
Proof. repeat split. Qed.

Lemma headline_field (d : Dom.Document) (w : Window) (cx : Canvas.Contexts) :
  Fingerprint.headline (Extract.extractFingerprint d w cx)
  = Extract.resolvedHeadline
      (Extract.candidates (Extract.heroTextNodes d w))
      (Extract.s_headline (Extract.stages d w))
  /\ Fingerprint.headline_word_count (Extract.extractFingerprint d w cx)
     = Extract.headlineWordCount
         (Extract.candidates (Extract.heroTextNodes d w))
         (Extract.s_headline (Extract.stages d w)).
Proof. split; reflexivity. Qed.

(** X3.  The truncation applied to the largest text, which is always a
    cleaned text, returns a text in normal form of at most 30 words,
    and truncating that again changes nothing. *)
Theorem X3_truncateHeadline_result (raw : string) :
  let t := Text.truncateHeadline (Text.cleanText raw) in
  normalised t = true
  /\ (Text.wordCount t <= 30)%nat
  /\ Text.truncateHeadline t = t.
Proof.
  cbv zeta.
  assert (Hn : normalised (Text.truncateHeadline (Text.cleanText raw)) = true)
    by apply truncateHeadline_normalised, cleanText_normalised.
  pose proof (truncateHeadline_budget raw) as Hw.
  split; [exact Hn|]. split; [exact Hw|].
  rewrite truncateHeadline_clean
    by (apply normalised_parts in Hn; tauto).
  apply Nat.leb_le in Hw. rewrite Hw. reflexivity.
Qed.

(** X4.  On every page the headline of the fingerprint, when it is not
    null, is a text in normal form of at most 30 words, whichever of
    the paths of lines 195-312 produced it, and [headline_word_count]
    is its number of words; with a null headline the count is 0. *)
Theorem X4_headline_field (d : Dom.Document) (w : Window)
    (cx : Canvas.Contexts) :
  let fp := Extract.extractFingerprint d w cx in
  match Fingerprint.headline fp with
  | Some h =>
      normalised h = true
      /\ (Text.wordCount h <= 30)%nat
      /\ Fingerprint.headline_word_count fp = Text.wordCount h
  | None => Fingerprint.headline_word_count fp = O
  end.
Proof.
  cbv zeta. destruct (headline_field d w cx) as [-> ->].
  unfold Extract.headlineWordCount.
  destruct (Extract.resolvedHeadline _ _) as [h|] eqn:E; [|reflexivity].
  destruct (resolvedHeadline_like d w E) as [Hn Hw].
  split; [exact Hn|]. split; [exact Hw|].
  destruct (Js.truthy h) eqn:Et; [reflexivity|].
  symmetry. apply wordCount_of_empty. exact Et.
Qed.

Lemma resolvedHeadline_truthy (d : Dom.Document) (w : Window) :
  let hts := Extract.heroTextNodes d w in
  let cs := Extract.candidates hts in
  Extract.isTruthy
    (Extract.resolvedHeadline cs (fst (Extract.headlineState d w hts cs)))
  = Extract.isTruthy (fst (Extract.headlineState d w hts cs)).
Proof.
  cbv zeta. unfold Extract.resolvedHeadline.
  destruct (Extract.isTruthy (fst (Extract.headlineState d w _ _))) eqn:E;
    [exact E|].
  unfold Extract.headlineState in E.
  destruct (Extract.isTruthy (fst (Extract.headlineAfterOverride d w _ _)))
    eqn:Eo; cbn [negb andb] in E.
  - congruence.
  - destruct (Extract.isTruthy (Extract.largestText _)) eqn:El;
      [cbn [fst] in E; congruence|reflexivity].
Qed.

(** X5.  The element the headline is read from is one of the hero text
    nodes: an [h1, h2, h3, p, span] or [div] that lies in the hero,
    is visible, is outside navigation, headers and footers and is not
    fixed or sticky.  A headline that is not empty always has such an
    element. *)
Theorem X5_headline_element (d : Dom.Document) (w : Window)
    (cx : Canvas.Contexts) :
  match Extract.s_headlineEl (Extract.stages d w) with
  | Some h =>
      In h (Dom.querySelectorAll d Extract.textSelector)
      /\ Extract.inHero d w h = true
      /\ Extract.isVisible h = true
      /\ Extract.inNavOrHeader d w h = false
      /\ Extract.inFramerNavOrFooter d h = false
      /\ Extract.looksLikeFooterContent h = false
      /\ Extract.isFixedOrSticky h = false
  | None =>
      Extract.isTruthy
        (Fingerprint.headline (Extract.extractFingerprint d w cx)) = false
  end.
Proof.
  destruct (headline_field d w cx) as [-> _].
  destruct (stages_fields d w) as (_ & _ & -> & -> & _).
  rewrite resolvedHeadline_truthy.
  pose proof (headlineState_inv d w) as [Hf Hs].
  destruct (snd (Extract.headlineState d w _ _)) as [h|].
  - unfold Extract.heroTextNodes in Hs. apply filter_In in Hs.
    destruct Hs as [Hq Hc]. rewrite !andb_true_iff, !negb_true_iff in Hc.
    tauto.
  - destruct (fst (Extract.headlineState d w _ _)) as [t|]; [|reflexivity].
    destruct Hf as [_ Hf]. cbn [Extract.isTruthy].
    destruct (Js.truthy t); [|reflexivity]. exfalso. exact (Hf eq_refl eq_refl).
Qed.

(** ** The calls to action of the fingerprint *)

Section CtaProps.

Local Open Scope string_scope.

Lemma rank_mayPrecede (a b : Cta.Candidate) :
  (Cta.rank a <= Cta.rank b)%nat -> mayPrecede a b = true.
Proof.
  unfold Cta.rank, mayPrecede.
  pose proof (ctaPriority_range (Cta.text a)).
  pose proof (ctaPriority_range (Cta.text b)).
  destruct (Cta.isOAuth a), (Cta.isOAuth b);
    destruct (Cta.isButton a), (Cta.isButton b);
    cbv [Bool.eqb negb]; intro Hr; try reflexivity; try lia;
    apply Z.leb_le; lia.
Qed.

Lemma sortCtas_ordered (hr : option Dom.DOMRect) (l : list Cta.Candidate) :
  StronglySorted (fun a b => mayPrecede a b = true) (Cta.sortCtas hr l).
Proof.
  assert (H : StronglySorted (Arr.byRank Cta.rank) (Cta.sortCtas hr l)).
  { apply (@sort_sorted _ _ Cta.rank).
    - apply compareCta_rank_lt.
    - apply compareCta_rank_gt. }
  induction H as [|c rest Hs IH Hc]; constructor; [exact IH|].
  apply (Forall_impl _ (fun b Hb => rank_mayPrecede c b Hb) Hc).
Qed.

Lemma oauth_first_all (l : list Cta.Candidate) :
  StronglySorted (fun a b => mayPrecede a b = true) l ->
  forallb Cta.isOAuth l
  = match l with c :: _ => Cta.isOAuth c | [] => true end.
Proof.
  intros H. destruct H as [|c rest _ Hc]; [reflexivity|].
  cbn [forallb]. destruct (Cta.isOAuth c) eqn:Ec; [|reflexivity].
  cbn [andb]. apply forallb_forall. intros x Hx.
  rewrite Forall_forall in Hc. specialize (Hc x Hx).
  unfold mayPrecede in Hc. rewrite Ec in Hc.
  destruct (Cta.isOAuth x); [reflexivity|exact Hc].
Qed.

Variable d : Dom.Document.
Variable w : Window.

Lemma ctaCandidates_In (c : Cta.Candidate) :
  In c (Extract.ctaCandidates d w) ->
  Js.truthy (Cta.text c) = true /\ normalised (Cta.text c) = true.
Proof.
  unfold Extract.ctaCandidates. rewrite filter_In, in_map_iff.
  intros [[x [<- _]] Ht]. cbn in *. split; [exact Ht|].
  apply cleanText_normalised.
Qed.

Lemma heroCtaCandidates_In (hEl : option Dom.Loc) (c : Cta.Candidate) :
  In c (Extract.heroCtaCandidates d w hEl) ->
  In c (Extract.ctaCandidates d w) /\ Cta.keepCta c = true.
Proof.
  unfold Extract.heroCtaCandidates. intro H.
  apply (Permutation_in _ (Permutation_sym (sortCtas_perm _ _))) in H.
  unfold Cta.heroCtaCandidates, Cta.filteredCtas in H.
  rewrite !filter_In in H. tauto.
Qed.

End CtaProps.

(** X6.  The ranked calls to action are in the order of the first
    three criteria of the comparison function, whatever the distances,
    areas and offsets: no OAuth shortcut before another candidate;
    among candidates alike in that, no link before a button; among
    candidates alike in both, none of a lower priority tier first.
    So the first of them is an OAuth shortcut only when all are. *)
Theorem X6_cta_order (d : Dom.Document) (w : Window) :
  let sorted := Extract.s_heroCtaCandidates (Extract.stages d w) in
  StronglySorted (fun a b => mayPrecede a b = true) sorted
  /\ forallb Cta.isOAuth sorted
     = match sorted with c :: _ => Cta.isOAuth c | [] => true end.
Proof.
  cbv zeta.
  assert (H : StronglySorted (fun a b => mayPrecede a b = true)
                (Extract.s_heroCtaCandidates (Extract.stages d w)))
    by apply sortCtas_ordered.
  split; [exact H|apply oauth_first_all; exact H].
Qed.

(** X7.  The four fields on the calls to action agree: [cta_count] is
    the length of [ctas], [cta_details] lists the same texts in the
    same order, each as a button or a link, and [primary_cta_text] is
    the first entry of [ctas], null exactly when there is none.  No
    entry is empty, and every entry is a text in normal form. *)
Theorem X7_cta_fields (d : Dom.Document) (w : Window) (cx : Canvas.Contexts) :
  let fp := Extract.extractFingerprint d w cx in
  Fingerprint.cta_count fp = List.length (Fingerprint.ctas fp)
  /\ map Fingerprint.cd_text (Fingerprint.cta_details fp) = Fingerprint.ctas fp
  /\ Fingerprint.primary_cta_text fp = List.hd_error (Fingerprint.ctas fp)
  /\ Forall (fun t => Js.truthy t = true /\ normalised t = true)
            (Fingerprint.ctas fp)
  /\ Forall (fun cd => Fingerprint.cd_type cd = "button"%string
                       \/ Fingerprint.cd_type cd = "link"%string)
            (Fingerprint.cta_details fp).
Proof.
  cbv zeta.
  change (Fingerprint.ctas (Extract.extractFingerprint d w cx))
    with (map Cta.text (Extract.s_heroCtaCandidates (Extract.stages d w))).
  change (Fingerprint.cta_count (Extract.extractFingerprint d w cx))
    with (List.length
            (map Cta.text (Extract.s_heroCtaCandidates (Extract.stages d w)))).
  change (Fingerprint.cta_details (Extract.extractFingerprint d w cx))
    with (Extract.ctaDetails (Extract.s_heroCtaCandidates (Extract.stages d w))).
  change (Fingerprint.primary_cta_text (Extract.extractFingerprint d w cx))
    with (Cta.primaryCta (Extract.s_heroCtaCandidates (Extract.stages d w))).
  assert (Hall : Forall (fun c => Js.truthy (Cta.text c) = true
                                  /\ normalised (Cta.text c) = true)
                   (Extract.s_heroCtaCandidates (Extract.stages d w))).
  { apply Forall_forall. intros c Hc.
    apply heroCtaCandidates_In in Hc. destruct Hc as [Hc _].
    exact (ctaCandidates_In _ _ _ Hc). }
  set (sorted := Extract.s_heroCtaCandidates (Extract.stages d w)) in *.
  clearbody sorted. unfold Extract.ctaDetails.
  split; [reflexivity|]. split; [rewrite map_map; reflexivity|]. split.
  - destruct Hall as [|c rest [Ht _] _]; [reflexivity|].
    cbn. rewrite Ht. reflexivity.
  - split.
    + apply Forall_map. exact Hall.
    + apply Forall_map, Forall_forall. intros c _. cbn.
      destruct (Cta.isButton c); auto.
Qed.

(** ** The detected stack as a table *)

Section StackTable.

Local Open Scope string_scope.

Lemma run_agrees (rs : list Stack.Rule) (table : list (bool * string))
    (st : list string) :
  agrees st rs table -> Stack.run rs st = (st ++ emit table)%list.
Proof.
  revert table st. induction rs as [|r rs IH]; intros [|e table] st H;
    try contradiction.
  - simpl. rewrite app_nil_r. reflexivity.
  - destruct H as (Ht & Hg & H). cbn [Stack.run fold_left].
    change (fold_left Stack.step rs (Stack.step st r))
      with (Stack.run rs (Stack.step st r)).
    assert (E : Stack.step st r = (st ++ emit [e])%list).
    { unfold Stack.step, emit. rewrite Hg, Ht. cbn [flat_map].
      destruct (fst e); cbn; [reflexivity|rewrite app_nil_r; reflexivity]. }
    rewrite E, (IH _ _ H), <- app_assoc. f_equal.
    unfold emit. cbn [flat_map]. rewrite app_nil_r. reflexivity.
Qed.

Lemma arrayIncludes_app (l l' : list string) (x : string) :
  Js.arrayIncludes (l ++ l') x = Js.arrayIncludes l x || Js.arrayIncludes l' x.
Proof. apply existsb_app. Qed.

Lemma arrayIncludes_emit1 (b : bool) (t x : string) :
  Js.arrayIncludes (emit [(b, t)]) x = b && String.eqb x t.
Proof. destruct b; cbn; [apply orb_false_r|reflexivity]. Qed.

Lemma existsb_emit (f : string -> bool) (table : list (bool * string)) :
  existsb f (emit table) = existsb (fun e => fst e && f (snd e)) table.
Proof.
  induction table as [|[b t] table IH]; [reflexivity|].
  unfold emit in *. cbn [flat_map fst snd existsb].
  rewrite existsb_app, IH. destruct b; cbn; [rewrite orb_false_r|]; reflexivity.
Qed.

Ltac includes_out :=
  rewrite ?arrayIncludes_app, ?arrayIncludes_emit1;
  cbn [Js.arrayIncludes existsb String.eqb Ascii.eqb Bool.eqb];
  rewrite ?andb_false_r, ?andb_true_r, ?orb_false_r, ?orb_false_l.

Lemma rules_table (p : Stack.Probes) :
  agrees [] (Stack.rules p) (stackTable p).
Proof.
  unfold Stack.rules, stackTable.
  repeat (cbn [agrees]; split; [reflexivity|]; split;
          [cbn [Stack.guard Stack.always fst snd]; includes_out;
           try reflexivity|]).
  exact I.
Qed.

Lemma detectedStack_table (p : Stack.Probes) :
  Stack.detectedStack p = emit (stackTable p).
Proof. exact (run_agrees _ _ _ (rules_table p)). Qed.

Lemma hasAnimationStack_table (p : Stack.Probes) :
  Stack.hasAnimationStack (Stack.detectedStack p)
  = Stack.gsap p || Stack.lottie p
    || (negb (Stack.framer p) && Stack.framerMotionMarker p).
Proof.
  rewrite detectedStack_table. unfold Stack.hasAnimationStack.
  rewrite existsb_emit. unfold stackTable.
  cbn [existsb fst snd Js.arrayIncludes Stack.animationStacks String.eqb
       Ascii.eqb Bool.eqb].
  rewrite ?andb_false_r, ?andb_true_r, ?orb_false_r, ?orb_false_l.
  destruct (Stack.gsap p), (Stack.lottie p); reflexivity.
Qed.

End StackTable.

(** X8.  On every page [detected_stack] is the list of the table
    [stackTable] read top to bottom: a tag is in the list exactly when
    its condition on the probes holds, and the tags come in the order
    of the statements of lines 680-862.  The statements that read the
    array ("vue", "react", "framer-motion") push their tag exactly
    when their marker is found and none of the probes of the tags they
    look for held. *)
Theorem X8_detected_stack_table (d : Dom.Document) (w : Window)
    (cx : Canvas.Contexts) :
  Fingerprint.detected_stack (Extract.extractFingerprint d w cx)
  = emit (stackTable (Extract.probes d w)).
Proof. exact (detectedStack_table (Extract.probes d w)). Qed.

(** X9.  [has_animation_stack] is true exactly when the page loads
    gsap or lottie or shows the Framer Motion markers without being a
    Framer site; "three", the fourth entry of [animationStacks], is a
    tag the detection never pushes, and "framer-motion" is never
    listed together with "framer". *)
Theorem X9_animation_stack (d : Dom.Document) (w : Window)
    (cx : Canvas.Contexts) :
  let fp := Extract.extractFingerprint d w cx in
  let p := Extract.probes d w in
  Fingerprint.has_animation_stack fp
  = Stack.gsap p || Stack.lottie p
    || (negb (Stack.framer p) && Stack.framerMotionMarker p)
  /\ ~ In "three"%string (Fingerprint.detected_stack fp)
  /\ ~ (In "framer"%string (Fingerprint.detected_stack fp)
        /\ In "framer-motion"%string (Fingerprint.detected_stack fp)).
Proof.
  cbv zeta. split; [exact (hasAnimationStack_table (Extract.probes d w))|].
  change (Fingerprint.detected_stack (Extract.extractFingerprint d w cx))
    with (Stack.detectedStack (Extract.probes d w)).
  set (p := Extract.probes d w). clearbody p.
  rewrite <- !arrayIncludes_In. rewrite detectedStack_table.
  unfold Js.arrayIncludes. rewrite !existsb_emit. unfold stackTable.
  cbn [existsb fst snd String.eqb Ascii.eqb Bool.eqb].
  rewrite ?andb_false_r, ?andb_true_r, ?orb_false_r, ?orb_false_l.
  split; [discriminate|].
  destruct (Stack.framer p); cbn; intros [H1 H2]; discriminate.
Qed.

(** ** Forms *)

Section FormProps.

Lemma fold_sum_ge (A : Type) (f : A -> nat) (l : list A) (x : A) (n : nat) :
  In x l -> (f x <= fold_left (fun sum y => (sum + f y)%nat) l n)%nat.
Proof.
  assert (Hmono : forall l' m, (m <= fold_left (fun sum y => (sum + f y)%nat) l' m)%nat).
  { induction l' as [|y l' IH]; intro m; simpl; [lia|].
    specialize (IH (m + f y)%nat). lia. }
  revert n. induction l as [|y l IH]; intros n [].
  - subst y. simpl. specialize (Hmono l (n + f x)%nat). lia.
  - simpl. apply IH. assumption.
Qed.

Lemma length_pos_In (A : Type) (l : list A) (x : A) :
  In x l -> (0 <? List.length l)%nat = true.
Proof. destruct l; [intros []|reflexivity]. Qed.

End FormProps.

(** X10.  The form fields agree: a hero with an email-only form has a
    form and at least one input counted, and a hero without a form
    has no input counted and no email-only form.  ([has_password_field]
    is not bound in this way: it also looks at inputs outside every
    form.) *)
Theorem X10_form_fields (d : Dom.Document) (w : Window)
    (cx : Canvas.Contexts) :
  let fp := Extract.extractFingerprint d w cx in
  (Fingerprint.has_email_only fp = true ->
   Fingerprint.has_form fp = true
   /\ (1 <= Fingerprint.form_fields_count fp)%nat)
  /\ (Fingerprint.has_form fp = false ->
      Fingerprint.form_fields_count fp = O
      /\ Fingerprint.has_email_only fp = false).
Proof.
  cbv zeta.
  change (Fingerprint.has_email_only (Extract.extractFingerprint d w cx))
    with (Extract.hasEmailOnly d w).
  change (Fingerprint.has_form (Extract.extractFingerprint d w cx))
    with (0 <? List.length (Extract.forms d w))%nat.
  change (Fingerprint.form_fields_count (Extract.extractFingerprint d w cx))
    with (Extract.formFields d w).
  unfold Extract.hasEmailOnly, Extract.formFields. split.
  - intro H. apply existsb_exists in H. destruct H as (f & Hf & H).
    apply andb_true_iff in H. destruct H as [H1 _]. apply Nat.eqb_eq in H1.
    split; [exact (length_pos_In _ _ Hf)|].
    rewrite <- H1.
    exact (fold_sum_ge
             (fun f => List.length (Dom.querySelectorAllIn Extract.inputSelector f))
             _ f 0 Hf).
  - intro H. destruct (Extract.forms d w); [split; reflexivity|discriminate].
Qed.

(** ** Showcase and interactive demo *)

(** X11.  WebGL is only ever found on a canvas of the hero, so
    [has_webgl] implies [has_canvas].  [has_interactive_demo] is
    made of the fields of [interactive_debug] as line 1079 and lines
    1159-1161 say, and its copy in the debug record is the same
    value.  [is_showcase_hero], which is computed between those two
    places, reads the value of line 1079: the interactive demo found
    through the list items with icons (line 1159) does not count for
    it. *)
Theorem X11_showcase_fields (d : Dom.Document) (w : Window)
    (cx : Canvas.Contexts) :
  let fp := Extract.extractFingerprint d w cx in
  let dbg := Fingerprint.interactive_debug fp in
  let early :=
    Fingerprint.has_interactive_demo_base dbg
    || Fingerprint.looks_like_audio_demo dbg in
  (Fingerprint.has_webgl fp = true -> Fingerprint.has_canvas fp = true)
  /\ Fingerprint.has_interactive_demo fp
     = early
       || (Fingerprint.has_text_input dbg
           && (Fingerprint.has_selectable_list_from_items dbg
               || Fingerprint.has_voice_language dbg))
  /\ Fingerprint.debug_has_interactive_demo dbg
     = Fingerprint.has_interactive_demo fp
  /\ Fingerprint.is_showcase_hero fp
     = (Fingerprint.has_animation_stack fp || Fingerprint.has_canvas fp
        || early)
       && ((Fingerprint.cta_count fp <=? 1)%nat
           || Fingerprint.has_showcase_language fp || early).
Proof.
  cbv zeta.
  assert (Hw : Fingerprint.has_webgl (Extract.extractFingerprint d w cx) = true
               -> Fingerprint.has_canvas (Extract.extractFingerprint d w cx)
                  = true).
  { change (Fingerprint.has_webgl (Extract.extractFingerprint d w cx))
      with (fst (Canvas.some (Canvas.hasWebGLContext w)
                   (Extract.heroCanvasElements d w) cx)).
    change (Fingerprint.has_canvas (Extract.extractFingerprint d w cx))
      with (0 <? List.length (Extract.heroCanvasElements d w))%nat.
    destruct (Extract.heroCanvasElements d w); [discriminate|reflexivity]. }
  split; [exact Hw|]. split; [reflexivity|]. split; [reflexivity|].
  destruct (Fingerprint.has_webgl (Extract.extractFingerprint d w cx)) eqn:E.
  - specialize (Hw eq_refl).
    change (Fingerprint.is_showcase_hero (Extract.extractFingerprint d w cx))
      with ((Fingerprint.has_animation_stack (Extract.extractFingerprint d w cx)
             || Fingerprint.has_canvas (Extract.extractFingerprint d w cx)
             || Fingerprint.has_webgl (Extract.extractFingerprint d w cx)
             || (Fingerprint.has_interactive_demo_base
                   (Fingerprint.interactive_debug (Extract.extractFingerprint d w cx))
                 || Fingerprint.looks_like_audio_demo
                      (Fingerprint.interactive_debug (Extract.extractFingerprint d w cx))))
            && ((Fingerprint.cta_count (Extract.extractFingerprint d w cx) <=? 1)%nat
                || Fingerprint.has_showcase_language (Extract.extractFingerprint d w cx)
                || (Fingerprint.has_interactive_demo_base
                      (Fingerprint.interactive_debug (Extract.extractFingerprint d w cx))
                    || Fingerprint.looks_like_audio_demo
                         (Fingerprint.interactive_debug (Extract.extractFingerprint d w cx))))).
    rewrite E, Hw, !orb_true_r. reflexivity.
  - change (Fingerprint.is_showcase_hero (Extract.extractFingerprint d w cx))
      with ((Fingerprint.has_animation_stack (Extract.extractFingerprint d w cx)
             || Fingerprint.has_canvas (Extract.extractFingerprint d w cx)
             || Fingerprint.has_webgl (Extract.extractFingerprint d w cx)
             || (Fingerprint.has_interactive_demo_base
                   (Fingerprint.interactive_debug (Extract.extractFingerprint d w cx))
                 || Fingerprint.looks_like_audio_demo
                      (Fingerprint.interactive_debug (Extract.extractFingerprint d w cx))))
            && ((Fingerprint.cta_count (Extract.extractFingerprint d w cx) <=? 1)%nat
                || Fingerprint.has_showcase_language (Extract.extractFingerprint d w cx)
                || (Fingerprint.has_interactive_demo_base
                      (Fingerprint.interactive_debug (Extract.extractFingerprint d w cx))
                    || Fingerprint.looks_like_audio_demo
                         (Fingerprint.interactive_debug (Extract.extractFingerprint d w cx))))).
    rewrite E, orb_false_r. reflexivity.
Qed.

(** ** List items, bullets and logos *)

Section ListProps.

Lemma In_firstn (A : Type) (n : nat) (l : list A) (x : A) :
  In x (firstn n l) -> In x l.
Proof.
  revert n. induction l as [|y l IH]; intros [|n]; simpl; try tauto.
  intros [H|H]; [auto|right; exact (IH n H)].
Qed.

Lemma indexedFrom_snd (A : Type) (l : list A) (k : nat) (p : nat * A) :
  In p (Cta.indexedFrom k l) -> In (snd p) l.
Proof.
  revert k. induction l as [|y l IH]; intro k; simpl; [tauto|].
  intros [<-|H]; [left; reflexivity|right; exact (IH _ H)].
Qed.

Variable d : Dom.Document.
Variable w : Window.

Lemma listItems_In (p : nat * Extract.ListItem) :
  In p (Extract.listItems d w) -> exists x, snd p = Extract.toListItem x.
Proof.
  unfold Extract.listItems, Cta.indexed. intro H.
  apply indexedFrom_snd, in_flat_map in H. destruct H as (l & _ & H).
  apply in_map_iff in H. destruct H as (x & <- & _). exists x. reflexivity.
Qed.

Lemma toListItem_text (x : Dom.Loc) :
  let it := Extract.toListItem x in
  normalised (Extract.li_text it) = true
  /\ Extract.li_wordCount it = Text.wordCount (Extract.li_text it)
  /\ Extract.li_isLegal it
     = Regex.test Extract.legalTextRegex (Extract.li_text it)
  /\ Extract.li_isNavLink it
     = Regex.test Extract.navLinkRegex (Extract.li_text it).
Proof.
  cbv zeta. unfold Extract.toListItem. cbv zeta.
  cbn [Extract.li_text Extract.li_wordCount Extract.li_isLegal
       Extract.li_isNavLink].
  split; [apply cleanText_normalised|].
  split; [apply wordCount_by_space|]. split; reflexivity.
Qed.

Lemma featureListItems_In (hEl : option Dom.Loc) (p : nat * Extract.ListItem) :
  In p (Extract.featureListItems d w hEl) ->
  In p (Extract.listItems d w) /\ Extract.plainItem (snd p) = true.
Proof.
  unfold Extract.featureListItems. rewrite !filter_In. tauto.
Qed.

Lemma rawPool_In (hEl : option Dom.Loc) (p : nat * Extract.ListItem) :
  In p (Extract.featureListItems d w hEl
        ++ filter (fun p => negb (Extract.isFeatureItem d w hEl p)
                            && negb (Extract.li_looksLikeLogo (snd p))
                            && negb (Extract.li_isLegal (snd p))
                            && negb (Extract.li_isNavLink (snd p))
                            && negb (Extract.li_isJustLink (snd p)))
                 (Extract.listItems d w))%list ->
  In p (Extract.listItems d w)
  /\ Extract.li_isLegal (snd p) = false
  /\ Extract.li_isNavLink (snd p) = false.
Proof.
  rewrite in_app_iff. intros [H|H].
  - apply featureListItems_In in H. destruct H as [Hin Hp].
    unfold Extract.plainItem in Hp.
    rewrite !andb_true_iff, !negb_true_iff in Hp. tauto.
  - apply filter_In in H. rewrite !andb_true_iff, !negb_true_iff in H. tauto.
Qed.

(** The counting loops of lines 1218-1232, 1364-1381 and 1396-1406
    keep a count that is 0 or at least 3. *)
Lemma fold_max_threshold (A : Type) (len : A -> nat) (skip : A -> bool)
    (l : list A) (n : nat) :
  (n = 0 \/ 3 <= n)%nat ->
  let out :=
    fold_left (fun count x =>
                 if skip x then count
                 else if (3 <=? len x)%nat then Nat.max count (len x)
                      else count) l n in
  (out = 0 \/ 3 <= out)%nat /\ (n <= out)%nat.
Proof.
  revert n. induction l as [|x l IH]; intros n Hn; [cbn; split; [exact Hn|lia]|].
  cbn [fold_left]. destruct (skip x).
  - exact (IH n Hn).
  - destruct (3 <=? len x)%nat eqn:E.
    + apply Nat.leb_le in E.
      destruct (IH (Nat.max n (len x))) as [H1 H2]; [lia|].
      split; [exact H1|lia].
    + exact (IH n Hn).
Qed.

Lemma virtualBulletCount_cases (hEl : option Dom.Loc) :
  let b := Extract.bulletCount d w hEl in
  let v := Extract.virtualBulletCount d w hEl in
  (v = 0 \/ (b < 2 /\ 3 <= v))%nat.
Proof.
  cbv zeta. unfold Extract.virtualBulletCount.
  destruct (Extract.bulletCount d w hEl <? 2)%nat eqn:E; [|left; reflexivity].
  apply Nat.ltb_lt in E.
  destruct (@fold_max_threshold _
              (fun container =>
                 List.length
                   (filter (fun child =>
                              Extract.isSome
                                (Dom.querySelectorIn Extract.bulletIconSelector child)
                              && (4 <=? Text.wordCount
                                          (Text.cleanText
                                             (Dom.innerText (Dom.el child))))%nat)
                           (filter Extract.isVisible (Dom.childLocs container))))
              (fun container =>
                 (List.length (filter Extract.isVisible (Dom.childLocs container))
                  <? 3)%nat)
              (Extract.bulletContainers d w) 0%nat (or_introl eq_refl))
    as [[H|H] _]; [left; exact H|right; split; [exact E|exact H]].
Qed.

Lemma takeRow_length (rowY : Q) (l : list Extract.Logo) :
  (List.length (snd (Extract.takeRow rowY l)) <= List.length l)%nat.
Proof.
  induction l as [|x l IH]; [cbn; lia|].
  cbn [Extract.takeRow]. destruct (Qlt_bool _ 25); [|cbn; lia].
  destruct (Extract.takeRow rowY l) as [row others]. cbn in *. lia.
Qed.

Lemma logoRows_threshold (fuel : nat) (sorted : list Extract.Logo) (n : nat) :
  (n = 0 \/ 3 <= n)%nat ->
  (Extract.logoRows fuel sorted n = 0 \/ 3 <= Extract.logoRows fuel sorted n)%nat.
Proof.
  revert sorted n. induction fuel as [|fuel IH]; intros sorted n Hn;
    [exact Hn|].
  cbn [Extract.logoRows]. destruct sorted as [|first rest]; [exact Hn|].
  destruct (Extract.takeRow (Extract.lg_centerY first) (first :: rest))
    as [rowItems others].
  apply IH.
  destruct ((3 <=? List.length rowItems)%nat && _) eqn:E; [|exact Hn].
  apply andb_true_iff in E. destruct E as [E _]. apply Nat.leb_le in E. lia.
Qed.

Lemma logoRowCount_threshold :
  (Extract.logoRowCount d w = 0 \/ 3 <= Extract.logoRowCount d w)%nat.
Proof.
  assert (Hp : (Extract.logoRowsByPosition d w = 0
                \/ 3 <= Extract.logoRowsByPosition d w)%nat).
  { unfold Extract.logoRowsByPosition.
    destruct (3 <=? _)%nat; [|left; reflexivity].
    apply logoRows_threshold. left. reflexivity. }
  unfold Extract.logoRowCount.
  destruct (Extract.logoRowsByPosition d w <? 3)%nat; [|exact Hp].
  exact (proj1 (@fold_max_threshold _
                  (fun container =>
                     List.length
                       (filter (fun child =>
                                  if negb (Extract.isVisible child) then false
                                  else
                                    (Extract.isSome
                                       (Dom.querySelectorIn Extract.avatarSelector child)
                                     || String.eqb (Dom.tagName (Dom.el child)) "IMG"
                                     || String.eqb (Dom.tagName (Dom.el child)) "svg")
                                    && Qlt_bool (Dom.width (Dom.rect (Dom.el child))) 200
                                    && Qlt_bool (Dom.height (Dom.rect (Dom.el child))) 100)
                               (Dom.childLocs container)))
                  (fun _ => false)
                  (Extract.logoContainers d w) _ Hp)).
Qed.

End ListProps.

(** X12.  [list_items_raw] has at most 20 entries.  The text of every
    entry is in normal form; its [wordCount], which the extractor
    counts by splitting at single spaces, is the number of words that
    splitting at white space gives, as for the headline; and no entry
    is a legal notice or a navigation link by the patterns of lines
    1105-1106. *)
Theorem X12_list_items_raw (d : Dom.Document) (w : Window)
    (cx : Canvas.Contexts) :
  let items := Fingerprint.list_items_raw (Extract.extractFingerprint d w cx) in
  (List.length items <= 20)%nat
  /\ Forall (fun it =>
               normalised (Fingerprint.raw_text it) = true
               /\ Fingerprint.raw_wordCount it
                  = Text.wordCount (Fingerprint.raw_text it)
               /\ Regex.test Extract.legalTextRegex (Fingerprint.raw_text it)
                  = false
               /\ Regex.test Extract.navLinkRegex (Fingerprint.raw_text it)
                  = false)
            items.
Proof.
  cbv zeta.
  change (Fingerprint.list_items_raw (Extract.extractFingerprint d w cx))
    with (Extract.listItemsRaw d w (Extract.s_headlineEl (Extract.stages d w))).
  unfold Extract.listItemsRaw. split.
  - rewrite length_map, length_firstn. lia.
  - apply Forall_map, Forall_forall. intros p Hp.
    apply In_firstn, rawPool_In in Hp. destruct Hp as (Hin & Hl & Hn).
    apply listItems_In in Hin. destruct Hin as [x Hx].
    cbn [Fingerprint.raw_text Fingerprint.raw_wordCount].
    rewrite Hx in *. destruct (toListItem_text x) as (H1 & H2 & H3 & H4).
    rewrite <- H3, <- H4. auto.
Qed.

(** X13.  The bullet count of the fingerprint is the number of list
    bullets plus the number of virtual bullets.  Virtual bullets are
    looked for only when there are fewer than two list bullets, and a
    container counts only with three or more of them: their number is
    0 or at least 3, never 1 or 2.  So [has_feature_bullets] holds
    exactly with two list bullets or with any virtual bullets. *)
Theorem X13_bullet_counts (d : Dom.Document) (w : Window)
    (cx : Canvas.Contexts) :
  let fp := Extract.extractFingerprint d w cx in
  let hEl := Extract.s_headlineEl (Extract.stages d w) in
  let b := Extract.bulletCount d w hEl in
  let v := Extract.virtualBulletCount d w hEl in
  Fingerprint.bullet_count fp = (b + v)%nat
  /\ Fingerprint.feature_bullet_count fp = Fingerprint.bullet_count fp
  /\ (v = 0 \/ (b < 2 /\ 3 <= v))%nat
  /\ Fingerprint.has_feature_bullets fp = (2 <=? b)%nat || (3 <=? v)%nat.
Proof.
  cbv zeta. split; [reflexivity|]. split; [reflexivity|].
  pose proof (virtualBulletCount_cases d w
                (Extract.s_headlineEl (Extract.stages d w))) as H.
  cbv zeta in H. split; [exact H|].
  change (Fingerprint.has_feature_bullets (Extract.extractFingerprint d w cx))
    with (2 <=? Extract.bulletCount d w (Extract.s_headlineEl (Extract.stages d w))
                + Extract.virtualBulletCount d w
                    (Extract.s_headlineEl (Extract.stages d w)))%nat.
  destruct H as [-> | [Hb Hv]].
  - rewrite Nat.add_0_r, orb_false_r. reflexivity.
  - transitivity true; [apply Nat.leb_le; lia|].
    symmetry. apply orb_true_iff. right. apply Nat.leb_le. exact Hv.
Qed.

(** X14.  The number of logos in a row is 0 or at least 3, never 1 or
    2: both loops that set it count a row or a container only with
    three or more items.  [logo_count] is that number when there is a
    row and the number of all logo candidates otherwise, and a row
    makes [has_social_proof] true. *)
Theorem X14_logo_row (d : Dom.Document) (w : Window) (cx : Canvas.Contexts) :
  let fp := Extract.extractFingerprint d w cx in
  let n := Extract.logoRowCount d w in
  (n = 0 \/ 3 <= n)%nat
  /\ Fingerprint.logo_count fp
     = (if (3 <=? n)%nat then n
        else List.length (Extract.allLogoCandidates d w))
  /\ (3 <= n -> Fingerprint.has_social_proof fp = true)%nat.
Proof.
  cbv zeta. pose proof (logoRowCount_threshold d w) as H.
  split; [exact H|]. split.
  - change (Fingerprint.logo_count (Extract.extractFingerprint d w cx))
      with (Extract.logoCount d w).
    unfold Extract.logoCount. destruct H as [-> | H]; [reflexivity|].
    assert (E3 : (3 <=? Extract.logoRowCount d w)%nat = true)
      by (apply Nat.leb_le; exact H).
    assert (E0 : (0 <? Extract.logoRowCount d w)%nat = true)
      by (apply Nat.ltb_lt; lia).
    rewrite E3, E0. reflexivity.
  - intro H3.
    change (Fingerprint.has_social_proof (Extract.extractFingerprint d w cx))
      with (Extract.hasSocialProofText
              (Extract.s_heroText (Extract.stages d w))
            || (3 <=? Extract.logoRowCount d w)%nat).
    apply orb_true_iff. right. apply Nat.leb_le. exact H3.
Qed.

(** ** Sorting by a number *)

Section KeySort.

Variable A : Type.
Variable compare : A -> A -> Q.
Variable key : A -> Q.

(** The comparison function puts [a] first exactly when its key is the
    smaller one. *)
Hypothesis compare_key : forall a b, compare a b < 0 <-> key a < key b.

#[local] Abbreviation byKey := (fun a b : A => key a <= key b).

Lemma insert_sorted_key (x : A) (l : list A) :
  StronglySorted byKey l -> StronglySorted byKey (Arr.insert compare x l).
Proof.
  induction 1 as [|y l Hs IH Hy]; simpl.
  - repeat constructor.
  - destruct (Qlt_bool (compare x y) 0) eqn:E.
    + apply Qlt_bool_iff, compare_key in E.
      constructor; [constructor; assumption|].
      constructor; [lra|].
      rewrite Forall_forall in *. intros z Hz. specialize (Hy z Hz).
      cbv beta in *. lra.
    + apply Qlt_bool_false_iff in E.
      assert (Hyx : key y <= key x).
      { destruct (Qlt_le_dec (key x) (key y)) as [L|L]; [|exact L].
        apply compare_key in L. lra. }
      constructor; [exact IH|].
      rewrite Forall_forall in *. intros z Hz.
      apply (Permutation_in _ (Permutation_sym (insert_perm compare x l))) in Hz.
      destruct Hz as [<-|Hz]; [exact Hyx|apply Hy; exact Hz].
Qed.

Lemma sort_sorted_key (l : list A) : StronglySorted byKey (Arr.sort compare l).
Proof.
  unfold Arr.sort.
  assert (H : forall acc, StronglySorted byKey acc ->
                          StronglySorted byKey
                            (fold_left (fun a x => Arr.insert compare x a) l acc)).
  { induction l as [|x l IH]; intros acc Hacc; [exact Hacc|].
    simpl. apply IH, insert_sorted_key, Hacc. }
  apply H. constructor.
Qed.

(** The first element of the sorted array has the smallest key. *)
Lemma sort_head_least (l : list A) :
  match Arr.sort compare l with
  | x :: _ => Forall (fun y => key x <= key y) l
  | [] => l = []
  end.
Proof.
  pose proof (sort_sorted_key l) as Hs.
  pose proof (sort_perm_any compare l) as Hp.
  destruct (Arr.sort compare l) as [|x rest].
  - apply Permutation_sym, Permutation_nil in Hp. exact Hp.
  - apply Forall_forall. intros y Hy.
    apply (Permutation_in _ Hp) in Hy. inversion Hs as [|? ? _ Hx]; subst.
    destruct Hy as [<-|Hy]; [lra|].
    rewrite Forall_forall in Hx. exact (Hx y Hy).
Qed.

End KeySort.

(** X15.  The candidate the largest text is read from has the largest
    font size among the headline candidates, and the media element
    that decides [hero_media_type] and [left_copy_right_media] has
    the largest area among the visible media of the hero. *)
Theorem X15_largest_first (d : Dom.Document) (w : Window) :
  let candidates := Extract.s_candidates (Extract.stages d w) in
  match Extract.best candidates with
  | Some c =>
      Forall (fun c' => Extract.tc_size c' <= Extract.tc_size c) candidates
  | None => candidates = []
  end
  /\ match Extract.largestMedia d w with
     | Some m =>
         Forall (fun m' => Extract.m_area m' <= Extract.m_area m)
                (Extract.mediaElements d w)
     | None => Extract.mediaElements d w = []
     end.
Proof.
  cbv zeta. split.
  - change (Extract.s_candidates (Extract.stages d w))
      with (Extract.candidates (Extract.heroTextNodes d w)).
    unfold Extract.best, Extract.candidates.
    match goal with
    | |- context [Arr.sort ?cmp ?l] =>
        pose proof (@sort_head_least _ cmp (fun c => - Extract.tc_size c)
                      (fun a b => ltac:(cbv beta; split; intro; lra)) l) as H;
        pose proof (sort_perm_any cmp l) as Hp;
        destruct (Arr.sort cmp l) as [|c rest] eqn:E
    end.
    + reflexivity.
    + cbn [List.hd_error]. apply Forall_forall. intros c' Hc'.
      apply (Permutation_in _ (Permutation_sym Hp)) in Hc'.
      rewrite Forall_forall in H. specialize (H c' Hc'). cbv beta in H. lra.
  - unfold Extract.largestMedia, Extract.mediaElements.
    match goal with
    | |- context [Arr.sort ?cmp ?l] =>
        pose proof (@sort_head_least _ cmp (fun m => - Extract.m_area m)
                      (fun a b => ltac:(cbv beta; split; intro; lra)) l) as H;
        pose proof (sort_perm_any cmp l) as Hp;
        destruct (Arr.sort cmp l) as [|m rest] eqn:E
    end.
    + reflexivity.
    + cbn [List.hd_error]. apply Forall_forall. intros m' Hm'.
      apply (Permutation_in _ (Permutation_sym Hp)) in Hm'.
      rewrite Forall_forall in H. specialize (H m' Hm'). cbv beta in H. lra.
Qed.

(** ** Colours *)

Section ColourProps.

Local Open Scope string_scope.

Lemma classifyColor_named (red green blue : Q) (alpha : Num.Num) :
  exists name,
    Theme.classifyColor
      (Some {| Theme.r := Some red; Theme.g := Some green;
               Theme.b := Some blue; Theme.a := alpha |}) = Some name
    /\ Js.arrayIncludes colorNames name = true.
Proof.
  unfold Theme.classifyColor. cbv zeta. unfold Theme.n, Num.num.
  cbn [Theme.r Theme.g Theme.b Num.max Num.min Num.lift2 Num.sub].
  set (maxC := Qmax (Qmax red green) blue).
  set (minC := Qmin (Qmin red green) blue).
  set (lum := Theme.luminance _ _ _).
  match goal with
  | |- context [if ?c then Some "black" else _] => destruct c
  end; [eexists; split; reflexivity|].
  match goal with
  | |- context [if ?c then Some "dark" else _] => destruct c
  end; [eexists; split; reflexivity|].
  match goal with
  | |- context [if ?c then Some "white" else _] => destruct c
  end; [eexists; split; reflexivity|].
  match goal with
  | |- context [if ?c then Some "off_white" else _] => destruct c
  end; [eexists; split; reflexivity|].
  destruct (Num.lt (Some (maxC - minC)) (Some 20)) eqn:Ed.
  { match goal with
    | |- context [if ?c then Some "light_grey" else _] => destruct c
    end; eexists; split; reflexivity. }
  cbn [Num.lt] in Ed. apply Qlt_bool_false_iff in Ed.
  assert (E0 : Qeq_bool (maxC - minC) 0 = false).
  { destruct (Qeq_bool (maxC - minC) 0) eqn:E; [|reflexivity].
    apply Qeq_bool_iff in E. lra. }
  assert (Hh : exists h0,
             (if Num.eq (Some maxC) (Some red)
              then Num.rem (Num.div (Some (green - blue)) (Some (maxC - minC))) 6
              else if Num.eq (Some maxC) (Some green)
                   then Num.add (Num.div (Some (blue - red)) (Some (maxC - minC)))
                                (Some 2)
                   else Num.add (Num.div (Some (red - green)) (Some (maxC - minC)))
                                (Some 4)) = Some h0).
  { unfold Num.div, Num.rem. rewrite E0.
    destruct (Num.eq (Some maxC) (Some red)); [eexists; reflexivity|].
    destruct (Num.eq (Some maxC) (Some green)); eexists; reflexivity. }
  destruct Hh as [h0 ->].
  cbn [Num.mul Num.lift2 Num.round].
  set (h1 := inject_Z _).
  assert (Hh : exists h, (if Num.lt (Some h1) (Some 0)
                          then Num.add (Some h1) (Some 360) else Some h1)
                         = Some h)
    by (destruct (Num.lt (Some h1) (Some 0)); eexists; reflexivity).
  destruct Hh as [h ->].
  destruct (Num.lt (Some h) (Some 15) || Num.ge (Some h) (Some 345)) eqn:E1;
    [destruct (Double.gt lum _); eexists; split; reflexivity|].
  apply orb_false_iff in E1. destruct E1 as [_ E1].
  cbn [Num.ge Num.le] in E1. apply Qle_bool_false_iff in E1.
  repeat match goal with
         | |- context [if Num.lt (Some h) ?k then _ else _] =>
             let E := fresh "E" in
             destruct (Num.lt (Some h) k) eqn:E;
             [destruct (Double.gt lum _); eexists; split; reflexivity|]
         end.
  exfalso. cbn [Num.lt] in *.
  match goal with
  | H : Qlt_bool h 345 = false |- _ => apply Qlt_bool_false_iff in H; lra
  end.
Qed.

(** Whatever the colour, a name [classifyColor] gives is one of the
    22. *)
Lemma classifyColor_names (c : option Theme.ColorSample) (name : string) :
  Theme.classifyColor c = Some name ->
  Js.arrayIncludes colorNames name = true.
Proof.
  unfold Theme.classifyColor. destruct c as [c|]; [|discriminate].
  cbv zeta.
  repeat match goal with
         | |- (if ?b then _ else _) = _ -> _ => destruct b
         | |- Some (if ?b then _ else _) = _ -> _ => destruct b
         end;
    intro H; first [discriminate H | injection H as <-; reflexivity].
Qed.

Lemma adjacentDistinct_snoc (names : list string) (name : string) :
  adjacentDistinct names = true ->
  match rev names with
  | [] => true
  | lastName :: _ => negb (String.eqb lastName name)
  end = true ->
  adjacentDistinct (names ++ [name]) = true.
Proof.
  induction names as [|x names IH]; [reflexivity|].
  destruct names as [|y names'].
  - cbn. intros _ H. rewrite H. reflexivity.
  - intros H Hl. cbn [adjacentDistinct] in H. apply andb_true_iff in H.
    destruct H as [Hxy H].
    change ((x :: y :: names') ++ [name])%list
      with (x :: (y :: names') ++ [name])%list.
    change ((y :: names') ++ [name])%list
      with (y :: names' ++ [name])%list in *.
    cbn [adjacentDistinct]. rewrite Hxy. cbn [andb].
    apply IH; [exact H|].
    cbn [rev] in Hl |- *.
    destruct (rev names') as [|z zs] eqn:Er; cbn in Hl |- *; exact Hl.
Qed.

Lemma distinctNames_inv (colors : list Theme.ColorSample) (names : list string) :
  adjacentDistinct names = true -> forallb Js.truthy names = true ->
  forallb (Js.arrayIncludes colorNames) names = true ->
  adjacentDistinct (Theme.distinctNames colors names) = true
  /\ forallb Js.truthy (Theme.distinctNames colors names) = true
  /\ forallb (Js.arrayIncludes colorNames) (Theme.distinctNames colors names)
     = true.
Proof.
  revert names. induction colors as [|c colors IH]; intros names Ha Ht Hc;
    [repeat split; assumption|].
  cbn [Theme.distinctNames].
  destruct (Theme.classifyColor (Some c)) as [name|] eqn:En;
    [|exact (IH _ Ha Ht Hc)].
  destruct (Js.truthy name && _) eqn:E; [|exact (IH _ Ha Ht Hc)].
  apply andb_true_iff in E. destruct E as [Et El].
  apply IH.
  - apply adjacentDistinct_snoc; assumption.
  - rewrite forallb_app, Ht. cbn. rewrite Et. reflexivity.
  - rewrite forallb_app, Hc. cbn [forallb].
    rewrite (classifyColor_names _ En). reflexivity.
Qed.

Lemma adjacentDistinct_firstn (n : nat) (names : list string) :
  adjacentDistinct names = true -> adjacentDistinct (firstn n names) = true.
Proof.
  revert n. induction names as [|x names IH]; intros [|n]; try reflexivity.
  intro H. destruct names as [|y names']; [destruct n; reflexivity|].
  cbn [adjacentDistinct] in H. apply andb_true_iff in H. destruct H as [Hxy H].
  destruct n as [|n]; [reflexivity|].
  change (firstn (S (S n)) (x :: y :: names'))
    with (x :: y :: firstn n names').
  cbn [adjacentDistinct]. rewrite Hxy. cbn [andb].
  exact (IH (S n) H).
Qed.

Lemma distinctNames_nonempty (colors : list Theme.ColorSample)
    (names : list string) :
  names <> [] -> Theme.distinctNames colors names <> [].
Proof.
  revert names. induction colors as [|c colors IH]; intros names Hn;
    [exact Hn|].
  cbn [Theme.distinctNames].
  destruct (Theme.classifyColor (Some c)) as [name|]; [|exact (IH _ Hn)].
  destruct (Js.truthy name && _); [|exact (IH _ Hn)].
  apply IH. destruct names; discriminate.
Qed.

(** A stop that gets a name leaves the list of names with an entry. *)
Lemma distinctNames_named (colors : list Theme.ColorSample)
    (names : list string) (c : Theme.ColorSample) (name : string) :
  In c colors -> Theme.classifyColor (Some c) = Some name ->
  Js.truthy name = true ->
  Theme.distinctNames colors names <> [].
Proof.
  intros Hin Hc Ht. revert names.
  induction colors as [|c0 colors IH]; intro names; [destruct Hin|].
  cbn [Theme.distinctNames]. destruct Hin as [-> | Hin].
  - rewrite Hc, Ht. cbn [andb].
    destruct names as [|n0 names].
    + cbn [rev]. apply distinctNames_nonempty. discriminate.
    + destruct (match rev (n0 :: names) with
                | [] => true
                | lastName :: _ => negb (String.eqb lastName name)
                end);
        apply distinctNames_nonempty; [destruct names|]; discriminate.
  - destruct (Theme.classifyColor (Some c0)) as [name0|]; [|exact (IH Hin _)].
    destruct (Js.truthy name0 && _); exact (IH Hin _).
Qed.

Lemma colorNames_truthy (name : string) :
  Js.arrayIncludes colorNames name = true -> Js.truthy name = true.
Proof.
  destruct name; [intro H; vm_compute in H; discriminate H|reflexivity].
Qed.

End ColourProps.

(** X16.  [classifyColor] names every colour whose three channels are
    numbers: the result is never null, and is one of the 22 names
    from "black" to "magenta". *)
Theorem X16_classifyColor_total (red green blue : Q) (alpha : Num.Num) :
  exists name : string,
    Theme.classifyColor
      (Some {| Theme.r := Some red; Theme.g := Some green;
               Theme.b := Some blue; Theme.a := alpha |}) = Some name
    /\ Js.arrayIncludes colorNames name = true.
Proof. apply classifyColor_named. Qed.

(** X17.  A gradient tag, when there is one, is made of one to three
    of the 22 colour names of [classifyColor], joined by "-" and
    followed by "-gradient"; no name is followed by the same name.
    There is no tag only when no colour stop read from the gradient
    has three numbers for its channels. *)
Theorem X17_gradient_tag (gradientStr : string) :
  match Theme.buildGradientTag gradientStr with
  | Some tag =>
      exists names : list string,
        tag = (Js.join "-" names ++ "-gradient")%string
        /\ (1 <= List.length names <= 3)%nat
        /\ forallb (Js.arrayIncludes colorNames) names = true
        /\ forallb Js.truthy names = true
        /\ adjacentDistinct names = true
  | None =>
      forall c : Theme.ColorSample,
        In c (Theme.gradientColors gradientStr) ->
        Theme.r c = None \/ Theme.g c = None \/ Theme.b c = None
  end.
Proof.
  unfold Theme.buildGradientTag. cbv zeta.
  destruct (Theme.gradientColors gradientStr) as [|c colors];
    [intros c []|].
  destruct (distinctNames_inv (c :: colors) [] eq_refl eq_refl eq_refl)
    as (Ha & Ht & Hc).
  destruct (Theme.distinctNames (c :: colors) []) as [|n1 names] eqn:E.
  - intros [r g b a] Hin. cbn [Theme.r Theme.g Theme.b].
    destruct r as [r|]; [|now left].
    destruct g as [g|]; [|now right; left].
    destruct b as [b|]; [|now right; right].
    exfalso.
    destruct (classifyColor_named r g b a) as (name & Hn & Hin').
    exact (distinctNames_named (c :: colors) [] _ Hin Hn
             (colorNames_truthy _ Hin') E).
  - exists (firstn 3 (n1 :: names)). split; [reflexivity|]. split.
    + rewrite length_firstn. cbn [List.length]. lia.
    + split; [apply forallb_firstn; exact Hc|].
      split; [apply forallb_firstn; exact Ht
             |apply adjacentDistinct_firstn; exact Ha].
Qed.

(** ** The theme fields of the fingerprint *)

Lemma theme_fields (d : Dom.Document) (w : Window) (cx : Canvas.Contexts) :
  let fp := Extract.extractFingerprint d w cx in
  let t := Extract.darkThemeResult d (Extract.s_headlineEl (Extract.stages d w)) in
  Fingerprint.dark_theme_hero fp = Theme.is_dark t
  /\ Fingerprint.hero_bg fp = Theme.hero_bg t
  /\ Fingerprint.hero_bg_gradient fp = Theme.hero_bg_gradient t
  /\ Fingerprint.hero_bg_color_name fp = Theme.hero_bg_color_name t
  /\ Fingerprint.hero_bg_gradient_tag fp = Theme.hero_bg_gradient_tag t
  /\ Fingerprint.hero_text_color fp = Theme.hero_text_color t
  /\ Fingerprint.hero_bg_sampled_from fp = Theme.sampled_element t.
Proof. repeat split. Qed.

Lemma isDark_named (bgColor : option Theme.ColorSample) (textColor : string) :
  Theme.isDark bgColor textColor = true ->
  exists name,
    Theme.classifyColor bgColor = Some name
    /\ Js.arrayIncludes colorNames name = true.
Proof.
  unfold Theme.isDark. destruct bgColor as [[r g b a]|]; [|discriminate].
  cbn [Theme.r Theme.g Theme.b Theme.a].
  destruct (Num.neq a (Theme.n 0)); [|discriminate].
  destruct r as [r|], g as [g|], b as [b|];
    try (rewrite luminance_NaN by tauto; rewrite lt_NaN_l; discriminate).
  intros _. apply classifyColor_named.
Qed.

Lemma sample_dark_named (start : Dom.Loc) (textColor : string) :
  let t := Theme.sample start textColor in
  Theme.is_dark t = true ->
  exists name,
    Theme.hero_bg_color_name t = Some name
    /\ Js.arrayIncludes colorNames name = true.
Proof.
  cbv zeta. unfold Theme.sample.
  destruct (Theme.walk 10 (Dom.selfAndAncestors start) Theme.transparent
              "none") as [[stop bg] bgImage].
  cbn [Theme.is_dark Theme.hero_bg_color_name]. intro H.
  destruct (isDark_named _ _ H) as (name & Hn & Hin).
  exists name. split; [|exact Hin].
  destruct (Theme.effectiveBackground bg bgImage (Theme.isGradient bgImage));
    [exact Hn|discriminate Hn].
Qed.

Lemma sample_filled (start : Dom.Loc) (textColor : string) :
  let t := Theme.sample start textColor in
  Theme.hero_bg t <> None
  /\ Theme.hero_text_color t = Some textColor
  /\ (Theme.hero_bg_gradient t = None -> Theme.hero_bg_gradient_tag t = None).
Proof.
  cbv zeta. unfold Theme.sample.
  destruct (Theme.walk 10 (Dom.selfAndAncestors start) Theme.transparent
              "none") as [[stop bg] bgImage].
  cbn [Theme.hero_bg Theme.hero_text_color Theme.hero_bg_gradient
       Theme.hero_bg_gradient_tag].
  split; [discriminate|]. split; [reflexivity|].
  destruct (Theme.isGradient bgImage); [discriminate|reflexivity].
Qed.

(** X18.  When no element is sampled for the background (there is no
    headline element, or no element lies under the sample point) the
    seven theme fields are at their defaults: [dark_theme_hero] false
    and the six others null.  When an element is sampled,
    [hero_bg] is not null, [hero_text_color] is the computed colour of
    the headline element, and there is a gradient tag only with a
    gradient. *)
Theorem X18_theme_defaults (d : Dom.Document) (w : Window)
    (cx : Canvas.Contexts) :
  let fp := Extract.extractFingerprint d w cx in
  let hEl := Extract.s_headlineEl (Extract.stages d w) in
  match Extract.sampledElement d hEl with
  | None =>
      Fingerprint.dark_theme_hero fp = false
      /\ Fingerprint.hero_bg fp = None
      /\ Fingerprint.hero_bg_gradient fp = None
      /\ Fingerprint.hero_bg_color_name fp = None
      /\ Fingerprint.hero_bg_gradient_tag fp = None
      /\ Fingerprint.hero_text_color fp = None
      /\ Fingerprint.hero_bg_sampled_from fp = None
  | Some _ =>
      Fingerprint.hero_bg fp <> None
      /\ Fingerprint.hero_text_color fp
         = option_map (fun h => Dom.color (Dom.style (Dom.el h))) hEl
      /\ (Fingerprint.hero_bg_gradient fp = None ->
          Fingerprint.hero_bg_gradient_tag fp = None)
  end.
Proof.
  cbv zeta.
  destruct (theme_fields d w cx) as (-> & -> & -> & -> & -> & -> & ->).
  unfold Extract.darkThemeResult.
  destruct (Extract.s_headlineEl (Extract.stages d w)) as [hEl|].
  - destruct (Extract.sampledElement d (Some hEl)) as [start|].
    + apply sample_filled.
    + repeat split.
  - cbn. repeat split.
Qed.

(** X19.  A hero that is reported dark has a named background colour:
    [hero_bg_color_name] is one of the 22 names of [classifyColor],
    never null. *)
Theorem X19_dark_hero_named (d : Dom.Document) (w : Window)
    (cx : Canvas.Contexts) :
  let fp := Extract.extractFingerprint d w cx in
  Fingerprint.dark_theme_hero fp = true ->
  exists name : string,
    Fingerprint.hero_bg_color_name fp = Some name
    /\ Js.arrayIncludes colorNames name = true.
Proof.
  cbv zeta.
  destruct (theme_fields d w cx) as (-> & _ & _ & -> & _).
  unfold Extract.darkThemeResult.
  destruct (Extract.s_headlineEl (Extract.stages d w)) as [hEl|];
    [|discriminate].
  destruct (Extract.sampledElement d (Some hEl)) as [start|]; [|discriminate].
  apply sample_dark_named.
Qed.

(** The dark landing page is reported dark, and its background is
    named. *)
Lemma X19_dark_hero_named_witness :
  let fp :=
    Extract.extractFingerprint
      (landing "rgb(10, 10, 20)" "rgb(255, 255, 255)") desktop fresh in
  Fingerprint.dark_theme_hero fp = true
  /\ exists name : string,
       Fingerprint.hero_bg_color_name fp = Some name
       /\ Js.arrayIncludes colorNames name = true.
Proof.
  cbv zeta.
  assert (H : Fingerprint.dark_theme_hero
                (Extract.extractFingerprint
                   (landing "rgb(10, 10, 20)" "rgb(255, 255, 255)")
                   desktop fresh) = true)
    by (vm_compute; reflexivity).
  split; [exact H|].
  exact (X19_dark_hero_named
           (landing "rgb(10, 10, 20)" "rgb(255, 255, 255)") desktop fresh H).
Defined.

(** ** The subheadline *)

Section SubheadlineProps.

Local Open Scope string_scope.
Local Open Scope nat_scope.

Variable d : Dom.Document.
Variable w : Window.
Variable ctas' : list Cta.Candidate.

#[local] Abbreviation like := (subheadlineLike ctas').

Lemma isSubCandidate_like (x : Dom.Loc) :
  Extract.isSubCandidate d w ctas' x = true ->
  like (Text.cleanText (Dom.innerText (Dom.el x))).
Proof.
  unfold Extract.isSubCandidate. cbv zeta.
  destruct (negb (Extract.inHero d w x) || _ || _); [discriminate|].
  set (text := Text.cleanText (Dom.innerText (Dom.el x))).
  destruct (Js.isEmpty text || (String.length text <? 10)) eqn:E1;
    [discriminate|].
  destruct (Text.wordCount text <? 3) eqn:E2; [discriminate|].
  destruct (Extract.isSome (Dom.closest Extract.buttonSelector x));
    [discriminate|].
  destruct (Extract.isLikelyCtaText ctas' text) eqn:E3; [discriminate|].
  intros _. apply orb_false_iff in E1. destruct E1 as [_ E1].
  apply Nat.ltb_ge in E1, E2.
  repeat split; try assumption. apply cleanText_normalised.
Qed.

Lemma subFromSibling_like (next : option Dom.Loc) (e : Dom.Loc) (t : string) :
  Extract.subFromSibling d w ctas' next = Some (e, t) -> like t.
Proof.
  unfold Extract.subFromSibling. destruct next as [s|]; [|discriminate].
  destruct (Extract.isSubCandidate d w ctas' s && _) eqn:E.
  - intros [= _ <-]. apply andb_true_iff in E. destruct E as [E _].
    exact (isSubCandidate_like _ E).
  - destruct (Dom.querySelectorIn Extract.subTextSelector s) as [nested|];
      [|discriminate].
    destruct (Extract.isSubCandidate d w ctas' nested && _) eqn:En;
      [|discriminate].
    intros [= _ <-]. apply andb_true_iff in En. destruct En as [En _].
    exact (isSubCandidate_like _ En).
Qed.

Lemma paragraphsNear_like (hEl' : option Dom.Loc) (hEl ancestor : Dom.Loc)
    (c : Extract.SubCandidate) :
  In c (Extract.paragraphsNear d w hEl' ctas' hEl ancestor) ->
  like (Extract.sc_text c).
Proof.
  unfold Extract.paragraphsNear. rewrite sort_In, filter_In, in_map_iff.
  intros [[p [<- Hp]] _]. rewrite !filter_In in Hp.
  destruct Hp as [[_ Hp] _]. rewrite !andb_true_iff in Hp.
  destruct Hp as [[_ Hp] _]. exact (isSubCandidate_like _ Hp).
Qed.

Lemma siblingSubheadline_like (hEl' : option Dom.Loc) (e : Dom.Loc) (t : string) :
  Extract.siblingSubheadline d w hEl' ctas' = Some (e, t) -> like t.
Proof.
  unfold Extract.siblingSubheadline. destruct hEl' as [hEl|]; [|discriminate].
  destruct (Extract.subFromSibling d w ctas' (Extract.nextInHero d w hEl))
    as [[e1 t1]|] eqn:E1.
  { intros [= _ <-]. exact (subFromSibling_like _ E1). }
  match goal with
  | |- match ?inner with Some _ => _ | None => _ end = _ -> _ =>
      destruct inner as [[e2 t2]|] eqn:E2
  end.
  { intros [= _ <-].
    destruct (Extract.untilBody d _) as [|parent rest]; [discriminate|].
    exact (subFromSibling_like _ E2). }
  cbv zeta. intro H. apply hd_error_In, in_flat_map in H.
  destruct H as (ancestor & _ & H).
  destruct (Extract.paragraphsNear d w (Some hEl) ctas' hEl ancestor)
    as [|c rest] eqn:Ep; [destruct H|].
  destruct H as [[= _ <-]|[]].
  apply (paragraphsNear_like (Some hEl) hEl ancestor). rewrite Ep.
  left. reflexivity.
Qed.

Lemma subheadlineFallback_like (hts : list Dom.Loc) (hEl' : option Dom.Loc)
    (t : string) :
  Extract.subheadlineFallback d w hts hEl' ctas' = Some t -> like t.
Proof.
  unfold Extract.subheadlineFallback. cbv zeta.
  match goal with
  | |- match Arr.sort ?cmp ?pool with _ :: _ => _ | [] => _ end = _ -> _ =>
      pose proof (sort_perm_any cmp pool) as Hp;
      destruct (Arr.sort cmp pool) as [|c rest]; [discriminate|]
  end.
  intros [= <-].
  assert (Hc : In c (c :: rest)) by (left; reflexivity).
  apply (Permutation_in _ (Permutation_sym Hp)) in Hc.
  rewrite !filter_In in Hc.
  destruct Hc as [[[[Hc H1] _] H2] _].
  apply in_map_iff in Hc. destruct Hc as (x & <- & _).
  unfold Extract.toSubCandidate in *. cbn [Extract.sc_text] in *.
  rewrite !andb_true_iff in H1. destruct H1 as [[_ Hl] Hw].
  apply Nat.leb_le in Hl, Hw. apply negb_true_iff in H2.
  repeat split; try assumption; try lia. apply cleanText_normalised.
Qed.

Lemma subheadline_like (hts : list Dom.Loc) (hEl' : option Dom.Loc)
    (t : string) :
  Extract.subheadline d w hts hEl' ctas' = Some t -> like t.
Proof.
  unfold Extract.subheadline.
  destruct (Extract.siblingSubheadline d w hEl' ctas') as [[e text]|] eqn:Es;
    [|apply subheadlineFallback_like].
  pose proof (siblingSubheadline_like _ Es) as Hs.
  destruct (Js.truthy text); [intros [= <-]; exact Hs|].
  destruct (Extract.subheadlineFallback d w hts hEl' ctas') as [t'|] eqn:Ef;
    intros [= <-]; [exact (subheadlineFallback_like _ _ Ef)|exact Hs].
Qed.

Lemma toLowerCase_length (s : string) :
  String.length (Js.toLowerCase s) = String.length s.
Proof. induction s as [|c s IH]; simpl; congruence. Qed.

(** A text that is not taken for a call to action is none of them,
    case and spacing apart. *)
Lemma like_not_cta (t : string) :
  like t -> ~ In (Extract.normalizeText t) (map Extract.normalizeText
                                              (Extract.ctas ctas')).
Proof.
  intros (Hn & Hl & _ & Hc) Hin. unfold Extract.isLikelyCtaText in Hc.
  cbv zeta in Hc.
  destruct (Js.isEmpty (Extract.normalizeText t)) eqn:Ee.
  - unfold Extract.normalizeText in Ee. rewrite (cleanText_fixed _ Hn) in Ee.
    pose proof (toLowerCase_length t) as Hlen.
    destruct (Js.toLowerCase t); [simpl in Hlen; lia|discriminate Ee].
  - destruct (Js.arrayIncludes (Extract.ctaTextSet ctas')
                (Extract.normalizeText t)) eqn:Ei; [discriminate|].
    apply arrayIncludes_In in Hin. unfold Extract.ctaTextSet in Ei. congruence.
Qed.

End SubheadlineProps.

(** X20.  The subheadline of the fingerprint, when it is not null, is
    a text in normal form of at least 10 characters and 3 words that
    is not taken for the text of a call to action, through whichever
    of the four strategies of lines 447-593 it was found; in
    particular it is none of the entries of [ctas], case and spacing
    apart. *)
Theorem X20_subheadline_field (d : Dom.Document) (w : Window)
    (cx : Canvas.Contexts) :
  let fp := Extract.extractFingerprint d w cx in
  match Fingerprint.subheadline fp with
  | Some t =>
      normalised t = true
      /\ (10 <= String.length t)%nat
      /\ (3 <= Text.wordCount t)%nat
      /\ Extract.isLikelyCtaText
           (Extract.s_heroCtaCandidates (Extract.stages d w)) t = false
      /\ ~ In (Extract.normalizeText t)
             (map Extract.normalizeText (Fingerprint.ctas fp))
  | None => True
  end.
Proof.
  cbv zeta.
  change (Fingerprint.subheadline (Extract.extractFingerprint d w cx))
    with (Extract.subheadline d w (Extract.heroTextNodes d w)
            (Extract.s_headlineEl (Extract.stages d w))
            (Extract.s_heroCtaCandidates (Extract.stages d w))).
  destruct (Extract.subheadline d w _ _ _) as [t|] eqn:E; [|exact I].
  pose proof (@subheadline_like d w _ _ _ _ E) as H.
  pose proof (like_not_cta H) as Hn.
  destruct H as (H1 & H2 & H3 & H4). repeat split; assumption.
Qed.


(** ** The hero region *)

Section RegionProps.

Lemma viewportHeight_positive (w : Window) :
  (0 <= innerHeight w)%Z -> 0 < viewportHeight w.
Proof.
  intro H. unfold viewportHeight.
  destruct (Z.eqb_spec (innerHeight w) 0); [reflexivity|].
  change 0 with (inject_Z 0). rewrite <- Zlt_Qlt. lia.
Qed.

Lemma heroBottom_band (d : Dom.Document) (w : Window) :
  0 < viewportHeight w ->
  viewportHeight w <= Extract.heroBottom d w
  /\ Extract.heroBottom d w <= viewportHeight w * (115 # 100).
Proof.
  intro Hvh.
  assert (Hcap : viewportHeight w <= Hero.heroMaxBottom (viewportHeight w))
    by (unfold Hero.heroMaxBottom; lra).
  exact (@heroBottomLoop_bounds _ (viewportHeight w) (Extract.sections d w) Hcap).
Qed.

End RegionProps.

(** X21.  In a window whose [innerHeight] is not negative the viewport
    height the extractor works with is positive (900 stands in for
    0), the hero boundary lies between the viewport height and 1.15
    times the viewport height, and so every element that is in the
    fold ([inFold], the band of the interactive-demo probes) is in the
    hero ([inHero]). *)
Theorem X21_hero_band (d : Dom.Document) (w : Window) :
  (0 <= innerHeight w)%Z ->
  0 < viewportHeight w
  /\ viewportHeight w <= Extract.heroBottom d w
  /\ Extract.heroBottom d w <= viewportHeight w * (115 # 100)
  /\ forall x : Dom.Loc,
       Extract.inFold w x = true -> Extract.inHero d w x = true.
Proof.
  intro Hw. pose proof (viewportHeight_positive w Hw) as Hvh.
  destruct (@heroBottom_band d w Hvh) as [Hlo Hhi].
  repeat split; try assumption.
  intros x. unfold Extract.inFold, Extract.inHero.
  rewrite !andb_true_iff, !Qlt_bool_iff. intros [Hb Ht].
  split; [exact Hb|lra].
Qed.

Lemma X21_hero_band_witness :
  (0 <= innerHeight desktop)%Z
  /\ 0 < viewportHeight desktop
  /\ viewportHeight desktop <= Extract.heroBottom (shop []) desktop
  /\ Extract.heroBottom (shop []) desktop <= viewportHeight desktop * (115 # 100)
  /\ forall x : Dom.Loc,
       Extract.inFold desktop x = true
       -> Extract.inHero (shop []) desktop x = true.
Proof.
  assert (H : (0 <= innerHeight desktop)%Z) by (vm_compute; discriminate).
  split; [exact H|].
  exact (X21_hero_band (shop []) desktop H).
Defined.

(** X22.  The sections the boundary is computed from are the children
    of [body], some of them replaced by their own children: every
    section is a child of [body] or a child of such a child that is
    taller than 1.5 viewports and has more than one child.  There are
    never fewer sections than [body] has children, and with more than
    three children [body] is taken as it is. *)
Theorem X22_hero_sections (d : Dom.Document) (w : Window) :
  let first := Extract.bodyChildren d in
  let sections := Extract.heroSections d w in
  (List.length first <= List.length sections)%nat
  /\ (3 < List.length first -> sections = first)%nat
  /\ Forall (fun x =>
               In x first
               \/ exists wrapper,
                    In wrapper first
                    /\ In x (Dom.childLocs wrapper)
                    /\ viewportHeight w * (15 # 10)
                       < Dom.height (Dom.rect (Dom.el wrapper))
                    /\ (1 < List.length (Dom.children (Dom.el wrapper)))%nat)
            sections.
Proof.
  cbv zeta. unfold Extract.heroSections. cbv zeta.
  destruct (List.length (Extract.bodyChildren d) <=? 3)%nat eqn:E3.
  - match goal with
    | |- context [flat_map ?f ?l] => set (deeper := flat_map f l)
    end.
    destruct (List.length (Extract.bodyChildren d) <? List.length deeper)%nat
      eqn:Ed.
    + apply Nat.ltb_lt in Ed. apply Nat.leb_le in E3.
      split; [lia|]. split; [lia|].
      apply Forall_forall. intros x Hx. unfold deeper in Hx.
      apply in_flat_map in Hx. destruct Hx as (wrapper & Hw & Hx).
      destruct (Qgt_bool _ _ && _) eqn:Eg.
      * right. exists wrapper. apply andb_true_iff in Eg.
        destruct Eg as [Eh Ec]. apply Qlt_bool_iff in Eh.
        apply Nat.ltb_lt in Ec. auto.
      * left. destruct Hx as [<-|[]]. exact Hw.
    + split; [lia|]. split; [reflexivity|].
      apply Forall_forall. auto.
  - split; [lia|]. split; [reflexivity|]. apply Forall_forall. auto.
Qed.

(** ** Fields that go together *)

(** X23.  Fields of the fingerprint that are derived from others agree
    with them: [hero_image_count] is the length of [hero_images],
    which has at most 10 entries; [hero_media_type] is null or
    "product-ui", and [has_dashboard_preview] is true exactly when it
    is "product-ui" and the dashboard keywords are there;
    [is_copy_only] needs a headline of at least three words, no call
    to action and no product media; [left_copy_right_media] needs the
    split layout, and the layout is "split" or "single-column";
    [error_page_reason] is null exactly when [is_error_page] is
    false. *)
Theorem X23_derived_fields (d : Dom.Document) (w : Window)
    (cx : Canvas.Contexts) :
  let fp := Extract.extractFingerprint d w cx in
  Fingerprint.hero_image_count fp = List.length (Fingerprint.hero_images fp)
  /\ (Fingerprint.hero_image_count fp <= 10)%nat
  /\ (Fingerprint.hero_media_type fp = None
      \/ Fingerprint.hero_media_type fp = Some "product-ui"%string)
  /\ Fingerprint.has_dashboard_preview fp
     = Extract.isSome (Fingerprint.hero_media_type fp)
       && Fingerprint.has_dashboard_keywords fp
  /\ (Fingerprint.is_copy_only fp = true ->
      (3 <= Fingerprint.headline_word_count fp)%nat
      /\ Fingerprint.ctas fp = []
      /\ Fingerprint.hero_media_type fp = None)
  /\ (Fingerprint.left_copy_right_media fp = true ->
      Fingerprint.layout fp = "split"%string)
  /\ (Fingerprint.layout fp = "split"%string
      \/ Fingerprint.layout fp = "single-column"%string)
  /\ (Fingerprint.error_page_reason fp = None
      <-> Fingerprint.is_error_page fp = false).
Proof.
  cbv zeta. split; [reflexivity|]. split.
  { change (Fingerprint.hero_image_count (Extract.extractFingerprint d w cx))
      with (List.length (Extract.heroImages d w)).
    unfold Extract.heroImages. rewrite length_map, length_firstn. lia. }
  assert (Hm : Fingerprint.hero_media_type (Extract.extractFingerprint d w cx)
               = None
               \/ Fingerprint.hero_media_type (Extract.extractFingerprint d w cx)
                  = Some "product-ui"%string).
  { change (Fingerprint.hero_media_type (Extract.extractFingerprint d w cx))
      with (Extract.heroMediaType d w
              (Extract.s_headline (Extract.stages d w))
              (Extract.s_subheadline (Extract.stages d w))).
    unfold Extract.heroMediaType.
    destruct (Extract.largestMedia d w); [|left; reflexivity].
    cbv zeta. destruct (_ && _); [right|left]; reflexivity. }
  split; [exact Hm|]. split.
  { change (Fingerprint.has_dashboard_preview (Extract.extractFingerprint d w cx))
      with (match Fingerprint.hero_media_type (Extract.extractFingerprint d w cx) with
            | Some t => String.eqb t "product-ui"
                        && Fingerprint.has_dashboard_keywords
                             (Extract.extractFingerprint d w cx)
            | None => false
            end).
    destruct Hm as [-> | ->]; reflexivity. }
  split.
  { change (Fingerprint.is_copy_only (Extract.extractFingerprint d w cx))
      with (Extract.isTruthy (Fingerprint.headline (Extract.extractFingerprint d w cx))
            && (3 <=? Fingerprint.headline_word_count
                        (Extract.extractFingerprint d w cx))%nat
            && (List.length (Fingerprint.ctas (Extract.extractFingerprint d w cx))
                =? 0)%nat
            && negb (Extract.isTruthy
                       (Fingerprint.hero_media_type
                          (Extract.extractFingerprint d w cx)))).
    rewrite !andb_true_iff, Nat.leb_le, Nat.eqb_eq, negb_true_iff.
    intros [[[_ H3] H0] Hn]. split; [exact H3|]. split.
    - destruct (Fingerprint.ctas _); [reflexivity|discriminate].
    - destruct Hm as [Hm|Hm]; [exact Hm|]. rewrite Hm in Hn. discriminate. }
  split.
  { change (Fingerprint.left_copy_right_media (Extract.extractFingerprint d w cx))
      with (String.eqb (Fingerprint.layout (Extract.extractFingerprint d w cx))
                       "split"
            && match Extract.largestMedia d w with
               | Some m => Qgt_bool (Dom.left (Extract.m_rect m))
                                    (viewportWidth w * (5 # 10))
               | None => false
               end).
    rewrite andb_true_iff. intros [H _]. apply String.eqb_eq. exact H. }
  split.
  { change (Fingerprint.layout (Extract.extractFingerprint d w cx))
      with (Extract.layout d w).
    unfold Extract.layout.
    destruct (match Dom.body d with Some b => _ | None => None end);
      [|right; reflexivity].
    cbv zeta.
    destruct (filter _ _); [right; reflexivity|].
    destruct (filter _ _); [right|left]; reflexivity. }
  change (Fingerprint.error_page_reason (Extract.extractFingerprint d w cx))
    with (if Fingerprint.is_error_page (Extract.extractFingerprint d w cx)
          then Some (if Regex.test Extract.botBlockRegex
                          (Extract.bodyText d ++ Extract.pageTitle d)
                     then "bot_blocked"%string
                     else if Regex.test Extract.notFoundRegex
                               (Extract.bodyText d ++ Extract.pageTitle d)
                     then "not_found"%string
                     else if Regex.test Extract.serverErrorRegex
                               (Extract.bodyText d ++ Extract.pageTitle d)
                     then "server_error"%string
                     else "unknown_error"%string)
          else None).
  destruct (Fingerprint.is_error_page _); split; congruence.
Qed.

(** ** What a run changes *)

Section Effects.

Variable w : Window.

(** One probe leaves the contexts as they are, or says yes and gives a
    WebGL context to the canvas it asked, which had none. *)
Lemma probe_effect (x : Dom.Loc) (cx : Canvas.Contexts) :
  (forall q, snd (Canvas.hasWebGLContext w x cx) q = cx q)
  \/ (fst (Canvas.hasWebGLContext w x cx) = true
      /\ cx (Dom.path x) = Canvas.NoContext
      /\ exists m,
           (m = Canvas.ContextWebgl2 \/ m = Canvas.ContextWebgl)
           /\ forall q, snd (Canvas.hasWebGLContext w x cx) q
                        = Canvas.update cx (Dom.path x) m q).
Proof.
  unfold Canvas.hasWebGLContext, Canvas.getContext, Canvas.requested.
  cbn [String.eqb Ascii.eqb Bool.eqb orb].
  destruct (cx (Dom.path x)) eqn:Em;
    destruct (webgl2Available w);
    destruct (webglAvailable w);
    repeat (progress (rewrite ?Em, ?update_same;
                      cbv beta iota zeta; cbn [Canvas.sameMode fst snd]));
    try (left; reflexivity);
    right; (split; [reflexivity|]); (split; [reflexivity|]);
    eexists; (split; [|reflexivity]); auto.
Qed.

Lemma some_effect (l : list Dom.Loc) (cx : Canvas.Contexts) :
  let probe := Canvas.some (Canvas.hasWebGLContext w) l cx in
  (forall q, snd probe q = cx q)
  \/ (fst probe = true
      /\ exists x m,
           In x l
           /\ cx (Dom.path x) = Canvas.NoContext
           /\ (m = Canvas.ContextWebgl2 \/ m = Canvas.ContextWebgl)
           /\ forall q, snd probe q = Canvas.update cx (Dom.path x) m q).
Proof.
  cbv zeta. revert cx. induction l as [|x l IH]; intro cx; [left; reflexivity|].
  cbn [Canvas.some].
  pose proof (probe_effect x cx) as Hx.
  destruct (Canvas.hasWebGLContext w x cx) as [found cx1] eqn:E.
  cbn [fst snd] in Hx. destruct found.
  - cbn [fst snd]. destruct Hx as [Hx | (_ & H0 & m & Hm & Hq)];
      [left; exact Hx|].
    right. split; [reflexivity|]. exists x, m.
    split; [left; reflexivity|]. auto.
  - apply probe_false_unchanged in E. subst cx1.
    destruct (IH cx) as [H | (Hf & y & m & Hy & H0 & Hm & Hq)];
      [left; exact H|].
    right. split; [exact Hf|]. exists y, m.
    split; [right; exact Hy|]. auto.
Qed.

Lemma some_false_unchanged (l : list Dom.Loc) (cx : Canvas.Contexts) :
  fst (Canvas.some (Canvas.hasWebGLContext w) l cx) = false ->
  snd (Canvas.some (Canvas.hasWebGLContext w) l cx) = cx.
Proof.
  revert cx. induction l as [|x l IH]; intro cx; [reflexivity|].
  cbn [Canvas.some].
  destruct (Canvas.hasWebGLContext w x cx) as [found cx1] eqn:E.
  destruct found; [discriminate|].
  apply probe_false_unchanged in E. subst cx1. apply IH.
Qed.

End Effects.

(** X24.  A run of the extractor changes nothing on the page but,
    at most, the drawing context of one canvas: a visible canvas of
    the hero that had no context and now has a WebGL 2 or WebGL
    context, in which case [has_webgl] is true.  When [has_webgl] is
    false the contexts are as they were. *)
Theorem X24_run_effect (d : Dom.Document) (w : Window)
    (cx : Canvas.Contexts) :
  let fp := fst (Extract.run d w cx) in
  let after := snd (Extract.run d w cx) in
  (Fingerprint.has_webgl fp = false -> after = cx)
  /\ ((forall q, after q = cx q)
      \/ (Fingerprint.has_webgl fp = true
          /\ exists x m,
               In x (Dom.querySelectorAll d Extract.canvasSelector)
               /\ Extract.inHero d w x = true
               /\ Extract.isVisible x = true
               /\ cx (Dom.path x) = Canvas.NoContext
               /\ (m = Canvas.ContextWebgl2 \/ m = Canvas.ContextWebgl)
               /\ forall q, after q = Canvas.update cx (Dom.path x) m q)).
Proof.
  cbv zeta. unfold Extract.run. cbn [fst snd].
  change (Fingerprint.has_webgl (Extract.extractFingerprint d w cx))
    with (fst (Canvas.some (Canvas.hasWebGLContext w)
                 (Extract.heroCanvasElements d w) cx)).
  change (Extract.contextsAfter d w cx)
    with (snd (Canvas.some (Canvas.hasWebGLContext w)
                 (Extract.heroCanvasElements d w) cx)).
  split; [apply some_false_unchanged|].
  destruct (some_effect w (Extract.heroCanvasElements d w) cx)
    as [H | (Hf & x & m & Hx & H0 & Hm & Hq)]; [left; exact H|].
  right. split; [exact Hf|]. exists x, m.
  unfold Extract.heroCanvasElements in Hx. apply filter_In in Hx.
  destruct Hx as [Hx Hv]. apply andb_true_iff in Hv.
  repeat split; try tauto; assumption.
Qed.

(** ** Texts taken for calls to action *)

Section CtaTexts.

Local Open Scope string_scope.

Lemma toLowerCase_empty (s : string) :
  Js.isEmpty (Js.toLowerCase s) = Js.isEmpty s.
Proof. destruct s; reflexivity. Qed.

Lemma includes_refl (s : string) : Js.includes s s = true.
Proof.
  destruct s as [|c s]; [reflexivity|].
  cbn [Js.includes]. apply orb_true_iff. left.
  assert (H : forall t, String.prefix t t = true).
  { induction t as [|a t IH]; [reflexivity|].
    cbn. destruct (Ascii.ascii_dec a a); [exact IH|congruence]. }
  apply H.
Qed.

Lemma cta_is_likely (ctas' : list Cta.Candidate) (c : Cta.Candidate) :
  In c ctas' ->
  Js.truthy (Cta.text c) = true -> normalised (Cta.text c) = true ->
  Extract.isLikelyCtaText ctas' (Cta.text c) = true.
Proof.
  intros Hin Ht Hn. unfold Extract.isLikelyCtaText. cbv zeta.
  assert (He : Js.isEmpty (Extract.normalizeText (Cta.text c)) = false).
  { unfold Extract.normalizeText. rewrite (cleanText_fixed _ Hn).
    rewrite toLowerCase_empty. unfold Js.truthy in Ht.
    apply negb_true_iff in Ht. exact Ht. }
  rewrite He.
  assert (Hi : Js.arrayIncludes (Extract.ctaTextSet ctas')
                 (Extract.normalizeText (Cta.text c)) = true).
  { apply arrayIncludes_In. unfold Extract.ctaTextSet, Extract.ctas, Cta.ctas.
    rewrite map_map. apply in_map_iff. exists c. auto. }
  rewrite Hi. reflexivity.
Qed.

End CtaTexts.

(** X25.  Every entry of [ctas] is itself taken for the text of a call
    to action by [isLikelyCtaText], so the text of a call to action is
    never accepted as a subheadline; and a subheadline does not
    contain the text of any entry of [ctas], case and spacing apart. *)
Theorem X25_cta_texts (d : Dom.Document) (w : Window) (cx : Canvas.Contexts) :
  let fp := Extract.extractFingerprint d w cx in
  let ranked := Extract.s_heroCtaCandidates (Extract.stages d w) in
  Forall (fun t => Extract.isLikelyCtaText ranked t = true)
         (Fingerprint.ctas fp)
  /\ match Fingerprint.subheadline fp with
     | Some s =>
         Forall (fun t => Js.includes (Extract.normalizeText t)
                                      (Extract.normalizeText s) = false)
                (Fingerprint.ctas fp)
     | None => True
     end.
Proof.
  cbv zeta.
  change (Fingerprint.ctas (Extract.extractFingerprint d w cx))
    with (map Cta.text (Extract.s_heroCtaCandidates (Extract.stages d w))).
  change (Fingerprint.subheadline (Extract.extractFingerprint d w cx))
    with (Extract.subheadline d w (Extract.heroTextNodes d w)
            (Extract.s_headlineEl (Extract.stages d w))
            (Extract.s_heroCtaCandidates (Extract.stages d w))).
  assert (Hall : forall c,
             In c (Extract.s_heroCtaCandidates (Extract.stages d w)) ->
             Js.truthy (Cta.text c) = true /\ normalised (Cta.text c) = true).
  { intros c Hc. apply heroCtaCandidates_In in Hc. destruct Hc as [Hc _].
    exact (ctaCandidates_In _ _ _ Hc). }
  set (ranked := Extract.s_heroCtaCandidates (Extract.stages d w)) in *.
  split.
  - apply Forall_map, Forall_forall. intros c Hc.
    destruct (Hall c Hc) as [Ht Hn]. apply cta_is_likely; assumption.
  - destruct (Extract.subheadline d w _ _ ranked) as [s|] eqn:E; [|exact I].
    pose proof (@subheadline_like d w ranked _ _ _ E) as (Hn & Hl & _ & Hc).
    apply Forall_map, Forall_forall. intros c Hin.
    destruct (Hall c Hin) as [Ht Hnc].
    unfold Extract.isLikelyCtaText in Hc. cbv zeta in Hc.
    destruct (Js.isEmpty (Extract.normalizeText s)) eqn:Ee.
    { unfold Extract.normalizeText in Ee. rewrite (cleanText_fixed _ Hn) in Ee.
      rewrite toLowerCase_empty in Ee. destruct s; [simpl in Hl; lia|discriminate]. }
    destruct (Js.arrayIncludes (Extract.ctaTextSet ranked) _); [discriminate|].
    destruct (existsb _ (Extract.ctaTextSet ranked)) eqn:Ex; [discriminate|].
    destruct (Js.includes (Extract.normalizeText (Cta.text c))
                (Extract.normalizeText s)) eqn:Ei; [|reflexivity].
    exfalso. rewrite <- not_true_iff_false in Ex. apply Ex.
    apply existsb_exists. exists (Extract.normalizeText (Cta.text c)).
    split.
    + unfold Extract.ctaTextSet, Extract.ctas, Cta.ctas. rewrite map_map.
      apply in_map_iff. exists c. auto.
    + rewrite Ei, andb_true_r. unfold Extract.normalizeText.
      rewrite (cleanText_fixed _ Hnc). unfold Js.truthy in *.
      rewrite toLowerCase_empty. exact Ht.
Qed.

(** ** Reading a computed colour *)

Section ReadColour.

Local Open Scope string_scope.

Lemma digits_all (s : string) (acc : Z) (n : nat) :
  allDigits s = true ->
  Num.digits s acc n = (valueFrom acc s, (n + String.length s)%nat, "").
Proof.
  revert acc n. induction s as [|c s IH]; intros acc n H.
  - cbn. rewrite Nat.add_0_r. reflexivity.
  - cbn in H. apply andb_true_iff in H. destruct H as [Hc Hs].
    cbn [Num.digits valueFrom String.length]. rewrite Hc, (IH _ _ Hs).
    f_equal. f_equal. lia.
Qed.

Lemma digit_not_ws (c : ascii) :
  Js.isDigit c = true -> Js.isWhiteSpace c = false.
Proof.
  unfold Js.isDigit, Js.isWhiteSpace, Js.between.
  rewrite andb_true_iff, !Nat.leb_le. intros [H1 H2].
  rewrite !orb_false_iff, andb_false_iff, !Nat.leb_gt, !Nat.eqb_neq. lia.
Qed.

Lemma digit_code (c : ascii) :
  Js.isDigit c = true -> (48 <= Js.code c <= 57)%nat.
Proof.
  unfold Js.isDigit, Js.between. rewrite andb_true_iff, !Nat.leb_le. tauto.
Qed.

Lemma allDigits_no_trailing_ws (s : string) :
  allDigits s = true -> Js.endsWithWs s = false.
Proof.
  induction s as [|c s IH]; [reflexivity|].
  cbn [allDigits]. intro H. apply andb_true_iff in H. destruct H as [Hc Hs].
  cbn [Js.endsWithWs]. destruct s; [apply digit_not_ws; exact Hc|exact (IH Hs)].
Qed.

Lemma signedDecimal_digits (s : string) :
  digitString s = true ->
  Num.signedDecimal s = Some (1 * inject_Z (decimalValue s), "").
Proof.
  unfold digitString. intro H. apply andb_true_iff in H. destruct H as [Hn Hd].
  destruct s as [|c s]; [discriminate Hn|].
  unfold Num.signedDecimal.
  assert (Hs : (match String c s with
                | String "+"%char s' => (1, s')
                | String "-"%char s' => (-1, s')
                | _ => (1, String c s)
                end) = (1, String c s)).
  { cbn in Hd. apply andb_true_iff in Hd. destruct Hd as [Hc _].
    apply digit_code in Hc.
    destruct c as [[] [] [] [] [] [] [] []]; try reflexivity;
      vm_compute in Hc; lia. }
  rewrite Hs. unfold Num.decimal.
  rewrite (digits_all _ 0 0 Hd). cbn [Nat.add String.length Nat.eqb].
  reflexivity.
Qed.

Lemma Qmult_1_inject (z : Z) : 1 * inject_Z z = inject_Z z.
Proof.
  unfold Qmult, inject_Z. cbn [Qnum Qden]. rewrite Z.mul_1_l. reflexivity.
Qed.

(** A run of digits is read as the number it writes. *)
Lemma ofString_digits (s : string) :
  digitString s = true -> Num.ofString s = Some (inject_Z (decimalValue s)).
Proof.
  intro H. pose proof H as H0. unfold digitString in H0.
  apply andb_true_iff in H0. destruct H0 as [Hn Hd].
  unfold Num.ofString. cbv zeta.
  assert (Ht : Js.trim s = s).
  { apply trim_id; [|apply allDigits_no_trailing_ws; exact Hd].
    destruct s as [|c s]; [reflexivity|]. cbn in Hd |- *.
    apply andb_true_iff in Hd. apply digit_not_ws. tauto. }
  rewrite Ht. unfold Js.truthy in Hn. apply negb_true_iff in Hn. rewrite Hn.
  rewrite (signedDecimal_digits _ H), Qmult_1_inject. reflexivity.
Qed.

(** *** A greedy star over a run of characters of its class *)

(** The star takes the whole run when what follows the run is not of
    the class and lets the rest of the expression match. *)
Lemma star_run (items : list Regex.citem) (run rest : string)
    (k : Regex.mstate -> option Regex.mstate) (fuel : nat)
    (prev : option ascii) (caps : list (nat * string))
    (res : Regex.mstate) :
  allChars (Regex.set_mem true false items) run = true ->
  match rest with
  | EmptyString => true
  | String c _ => negb (Regex.set_mem true false items c)
  end = true ->
  (String.length run <= fuel)%nat ->
  k {| Regex.m_prev := lastOf prev run; Regex.m_rest := rest;
       Regex.m_caps := caps |} = Some res ->
  Regex.star_loop (Regex.rmatch true (Regex.RSet false items)) k fuel
    {| Regex.m_prev := prev; Regex.m_rest := run ++ rest;
       Regex.m_caps := caps |} = Some res.
Proof.
  revert fuel prev. induction run as [|c run IH]; intros fuel prev Hrun Hrest Hf Hk.
  - cbn [append lastOf] in *. destruct fuel as [|fuel]; [exact Hk|].
    cbn [Regex.star_loop Regex.rmatch Regex.m_rest].
    destruct rest as [|c rest]; [exact Hk|].
    apply negb_true_iff in Hrest. rewrite Hrest. exact Hk.
  - cbn [allChars] in Hrun. apply andb_true_iff in Hrun.
    destruct Hrun as [Hc Hrun].
    destruct fuel as [|fuel]; [cbn in Hf; lia|].
    change (String c run ++ rest) with (String c (run ++ rest)).
    cbn [Regex.star_loop Regex.rmatch Regex.m_rest]. rewrite Hc.
    unfold Regex.advance. cbn [Regex.m_rest Regex.m_caps String.length].
    rewrite (proj2 (Nat.ltb_lt _ _) (Nat.lt_succ_diag_r _)).
    cbv iota.
    assert (E : Regex.star_loop (Regex.rmatch true (Regex.RSet false items)) k
                  fuel {| Regex.m_prev := Some c; Regex.m_rest := run ++ rest;
                          Regex.m_caps := caps |} = Some res).
    { apply IH; [exact Hrun|exact Hrest| |exact Hk]. cbn in Hf. lia. }
    cbn [Regex.star_loop Regex.rmatch Regex.m_rest] in E.
    unfold Regex.advance in E. rewrite E. reflexivity.
Qed.

(** *** Matching, step by step *)

Lemma length_append (s t : string) :
  String.length (s ++ t) = (String.length s + String.length t)%nat.
Proof. induction s as [|c s IH]; cbn; [reflexivity|]. rewrite IH. reflexivity. Qed.

Lemma take_append (s t : string) : Js.take (String.length s) (s ++ t) = s.
Proof. induction s as [|c s IH]; cbn; [destruct t; reflexivity|]. rewrite IH. reflexivity. Qed.

Lemma consumed_run (run rest : string) (p p' : option ascii)
    (caps caps' : list (nat * string)) :
  Regex.consumed
    {| Regex.m_prev := p; Regex.m_rest := run ++ rest; Regex.m_caps := caps |}
    {| Regex.m_prev := p'; Regex.m_rest := rest; Regex.m_caps := caps' |}
  = run.
Proof.
  unfold Regex.consumed. cbn [Regex.m_rest]. rewrite length_append.
  replace (String.length run + String.length rest - String.length rest)%nat
    with (String.length run) by lia.
  apply take_append.
Qed.

#[local] Abbreviation matches r k st res :=
  (Regex.rmatch true r k st = Some res).

Lemma m_seq (r1 r2 : Regex.regex) k st res :
  matches r1 (Regex.rmatch true r2 k) st res -> matches (Regex.RSeq r1 r2) k st res.
Proof. exact (fun H => H). Qed.

Lemma m_lit (x : ascii) (rest : string) k prev caps res :
  Regex.set_mem true false [Regex.CChar x] x = true ->
  k {| Regex.m_prev := Some x; Regex.m_rest := rest; Regex.m_caps := caps |}
  = Some res ->
  matches (Regex.RSet false [Regex.CChar x]) k
    {| Regex.m_prev := prev; Regex.m_rest := String x rest;
       Regex.m_caps := caps |} res.
Proof. intros Hx Hk. cbn [Regex.rmatch Regex.m_rest]. rewrite Hx. exact Hk. Qed.

Lemma m_alt_second (r1 r2 : Regex.regex) k st res :
  Regex.rmatch true r1 k st = None -> matches r2 k st res ->
  matches (Regex.RAlt r1 r2) k st res.
Proof. intros H1 H2. cbn [Regex.rmatch]. rewrite H1. exact H2. Qed.

Lemma m_alt_first (r1 r2 : Regex.regex) k st res :
  matches r1 k st res -> matches (Regex.RAlt r1 r2) k st res.
Proof. intros H1. cbn [Regex.rmatch]. rewrite H1. reflexivity. Qed.

Lemma m_empty k st res : k st = Some res -> matches Regex.REmpty k st res.
Proof. exact (fun H => H). Qed.

Lemma m_star (items : list Regex.citem) (run rest : string) k prev caps res :
  allChars (Regex.set_mem true false items) run = true ->
  match rest with
  | EmptyString => true
  | String c _ => negb (Regex.set_mem true false items c)
  end = true ->
  k {| Regex.m_prev := lastOf prev run; Regex.m_rest := rest;
       Regex.m_caps := caps |} = Some res ->
  matches (Regex.RStar (Regex.RSet false items)) k
    {| Regex.m_prev := prev; Regex.m_rest := run ++ rest;
       Regex.m_caps := caps |} res.
Proof.
  intros Hrun Hrest Hk. cbn [Regex.rmatch Regex.m_rest].
  apply star_run; try assumption. rewrite length_append. lia.
Qed.

(** A group [(C+)] over a run of characters of the class [C] that is
    not empty: the group captures the run. *)
Lemma m_group_run (n : nat) (items : list Regex.citem) (run rest : string)
    k prev caps res :
  Js.truthy run = true ->
  allChars (Regex.set_mem true false items) run = true ->
  match rest with
  | EmptyString => true
  | String c _ => negb (Regex.set_mem true false items c)
  end = true ->
  k {| Regex.m_prev := lastOf prev run; Regex.m_rest := rest;
       Regex.m_caps := (n, run) :: caps |} = Some res ->
  matches (Regex.RGroup n (Regex.RSeq (Regex.RSet false items)
                                      (Regex.RStar (Regex.RSet false items))))
    k {| Regex.m_prev := prev; Regex.m_rest := run ++ rest;
         Regex.m_caps := caps |} res.
Proof.
  intros Hn Hrun Hrest Hk. destruct run as [|c run]; [discriminate Hn|].
  cbn [allChars] in Hrun. apply andb_true_iff in Hrun. destruct Hrun as [Hc Hrun].
  change (String c run ++ rest) with (String c (run ++ rest)).
  change (Regex.rmatch true
            (Regex.RGroup n (Regex.RSeq (Regex.RSet false items)
                                        (Regex.RStar (Regex.RSet false items))))
            k {| Regex.m_prev := prev; Regex.m_rest := String c (run ++ rest);
                 Regex.m_caps := caps |})
    with (if Regex.set_mem true false items c
          then Regex.rmatch true (Regex.RStar (Regex.RSet false items))
                 (fun st1 =>
                    k (Regex.set_cap n
                         {| Regex.m_prev := prev;
                            Regex.m_rest := String c (run ++ rest);
                            Regex.m_caps := caps |} st1))
                 {| Regex.m_prev := Some c; Regex.m_rest := run ++ rest;
                    Regex.m_caps := caps |}
          else None).
  rewrite Hc. apply m_star; [exact Hrun|exact Hrest|].
  unfold Regex.set_cap. cbn [Regex.m_prev Regex.m_rest Regex.m_caps].
  change (String c (run ++ rest)) with (String c run ++ rest).
  rewrite consumed_run. exact Hk.
Qed.

Lemma isDigit_set (c : ascii) :
  Regex.set_mem true false [Regex.CDigit false] c = Js.isDigit c.
Proof.
  unfold Regex.set_mem, Regex.citem_mem_i, Regex.citem_mem. cbn.
  destruct (Js.isDigit c); reflexivity.
Qed.

Lemma isSpace_set (c : ascii) :
  Regex.set_mem true false [Regex.CSpace false] c = Js.isWhiteSpace c.
Proof.
  unfold Regex.set_mem, Regex.citem_mem_i, Regex.citem_mem. cbn.
  destruct (Js.isWhiteSpace c); reflexivity.
Qed.

Lemma allChars_ext (p q : ascii -> bool) (s : string) :
  (forall c, p c = q c) -> allChars p s = allChars q s.
Proof.
  intro H. induction s as [|c s IH]; [reflexivity|]. cbn. rewrite H, IH.
  reflexivity.
Qed.

Lemma digits_set (s : string) :
  allDigits s = true ->
  allChars (Regex.set_mem true false [Regex.CDigit false]) s = true.
Proof.
  intro H. rewrite (allChars_ext _ Js.isDigit); [exact H|apply isDigit_set].
Qed.

Lemma digitString_parts (s : string) :
  digitString s = true ->
  exists c s', s = String c s' /\ Js.isDigit c = true
               /\ Js.truthy s = true /\ allDigits s = true.
Proof.
  unfold digitString. intro H. apply andb_true_iff in H. destruct H as [Hn Hd].
  destruct s as [|c s']; [discriminate Hn|].
  exists c, s'. repeat split; try assumption.
  cbn in Hd. apply andb_true_iff in Hd. tauto.
Qed.

Lemma digitString_truthy (s : string) :
  digitString s = true -> Js.truthy s = true.
Proof. unfold digitString. intro H. apply andb_true_iff in H. tauto. Qed.

Lemma digitString_all (s : string) :
  digitString s = true -> allDigits s = true.
Proof. unfold digitString. intro H. apply andb_true_iff in H. tauto. Qed.

Ltac lit := apply m_lit; [reflexivity|].
Ltac skip_alt := apply m_alt_second; [reflexivity|apply m_empty].
Ltac digits_group H :=
  apply m_group_run;
  [apply (digitString_truthy _ H)
  |apply digits_set; apply (digitString_all _ H)
  |reflexivity|].
(** [\s*] over one space that a digit follows *)
Ltac one_space Hc :=
  match goal with
  | |- Regex.rmatch true (Regex.RStar _) _
         {| Regex.m_prev := _; Regex.m_rest := String " " ?x;
            Regex.m_caps := _ |} = _ =>
      apply (m_star [Regex.CSpace false] " " x);
      [reflexivity
      |cbn [append]; rewrite isSpace_set, (digit_not_ws _ Hc); reflexivity|]
  end.
(** [\s*] where no space is *)
Ltac no_space :=
  match goal with
  | |- Regex.rmatch true (Regex.RStar _) _
         {| Regex.m_prev := _; Regex.m_rest := ?x; Regex.m_caps := _ |} = _ =>
      apply (m_star [Regex.CSpace false] "" x); [reflexivity|reflexivity|]
  end.

(** The pattern of [parseRgba] on [rgb(r, g, b)]. *)
Lemma rgbaRegex_rgb (red green blue : string) :
  digitString red = true -> digitString green = true ->
  digitString blue = true ->
  exists res,
    Regex.rmatch true (Regex.re_pattern Theme.rgbaRegex) Some
      {| Regex.m_prev := None; Regex.m_rest := rgbText red green blue;
         Regex.m_caps := [] |} = Some res
    /\ Regex.m_caps res = [(3%nat, blue); (2%nat, green); (1%nat, red)].
Proof.
  intros Hr Hg Hb.
  destruct (digitString_parts _ Hg) as (cg & g' & Eg & Hcg & _).
  destruct (digitString_parts _ Hb) as (cb & b' & Eb & Hcb & _).
  subst green blue.
  eexists. split.
  - unfold rgbText. cbn [append]. unfold Theme.rgbaRegex.
    cbn [Regex.re_pattern].
    apply m_seq. lit. apply m_seq. lit. apply m_seq. lit.
    apply m_seq. skip_alt. apply m_seq. lit.
    apply m_seq. digits_group Hr.
    apply m_seq. lit. apply m_seq. one_space Hcg.
    apply m_seq.
    change (String cg (g' ++ ?x)) with (String cg g' ++ x).
    digits_group Hg.
    apply m_seq. lit. apply m_seq. one_space Hcb.
    apply m_seq.
    change (String cb (b' ++ ?x)) with (String cb b' ++ x).
    digits_group Hb.
    apply m_seq. skip_alt. apply m_seq. no_space. lit.
    reflexivity.
  - reflexivity.
Qed.

Lemma alpha_set (c : ascii) :
  Js.isDigit c || Ascii.eqb c "." = true ->
  Regex.set_mem true false [Regex.CDigit false; Regex.CChar "."] c = true.
Proof.
  intro H. unfold Regex.set_mem, Regex.citem_mem_i, Regex.citem_mem.
  cbn [existsb xorb]. apply orb_true_iff in H. destruct H as [H|H].
  - rewrite H. reflexivity.
  - apply Ascii.eqb_eq in H. subst c. reflexivity.
Qed.

Lemma alphaString_set (s : string) :
  allChars (fun c => Js.isDigit c || Ascii.eqb c ".") s = true ->
  allChars (Regex.set_mem true false [Regex.CDigit false; Regex.CChar "."]) s
  = true.
Proof.
  induction s as [|c s IH]; [reflexivity|]. cbn [allChars]. intro H.
  apply andb_true_iff in H. destruct H as [Hc Hs].
  rewrite (alpha_set _ Hc), (IH Hs). reflexivity.
Qed.

Lemma alpha_not_ws (c : ascii) :
  Js.isDigit c || Ascii.eqb c "." = true -> Js.isWhiteSpace c = false.
Proof.
  intro H. apply orb_true_iff in H. destruct H as [H|H].
  - apply digit_not_ws. exact H.
  - apply Ascii.eqb_eq in H. subst c. reflexivity.
Qed.

(** The pattern of [parseRgba] on [rgba(r, g, b, a)]. *)
Lemma rgbaRegex_rgba (red green blue alpha : string) :
  digitString red = true -> digitString green = true ->
  digitString blue = true -> alphaString alpha = true ->
  exists res,
    Regex.rmatch true (Regex.re_pattern Theme.rgbaRegex) Some
      {| Regex.m_prev := None; Regex.m_rest := rgbaText red green blue alpha;
         Regex.m_caps := [] |} = Some res
    /\ Regex.m_caps res
       = [(4%nat, alpha); (3%nat, blue); (2%nat, green); (1%nat, red)].
Proof.
  intros Hr Hg Hb Ha.
  destruct (digitString_parts _ Hg) as (cg & g' & Eg & Hcg & _).
  destruct (digitString_parts _ Hb) as (cb & b' & Eb & Hcb & _).
  unfold alphaString in Ha. apply andb_true_iff in Ha. destruct Ha as [Hta Ha].
  destruct alpha as [|ca a']; [discriminate Hta|].
  pose proof Ha as Ha'. cbn [allChars] in Ha'. apply andb_true_iff in Ha'.
  destruct Ha' as [Hca _].
  subst green blue.
  eexists. split.
  - unfold rgbaText. cbn [append]. unfold Theme.rgbaRegex.
    cbn [Regex.re_pattern].
    apply m_seq. lit. apply m_seq. lit. apply m_seq. lit.
    apply m_seq. apply m_alt_first. lit. apply m_seq. lit.
    apply m_seq. digits_group Hr.
    apply m_seq. lit. apply m_seq. one_space Hcg.
    apply m_seq.
    change (String cg (g' ++ ?x)) with (String cg g' ++ x).
    digits_group Hg.
    apply m_seq. lit. apply m_seq. one_space Hcb.
    apply m_seq.
    change (String cb (b' ++ ?x)) with (String cb b' ++ x).
    digits_group Hb.
    apply m_seq. apply m_alt_first. apply m_seq. lit. apply m_seq.
    match goal with
    | |- Regex.rmatch true (Regex.RStar _) _
           {| Regex.m_prev := _; Regex.m_rest := String " " ?x;
              Regex.m_caps := _ |} = _ =>
        apply (m_star [Regex.CSpace false] " " x);
        [reflexivity
        |cbn [append]; rewrite isSpace_set, (alpha_not_ws _ Hca); reflexivity|]
    end.
    change (String ca (a' ++ ?x)) with (String ca a' ++ x).
    apply m_group_run;
      [reflexivity|apply alphaString_set; exact Ha|reflexivity|].
    apply m_seq. no_space. lit. reflexivity.
  - reflexivity.
Qed.

(** The pattern of the text colour (line 1638) on [rgb(r, g, b)]. *)
Lemma textChannelRegex_rgb (red green blue : string) :
  digitString red = true -> digitString green = true ->
  digitString blue = true ->
  exists res,
    Regex.rmatch true (Regex.re_pattern Theme.textChannelRegex) Some
      {| Regex.m_prev := None; Regex.m_rest := rgbText red green blue;
         Regex.m_caps := [] |} = Some res
    /\ Regex.m_caps res = [(3%nat, blue); (2%nat, green); (1%nat, red)].
Proof.
  intros Hr Hg Hb.
  destruct (digitString_parts _ Hg) as (cg & g' & Eg & Hcg & _).
  destruct (digitString_parts _ Hb) as (cb & b' & Eb & Hcb & _).
  subst green blue.
  eexists. split.
  - unfold rgbText. cbn [append]. unfold Theme.textChannelRegex.
    cbn [Regex.re_pattern].
    apply m_seq. lit. apply m_seq. lit. apply m_seq. lit.
    apply m_seq. skip_alt. apply m_seq. lit.
    apply m_seq. digits_group Hr.
    apply m_seq. lit. apply m_seq. one_space Hcg.
    apply m_seq.
    change (String cg (g' ++ ?x)) with (String cg g' ++ x).
    digits_group Hg.
    apply m_seq. lit. apply m_seq. one_space Hcb.
    change (String cb (b' ++ ?x)) with (String cb b' ++ x).
    digits_group Hb.
    reflexivity.
  - reflexivity.
Qed.


(** A match at the start of the text is the match [exec] returns. *)
Lemma exec_at_start (re : Regex.RegExp) (s : string) (res : Regex.mstate) :
  Regex.rmatch (Regex.re_icase re) (Regex.re_pattern re) Some
    {| Regex.m_prev := None; Regex.m_rest := s; Regex.m_caps := [] |}
  = Some res ->
  exists m, Regex.exec re s = Some m
            /\ Regex.m_groups m = Regex.m_caps res.
Proof.
  intro H. unfold Regex.exec.
  assert (E : Regex.match_here (Regex.re_icase re) (Regex.re_pattern re) None s 0
              = Some {| Regex.m_index := 0;
                        Regex.m_text :=
                          Regex.consumed
                            {| Regex.m_prev := None; Regex.m_rest := s;
                               Regex.m_caps := [] |} res;
                        Regex.m_groups := Regex.m_caps res;
                        Regex.m_after := res |}).
  { unfold Regex.match_here. cbv zeta. rewrite H. reflexivity. }
  eexists. split; [destruct s; cbn [Regex.search_from]; rewrite E; reflexivity|].
  reflexivity.
Qed.

Lemma parseRgba_rgb (red green blue : string) :
  digitString red = true -> digitString green = true ->
  digitString blue = true ->
  Theme.parseRgba (rgbText red green blue)
  = Some {| Theme.r := Some (inject_Z (decimalValue red));
            Theme.g := Some (inject_Z (decimalValue green));
            Theme.b := Some (inject_Z (decimalValue blue));
            Theme.a := Some 1 |}.
Proof.
  intros Hr Hg Hb.
  destruct (rgbaRegex_rgb _ _ _ Hr Hg Hb) as (res & Hm & Hc).
  destruct (exec_at_start Theme.rgbaRegex _ Hm) as (m & Hx & Hgm).
  unfold Theme.parseRgba. rewrite Hx. unfold Theme.groupNumber.
  rewrite Hgm, Hc. cbn [Regex.group Nat.eqb].
  rewrite !ofString_digits by assumption. reflexivity.
Qed.

Lemma parseRgba_rgba (red green blue alpha : string) :
  digitString red = true -> digitString green = true ->
  digitString blue = true -> alphaString alpha = true ->
  Theme.parseRgba (rgbaText red green blue alpha)
  = Some {| Theme.r := Some (inject_Z (decimalValue red));
            Theme.g := Some (inject_Z (decimalValue green));
            Theme.b := Some (inject_Z (decimalValue blue));
            Theme.a := Num.ofString alpha |}.
Proof.
  intros Hr Hg Hb Ha.
  destruct (rgbaRegex_rgba _ _ _ _ Hr Hg Hb Ha) as (res & Hm & Hc).
  destruct (exec_at_start Theme.rgbaRegex _ Hm) as (m & Hx & Hgm).
  unfold Theme.parseRgba. rewrite Hx. unfold Theme.groupNumber.
  rewrite Hgm, Hc. cbn [Regex.group Nat.eqb].
  rewrite !ofString_digits by assumption. reflexivity.
Qed.

Lemma textLuminance_rgb (red green blue : string) :
  digitString red = true -> digitString green = true ->
  digitString blue = true ->
  spec_textLuminance (rgbText red green blue) = luminanceOf red green blue.
Proof.
  intros Hr Hg Hb.
  destruct (textChannelRegex_rgb _ _ _ Hr Hg Hb) as (res & Hm & Hc).
  destruct (exec_at_start Theme.textChannelRegex _ Hm) as (m & Hx & Hgm).
  unfold spec_textLuminance, spec_textChannels. rewrite Hx.
  unfold Theme.groupNumber.
  rewrite Hgm, Hc. cbn [Regex.group Nat.eqb].
  rewrite !ofString_digits by assumption. reflexivity.
Qed.


End ReadColour.

Section DarkOnRgb.

Local Open Scope string_scope.

Lemma isDark_rgb (red green blue tred tgreen tblue : string) :
  digitString red = true -> digitString green = true ->
  digitString blue = true ->
  digitString tred = true -> digitString tgreen = true ->
  digitString tblue = true ->
  Theme.isDark
    (Some {| Theme.r := Some (inject_Z (decimalValue red));
             Theme.g := Some (inject_Z (decimalValue green));
             Theme.b := Some (inject_Z (decimalValue blue));
             Theme.a := Some 1 |})
    (rgbText tred tgreen tblue)
  = Double.lt (luminanceOf red green blue) (Double.ofQ (2 # 10))
    && Double.gt (luminanceOf tred tgreen tblue) (Double.ofQ (7 # 10)).
Proof.
  intros Hr Hg Hb Htr Htg Htb. unfold Theme.isDark.
  cbn [Theme.r Theme.g Theme.b Theme.a].
  rewrite textLuminance_spec, (textLuminance_rgb _ _ _ Htr Htg Htb),
    luminance_spec.
  change (Num.neq (Some 1) (Theme.n 0)) with true. cbv iota.
  fold (luminanceOf red green blue).
  destruct (Double.lt (luminanceOf red green blue) (Double.ofQ (2 # 10)));
    reflexivity.
Qed.

Lemma rgbText_paints (red green blue bgImage : string) :
  Theme.paints (rgbText red green blue) bgImage = true.
Proof.
  unfold Theme.paints, rgbText, Theme.transparent. cbn [append].
  cbn [Js.truthy Js.isEmpty negb String.eqb Ascii.eqb Bool.eqb andb orb].
  reflexivity.
Qed.

(** An element painted [rgb(r, g, b)] is where the walk stops, and its
    colour is the background. *)
Lemma background_rgb (start : Dom.Loc) (red green blue : string) :
  Dom.backgroundColor (Dom.style (Dom.el start)) = rgbText red green blue ->
  digitString red = true -> digitString green = true ->
  digitString blue = true ->
  Theme.background start
  = Some {| Theme.r := Some (inject_Z (decimalValue red));
            Theme.g := Some (inject_Z (decimalValue green));
            Theme.b := Some (inject_Z (decimalValue blue));
            Theme.a := Some 1 |}.
Proof.
  intros Hbg Hr Hg Hb. unfold Theme.background, Dom.selfAndAncestors.
  cbn [Theme.walk]. rewrite Hbg, rgbText_paints.
  unfold Theme.effectiveBackground.
  rewrite (parseRgba_rgb _ _ _ Hr Hg Hb). reflexivity.
Qed.

End DarkOnRgb.

(** X26.  [parseRgba] reads a colour written [rgb(r, g, b)], with
    runs of digits for the channels, as those three numbers and alpha
    1, and a colour written [rgba(r, g, b, a)] as those three numbers
    and the number [a] writes; no channel is [NaN]. *)
Theorem X26_parseRgba_reads (red green blue alpha : string) :
  digitString red = true -> digitString green = true ->
  digitString blue = true -> alphaString alpha = true ->
  Theme.parseRgba (rgbText red green blue)
  = Some {| Theme.r := Some (inject_Z (decimalValue red));
            Theme.g := Some (inject_Z (decimalValue green));
            Theme.b := Some (inject_Z (decimalValue blue));
            Theme.a := Some 1 |}
  /\ Theme.parseRgba (rgbaText red green blue alpha)
     = Some {| Theme.r := Some (inject_Z (decimalValue red));
               Theme.g := Some (inject_Z (decimalValue green));
               Theme.b := Some (inject_Z (decimalValue blue));
               Theme.a := Num.ofString alpha |}.
Proof.
  intros Hr Hg Hb Ha. split;
    [apply parseRgba_rgb|apply parseRgba_rgba]; assumption.
Qed.

Lemma X26_parseRgba_reads_witness :
  (digitString "10" = true /\ digitString "10" = true
   /\ digitString "20" = true /\ alphaString "0.5" = true)
  /\ Theme.parseRgba "rgb(10, 10, 20)"
     = Some {| Theme.r := Some (inject_Z 10); Theme.g := Some (inject_Z 10);
               Theme.b := Some (inject_Z 20); Theme.a := Some 1 |}
  /\ Theme.parseRgba "rgba(10, 10, 20, 0.5)"
     = Some {| Theme.r := Some (inject_Z 10); Theme.g := Some (inject_Z 10);
               Theme.b := Some (inject_Z 20);
               Theme.a := Num.ofString "0.5" |}.
Proof.
  split; [repeat split|].
  exact (X26_parseRgba_reads "10" "10" "20" "0.5"
           eq_refl eq_refl eq_refl eq_refl).
Defined.

(** X27.  On a page whose headline is coloured [rgb(tr, tg, tb)] and
    whose element under the sample point is painted [rgb(r, g, b)],
    [dark_theme_hero] is exactly the luminance test on those numbers,
    in the arithmetic of doubles: the luminance of the background
    below 0.2 and the luminance of the text above 0.7. *)
Theorem X27_dark_theme_on_rgb (d : Dom.Document) (w : Window)
    (cx : Canvas.Contexts) (hEl start : Dom.Loc)
    (red green blue tred tgreen tblue : string) :
  Extract.s_headlineEl (Extract.stages d w) = Some hEl ->
  Extract.sampledElement d (Some hEl) = Some start ->
  Dom.backgroundColor (Dom.style (Dom.el start)) = rgbText red green blue ->
  Dom.color (Dom.style (Dom.el hEl)) = rgbText tred tgreen tblue ->
  digitString red && digitString green && digitString blue
  && digitString tred && digitString tgreen && digitString tblue = true ->
  Fingerprint.dark_theme_hero (Extract.extractFingerprint d w cx)
  = Double.lt (luminanceOf red green blue) (Double.ofQ (2 # 10))
    && Double.gt (luminanceOf tred tgreen tblue) (Double.ofQ (7 # 10)).
Proof.
  intros Hh Hs Hbg Hfg Hd. rewrite !andb_true_iff in Hd.
  destruct Hd as [[[[[Hr Hg] Hb] Htr] Htg] Htb].
  rewrite (@dark_theme_hero_sampled d w cx hEl start Hh Hs).
  rewrite (@background_rgb start _ _ _ Hbg Hr Hg Hb), Hfg.
  apply isDark_rgb; assumption.
Qed.

(** A landing page painted [rgb(51, 51, 51)] with its headline in
    [rgb(255, 255, 255)]: the luminance of the background, 0.2 in
    exact arithmetic, is below 0.2 in doubles, and the hero is
    dark. *)
Lemma X27_dark_theme_on_rgb_witness :
  let d := landing "rgb(51, 51, 51)" "rgb(255, 255, 255)" in
  let section := landingSection "rgb(51, 51, 51)" "rgb(255, 255, 255)" in
  let html := Dom.documentElement d in
  let body :=
    match Dom.body d with Some b => Dom.el b | None => html end in
  let hEl :=
    {| Dom.el := landingHeading "rgb(255, 255, 255)";
       Dom.up := [section; body; html]; Dom.path := [0; 0; 1]%nat |} in
  let start :=
    {| Dom.el := section; Dom.up := [body; html];
       Dom.path := [0; 1]%nat |} in
  Extract.s_headlineEl (Extract.stages d desktop) = Some hEl
  /\ Extract.sampledElement d (Some hEl) = Some start
  /\ Fingerprint.dark_theme_hero (Extract.extractFingerprint d desktop fresh)
     = Double.lt (luminanceOf "51" "51" "51") (Double.ofQ (2 # 10))
       && Double.gt (luminanceOf "255" "255" "255") (Double.ofQ (7 # 10))
  /\ Double.lt (luminanceOf "51" "51" "51") (Double.ofQ (2 # 10))
     && Double.gt (luminanceOf "255" "255" "255") (Double.ofQ (7 # 10))
     = true.
Proof.
  intros d section html body hEl start.
  assert (Hh : Extract.s_headlineEl (Extract.stages d desktop) = Some hEl)
    by (vm_compute; reflexivity).
  assert (Hs : Extract.sampledElement d (Some hEl) = Some start)
    by (vm_compute; reflexivity).
  split; [exact Hh|]. split; [exact Hs|].
  split; [|vm_compute; reflexivity].
  exact (@X27_dark_theme_on_rgb d desktop fresh hEl start
           "51" "51" "51" "255" "255" "255" Hh Hs eq_refl eq_refl eq_refl).
Defined.

(** ** The first sentence *)

Section Sentence.

Local Open Scope string_scope.

#[local] Abbreviation terminators :=
  [Regex.CChar "."; Regex.CChar "!"; Regex.CChar "?"].

Lemma terminator_set (c : ascii) :
  Regex.set_mem false false terminators c = Text.isTerminator c.
Proof.
  destruct c as [[] [] [] [] [] [] [] []]; reflexivity.
Qed.

Lemma not_terminator_set (c : ascii) :
  Regex.set_mem false true terminators c = negb (Text.isTerminator c).
Proof.
  destruct c as [[] [] [] [] [] [] [] []]; reflexivity.
Qed.

#[local] Abbreviation endState x rest caps :=
  {| Regex.m_prev := Some x; Regex.m_rest := rest; Regex.m_caps := caps |}.

(** [[^.!?]*[.!?]] from a place in the text: the star backs off to
    nothing shorter than the run up to the first terminator, so the
    match ends right after the first terminator, and fails when there
    is none. *)
Lemma star_sentence (t : string) (fuel : nat) (prev : option ascii)
    (caps : list (nat * string)) :
  (String.length t <= fuel)%nat ->
  Regex.star_loop (Regex.rmatch false (Regex.RSet true terminators))
    (Regex.rmatch false (Regex.RSet false terminators) Some) fuel
    {| Regex.m_prev := prev; Regex.m_rest := t; Regex.m_caps := caps |}
  = match afterTerminator t with
    | Some (x, rest) => Some (endState x rest caps)
    | None => None
    end.
Proof.
  revert fuel prev. induction t as [|c t IH]; intros fuel prev Hf.
  - destruct fuel; reflexivity.
  - destruct fuel as [|fuel]; [cbn in Hf; lia|].
    cbn [Regex.star_loop Regex.rmatch Regex.m_rest afterTerminator].
    rewrite not_terminator_set, terminator_set.
    destruct (Text.isTerminator c) eqn:Ec; cbn [negb]; [reflexivity|].
    unfold Regex.advance. cbn [Regex.m_rest Regex.m_caps String.length].
    rewrite (proj2 (Nat.ltb_lt _ _) (Nat.lt_succ_diag_r _)). cbv iota.
    assert (E := IH fuel (Some c) ltac:(cbn in Hf; lia)).
    cbn [Regex.star_loop Regex.rmatch Regex.m_rest] in E.
    unfold Regex.advance in E. rewrite E.
    destruct (afterTerminator t) as [[x rest]|]; reflexivity.
Qed.

(** What [sentenceRun] returns is the text up to and including the
    first terminator. *)
Lemma sentenceRun_afterTerminator (t : string) :
  match afterTerminator t with
  | Some (x, rest) =>
      exists r, Text.sentenceRun t = Some r /\ t = r ++ rest
  | None => Text.sentenceRun t = None
  end.
Proof.
  induction t as [|c t IH]; [reflexivity|].
  cbn [afterTerminator Text.sentenceRun].
  destruct (Text.isTerminator c).
  - exists (String c ""). split; reflexivity.
  - destruct (afterTerminator t) as [[x rest]|].
    + destruct IH as (r & -> & ->). exists (String c r). split; reflexivity.
    + rewrite IH. reflexivity.
Qed.

Lemma search_bol_none (r : Regex.regex) (s : string) (c : ascii) (idx : nat) :
  Regex.search_from false (Regex.RSeq Regex.RBol r) (Some c) s idx = None.
Proof.
  revert c idx. induction s as [|a s IH]; intros c idx; [reflexivity|].
  cbn [Regex.search_from]. unfold Regex.match_here at 1. cbn. apply IH.
Qed.

Lemma sentenceRegex_match (text : string) :
  option_map Regex.m_text (Regex.exec Text.sentenceRegex text)
  = Text.sentenceMatch text.
Proof.
  unfold Regex.exec, Text.sentenceRegex. cbn [Regex.re_icase Regex.re_pattern].
  destruct text as [|c t]; [reflexivity|].
  cbn [Regex.search_from]. rewrite search_bol_none.
  unfold Regex.match_here. cbv zeta.
  assert (Hm : Regex.rmatch false
                 (Regex.RSeq Regex.RBol
                    (Regex.RSeq
                       (Regex.RSeq (Regex.RSet true terminators)
                          (Regex.RStar (Regex.RSet true terminators)))
                       (Regex.RSet false terminators)))
                 Some
                 {| Regex.m_prev := None; Regex.m_rest := String c t;
                    Regex.m_caps := [] |}
               = if negb (Text.isTerminator c)
                 then Regex.star_loop
                        (Regex.rmatch false (Regex.RSet true terminators))
                        (Regex.rmatch false (Regex.RSet false terminators) Some)
                        (S (String.length t))
                        {| Regex.m_prev := Some c; Regex.m_rest := t;
                           Regex.m_caps := [] |}
                 else None).
  { cbn [Regex.rmatch Regex.m_prev Regex.m_rest].
    rewrite not_terminator_set. reflexivity. }
  rewrite Hm. clear Hm. unfold Text.sentenceMatch.
  destruct (Text.isTerminator c) eqn:Ec; cbn [negb]; [reflexivity|].
  rewrite star_sentence by lia.
  pose proof (sentenceRun_afterTerminator t) as H.
  cbn [Text.sentenceRun]. rewrite Ec.
  destruct (afterTerminator t) as [[x rest]|].
  - destruct H as (r & -> & ->). cbn [option_map Regex.m_text]. f_equal.
    change (String c (r ++ rest)) with (String c r ++ rest).
    apply consumed_run.
  - rewrite H. reflexivity.
Qed.

End Sentence.

(** X28.  [text.match(/^[^.!?]+[.!?]/)], the first sentence that
    [truncateHeadline] looks for, is the text up to and including its
    first [.], [!] or [?]; there is no match when the text has none
    of them or begins with one. *)
Theorem X28_first_sentence (text : string) :
  option_map Regex.m_text (Regex.exec Text.sentenceRegex text)
  = Text.sentenceMatch text
  /\ match Text.sentenceMatch text with
     | Some sentence =>
         exists x rest,
           afterTerminator text = Some (x, rest)
           /\ text = (sentence ++ rest)%string
           /\ Js.endsWith (String x "") sentence = true
     | None =>
         afterTerminator text = None
         \/ Text.isTerminator
              (match text with String c _ => c | EmptyString => " "%char end)
            = true
     end.
Proof.
  split; [apply sentenceRegex_match|].
  unfold Text.sentenceMatch. destruct text as [|c t]; [left; reflexivity|].
  destruct (Text.isTerminator c) eqn:Ec; [right; reflexivity|].
  pose proof (sentenceRun_afterTerminator (String c t)) as H.
  destruct (afterTerminator (String c t)) as [[x rest]|] eqn:Ea.
  - destruct H as (r & Hr & Ht). rewrite Hr. exists x, rest.
    split; [reflexivity|]. split; [exact Ht|].
    clear Ec. revert r x rest Ea Hr Ht.
    generalize (String c t) as s. clear.
    induction s as [|a s IH]; intros r x rest Ea Hr Ht; [discriminate|].
    cbn [afterTerminator Text.sentenceRun] in Ea, Hr.
    destruct (Text.isTerminator a).
    + injection Ea as <- <-. injection Hr as <-.
      cbn [Js.endsWith]. rewrite String.eqb_refl. reflexivity.
    + destruct (Text.sentenceRun s) as [r'|] eqn:Er; [|discriminate].
      injection Hr as <-. cbn [append] in Ht. injection Ht as Ht.
      specialize (IH r' x rest Ea eq_refl Ht).
      cbn [Js.endsWith]. rewrite IH. apply orb_true_r.
  - rewrite H. left. reflexivity.
Qed.

(** ** Navigation and footers *)

Section NavProps.

#[local] Open Scope string_scope.

Lemma closest_found (s : Dom.Selector) (x a : Dom.Loc) :
  In a (Dom.selfAndAncestors x) -> Dom.matches s a = true ->
  Dom.closest s x <> None.
Proof.
  intros Hin Hm Hnone. unfold Dom.closest in Hnone.
  pose proof (find_none _ _ Hnone a Hin) as Hf. congruence.
Qed.

Lemma matchComplex_type (t : string) (a : Dom.Loc) :
  Dom.matchComplex
    [{| Dom.c_type := Some t; Dom.c_id := None; Dom.c_classes := [];
        Dom.c_attrs := []; Dom.c_not := [] |}] a
  = Dom.typeIs t (Dom.el a).
Proof.
  unfold Dom.matchComplex, Dom.matchCompound. cbn.
  rewrite !andb_true_r. reflexivity.
Qed.

(** A type selector written in lower case matches the elements with
    that local name, in every namespace. *)
Lemma typeIs_localName (t : string) (e : Dom.Element) :
  Js.toLowerCase t = t -> Dom.localName e = t -> Dom.typeIs t e = true.
Proof.
  intros Ht Hn. unfold Dom.typeIs. rewrite Ht, Hn.
  destruct (Dom.isHtml e); apply String.eqb_refl.
Qed.

Lemma navSelector_nav (a : Dom.Loc) :
  Dom.localName (Dom.el a) = "nav" \/ Dom.localName (Dom.el a) = "footer" ->
  Dom.matches Extract.navSelector a = true.
Proof.
  intro H. unfold Extract.navSelector, Dom.matches.
  cbn [existsb]. rewrite !matchComplex_type.
  destruct H as [H|H].
  - rewrite (@typeIs_localName "nav" _ eq_refl H). reflexivity.
  - rewrite (@typeIs_localName "footer" _ eq_refl H).
    rewrite orb_true_r. reflexivity.
Qed.

Lemma inNavOrHeader_nav (d : Dom.Document) (w : Window) (x a : Dom.Loc) :
  In a (Dom.selfAndAncestors x) ->
  Dom.localName (Dom.el a) = "nav" \/ Dom.localName (Dom.el a) = "footer" ->
  Extract.inNavOrHeader d w x = true.
Proof.
  intros Hin Ht. unfold Extract.inNavOrHeader.
  pose proof (@closest_found Extract.navSelector x a Hin
                (@navSelector_nav a Ht)).
  destruct (Dom.closest Extract.navSelector x); [reflexivity|congruence].
Qed.

(** An element of another namespace named [Nav] is not a [nav]: type
    selectors tell the case of its name. *)
Lemma foreign_Nav_not_nav (e : Dom.Element) :
  Dom.isHtml e = false -> Dom.localName e = "Nav" ->
  Dom.typeIs "nav" e = false.
Proof. intros Hns Hn. unfold Dom.typeIs. rewrite Hns, Hn. reflexivity. Qed.

End NavProps.

#[local] Open Scope string_scope.

(** X29.  An element that is, or lies inside, an element whose local
    name is [nav] or [footer] (the name the HTML parser gives to a
    [nav] or [footer] tag, however the markup writes it) counts as
    navigation: it is not one of the hero text nodes and the headline
    is never read from it. *)
Theorem X29_nav_footer_excluded (d : Dom.Document) (w : Window)
    (x a : Dom.Loc) :
  In a (Dom.selfAndAncestors x) ->
  Dom.localName (Dom.el a) = "nav" \/ Dom.localName (Dom.el a) = "footer" ->
  Extract.inNavOrHeader d w x = true
  /\ ~ In x (Extract.heroTextNodes d w)
  /\ Extract.s_headlineEl (Extract.stages d w) <> Some x.
Proof.
  intros Hin Ht.
  pose proof (@inNavOrHeader_nav d w x a Hin Ht) as Hnav.
  assert (Hout : ~ In x (Extract.heroTextNodes d w)).
  { intro Hx. unfold Extract.heroTextNodes in Hx. apply filter_In in Hx.
    destruct Hx as [_ Hc]. rewrite !andb_true_iff, !negb_true_iff in Hc.
    destruct Hc as [[[[[_ Hc] _] _] _] _]. congruence. }
  repeat split; [exact Hnav | exact Hout |].
  destruct (stages_fields d w) as (_ & _ & _ & -> & _).
  pose proof (headlineState_inv d w) as [_ Hs].
  intro E. rewrite E in Hs. exact (Hout Hs).
Qed.

(** A page with a heading and, above it, a [nav] that holds a
    paragraph in larger type: the paragraph is an element of the page
    inside the [nav], it is in the hero and visible, and the headline
    is read from the heading. *)
Lemma X29_nav_footer_excluded_witness :
  let tagline :=
    elem "P" [] (box 10 20 600 40) (painted "rgba(0, 0, 0, 0)" "rgb(0, 0, 0)")
         "Everything your team needs"
         [Dom.TextNode "Everything your team needs"] in
  let nav := elem "NAV" [] (box 0 0 1280 60) plainStyle
                  "Everything your team needs" [Dom.ElementNode tagline] in
  let heading :=
    elem "H1" [] (box 200 120 720 60) plainStyle
         "Ship your next release" [Dom.TextNode "Ship your next release"] in
  let d := page "Acme" [] "Everything your team needs Ship your next release"
                [Dom.ElementNode nav; Dom.ElementNode heading] in
  let html := Dom.documentElement d in
  let body :=
    match Dom.body d with Some b => Dom.el b | None => html end in
  let x := {| Dom.el := tagline; Dom.up := [nav; body; html];
              Dom.path := [0; 0; 1]%nat |} in
  let a := {| Dom.el := nav; Dom.up := [body; html];
              Dom.path := [0; 1]%nat |} in
  (Dom.locate d [0; 0; 1]%nat = Some x
   /\ Dom.parentElement x = Some a
   /\ Extract.inHero d desktop x = true
   /\ Extract.isVisible x = true
   /\ Fingerprint.headline (Extract.extractFingerprint d desktop fresh)
      = Some "Ship your next release")
  /\ Extract.inNavOrHeader d desktop x = true
  /\ ~ In x (Extract.heroTextNodes d desktop)
  /\ Extract.s_headlineEl (Extract.stages d desktop) <> Some x.
Proof.
  intros tagline nav heading d html body x a.
  split; [repeat split; vm_compute; reflexivity|].
  apply (@X29_nav_footer_excluded d desktop x a).
  - right. left. reflexivity.
  - left. reflexivity.
Defined.

#[local] Close Scope string_scope.

(** ** The dark theme flag *)

#[local] Open Scope string_scope.



(** The luminance of a grey of 51 is 0.2 in exact arithmetic and the
    double just below the double 0.2 as the extractor computes it, so
    a page painted [rgb(51, 51, 51)] with a white headline is dark. *)
Lemma dark_theme_grey_51 :
  spec_luminance (Some 51) (Some 51) (Some 51)
  = S754_finite false 7205759403792793 (-55)
  /\ Double.ofQ (2 # 10) = S754_finite false 7205759403792794 (-55)
  /\ Fingerprint.dark_theme_hero
       (Extract.extractFingerprint
          (landing "rgb(51, 51, 51)" "rgb(255, 255, 255)") desktop fresh)
     = true.
Proof. repeat split; vm_compute; reflexivity. Qed.

#[local] Close Scope string_scope.

(** ** The word budget of the headline *)

#[local] Open Scope string_scope.

(** C6, as worded, fails: the heading of this page reads 43 words to
    [getDirectHeadlineText], so lines 234-238 discard it; but the
    heading is also the largest text candidate, its rendered text has
    three words, and lines 309-312 make the headline the same 43 words
    shortened to their first sentence.  The headline is not null. *)
Lemma C6_headline_word_budget_counterexample :
  let hts := Extract.heroTextNodes overlong desktop in
  let fp := Extract.extractFingerprint overlong desktop fresh in
  let long := "Build and ship. " ++ smallPrint in
  Extract.headlineOfH1 overlong hts = Some long
  /\ Text.wordCount long = 43%nat
  /\ Extract.headlineAfterDiscards overlong hts = (None, None)
  /\ Text.truncateHeadline long = "Build and ship."
  /\ Fingerprint.headline fp = Some "Build and ship.".
Proof. repeat split; vm_compute; reflexivity. Qed.

(** C6, amended.  A heading text of more than 30 words is discarded
    at lines 234-238, with its element; the headline of the result is
    then [largestText], the text of the largest candidate after
    [truncateHeadline], which is null only when there is no candidate.
    Whatever the page, the headline of the result has at most 30
    words.  The truncation, which always receives text normalised by
    [cleanText], returns a text of at most 30 words unchanged, and
    maps a longer one to its first sentence when that sentence has at
    most 30 words and to its first 15 words otherwise. *)
Theorem C6_headline_word_budget (d : Dom.Document) (w : Window)
    (cx : Canvas.Contexts) :
  let hts := Extract.heroTextNodes d w in
  let cs := Extract.candidates hts in
  let fp := Extract.extractFingerprint d w cx in
  (forall h : string,
      Extract.headlineOfH1 d hts = Some h ->
      (30 < Text.wordCount h)%nat ->
      Extract.headlineAfterDiscards d hts = (None, None)
      /\ Fingerprint.headline fp = Extract.largestText cs
      /\ (Fingerprint.headline fp = None <-> cs = []))
  /\ match Fingerprint.headline fp with
     | Some t => (Text.wordCount t <= 30)%nat
     | None => True
     end
  /\ (forall raw : string,
        let text := Text.cleanText raw in
        Text.truncateHeadline text =
        if (Text.wordCount text <=? 30)%nat then text
        else
          match Text.sentenceMatch text with
          | Some s =>
              if (Text.wordCount s <=? 30)%nat then Js.trim s
              else Js.join " " (firstn 15 (Js.words text))
          | None => Js.join " " (firstn 15 (Js.words text))
          end).
Proof.
  cbv zeta. split; [|split].
  - intros h Hh Hw.
    assert (Hd : Extract.headlineAfterDiscards d (Extract.heroTextNodes d w)
                 = (None, None)).
    { unfold Extract.headlineAfterDiscards, Text.discardWholePage,
        Text.MAX_HEADLINE_WORDS.
      rewrite Hh. cbn [fst].
      rewrite wordCount_empty by lia.
      apply Nat.ltb_lt in Hw. rewrite Hw. reflexivity. }
    split; [exact Hd|].
    assert (Hl : Fingerprint.headline (Extract.extractFingerprint d w cx)
                 = Extract.largestText
                     (Extract.candidates (Extract.heroTextNodes d w)));
      [|split; [exact Hl|]; rewrite Hl; unfold Extract.largestText, Extract.best;
        destruct (Extract.candidates (Extract.heroTextNodes d w));
        cbn [List.hd_error]; split; intro H; first [reflexivity|discriminate H]].
    destruct (headline_field d w cx) as [-> _].
    destruct (stages_fields d w) as (_ & _ & -> & _).
    unfold Extract.resolvedHeadline, Extract.headlineState,
      Extract.headlineAfterOverride.
    rewrite Hd.
    set (lt := Extract.largestText _).
    set (b := option_map Extract.tc_el _).
    destruct (Extract.isTruthy lt) eqn:El;
      match goal with
      | |- context [if ?c || ?c' || ?c'' then _ else _] =>
          destruct (c || c' || c'')
      end;
      cbn [fst snd Extract.isTruthy negb andb]; rewrite ?El;
      cbn [fst snd Extract.isTruthy negb andb]; rewrite ?El;
      reflexivity.
  - destruct (Fingerprint.headline (Extract.extractFingerprint d w cx))
      as [t|] eqn:E; [|exact I].
    destruct (headline_field d w cx) as [Hf _]. rewrite Hf in E.
    destruct (stages_fields d w) as (_ & _ & Hs & _). rewrite Hs in E.
    destruct (resolvedHeadline_like d w E) as [_ Hw]. exact Hw.
  - intros raw. apply truncateHeadline_clean.
    apply cleanText_no_leading_ws.
Qed.

(** On the page above the heading text is discarded and the headline
    is the largest text, shortened. *)
Lemma C6_headline_word_budget_witness :
  let hts := Extract.heroTextNodes overlong desktop in
  let cs := Extract.candidates hts in
  let fp := Extract.extractFingerprint overlong desktop fresh in
  Extract.headlineOfH1 overlong hts = Some ("Build and ship. " ++ smallPrint)
  /\ (30 < Text.wordCount ("Build and ship. " ++ smallPrint))%nat
  /\ Extract.headlineAfterDiscards overlong hts = (None, None)
  /\ Fingerprint.headline fp = Extract.largestText cs
  /\ (Fingerprint.headline fp = None <-> cs = []).
Proof.
  cbv zeta.
  assert (Hh : Extract.headlineOfH1 overlong
                 (Extract.heroTextNodes overlong desktop)
               = Some ("Build and ship. " ++ smallPrint))
    by (vm_compute; reflexivity).
  assert (Hw : (30 < Text.wordCount ("Build and ship. " ++ smallPrint))%nat)
    by (apply Nat.ltb_lt; vm_compute; reflexivity).
  split; [exact Hh|]. split; [exact Hw|].
  exact (proj1 (C6_headline_word_budget overlong desktop fresh) _ Hh Hw).
Defined.

#[local] Close Scope string_scope.
